(** * The OID registry and codec of crypto/objects/obj_dat.c

    A shallow embedding of the object-identifier registry: the built-in
    tables, the run-time "added" index kept in one LHASH under four tagged
    keys, the dotted-decimal printer [OBJ_obj2txt], registration
    ([OBJ_create], [ossl_obj_add_object]), the bulk loader
    ([OBJ_create_objects]) and the three-pass teardown
    ([ossl_obj_cleanup_int]).

    Conventions.
    - C [int] and [unsigned long] values are [Z]; where the source can wrap,
      the wrap-around is written out.
    - DER content octets are [list byte]; C strings are [string] (names) or
      [list ascii] (text buffers), without their terminating NUL.
    - Heap cells (ASN1_OBJECT and ADDED_OBJ) live in finite maps keyed by
      their address.  A computation that dereferences a null or dangling
      pointer, frees a cell twice or writes outside a buffer yields [None]
      (a memory fault) instead of a result. *)

From Stdlib Require Import ZArith List String Ascii Lia.
From Stdlib.Strings Require Import Byte.
From Stdlib Require Import DecimalString DecimalN.
From stdpp Require Import gmap list.

Local Open Scope Z_scope.

(** ** C library helpers *)

Definition code (c : ascii) : Z := Z.of_N (N_of_ascii c).
Definition NUL : ascii := Ascii.zero.

(** crypto/ctype.h, ASCII classification. *)
Definition ossl_isdigit (c : ascii) : bool := (48 <=? code c) && (code c <=? 57).
Definition ossl_isupper (c : ascii) : bool := (65 <=? code c) && (code c <=? 90).
Definition ossl_islower (c : ascii) : bool := (97 <=? code c) && (code c <=? 122).
Definition ossl_isalnum (c : ascii) : bool :=
  ossl_isdigit c || ossl_isupper c || ossl_islower c.
Definition ossl_isspace (c : ascii) : bool :=
  (code c =? 32) || ((9 <=? code c) && (code c <=? 13)).

Definition sign_of (c : comparison) : Z :=
  match c with Eq => 0 | Lt => -1 | Gt => 1 end.

(** [strcmp]: only the sign of the result is specified by C. *)
Definition strcmp (a b : string) : Z := sign_of (String.compare a b).

Definition byte_val (b : byte) : Z := Z.of_N (Byte.to_N b).

(** [memcmp(a, b, n)] on the first [n] octets. *)
Fixpoint memcmp (a b : list byte) (n : nat) : Z :=
  match n, a, b with
  | S n', x :: a', y :: b' =>
      if byte_val x <? byte_val y then -1
      else if byte_val y <? byte_val x then 1
      else memcmp a' b' n'
  | _, _, _ => 0
  end.

(** ** Data model *)

Definition NID_undef : Z := 0.

Definition ADDED_DATA : Z := 0.
Definition ADDED_SNAME : Z := 1.
Definition ADDED_LNAME : Z := 2.
Definition ADDED_NID : Z := 3.

(** Flag bits of openssl/asn1.h. *)
Definition ASN1_OBJECT_FLAG_DYNAMIC : Z := 1.
Definition ASN1_OBJECT_FLAG_DYNAMIC_STRINGS : Z := 4.
Definition ASN1_OBJECT_FLAG_DYNAMIC_DATA : Z := 8.

(** struct asn1_object_st.  The C [length] field is not stored: it is the
    number of octets behind [data] (0 when [data] is NULL). *)
Record ASN1_OBJECT := mk_obj {
  sn : option string;
  ln : option string;
  nid : Z;
  data : option (list byte);
  flags : Z
}.

Definition obj_length (a : ASN1_OBJECT) : Z :=
  match data a with Some d => Z.of_nat (length d) | None => 0 end.

Definition set_nid (n : Z) (a : ASN1_OBJECT) : ASN1_OBJECT :=
  mk_obj (sn a) (ln a) n (data a) (flags a).
Definition set_flags (f : Z) (a : ASN1_OBJECT) : ASN1_OBJECT :=
  mk_obj (sn a) (ln a) (nid a) (data a) f.
Definition set_names (s l : option string) (a : ASN1_OBJECT) : ASN1_OBJECT :=
  mk_obj s l (nid a) (data a) (flags a).

(** struct added_obj_st: a tag and a pointer to a heap ASN1_OBJECT. *)
Record ADDED_OBJ := mk_added {
  type : Z;
  obj : positive
}.

(** An [ASN1_OBJECT *]: into the static table [nid_objs] or into the heap. *)
Inductive objptr :=
| Static (n : nat)
| Dyn (p : positive).

(** The generated tables of obj_dat.h: [nid_objs] indexed by NID, and the
    three sorted index arrays into it. *)
Record builtin := mk_builtin {
  nid_objs : list ASN1_OBJECT;
  sn_objs : list nat;
  ln_objs : list nat;
  obj_objs : list nat
}.

(** Reason codes pushed on the error queue by [ERR_raise]. *)
Inductive reason :=
| ERR_R_UNABLE_TO_GET_WRITE_LOCK
| ERR_R_UNABLE_TO_GET_READ_LOCK
| ERR_R_CRYPTO_LIB
| ERR_R_ASN1_LIB
| ERR_R_PASSED_INVALID_ARGUMENT
| OBJ_R_UNKNOWN_NID
| OBJ_R_UNKNOWN_OBJECT_NAME
| OBJ_R_OID_EXISTS
| ASN1_R_INVALID_OID.

(** The mutable state of the translation unit together with the heap and the
    environment it runs in.
    - [added] is the LHASH ([None] is the NULL pointer); the list holds the
      addresses of the records in traversal order, [lh_error] is the flag
      read by [lh_ADDED_OBJ_error].
    - [lock_ok] tells whether initialising and taking [ossl_obj_lock]
      succeeds.
    - [alloc_plan] gives the outcomes of the coming fallible allocations,
      one per request ([true]: the allocation succeeds); an exhausted plan
      means every further allocation succeeds. *)
Record registry := mk_registry {
  objs : gmap positive ASN1_OBJECT;
  recs : gmap positive ADDED_OBJ;
  added : option (list positive);
  lh_error : bool;
  new_nid : Z;
  lock_ok : bool;
  err_queue : list reason;
  alloc_plan : list bool
}.

Definition with_objs (f : gmap positive ASN1_OBJECT → gmap positive ASN1_OBJECT)
    (st : registry) : registry :=
  mk_registry (f (objs st)) (recs st) (added st) (lh_error st) (new_nid st)
    (lock_ok st) (err_queue st) (alloc_plan st).
Definition with_recs (f : gmap positive ADDED_OBJ → gmap positive ADDED_OBJ)
    (st : registry) : registry :=
  mk_registry (objs st) (f (recs st)) (added st) (lh_error st) (new_nid st)
    (lock_ok st) (err_queue st) (alloc_plan st).
Definition with_added (a : option (list positive)) (e : bool)
    (st : registry) : registry :=
  mk_registry (objs st) (recs st) a e (new_nid st)
    (lock_ok st) (err_queue st) (alloc_plan st).
Definition with_new_nid (n : Z) (st : registry) : registry :=
  mk_registry (objs st) (recs st) (added st) (lh_error st) n
    (lock_ok st) (err_queue st) (alloc_plan st).
Definition with_err (r : reason) (st : registry) : registry :=
  mk_registry (objs st) (recs st) (added st) (lh_error st) (new_nid st)
    (lock_ok st) (r :: err_queue st) (alloc_plan st).
Definition with_plan (p : list bool) (st : registry) : registry :=
  mk_registry (objs st) (recs st) (added st) (lh_error st) (new_nid st)
    (lock_ok st) (err_queue st) p.

(** ** The state-and-fault monad *)

Definition M (A : Type) : Type := registry → option (A * registry).

Definition ret {A} (a : A) : M A := λ st, Some (a, st).
Definition bind {A B} (m : M A) (k : A → M B) : M B :=
  λ st, match m st with Some (a, st') => k a st' | None => None end.
Definition fault {A} : M A := λ _, None.
Definition lift {A} (o : option A) : M A :=
  λ st, match o with Some a => Some (a, st) | None => None end.
Definition get : M registry := λ st, Some (st, st).
Definition modify (f : registry → registry) : M unit := λ st, Some (tt, f st).

Notation "x <- m ;; k" := (bind m (λ x, k))
  (at level 100, m at next level, right associativity).
Notation "m ;; k" := (bind m (λ _, k))
  (at level 100, right associativity).

Definition ERR_raise (r : reason) : M unit := modify (with_err r).

(** One fallible allocation request: consumes one outcome of the plan. *)
Definition alloc_ok : M bool :=
  λ st, match alloc_plan st with
        | [] => Some (true, st)
        | b :: p => Some (b, with_plan p st)
        end.

(** ** Locks (lines 83-105)

    [ossl_init_added_lock] and [CRYPTO_THREAD_*_lock] succeed or fail as the
    environment says; the model is sequential, so holding the lock has no
    further effect. *)
Definition ossl_obj_write_lock (lock : bool) : M bool :=
  if negb lock then ret true else st <- get;; ret (lock_ok st).
Definition ossl_obj_read_lock (lock : bool) : M bool :=
  if negb lock then ret true else st <- get;; ret (lock_ok st).
Definition ossl_obj_unlock (lock : bool) : M unit := ret tt.

(** ** The tagged-key comparison (lines 154-190)

    A key or a stored record is read as its tag and the object it points
    to. *)
Definition added_obj_cmp (ca cb : Z * ASN1_OBJECT) : Z :=
  let i := ca.1 - cb.1 in
  if negb (i =? 0) then i
  else
    let a := ca.2 in
    let b := cb.2 in
    if ca.1 =? ADDED_DATA then
      let i := obj_length a - obj_length b in
      if negb (i =? 0) then i
      else memcmp (default [] (data a)) (default [] (data b))
             (Z.to_nat (obj_length a))
    else if ca.1 =? ADDED_SNAME then
      match sn a, sn b with
      | None, _ => -1
      | Some _, None => 1
      | Some x, Some y => strcmp x y
      end
    else if ca.1 =? ADDED_LNAME then
      match ln a, ln b with
      | None, _ => -1
      | Some _, None => 1
      | Some x, Some y => strcmp x y
      end
    else if ca.1 =? ADDED_NID then nid a - nid b
    else 0.

(** ** The LHASH container

    Modelled from the spec: lhash.c is not part of the sources at hand.  The
    container offers retrieve, insert (which may fail on allocation), delete
    and for-each; stored records are compared with the key by
    [added_obj_cmp] (stored record first), and every operation hands the key
    to the hash and compare callbacks, which read [ca->obj]: a NULL key is a
    memory fault. *)

Definition view (st : registry) (p : positive) : option (Z * ASN1_OBJECT) :=
  r ← recs st !! p; o ← objs st !! obj r; Some (type r, o).

Fixpoint lh_find (st : registry) (key : Z * ASN1_OBJECT) (l : list positive)
    : option (option positive) :=
  match l with
  | [] => Some None
  | p :: l' =>
      v ← view st p;
      if added_obj_cmp v key =? 0 then Some (Some p) else lh_find st key l'
  end.

Definition lh_ADDED_OBJ_retrieve (key : Z * ASN1_OBJECT) : M (option positive) :=
  λ st, match added st with
        | None => None
        | Some l => r ← lh_find st key l; Some (r, st)
        end.

(** Key of a record cell; reading through a NULL pointer faults. *)
Definition key_of (ao : option positive) : M (Z * ASN1_OBJECT) :=
  λ st, match ao with
        | None => None
        | Some p => v ← view st p; Some (v, st)
        end.

Fixpoint lh_replace (st : registry) (key : Z * ASN1_OBJECT) (new : positive)
    (l : list positive) : option (list positive) :=
  match l with
  | [] => Some [new]
  | p :: l' =>
      v ← view st p;
      if added_obj_cmp v key =? 0 then Some (new :: l')
      else l'' ← lh_replace st key new l'; Some (p :: l'')
  end.

Fixpoint lh_remove (st : registry) (key : Z * ASN1_OBJECT)
    (l : list positive) : option (list positive) :=
  match l with
  | [] => Some []
  | p :: l' =>
      v ← view st p;
      if added_obj_cmp v key =? 0 then Some l'
      else l'' ← lh_remove st key l'; Some (p :: l'')
  end.

Definition lh_ADDED_OBJ_insert (ao : option positive) : M unit :=
  key <- key_of ao;;
  ok <- alloc_ok;;
  λ st, match added st, ao with
        | Some l, Some p =>
            if ok then
              l' ← lh_replace st key p l; Some (tt, with_added (Some l') false st)
            else Some (tt, with_added (Some l) true st)
        | _, _ => None
        end.

Definition lh_ADDED_OBJ_delete (ao : option positive) : M unit :=
  key <- key_of ao;;
  λ st, match added st with
        | Some l => l' ← lh_remove st key l; Some (tt, with_added (Some l') false st)
        | None => None
        end.

Definition lh_ADDED_OBJ_error : M bool := st <- get;; ret (lh_error st).

Definition lh_ADDED_OBJ_new : M bool :=
  ok <- alloc_ok;;
  if ok then modify (with_added (Some []) false);; ret true else ret false.

(** ** Binary search over the built-in tables

    Modelled from the spec: [ossl_bsearch] (crypto/bsearch.c) is the plain
    binary search behind [OBJ_bsearch_]; [cmp e] compares the key with table
    element [e] and faults when the element cannot be read. *)
Fixpoint ossl_bsearch_go (fuel : nat) (cmp : nat → option Z) (base : list nat)
    (l h : nat) : option (option nat) :=
  match fuel with
  | O => Some None
  | S fuel' =>
      if (l <? h)%nat then
        let i := ((l + h) / 2)%nat in
        e ← base !! i;
        c ← cmp e;
        if c <? 0 then ossl_bsearch_go fuel' cmp base l i
        else if 0 <? c then ossl_bsearch_go fuel' cmp base (i + 1)%nat h
        else Some (Some e)
      else Some None
  end.

Definition ossl_bsearch (cmp : nat → option Z) (base : list nat)
    : option (option nat) :=
  ossl_bsearch_go (length base) cmp base 0%nat (length base).

(** [OBJ_bsearch_ex_] with [flags = 0] (lines 690-724; the EBCDIC fallback is
    not compiled in). *)
Definition OBJ_bsearch_ (cmp : nat → option Z) (base : list nat)
    : option (option nat) :=
  ossl_bsearch cmp base.

Section Registry.

(** The built-in tables are fixed for the whole program. *)
Variable T : builtin.

Definition NUM_NID : Z := Z.of_nat (length (nid_objs T)).

(** lines 107-119 and 370-382: the three comparison callbacks. *)
Definition sn_cmp (a : ASN1_OBJECT) (b : nat) : option Z :=
  x ← sn a; e ← nid_objs T !! b; y ← sn e; Some (strcmp x y).

Definition ln_cmp (a : ASN1_OBJECT) (b : nat) : option Z :=
  x ← ln a; e ← nid_objs T !! b; y ← ln e; Some (strcmp x y).

Definition obj_cmp (a : ASN1_OBJECT) (b : nat) : option Z :=
  e ← nid_objs T !! b;
  let j := obj_length a - obj_length e in
  if negb (j =? 0) then Some j
  else if obj_length a =? 0 then Some 0
  else x ← data a; y ← data e; Some (memcmp x y (Z.to_nat (obj_length a))).

Definition OBJ_bsearch_sn (a : ASN1_OBJECT) := OBJ_bsearch_ (sn_cmp a) (sn_objs T).
Definition OBJ_bsearch_ln (a : ASN1_OBJECT) := OBJ_bsearch_ (ln_cmp a) (ln_objs T).
Definition OBJ_bsearch_obj (a : ASN1_OBJECT) := OBJ_bsearch_ (obj_cmp a) (obj_objs T).

(** A stack ASN1_OBJECT used as a search key: only the field the tag selects
    is ever read. *)
Definition key_obj : ASN1_OBJECT := mk_obj None None 0 None 0.

(** [adp->obj] and [adp->obj->nid] for a record returned by the container. *)
Definition rec_obj (p : positive) : M positive :=
  st <- get;; r <- lift (recs st !! p);; ret (obj r).
Definition rec_obj_nid (p : positive) : M Z :=
  o <- rec_obj p;; st <- get;; a <- lift (objs st !! o);; ret (nid a).

(** lines 330-354 *)
Definition OBJ_nid2obj (n : Z) : M (option objptr) :=
  if (n =? NID_undef)
     || ((0 <? n) && (n <? NUM_NID)
         && match nid_objs T !! Z.to_nat n with
            | Some e => negb (nid e =? NID_undef)
            | None => false
            end)
  then ret (Some (Static (Z.to_nat n)))
  else
    ok <- ossl_obj_read_lock true;;
    if negb ok then
      ERR_raise ERR_R_UNABLE_TO_GET_READ_LOCK;; ret None
    else
      st <- get;;
      adp <- match added st with
             | Some _ => lh_ADDED_OBJ_retrieve (ADDED_NID, set_nid n key_obj)
             | None => ret None
             end;;
      ossl_obj_unlock true;;
      match adp with
      | Some p => o <- rec_obj p;; ret (Some (Dyn o))
      | None => ERR_raise OBJ_R_UNKNOWN_NID;; ret None
      end.

(** Reading through an [ASN1_OBJECT *]. *)
Definition deref (p : objptr) : M ASN1_OBJECT :=
  st <- get;;
  match p with
  | Static n => lift (nid_objs T !! n)
  | Dyn q => lift (objs st !! q)
  end.

(** lines 356-368 *)
Definition OBJ_nid2sn (n : Z) : M (option string) :=
  ob <- OBJ_nid2obj n;;
  match ob with
  | None => ret None
  | Some p => a <- deref p;; ret (sn a)
  end.

Definition OBJ_nid2ln (n : Z) : M (option string) :=
  ob <- OBJ_nid2obj n;;
  match ob with
  | None => ret None
  | Some p => a <- deref p;; ret (ln a)
  end.

(** lines 402-414, 648-660 and 675-687: the probe of the added index under
    the read lock, written out alike in [ossl_obj_obj2nid], [OBJ_ln2nid] and
    [OBJ_sn2nid]. *)
Definition added_nid (key : Z * ASN1_OBJECT) (lock : bool) : M Z :=
  ok <- ossl_obj_read_lock lock;;
  if negb ok then
    ERR_raise ERR_R_UNABLE_TO_GET_READ_LOCK;; ret NID_undef
  else
    st <- get;;
    nid <- match added st with
           | Some _ =>
               adp <- lh_ADDED_OBJ_retrieve key;;
               match adp with
               | Some p => rec_obj_nid p
               | None => ret NID_undef
               end
           | None => ret NID_undef
           end;;
    ossl_obj_unlock lock;;
    ret nid.

(** lines 386-415; [a] is the object behind the (possibly NULL) pointer. *)
Definition ossl_obj_obj2nid (a : option ASN1_OBJECT) (lock : bool) : M Z :=
  match a with
  | None => ret NID_undef
  | Some a =>
      if negb (nid a =? NID_undef) then ret (nid a)
      else if obj_length a =? 0 then ret NID_undef
      else
        op <- lift (OBJ_bsearch_obj a);;
        match op with
        | Some b => e <- lift (nid_objs T !! b);; ret (nid e)
        | None => added_nid (ADDED_DATA, a) lock
        end
  end.

(** line 862 *)
Definition OBJ_obj2nid (a : option ASN1_OBJECT) : M Z := ossl_obj_obj2nid a true.

(** lines 636-661 *)
Definition OBJ_ln2nid (s : string) : M Z :=
  let o := set_names None (Some s) key_obj in
  op <- lift (OBJ_bsearch_ln o);;
  match op with
  | Some b => e <- lift (nid_objs T !! b);; ret (nid e)
  | None => added_nid (ADDED_LNAME, o) true
  end.

(** lines 663-688 *)
Definition OBJ_sn2nid (s : string) : M Z :=
  let o := set_names (Some s) None key_obj in
  op <- lift (OBJ_bsearch_sn o);;
  match op with
  | Some b => e <- lift (nid_objs T !! b);; ret (nid e)
  | None => added_nid (ADDED_SNAME, o) true
  end.

(** ** Text buffers

    A [char *buf] is a region of memory [mem] (absent for a NULL pointer), the
    offset [pos] of the moving pointer from the start of the region, and the
    remaining capacity [buf_len] the code keeps next to it. *)
Record cursor := mk_cur {
  mem : option (list ascii);
  pos : Z;
  buf_len : Z
}.

(** [m[i] = c]; a store outside the region is a memory fault. *)
Definition poke (m : list ascii) (i : Z) (c : ascii) : option (list ascii) :=
  if (0 <=? i) && (i <? Z.of_nat (length m))
  then Some (<[Z.to_nat i := c]> m) else None.

(** Conversion of an [int] argument to [size_t]. *)
Definition to_size_t (z : Z) : Z := z mod 2 ^ 64.

(** Modelled from the spec: [OPENSSL_strlcpy(dst, src, size)] (crypto/o_str.c)
    copies at most [size - 1] characters and terminates the copy with NUL
    whenever [size] is not 0. *)
Fixpoint OPENSSL_strlcpy (m : list ascii) (dst : Z) (src : list ascii)
    (size : Z) : option (list ascii) :=
  match src with
  | c :: src' =>
      if 1 <? size then
        m' ← poke m dst c; OPENSSL_strlcpy m' (dst + 1) src' (size - 1)
      else if size =? 0 then Some m
      else poke m dst NUL
  | [] => if size =? 0 then Some m else poke m dst NUL
  end.

(** Decimal digits of a non-negative number: what [%lu] prints. *)
Definition dec (z : Z) : list ascii :=
  list_ascii_of_string (NilZero.string_of_uint (N.to_uint (Z.to_N z))).

Definition ULONG_MAX : Z := 2 ^ 64 - 1.

(** ** BIGNUM routines

    Modelled from the spec: the BIGNUM library (crypto/bn) is not among the
    sources.  A BIGNUM is an integer of any size behind a pointer.  Each of
    [BN_new], [BN_set_word], [BN_add_word], [BN_sub_word], [BN_lshift] and
    [BN_bn2dec] may need memory: it makes one request of the allocation
    plan and reports failure (0, or NULL) when the request is refused. *)
Definition BN_try {A} (a : A) : M (option A) :=
  ok <- alloc_ok;; ret (if ok then Some a else None).

Definition BN_new : M (option Z) := BN_try 0.
Definition BN_set_word (bl w : Z) : M (option Z) := BN_try w.
Definition BN_add_word (bl w : Z) : M (option Z) := BN_try (bl + w).
Definition BN_sub_word (bl w : Z) : M (option Z) := BN_try (bl - w).
Definition BN_lshift (bl n : Z) : M (option Z) := BN_try (Z.shiftl bl n).
Definition BN_bn2dec (bl : Z) : M (option (list ascii)) :=
  BN_try (if bl <? 0 then "-"%char :: dec (- bl) else dec bl).

(** ** OBJ_obj2txt (lines 468-622)

    The BIGNUM [bl] is [None] while the pointer is NULL.  A step that ends
    in [goto err] gives [None]; the caller then returns -1 with the buffer
    as the stores made so far left it. *)

(** lines 566-570: [*buf++ = c; *buf = 0; buf_len--] when there is room. *)
Definition put_char (c : ascii) (cur : cursor) : option cursor :=
  match mem cur with
  | Some m =>
      if 1 <? buf_len cur then
        m1 ← poke m (pos cur) c;
        m2 ← poke m1 (pos cur + 1) NUL;
        Some (mk_cur (Some m2) (pos cur + 1) (buf_len cur - 1))
      else Some cur
  | None => Some cur
  end.

(** lines 586-593 and 602-609: copy [s], then advance by what fitted. *)
Definition put_string (s : list ascii) (cur : cursor) : option cursor :=
  match mem cur with
  | Some m =>
      m' ← OPENSSL_strlcpy m (pos cur) s (to_size_t (buf_len cur));
      let i := Z.of_nat (length s) in
      if buf_len cur <? i
      then Some (mk_cur (Some m') (pos cur + buf_len cur) 0)
      else Some (mk_cur (Some m') (pos cur + i) (buf_len cur - i))
  | None => Some cur
  end.

(** lines 529-534: take in the low seven bits of the octet [c]. *)
Definition add_group (c l : Z) (use_bn : bool) (bl : option Z)
    : M (option (Z * option Z)) :=
  if use_bn then
    b <- lift bl;;
    r <- BN_add_word b (Z.land c 127);;
    ret (match r with Some b' => Some (l, Some b') | None => None end)
  else ret (Some (Z.lor l (Z.land c 127), bl)).

(** lines 537-543: move the word into the BIGNUM once it exceeds
    [ULONG_MAX >> 7]; the BIGNUM is created on first use. *)
Definition promote (l : Z) (use_bn : bool) (bl : option Z)
    : M (option (bool * option Z)) :=
  if negb use_bn && (Z.shiftr ULONG_MAX 7 <? l) then
    bl <- match bl with
          | None => BN_new
          | Some _ => ret bl
          end;;
    match bl with
    | None => ret None
    | Some b =>
        r <- BN_set_word b l;;
        ret (match r with Some b' => Some (true, Some b') | None => None end)
    end
  else ret (Some (use_bn, bl)).

(** lines 537-549: make room for the next seven bits. *)
Definition shift_group (l : Z) (use_bn : bool) (bl : option Z)
    : M (option (Z * bool * option Z)) :=
  r <- promote l use_bn bl;;
  match r with
  | None => ret None
  | Some (use_bn, bl) =>
      if use_bn then
        b <- lift bl;;
        r <- BN_lshift b 7;;
        ret (match r with Some b' => Some (l, use_bn, Some b') | None => None end)
      else ret (Some (Z.shiftl l 7 mod 2 ^ 64, use_bn, bl))
  end.

(** lines 554-565: the first sub-identifier is split into two arcs. *)
Definition split_first (l : Z) (use_bn : bool) (bl : option Z)
    : M (option (Z * Z * option Z)) :=
  if 80 <=? l then
    if use_bn then
      b <- lift bl;;
      r <- BN_sub_word b 80;;
      ret (match r with Some b' => Some (2, l, Some b') | None => None end)
    else ret (Some (2, (l - 80) mod 2 ^ 64, bl))
  else
    let i := l / 40 in ret (Some (i, (l - i * 40) mod 2 ^ 64, bl)).

(** lines 574-613: print one arc, through the BIGNUM or the word.  The
    result is the buffer and the new count, or [None] for [goto err]. *)
Definition put_arc (l : Z) (use_bn : bool) (bl : option Z) (cur : cursor) (n : Z)
    : M (cursor * option Z) :=
  if use_bn then
    b <- lift bl;;
    r <- BN_bn2dec b;;
    match r with
    | None => ret (cur, None)
    | Some bndec =>
        let i := Z.of_nat (length bndec) in
        cur' <- lift (match mem cur with
                      | Some _ => cur1 ← put_char "."%char cur; put_string bndec cur1
                      | None => Some cur
                      end);;
        ret (cur', Some (n + 1 + i))
    end
  else
    let tbuf := "."%char :: dec l in
    let i := Z.of_nat (length tbuf) in
    cur' <- lift (match mem cur with
                  | Some _ => if 0 <? buf_len cur then put_string tbuf cur else Some cur
                  | None => Some cur
                  end);;
    ret (cur', Some (n + i)).

(** lines 552-613: print the sub-identifier just read; the BIGNUM, the
    buffer and the count go on to the next round. *)
Definition put_subid (l : Z) (use_bn : bool) (bl : option Z) (first : bool)
    (cur : cursor) (n : Z) : M (cursor * option (option Z * Z)) :=
  if first then
    s <- split_first l use_bn bl;;
    match s with
    | None => ret (cur, None)
    | Some (i, l', bl') =>
        cur' <- lift (put_char (ascii_of_N (Z.to_N (i + 48))) cur);;
        r <- put_arc l' use_bn bl' cur' (n + 1);;
        ret (r.1, match r.2 with Some n' => Some (bl', n') | None => None end)
    end
  else
    r <- put_arc l use_bn bl cur n;;
    ret (r.1, match r.2 with Some n' => Some (bl, n') | None => None end).

(** lines 520-621.  The two nested loops walk the octets once; [p] is what
    is left to read, so [len] is [length p].  A sub-identifier in progress is
    [(l, use_bn, bl)]; [first] is set until the first one has been printed.
    The result is the value returned (-1 after [goto err]) and the buffer. *)
Fixpoint obj2txt_arcs (p : list byte) (l : Z) (use_bn : bool) (bl : option Z)
    (first : bool) (cur : cursor) (n : Z) : M (Z * cursor) :=
  match p with
  | [] => ret (n, cur)
  | c :: p' =>
      let c := byte_val c in
      if (Z.of_nat (length p') =? 0) && negb (Z.land c 128 =? 0)
      then ret (-1, cur)
      else
        g <- add_group c l use_bn bl;;
        match g with
        | None => ret (-1, cur)
        | Some (l, bl) =>
            if negb (Z.land c 128 =? 0) then
              s <- shift_group l use_bn bl;;
              match s with
              | None => ret (-1, cur)
              | Some (l, use_bn, bl) => obj2txt_arcs p' l use_bn bl first cur n
              end
            else
              r <- put_subid l use_bn bl first cur n;;
              match r.2 with
              | None => ret (-1, r.1)
              | Some (bl, n) => obj2txt_arcs p' 0 false bl false r.1 n
              end
        end
  end.

(** lines 484-493: the registered name of [a], long name first. *)
Definition obj2txt_name (a : ASN1_OBJECT) (no_name : bool) : M (option string) :=
  if no_name then ret None
  else
    nid <- OBJ_obj2nid (Some a);;
    if nid =? NID_undef then ret None
    else
      s <- OBJ_nid2ln nid;;
      match s with
      | Some _ => ret s
      | None => OBJ_nid2sn nid
      end.

Definition OBJ_obj2txt (buf : option (list ascii)) (buf_len : Z)
    (a : option ASN1_OBJECT) (no_name : bool) : M (Z * option (list ascii)) :=
  buf <- lift (match buf with
               | Some m =>
                   if 0 <? buf_len then m' ← poke m 0 NUL; Some (Some m')
                   else Some (Some m)
               | None => Some None
               end);;
  match a with
  | None => ret (0, buf)
  | Some a =>
      match data a with
      | None => ret (0, buf)
      | Some d =>
          s <- obj2txt_name a no_name;;
          match s with
          | Some s =>
              let s := list_ascii_of_string s in
              buf' <- lift (match buf with
                            | Some m =>
                                m' ← OPENSSL_strlcpy m 0 s (to_size_t buf_len);
                                Some (Some m')
                            | None => Some None
                            end);;
              ret (Z.of_nat (length s), buf')
          | None =>
              if 586 <? obj_length a then ret (-1, buf)
              else
                r <- obj2txt_arcs d 0 false None true (mk_cur buf 0 buf_len) 0;;
                ret (r.1, mem r.2)
          end
      end
  end.

(** ** Heap cells *)

Definition wrap_int (z : Z) : Z := (z + 2 ^ 31) mod 2 ^ 32 - 2 ^ 31.

Definition DYNAMIC_BITS : Z :=
  Z.lor ASN1_OBJECT_FLAG_DYNAMIC
    (Z.lor ASN1_OBJECT_FLAG_DYNAMIC_STRINGS ASN1_OBJECT_FLAG_DYNAMIC_DATA).

(** A new ASN1_OBJECT cell holding [a], or NULL when the allocator refuses. *)
Definition malloc_obj (a : ASN1_OBJECT) : M (option positive) :=
  ok <- alloc_ok;;
  if ok then
    st <- get;;
    let p := fresh (dom (objs st)) in
    modify (with_objs (insert p a));; ret (Some p)
  else ret None.

Definition load_obj (p : positive) : M ASN1_OBJECT :=
  st <- get;; lift (objs st !! p).
Definition store_obj (p : positive) (a : ASN1_OBJECT) : M unit :=
  _ <- load_obj p;; modify (with_objs (insert p a)).

(** Modelled from the spec: [OBJ_dup] (crypto/objects/obj_lib.c) is not
    among the sources.  The registry owns the entry it files: [OBJ_dup]
    materialises an owned copy of the entry in a new cell, with the three
    ownership flags set, also for an entry that does not own itself. *)
Definition OBJ_dup (a : ASN1_OBJECT) : M (option positive) :=
  malloc_obj (set_flags (Z.lor (flags a) DYNAMIC_BITS) a).

(** Modelled from the spec: [ASN1_OBJECT_new] (crypto/asn1/a_object.c) gives
    an empty entry that owns itself. *)
Definition ASN1_OBJECT_new : M (option positive) :=
  malloc_obj (mk_obj None None NID_undef None ASN1_OBJECT_FLAG_DYNAMIC).

(** Modelled from the spec: [ASN1_OBJECT_free] (crypto/asn1/a_object.c)
    releases the buffers the flags say the entry owns, and the entry itself
    when [ASN1_OBJECT_FLAG_DYNAMIC] is set; NULL is accepted.  Releasing a
    cell that is not allocated is a memory fault. *)
Definition ASN1_OBJECT_free (p : option positive) : M unit :=
  match p with
  | None => ret tt
  | Some p =>
      a <- load_obj p;;
      if negb (Z.land (flags a) ASN1_OBJECT_FLAG_DYNAMIC =? 0)
      then modify (with_objs (delete p))
      else ret tt
  end.

(** [OPENSSL_malloc(sizeof(ADDED_OBJ))]: the contents of the new cell are
    indeterminate until written; the tag -1 stands for that. *)
Definition OPENSSL_malloc_rec : M (option positive) :=
  ok <- alloc_ok;;
  if ok then
    st <- get;;
    let p := fresh (dom (recs st)) in
    modify (with_recs (insert p (mk_added (-1) 1%positive)));; ret (Some p)
  else ret None.

(** [OPENSSL_free] of a record cell. *)
Definition OPENSSL_free_rec (p : option positive) : M unit :=
  match p with
  | None => ret tt
  | Some p =>
      st <- get;; _ <- lift (recs st !! p);; modify (with_recs (delete p))
  end.

Definition store_rec (p : positive) (r : ADDED_OBJ) : M unit :=
  st <- get;; _ <- lift (recs st !! p);; modify (with_recs (insert p r)).

(** [p->type = t] *)
Definition set_type (p : positive) (t : Z) : M unit :=
  st <- get;; r <- lift (recs st !! p);;
  modify (with_recs (insert p (mk_added t (obj r)))).

(** ** The NID allocator (lines 228-261, without TSAN_REQUIRES_LOCKING) *)
Definition obj_new_nid_unlocked (num : Z) : M Z :=
  st <- get;;
  modify (with_new_nid (wrap_int (new_nid st + num)));;
  ret (new_nid st).

Definition OBJ_new_nid (num : Z) : M Z := obj_new_nid_unlocked num.

(** ** ossl_obj_add_object (lines 263-328) *)

(** [ao[i]] of a four-cell array of pointers. *)
Definition cell (ao : list (option positive)) (i : nat) : option positive :=
  default None (ao !! i).

Definition no_cells : list (option positive) := [None; None; None; None].

(** One disjunct of lines 271-278: allocate [ao[i]] when the entry has the
    key; the result tells whether the allocation was refused. *)
Definition alloc_cell (want : bool) (i : nat) (ao : list (option positive))
    : M (bool * list (option positive)) :=
  if want then
    p <- OPENSSL_malloc_rec;;
    match p with
    | Some _ => ret (false, <[i := p]> ao)
    | None => ret (true, ao)
    end
  else ret (false, ao).

(** lines 304-308: [while (i-- > ADDED_DATA)], undoing the inserts below
    [i].  The delete is handed [ao[i]] whether or not that cell exists. *)
Fixpoint rollback (i : nat) (ao aop : list (option positive)) : M unit :=
  match i with
  | O => ret tt
  | S j =>
      lh_ADDED_OBJ_delete (cell ao j);;
      match cell aop j with
      | Some q => set_type q (Z.of_nat j)
      | None => ret tt
      end;;
      rollback j ao aop
  end.

(** lines 293-313: the body of the [for] loop at index [i], for the indices
    [i :: rest] still to do.  The result is [false] after a rollback. *)
Fixpoint insert_all (todo : list nat) (o : positive)
    (ao aop : list (option positive)) : M bool :=
  match todo with
  | [] => ret true
  | i :: rest =>
      match cell ao i with
      | None => insert_all rest o ao aop
      | Some p =>
          store_rec p (mk_added (Z.of_nat i) o);;
          key <- key_of (Some p);;
          prev <- lh_ADDED_OBJ_retrieve key;;
          let aop := <[i := prev]> aop in
          match prev with
          | Some q => set_type q (-1)
          | None => ret tt
          end;;
          lh_ADDED_OBJ_insert (Some p);;
          e <- lh_ADDED_OBJ_error;;
          if e then
            match prev with
            | Some q => set_type q (Z.of_nat i)
            | None => ret tt
            end;;
            rollback i ao aop;;
            ERR_raise ERR_R_CRYPTO_LIB;;
            ret false
          else insert_all rest o ao aop
      end
  end.

(** label [err2], lines 323-327 *)
Definition add_object_err2 (ao : list (option positive)) (o : positive) : M Z :=
  OPENSSL_free_rec (cell ao 0);;
  OPENSSL_free_rec (cell ao 1);;
  OPENSSL_free_rec (cell ao 2);;
  OPENSSL_free_rec (cell ao 3);;
  ASN1_OBJECT_free (Some o);;
  ret NID_undef.

(** label [err], lines 321-322 *)
Definition add_object_err (lock : bool) (ao : list (option positive))
    (o : positive) : M Z :=
  ossl_obj_unlock lock;; add_object_err2 ao o.

Definition ossl_obj_add_object (obj : ASN1_OBJECT) (lock : bool) : M Z :=
  o <- OBJ_dup obj;;
  match o with
  | None => ret NID_undef
  | Some o =>
      od <- load_obj o;;
      r <- alloc_cell true 3 no_cells;;
      r <- (if r.1 then ret r else
          alloc_cell (negb (obj_length od =? 0) && bool_decide (data obj ≠ None))
            0 r.2);;
      r <- (if r.1 then ret r else
          alloc_cell (bool_decide (sn od ≠ None)) 1 r.2);;
      r <- (if r.1 then ret r else
          alloc_cell (bool_decide (ln od ≠ None)) 2 r.2);;
      let ao := r.2 in
      if r.1 then add_object_err2 ao o
      else
        ok <- ossl_obj_write_lock lock;;
        if negb ok then
          ERR_raise ERR_R_UNABLE_TO_GET_WRITE_LOCK;; add_object_err2 ao o
        else
          st <- get;;
          ok <- match added st with
                | None => lh_ADDED_OBJ_new
                | Some _ => ret true
                end;;
          if negb ok then
            ERR_raise ERR_R_CRYPTO_LIB;; add_object_err lock ao o
          else
            ok <- insert_all [0; 1; 2; 3]%nat o ao no_cells;;
            if negb ok then add_object_err lock ao o
            else
              a <- load_obj o;;
              store_obj o (set_flags (Z.land (flags a) (Z.lnot DYNAMIC_BITS)) a);;
              ossl_obj_unlock lock;;
              ret (nid a)
  end.

(** line 857 *)
Definition OBJ_add_object (obj : ASN1_OBJECT) : M Z := ossl_obj_add_object obj true.

(** ** The text-to-DER codec

    Modelled from the spec: [a2d_ASN1_OBJECT] (crypto/asn1/a_object.c) is the
    sub-identifier encoder of the codec.  Arcs are decimal numbers of any
    size separated by dots; the first two are combined into [40 * a + b]
    under the rule on [(a, b)]; every sub-identifier is written in base 128,
    most significant group first, with the high bit on all but the last
    octet; more than 586 octets is refused. *)

Fixpoint split_on_dot (s cur : list ascii) : list (list ascii) :=
  match s with
  | [] => [rev cur]
  | c :: s' =>
      if Ascii.eqb c "."%char then rev cur :: split_on_dot s' []
      else split_on_dot s' (c :: cur)
  end.

Fixpoint parse_digits (s : list ascii) (acc : Z) : option Z :=
  match s with
  | [] => Some acc
  | c :: s' =>
      if ossl_isdigit c then parse_digits s' (10 * acc + (code c - 48))
      else None
  end.

Definition parse_arc (s : list ascii) : option Z :=
  match s with
  | [] => None
  | _ => parse_digits s 0
  end.

Definition byte_of (z : Z) : byte := default x00 (Byte.of_N (Z.to_N z)).

Fixpoint base128_more (fuel : nat) (v : Z) (acc : list byte) : list byte :=
  match fuel with
  | O => acc
  | S fuel' =>
      if v =? 0 then acc
      else base128_more fuel' (v / 128) (byte_of (128 + v mod 128) :: acc)
  end.

Definition base128 (v : Z) : list byte :=
  base128_more (Z.to_nat (Z.log2 v)) (v / 128) [byte_of (v mod 128)].

Definition text_to_der (s : string) : option (list byte) :=
  arcs ← mapM parse_arc (split_on_dot (list_ascii_of_string s) []);
  match arcs with
  | a :: b :: rest =>
      if ((a <=? 1) && (b <? 40)) || (a =? 2) then
        let der := concat (map base128 (40 * a + b :: rest)) in
        if 586 <? Z.of_nat (length der) then None else Some der
      else None
  | _ => None
  end.

Definition a2d_ASN1_OBJECT (s : string) : M (option (list byte)) :=
  match text_to_der s with
  | Some der => ret (Some der)
  | None => ERR_raise ASN1_R_INVALID_OID;; ret None
  end.

(** Modelled from the spec: [d2i_ASN1_OBJECT] wraps the content octets in a
    freshly built entry that owns them. *)
Definition d2i_ASN1_OBJECT (der : list byte) : M (option objptr) :=
  p <- malloc_obj (mk_obj None None NID_undef (Some der)
                     (Z.lor ASN1_OBJECT_FLAG_DYNAMIC ASN1_OBJECT_FLAG_DYNAMIC_DATA));;
  ret (Dyn <$> p).

(** ** OBJ_txt2obj (lines 423-466) *)

(** [*s] *)
Definition first_char (s : string) : ascii :=
  match s with
  | String c _ => c
  | EmptyString => NUL
  end.

(** lines 443-465.  [ASN1_object_size] is never negative for a content
    length of at most 586, so that exit is not taken. *)
Definition txt2obj_dotted (s : string) : M (option objptr) :=
  d <- a2d_ASN1_OBJECT s;;
  match d with
  | None => ret None
  | Some der =>
      if Z.of_nat (length der) <=? 0 then ret None
      else
        ok <- alloc_ok;;
        if negb ok then ret None
        else d2i_ASN1_OBJECT der
  end.

Definition OBJ_txt2obj (s : string) (no_name : bool) : M (option objptr) :=
  if negb no_name then
    nid <- OBJ_sn2nid s;;
    if negb (nid =? NID_undef) then OBJ_nid2obj nid
    else
      nid <- OBJ_ln2nid s;;
      if negb (nid =? NID_undef) then OBJ_nid2obj nid
      else if negb (ossl_isdigit (first_char s)) then
        ERR_raise OBJ_R_UNKNOWN_OBJECT_NAME;; ret None
      else txt2obj_dotted s
  else txt2obj_dotted s.

(** Freeing through an [ASN1_OBJECT *]: a static entry carries no ownership
    flag and is left alone. *)
Definition free_objptr (p : objptr) : M unit :=
  match p with
  | Static _ => ret tt
  | Dyn q => ASN1_OBJECT_free (Some q)
  end.

(** lines 624-634 *)
Definition OBJ_txt2nid (s : string) : M Z :=
  ob <- OBJ_txt2obj s false;;
  match ob with
  | None => ret NID_undef
  | Some p =>
      a <- deref p;;
      nid <- OBJ_obj2nid (Some a);;
      free_objptr p;;
      ret nid
  end.

(** ** OBJ_create (lines 779-841) *)

(** label [err], lines 837-840 *)
Definition create_err (tmpoid : positive) (ok : Z) : M Z :=
  ossl_obj_unlock true;; ASN1_OBJECT_free (Some tmpoid);; ret ok.

(** lines 791-792: is the short or the long name already present? *)
Definition create_name_clash (sn ln : option string) : M bool :=
  clash <- match sn with
           | Some s => nid <- OBJ_sn2nid s;; ret (negb (nid =? NID_undef))
           | None => ret false
           end;;
  if clash then ret true
  else
    match ln with
    | Some l => nid <- OBJ_ln2nid l;; ret (negb (nid =? NID_undef))
    | None => ret false
    end.

(** lines 797-809: the entry to register, from the numerical OID or empty.
    [OBJ_txt2obj] with [no_name] set never answers with a static entry. *)
Definition create_tmpoid (oid : option string) : M (option positive) :=
  match oid with
  | Some t =>
      ob <- OBJ_txt2obj t true;;
      match ob with
      | Some (Dyn q) => ret (Some q)
      | Some (Static _) => fault
      | None => ret None
      end
  | None =>
      q <- ASN1_OBJECT_new;;
      match q with
      | Some _ => ret q
      | None => ERR_raise ERR_R_ASN1_LIB;; ret None
      end
  end.

(** lines 818-819: is the OID already known? *)
Definition create_oid_known (oid : option string) (tmpoid : positive) : M bool :=
  match oid with
  | Some _ =>
      a <- load_obj tmpoid;;
      nid <- ossl_obj_obj2nid (Some a) false;;
      ret (negb (nid =? NID_undef))
  | None => ret false
  end.

Definition OBJ_create (oid sn ln : option string) : M Z :=
  if bool_decide (oid = None) && bool_decide (sn = None) && bool_decide (ln = None)
  then ERR_raise ERR_R_PASSED_INVALID_ARGUMENT;; ret 0
  else
    clash <- create_name_clash sn ln;;
    if clash then ERR_raise OBJ_R_OID_EXISTS;; ret 0
    else
      tmp <- create_tmpoid oid;;
      match tmp with
      | None => ret 0
      | Some tmpoid =>
          ok <- ossl_obj_write_lock true;;
          if negb ok then
            ERR_raise ERR_R_UNABLE_TO_GET_WRITE_LOCK;;
            ASN1_OBJECT_free (Some tmpoid);; ret 0
          else
            known <- create_oid_known oid tmpoid;;
            if known then ERR_raise OBJ_R_OID_EXISTS;; create_err tmpoid 0
            else
              n <- obj_new_nid_unlocked 1;;
              a <- load_obj tmpoid;;
              store_obj tmpoid (set_nid n a);;
              if n =? NID_undef then create_err tmpoid 0
              else
                a <- load_obj tmpoid;;
                store_obj tmpoid (set_names sn ln a);;
                a <- load_obj tmpoid;;
                ok <- ossl_obj_add_object a false;;
                a <- load_obj tmpoid;;
                store_obj tmpoid (set_names None None a);;
                create_err tmpoid ok
      end.

(** ** OBJ_create_objects (lines 730-777) *)

Definition newline : ascii := "010"%char.

(** Modelled from the spec: the line source.  [BIO_lines bio [] 511] lists
    what the successive calls [BIO_gets(in, buf, 512)] return on a source
    holding the characters [bio]: up to and including a newline, and at most
    511 characters at a time. *)
Fixpoint BIO_lines (bio cur : list ascii) (room : nat) : list (list ascii) :=
  match bio with
  | [] => match cur with [] => [] | _ => [rev cur] end
  | c :: bio' =>
      if Ascii.eqb c newline || (room <=? 1)%nat
      then rev (c :: cur) :: BIO_lines bio' [] 511
      else BIO_lines bio' (c :: cur) (room - 1)
  end.

(** [buf[k]] *)
Definition rd (buf : list ascii) (k : nat) : ascii := default NUL (buf !! k).

Fixpoint span (P : ascii → bool) (l : list ascii) : nat :=
  match l with
  | c :: l' => if P c then S (span P l') else O
  | [] => O
  end.

(** Advance from offset [k] while the character read satisfies [P]. *)
Definition skip (P : ascii → bool) (buf : list ascii) (k : nat) : nat :=
  (k + span P (drop k buf))%nat.

(** The C string that starts at offset [k]. *)
Fixpoint upto_NUL (l : list ascii) : list ascii :=
  match l with
  | c :: l' => if Ascii.eqb c NUL then [] else c :: upto_NUL l'
  | [] => []
  end.

Definition c_string (buf : list ascii) (k : nat) : string :=
  string_of_list_ascii (upto_NUL (drop k buf)).

(** lines 738-741: [BIO_gets] stores the line and its NUL, then the last
    character read is overwritten. *)
Definition load_line (line buf : list ascii) : list ascii :=
  let i := length line in
  <[(i - 1)%nat := NUL]> (line ++ NUL :: drop (S i) buf).

(** lines 742-772 for one line held in [buf]: the buffer after the NULs have
    been planted, the pointer [l] as it is left (it is not reset between
    lines), and the arguments of the [OBJ_create] call, if one is made. *)
Definition create_objects_line (buf : list ascii) (l : option nat)
    : list ascii * option nat * option (string * option string * option string) :=
  if negb (ossl_isalnum (rd buf 0)) then (buf, l, None)
  else
    let s := skip (λ c, ossl_isdigit c || Ascii.eqb c "."%char) buf 0 in
    let '(buf, s, l) :=
      if negb (Ascii.eqb (rd buf s) NUL) then
        let buf := <[s := NUL]> buf in
        let s := skip ossl_isspace buf (S s) in
        if Ascii.eqb (rd buf s) NUL then (buf, None, l)
        else
          let l := skip (λ c, negb (Ascii.eqb c NUL) && negb (ossl_isspace c))
                     buf s in
          if negb (Ascii.eqb (rd buf l) NUL) then
            let buf := <[l := NUL]> buf in
            let l := skip ossl_isspace buf (S l) in
            if Ascii.eqb (rd buf l) NUL then (buf, Some s, None)
            else (buf, Some s, Some l)
          else (buf, Some s, None)
      else (buf, None, l) in
    if Ascii.eqb (rd buf 0) NUL then (buf, l, None)
    else (buf, l, Some (c_string buf 0, c_string buf <$> s, c_string buf <$> l)).

Fixpoint create_objects_loop (lines : list (list ascii)) (buf : list ascii)
    (l : option nat) (num : Z) : M Z :=
  match lines with
  | [] => ret num
  | line :: rest =>
      let r := create_objects_line (load_line line buf) l in
      match r.2 with
      | None => ret num
      | Some (o, s, ln) =>
          ok <- OBJ_create (Some o) s ln;;
          if ok =? 0 then ret num
          else create_objects_loop rest r.1.1 r.1.2 (num + 1)
      end
  end.

(** [char buf[512]] starts out indeterminate; no character of it is read
    before a line has been stored over it. *)
Definition OBJ_create_objects (bio : list ascii) : M Z :=
  create_objects_loop (BIO_lines bio [] 511) (repeat NUL 512) None 0.

(** ** Teardown (lines 192-222) *)

Definition cleanup1_doall (a : positive) : M unit :=
  o <- rec_obj a;;
  x <- load_obj o;;
  store_obj o (set_flags (Z.lor (flags x) DYNAMIC_BITS) (set_nid 0 x)).

Definition cleanup2_doall (a : positive) : M unit :=
  o <- rec_obj a;;
  x <- load_obj o;;
  store_obj o (set_nid (wrap_int (nid x + 1)) x).

Definition cleanup3_doall (a : positive) : M unit :=
  o <- rec_obj a;;
  x <- load_obj o;;
  let n := wrap_int (nid x - 1) in
  store_obj o (set_nid n x);;
  (if n =? 0 then ASN1_OBJECT_free (Some o) else ret tt);;
  OPENSSL_free_rec (Some a).

Fixpoint doall (f : positive → M unit) (l : list positive) : M unit :=
  match l with
  | [] => ret tt
  | a :: l' => f a;; doall f l'
  end.

(** [lh_ADDED_OBJ_doall]: the callback is applied to every stored record. *)
Definition lh_ADDED_OBJ_doall (f : positive → M unit) : M unit :=
  st <- get;;
  match added st with
  | Some l => doall f l
  | None => ret tt
  end.

(** The lock objects released by [objs_free_locks] are outside the model. *)
Definition ossl_obj_cleanup_int : M unit :=
  st <- get;;
  match added st with
  | Some _ =>
      lh_ADDED_OBJ_doall cleanup1_doall;;
      lh_ADDED_OBJ_doall cleanup2_doall;;
      lh_ADDED_OBJ_doall cleanup3_doall;;
      modify (with_added None false)
  | None => ret tt
  end.

End Registry.

(** * Further functions of obj_dat.c *)

(** ** The hash callback of the added index (lines 121-152)

    [unsigned long] has 64 bits.  Modelled from the spec:
    [OPENSSL_LH_strhash] (crypto/lhash/lhash.c) is not among the sources; it
    is a function of the string behind the pointer, given here as
    [strhash], with [None] for the NULL pointer. *)

Definition to_ulong (z : Z) : Z := z mod 2 ^ 64.

(** lines 131-132: [for (i = 0; i < a->length; i++) ret ^= p[i] << ((i * 3) % 24)],
    from index [i] on. *)
Fixpoint hash_octets (p : list byte) (i : Z) (ret : Z) : Z :=
  match p with
  | [] => ret
  | c :: p' =>
      hash_octets p' (i + 1) (Z.lxor ret (Z.shiftl (byte_val c) ((i * 3) mod 24)))
  end.

(** lines 148-150: the low 30 bits of the value, under the tag. *)
Definition hash_tagged (t : Z) (ret : Z) : Z :=
  Z.lor (Z.land ret 1073741823) (Z.shiftl t 30).

Definition added_obj_hash (strhash : option string → Z) (ca : Z * ASN1_OBJECT) : Z :=
  let a := ca.2 in
  if ca.1 =? ADDED_DATA then
    hash_tagged ca.1
      (hash_octets (default [] (data a)) 0 (to_ulong (Z.shiftl (obj_length a) 20)))
  else if ca.1 =? ADDED_SNAME then hash_tagged ca.1 (strhash (sn a))
  else if ca.1 =? ADDED_LNAME then hash_tagged ca.1 (strhash (ln a))
  else if ca.1 =? ADDED_NID then hash_tagged ca.1 (to_ulong (nid a))
  else 0.

(** * Specification-level notions *)

(** ** The dotted text of a DER string, on unbounded integers *)

(** The sub-identifiers of the octets [p], each an integer of any size;
    [acc] is the value of the groups already read of the one in progress.
    [None]: the last octet still has its continuation bit. *)
Fixpoint subids (p : list byte) (acc : Z) : option (list Z) :=
  match p with
  | [] => Some []
  | c :: p' =>
      let v := 128 * acc + Z.land (byte_val c) 127 in
      if negb (Z.land (byte_val c) 128 =? 0) then
        match p' with
        | [] => None
        | _ => subids p' v
        end
      else vs ← subids p' 0; Some (v :: vs)
  end.

(** The first sub-identifier of [p] alone. *)
Fixpoint first_subid (p : list byte) (acc : Z) : Z :=
  match p with
  | [] => acc
  | c :: p' =>
      let v := 128 * acc + Z.land (byte_val c) 127 in
      if negb (Z.land (byte_val c) 128 =? 0) then first_subid p' v else v
  end.

(** The sub-identifiers of [p] that are complete: all of them when the last
    octet ends one, those before the unfinished one otherwise. *)
Fixpoint subids_done (p : list byte) (acc : Z) : list Z :=
  match p with
  | [] => []
  | c :: p' =>
      let v := 128 * acc + Z.land (byte_val c) 127 in
      if negb (Z.land (byte_val c) 128 =? 0) then subids_done p' v
      else v :: subids_done p' 0
  end.

(** Every sub-identifier fits the [unsigned long] accumulator, so that the
    printer never turns to a BIGNUM. *)
Definition word_arcs (vs : list Z) : bool := forallb (λ v, v <? 2 ^ 64) vs.

(** No request of the allocation plan is refused. *)
Definition all_granted (st : registry) : bool := forallb id (alloc_plan st).

(** The final octet has the continuation bit set. *)
Definition truncated (d : list byte) : Prop :=
  ∃ c, last d = Some c ∧ Z.land (byte_val c) 128 ≠ 0.

(** The rule that splits the first sub-identifier into the first two arcs. *)
Definition first_arcs (v0 : Z) : Z * Z :=
  if v0 <? 80 then (v0 / 40, v0 mod 40) else (2, v0 - 80).

Definition digit (a : Z) : ascii := ascii_of_N (Z.to_N (a + 48)).

Definition arc_text (first : bool) (v : Z) : list ascii :=
  if first
  then digit (fst (first_arcs v)) :: "."%char :: dec (snd (first_arcs v))
  else "."%char :: dec v.

Fixpoint arcs_text (first : bool) (vs : list Z) : list ascii :=
  match vs with
  | [] => []
  | v :: vs' => arc_text first v ++ arcs_text false vs'
  end.

(** ** What a buffer of a given capacity shows of a text *)

(** The caller's contract on [(buf, buf_len)]: the region behind a non-NULL
    [buf] has at least [buf_len] characters. *)
Definition fits (buf : option (list ascii)) (buf_len : Z) : Prop :=
  ∀ m, buf = Some m → buf_len ≤ Z.of_nat (length m).

Definition buffer_ok (buf : option (list ascii)) (buf_len : Z) : Prop :=
  0 ≤ buf_len < 2 ^ 31 ∧ fits buf buf_len.

(** [m] starts with the longest prefix of [out] that leaves room for a NUL
    within [cap] characters, followed by that NUL. *)
Definition shows (cap : nat) (out m : list ascii) : Prop :=
  let k := Nat.min (length out) (cap - 1) in
  take k m = take k out ∧ m !! k = Some NUL.

(** What the caller finds in the buffer [buf] it passed with capacity
    [buf_len], when the text to print was [out]. *)
Definition holds (buf : option (list ascii)) (buf_len : Z) (out : list ascii)
    (buf' : option (list ascii)) : Prop :=
  match buf, buf' with
  | None, None => True
  | Some m, Some m' =>
      length m' = length m
      ∧ drop (Z.to_nat buf_len) m' = drop (Z.to_nat buf_len) m
      ∧ (1 ≤ buf_len → shows (Z.to_nat buf_len) out m')
  | _, _ => False
  end.

(** The loop invariant on the moving pointer: after [out] has been printed
    into a buffer of capacity [cap] whose surroundings are [frame]. *)
Definition cur_inv (cap : nat) (frame out : list ascii) (cur : cursor) : Prop :=
  match mem cur with
  | None => True
  | Some m =>
      (cap ≤ length m)%nat ∧ Z.of_nat cap < 2 ^ 31 ∧ drop cap m = frame ∧
      (1 ≤ cap → shows cap out m)%nat ∧
      ∃ b : nat, buf_len cur = Z.of_nat b ∧
        ((b = 0 ∧ (cap = 0 ∨ cap - 1 ≤ length out))%nat
         ∨ (1 ≤ b ∧ b ≤ cap ∧ pos cur = Z.of_nat (cap - b)
            ∧ cap - b = Nat.min (length out) (cap - 1))%nat)
  end.

(** The loop invariant on the accumulator: [acc] is the value of the groups
    read so far, held in the word [l] or, once promoted, in the BIGNUM. *)
Definition word_inv (l : Z) (use_bn : bool) (bl : option Z) (acc : Z) : Prop :=
  0 ≤ acc ∧
  if use_bn then bl = Some (128 * acc) ∧ 2 ^ 57 ≤ l ∧ 2 ^ 57 ≤ 128 * acc
  else l = 128 * acc ∧ l < 2 ^ 64.

#[global] Instance byte_eq_dec : EqDecision byte := Byte.byte_eq_dec.

(** ** Presence of a key in the two tables

    [builtin_has T index P]: an entry listed in the index array satisfies [P];
    [index_has st t P]: a record of the added index carries the tag [t] and
    points to an entry that satisfies [P]. *)

Definition builtin_has (T : builtin) (index : list nat) (P : ASN1_OBJECT → bool) : bool :=
  existsb (λ i, match nid_objs T !! i with Some e => P e | None => false end) index.

Definition index_has (st : registry) (t : Z) (P : ASN1_OBJECT → bool) : bool :=
  match added st with
  | None => false
  | Some l =>
      existsb (λ p, match view st p with
                    | Some (t', o) => (t' =? t) && P o
                    | None => false
                    end) l
  end.

Definition has_sn (s : string) (o : ASN1_OBJECT) : bool := bool_decide (sn o = Some s).
Definition has_ln (s : string) (o : ASN1_OBJECT) : bool := bool_decide (ln o = Some s).
Definition has_der (d : list byte) (o : ASN1_OBJECT) : bool := bool_decide (data o = Some d).
Definition has_nid (n : Z) (o : ASN1_OBJECT) : bool := nid o =? n.

Definition sn_known (T : builtin) (st : registry) (s : string) : bool :=
  builtin_has T (sn_objs T) (has_sn s) || index_has st ADDED_SNAME (has_sn s).
Definition ln_known (T : builtin) (st : registry) (s : string) : bool :=
  builtin_has T (ln_objs T) (has_ln s) || index_has st ADDED_LNAME (has_ln s).
Definition der_known (T : builtin) (st : registry) (d : list byte) : bool :=
  builtin_has T (obj_objs T) (has_der d) || index_has st ADDED_DATA (has_der d).
Definition nid_known (T : builtin) (st : registry) (n : Z) : bool :=
  (n =? NID_undef)
  || ((0 <? n) && (n <? NUM_NID T)
      && match nid_objs T !! Z.to_nat n with
         | Some e => negb (nid e =? NID_undef)
         | None => false
         end)
  || index_has st ADDED_NID (has_nid n).

(** The generated index arrays point at entries that carry the indexed
    field. *)
Definition wf_builtin (T : builtin) : bool :=
  forallb (λ i, match nid_objs T !! i with
                | Some e => bool_decide (sn e ≠ None) | None => false end) (sn_objs T)
  && forallb (λ i, match nid_objs T !! i with
                   | Some e => bool_decide (ln e ≠ None) | None => false end) (ln_objs T)
  && forallb (λ i, match nid_objs T !! i with
                   | Some _ => true | None => false end) (obj_objs T).

(** Every record of the index and the entry behind it are allocated. *)
Definition wf_index (st : registry) : bool :=
  match added st with
  | None => true
  | Some l => forallb (λ p, match view st p with Some _ => true | None => false end) l
  end.

(** ** Notions used for registration *)

(** Short name first, then long name: the resolution of a textual name. *)
Definition name_to_nid (T : builtin) (s : string) : M Z :=
  nid <- OBJ_sn2nid T s;;
  if negb (nid =? NID_undef) then ret nid else OBJ_ln2nid T s.

(** The allocator grants the next [k] requests. *)
Definition granted (k : nat) (st : registry) : bool :=
  forallb id (take k (alloc_plan st)).

(** The state once [k] allocation outcomes have been consumed. *)
Definition after_allocs (k : nat) (st : registry) : registry :=
  with_plan (drop k (alloc_plan st)) st.

(** The entry [d2i_ASN1_OBJECT] builds around content octets. *)
Definition der_entry (der : list byte) : ASN1_OBJECT :=
  mk_obj None None NID_undef (Some der)
    (Z.lor ASN1_OBJECT_FLAG_DYNAMIC ASN1_OBJECT_FLAG_DYNAMIC_DATA).

(** [st'] has the index, the records and the lock of [st], and at least
    its entries: what a lookup can see of [st], it sees of [st']. *)
Definition extends (st st' : registry) : Prop :=
  recs st' = recs st ∧ added st' = added st ∧ lock_ok st' = lock_ok st
  ∧ objs st ⊆ objs st'.

(** [st'] is [st] up to the error queue. *)
Definition quiet (st st' : registry) : Prop :=
  objs st' = objs st ∧ recs st' = recs st ∧ added st' = added st
  ∧ lh_error st' = lh_error st ∧ new_nid st' = new_nid st
  ∧ lock_ok st' = lock_ok st ∧ alloc_plan st' = alloc_plan st.

(** A lookup leaves the state alone, or queues the read-lock error. *)
Definition lookup_post (st st' : registry) : Prop :=
  st' = st ∨ st' = with_err ERR_R_UNABLE_TO_GET_READ_LOCK st.

(** The added index and the cells are as before: nothing was registered. *)
Definition unchanged (st st' : registry) : Prop :=
  objs st' = objs st ∧ recs st' = recs st ∧ added st' = added st
  ∧ new_nid st' = new_nid st.

(** The lookup made under the lock, as a function of the state. *)
Definition found_nid (key : Z * ASN1_OBJECT) (st : registry) : option Z :=
  match added st with
  | None => Some NID_undef
  | Some l =>
      r ← lh_find st key l;
      match r with
      | None => Some NID_undef
      | Some p => r ← recs st !! p; o ← objs st !! obj r; Some (nid o)
      end
  end.

(** ** The bulk loader, in the words of its description *)

Definition oid_char (c : ascii) : bool := ossl_isdigit c || Ascii.eqb c "."%char.

(** The line held in [buf] ends the loading: it starts with a character
    that is not alphanumeric, or its OID field is empty. *)
Definition line_stops (buf : list ascii) : bool :=
  negb (ossl_isalnum (rd buf 0)) || (skip oid_char buf 0 =? 0)%nat.

(** [loads T lines buf l st n st']: reading [lines] with the buffer [buf] and
    the pointer [l] left by earlier lines, from the registry [st], registers
    [n] lines and ends in [st'].  Loading ends at the end of the source, at a
    line that stops, or at the first line whose registration is refused. *)
Inductive loads (T : builtin)
  : list (list ascii) → list ascii → option nat → registry → Z → registry → Prop :=
| loads_end buf l st :
    loads T [] buf l st 0 st
| loads_stop line rest buf l st :
    line_stops (load_line line buf) = true →
    loads T (line :: rest) buf l st 0 st
| loads_refused line rest buf l st o s ln buf' l' st' :
    line_stops (load_line line buf) = false →
    create_objects_line (load_line line buf) l = (buf', l', Some (o, s, ln)) →
    OBJ_create T (Some o) s ln st = Some (0, st') →
    loads T (line :: rest) buf l st 0 st'
| loads_registered line rest buf l st o s ln buf' l' k st1 n st2 :
    line_stops (load_line line buf) = false →
    create_objects_line (load_line line buf) l = (buf', l', Some (o, s, ln)) →
    OBJ_create T (Some o) s ln st = Some (k, st1) → k ≠ 0 →
    loads T rest buf' l' st1 n st2 →
    loads T (line :: rest) buf l st (n + 1) st2.

(** * Teardown: reference counts of the added entries *)

(** The entry a record cell points to. *)
Definition target (R : gmap positive ADDED_OBJ) (p : positive) : option positive :=
  obj <$> R !! p.

(** The number of records of [l] that reference the entry [o]. *)
Definition refs (R : gmap positive ADDED_OBJ) (l : list positive) (o : positive) : nat :=
  length (filter (λ p, target R p = Some o) l).

(** What the first pass leaves of an entry. *)
Definition zeroed (x : ASN1_OBJECT) : ASN1_OBJECT :=
  set_flags (Z.lor (flags x) DYNAMIC_BITS) (set_nid 0 x).

(** The entry owns itself: [ASN1_OBJECT_free] releases the cell. *)
Definition dynamic (x : ASN1_OBJECT) : Prop :=
  Z.land (flags x) ASN1_OBJECT_FLAG_DYNAMIC ≠ 0.

(** The state with other entry and record cells. *)
Definition put (O : gmap positive ASN1_OBJECT) (R : gmap positive ADDED_OBJ)
    (st : registry) : registry :=
  mk_registry O R (added st) (lh_error st) (new_nid st) (lock_ok st)
    (err_queue st) (alloc_plan st).

(** Every record of the index is allocated and points to an allocated entry. *)
Definition live (R : gmap positive ADDED_OBJ) (O : gmap positive ASN1_OBJECT)
    (l : list positive) : Prop :=
  ∀ p, p ∈ l → ∃ r, R !! p = Some r ∧ is_Some (O !! obj r).

(** The first two passes of the teardown. *)
Definition count_passes : M unit :=
  lh_ADDED_OBJ_doall cleanup1_doall;; lh_ADDED_OBJ_doall cleanup2_doall.

(** No entry is referenced by more than four records of the index (one per
    key type: data, short name, long name, nid). *)
Definition at_most_four (R : gmap positive ADDED_OBJ) (l : list positive) : bool :=
  forallb (λ p, match target R p with
                | Some o => (refs R l o <=? 4)%nat
                | None => true
                end) l.


(** * A small built-in table and registry states for the examples *)

(** Three built-in entries with the three index arrays sorted as
    [obj_xref]-style generated tables are: by short name, by long name and
    by content octets. *)
Definition demo_table : builtin := mk_builtin
  [mk_obj (Some "UNDEF"%string) (Some "undefined"%string) 0 None 0;
   mk_obj (Some "rsadsi"%string) (Some "RSA Data Security, Inc."%string) 1
     (Some [x2a; x86; x48; x86; xf7; x0d]) 0;
   mk_obj (Some "CN"%string) (Some "commonName"%string) 2 (Some [x55; x04; x03]) 0]
  [2%nat; 0%nat; 1%nat] [1%nat; 2%nat; 0%nat] [2%nat; 1%nat].

(** The registry before anything was added; every allocation succeeds. *)
Definition demo_st : registry := mk_registry ∅ ∅ None false 3 true [] [].

(** The registry after one successful [OBJ_create]. *)
Definition demo_registered : registry :=
  match OBJ_create demo_table (Some "1.2.3.4.5"%string) (Some "myShort"%string)
          (Some "My Long Name"%string) demo_st with
  | Some (_, st) => st
  | None => demo_st
  end.

(** The records of its index. *)
Definition demo_index : list positive := default [] (added demo_registered).

(** An entry with a short name only: no DATA and no LNAME record. *)
Definition demo_sn_only : ASN1_OBJECT := mk_obj (Some "foo"%string) None 3 None 0.

(** Content octets of 2.999.3, and an entry that carries them. *)
Definition demo_der : list byte := [x88; x37; x03].
Definition demo_oid : ASN1_OBJECT := mk_obj None None NID_undef (Some demo_der) 0.

(** Content octets whose last octet announces a continuation. *)
Definition demo_cut : list byte := [x2a; x86].
Definition demo_cut_oid : ASN1_OBJECT := mk_obj None None NID_undef (Some demo_cut) 0.

(** Content octets of 2.1180591620717411303344: the one sub-identifier is
    2^70, more than an [unsigned long] holds. *)
Definition demo_wide : list byte :=
  [x81; x80; x80; x80; x80; x80; x80; x80; x80; x80; x00].
Definition demo_wide_oid : ASN1_OBJECT := mk_obj None None NID_undef (Some demo_wide) 0.

(** A caller's buffer of twelve characters. *)
Definition demo_buf : list ascii := repeat "#"%char 12.

(** Two lines of an object file. *)
Definition demo_bio : list ascii :=
  list_ascii_of_string "1.2.3.4.5 myShort MyLong"
  ++ [newline] ++ list_ascii_of_string "1.2.3.4.6 a2" ++ [newline].

(** The registry after loading them. *)
Definition demo_loaded : registry :=
  match OBJ_create_objects demo_table demo_bio demo_st with
  | Some (_, st) => st
  | None => demo_st
  end.

(** * Notions used for the further properties *)

(** ** Sorted built-in indexes *)
(** The index array [base] is strictly increasing for the comparison [cmp]
    of an entry with an element, as the generated arrays are. *)
Definition sorted_index (T : builtin) (cmp : ASN1_OBJECT → nat → option Z)
    (base : list nat) : bool :=
  forallb (λ p,
    forallb (λ q,
      if (p.1 <? q.1)%nat then
        match nid_objs T !! p.2 ≫= (λ e, cmp e q.2) with
        | Some c => c <? 0
        | None => false
        end
      else true) (imap pair base)) (imap pair base).

Definition sorted_sn (T : builtin) : bool := sorted_index T (sn_cmp T) (sn_objs T).
Definition sorted_ln (T : builtin) : bool := sorted_index T (ln_cmp T) (ln_objs T).
Definition sorted_obj (T : builtin) : bool := sorted_index T (obj_cmp T) (obj_objs T).

(** ** The base-128 encoding and the dotted-decimal text *)
(** The content octets of a list of sub-identifiers: each in base 128, most
    significant group first, the high bit set on all octets but the last. *)
Definition encode_subids (vs : list Z) : list byte := concat (map base128 vs).

(** The dotted text of the arcs [a.b.rest]. *)
Definition dotted (a b : Z) (rest : list Z) : list ascii :=
  digit a :: "."%char :: dec b ++ concat (map (λ v, "."%char :: dec v) rest).

(** ** NIDs of the built-in table *)
(** The test of lines 334-335: [n] is answered from the static table. *)
Definition nid_static (T : builtin) (n : Z) : bool :=
  (n =? NID_undef)
  || ((0 <? n) && (n <? NUM_NID T)
      && match nid_objs T !! Z.to_nat n with
         | Some e => negb (nid e =? NID_undef)
         | None => false
         end).

(** Every slot of [nid_objs] is a hole ([NID_undef]) or carries its own
    index as NID, as the generated table does. *)
Definition wf_nids (T : builtin) : bool :=
  forallb (λ ie, (nid ie.2 =? NID_undef) || (nid ie.2 =? Z.of_nat ie.1))
    (imap pair (nid_objs T)).

(** ** Entries the index refers to *)
(** No entry behind a record of the index owns itself: the flag
    [ASN1_OBJECT_FLAG_DYNAMIC] is clear, as [ossl_obj_add_object] leaves it
    (lines 314-316), so that [ASN1_OBJECT_free] does not release it. *)
Definition entries_static (st : registry) : bool :=
  match added st with
  | None => true
  | Some l =>
      forallb (λ p, match view st p with
                    | Some (_, o) => Z.land (flags o) ASN1_OBJECT_FLAG_DYNAMIC =? 0
                    | None => false
                    end) l
  end.

(** ** The insert loop *)
(** The field of an entry that the key type [t] selects is the same in [a]
    and [b]. *)
Definition same_key (t : Z) (a b : ASN1_OBJECT) : Prop :=
  if t =? ADDED_DATA then data a = data b
  else if t =? ADDED_SNAME then sn a = sn b
  else if t =? ADDED_LNAME then ln a = ln b
  else if t =? ADDED_NID then nid a = nid b
  else True.

(** The record [q] of the state [s] compares equal to [key]. *)
Definition matches (s : registry) (key : Z * ASN1_OBJECT) (q : positive) : option bool :=
  v ← view s q; Some (added_obj_cmp v key =? 0).

(** The invariant of the insert loop of [ossl_obj_add_object] (lines
    293-313) on the success path.  [o] is the copy being registered and [e]
    its contents, [ao] the record cells, [todo] the key types still to be
    visited; [R0] and [l0] are the records and the index before the loop. *)
Definition insert_inv (o : positive) (e : ASN1_OBJECT) (ao : list (option positive))
    (R0 : gmap positive ADDED_OBJ) (l0 : list positive)
    (todo : list nat) (s : registry) (l : list positive) : Prop :=
  added s = Some l ∧ objs s !! o = Some e
  ∧ (∀ q, q ∈ l → is_Some (view s q))
  ∧ NoDup l
  ∧ (∀ q, q ∈ l →
       target (recs s) q = Some o ∨ (q ∈ l0 ∧ target (recs s) q = target R0 q))
  ∧ (refs (recs s) l o + length todo ≤ 4)%nat
  ∧ (∀ o', o' ≠ o → (refs (recs s) l o' ≤ refs R0 l0 o')%nat)
  ∧ (∀ j p, j ∈ todo → cell ao j = Some p → is_Some (recs s !! p) ∧ p ∉ l)
  ∧ (∀ i p, i ∉ todo → (i < 4)%nat → cell ao i = Some p →
       recs s !! p = Some (mk_added (Z.of_nat i) o)
       ∧ lh_find s (Z.of_nat i, e) l = Some (Some p)).

(** A lookup under [key] answers in [s'] with the index [l'] what it
    answers in [s] with the index [l], and the record it finds is as it
    was. *)
Definition same_answer (key : Z * ASN1_OBJECT) (s : registry) (l : list positive)
    (s' : registry) (l' : list positive) : Prop :=
  lh_find s' key l' = lh_find s key l
  ∧ ∀ q, lh_find s key l = Some (Some q) →
      recs s' !! q = recs s !! q ∧ view s' q = view s q.

(** What the loop leaves alone. *)
Definition same_env (s s' : registry) : Prop :=
  objs s' = objs s ∧ new_nid s' = new_nid s ∧ lock_ok s' = lock_ok s
  ∧ err_queue s' = err_queue s.

(** ** The added index *)
(** The index of the registry as a list ([NULL] holds nothing). *)
Definition index_of (st : registry) : list positive := default [] (added st).

(** The invariant of the added index: its records are distinct and
    allocated with their entries, no entry owns itself, and no entry is
    referenced by more than four records. *)
Definition index_ok (st : registry) : bool :=
  wf_index st && entries_static st
  && bool_decide (NoDup (index_of st))
  && at_most_four (recs st) (index_of st).

(** The entry [ossl_obj_add_object] leaves in the index for [obj]: the copy
    made by [OBJ_dup], the three ownership flags cleared (lines 314-316). *)
Definition registered (obj : ASN1_OBJECT) : ASN1_OBJECT :=
  set_flags (Z.land (Z.lor (flags obj) DYNAMIC_BITS) (Z.lnot DYNAMIC_BITS)) obj.

(** [obj] has the field that the key type [i] indexes (lines 271-277). *)
Definition has_key (obj : ASN1_OBJECT) (i : nat) : bool :=
  match i with
  | 0%nat => negb (obj_length obj =? 0)
  | 1%nat => bool_decide (sn obj ≠ None)
  | 2%nat => bool_decide (ln obj ≠ None)
  | 3%nat => true
  | _ => false
  end.

(** The record cells allocated so far, over the state [b] before the
    first of them. *)
Definition cells_ok (b : registry) (ao : list (option positive)) (s : registry) : Prop :=
  length ao = 4%nat
  ∧ (∀ i p, cell ao i = Some p → is_Some (recs s !! p) ∧ recs b !! p = None)
  ∧ (∀ i j p, cell ao i = Some p → cell ao j = Some p → i = j)
  ∧ recs b ⊆ recs s
  ∧ objs s = objs b ∧ added s = added b ∧ lh_error s = lh_error b
  ∧ new_nid s = new_nid b ∧ lock_ok s = lock_ok b ∧ err_queue s = err_queue b.

(** ** What [OBJ_create] registers *)
(** The entry [OBJ_create] registers: the names given, the NID drawn, and
    the content octets of the numerical OID if one was given. *)
Definition created (oid : option (list byte)) (sn ln : option string) (n : Z)
    : ASN1_OBJECT :=
  mk_obj sn ln n oid 0.

(** The temporary entry of [OBJ_create] (lines 797-809): what
    [d2i_ASN1_OBJECT] builds around the content octets, or the empty entry
    of [ASN1_OBJECT_new]. *)
Definition tmp_entry (d : option (list byte)) : ASN1_OBJECT :=
  mk_obj None None NID_undef d
    (match d with
     | Some _ => Z.lor ASN1_OBJECT_FLAG_DYNAMIC ASN1_OBJECT_FLAG_DYNAMIC_DATA
     | None => ASN1_OBJECT_FLAG_DYNAMIC
     end).

(** [d] holds the content octets of the numerical OID [oid], if any. *)
Definition oid_octets (oid : option string) (d : option (list byte)) : Prop :=
  match oid with
  | Some t => ∃ der, text_to_der t = Some der ∧ d = Some der
  | None => d = None
  end.

(** ** The allocations before the insert loop *)
(** The allocations [ossl_obj_add_object] requests before its insert loop
    (lines 269-291): the copy, one record for the NID and for each other
    key the entry has, and the index when there is none yet. *)
Definition pre_allocs (ob : ASN1_OBJECT) (st : registry) : nat :=
  (2 + (if has_key ob 0 then 1 else 0) + (if has_key ob 1 then 1 else 0)
   + (if has_key ob 2 then 1 else 0) + match added st with Some _ => 0 | None => 1 end)%nat.

(** Over the state [b], the state [s] has no record but those of [b] and
    the cells [ao]. *)
Definition cells_only (b : registry) (ao : list (option positive)) (s : registry) : Prop :=
  ∀ q, (∀ i, cell ao i ≠ Some q) → recs s !! q = recs b !! q.

(** [OPENSSL_free] of a record cell, on the records. *)
Definition del (c : option positive) (R : gmap positive ADDED_OBJ) : gmap positive ADDED_OBJ :=
  match c with Some p => delete p R | None => R end.

(** ** The insert loop and its rollback *)
(** A record filed under one of the four key types; a superseded record
    has the type -1 (line 299). *)
Definition visible (v : Z * ASN1_OBJECT) : bool := (0 <=? v.1) && (v.1 <=? 3).

(** The record [p] is visible and compares equal to the record [q]. *)
Definition clash (st : registry) (p q : positive) : bool :=
  match view st p, view st q with
  | Some v1, Some v2 => visible v1 && (added_obj_cmp v1 v2 =? 0)
  | _, _ => false
  end.

Fixpoint unique_keys (st : registry) (l : list positive) : bool :=
  match l with
  | [] => true
  | p :: l' =>
      forallb (λ q, negb (clash st p q) && negb (clash st q p)) l'
      && unique_keys st l'
  end.

(** No two visible records of the index compare equal: a key has one
    record, as in a table whose insert replaces. *)
Definition index_unique (st : registry) : bool := unique_keys st (index_of st).

(** [c->type = t] for a record pointer that may be NULL (lines 298-299,
    302-303, 306-307). *)
Definition retype (c : option positive) (t : Z) (s : registry) : registry :=
  match c with
  | Some q =>
      match recs s !! q with
      | Some rq => with_recs (insert q (mk_added t (obj rq))) s
      | None => s
      end
  | None => s
  end.

(** What the insert loop and its rollback leave alone. *)
Definition fields_of (sb s : registry) : Prop :=
  objs s = objs sb ∧ new_nid s = new_nid sb ∧ lock_ok s = lock_ok sb
  ∧ err_queue s = err_queue sb.

(** The cells of [ao] are allocated in [s], and those below [m] hold the
    record written at line 295-296. *)
Definition cells_stored (o : positive) (ao : list (option positive)) (m : nat)
    (s : registry) : Prop :=
  ∀ k p, cell ao k = Some p →
    is_Some (recs s !! p) ∧ ((k < m)%nat → recs s !! p = Some (mk_added (Z.of_nat k) o)).

(** The state of the insert loop before index [i], over the state [sb]
    before the loop: the records of the cells below [i] are in the index
    [l], the others are not. *)
Definition loop_inv (o : positive) (ao : list (option positive)) (sb : registry)
    (i : nat) (s : registry) (l : list positive) : Prop :=
  added s = Some l ∧ fields_of sb s
  ∧ (∀ q, q ∈ l → is_Some (view s q))
  ∧ NoDup l
  ∧ (∀ p q, p ∈ l → q ∈ l → p ≠ q → clash s p q = false)
  ∧ (∀ k p, cell ao k = Some p → (i ≤ k)%nat → is_Some (recs s !! p) ∧ p ∉ l)
  ∧ (∀ k p, cell ao k = Some p → (k < i)%nat →
       recs s !! p = Some (mk_added (Z.of_nat k) o)).

(** The state after a rollback: the index and the records of [sb], the
    cells aside. *)
Definition rolled (o : positive) (ao : list (option positive)) (sb : registry)
    (l0 : list positive) (m : nat) (s2 : registry) : Prop :=
  added s2 = Some l0 ∧ fields_of sb s2 ∧ cells_only sb ao s2
  ∧ cells_stored o ao m s2.

(** From every state that is as [s] but for the cells, the rollback below
    [i] (lines 304-308) returns and restores [sb]. *)
Definition can_roll (o : positive) (ao : list (option positive)) (sb : registry)
    (l0 : list positive) (i : nat) (s : registry) (l : list positive)
    (aop : list (option positive)) : Prop :=
  ∀ s1 m, (i ≤ m)%nat → added s1 = Some l → fields_of sb s1 →
    cells_only s ao s1 → cells_stored o ao m s1 →
    ∃ s2, rollback i ao aop s1 = Some (tt, s2) ∧ rolled o ao sb l0 m s2.


(** * Further states and inputs for the examples *)

(** A string hash for the examples: the length of the string. *)
Definition demo_strhash (s : option string) : Z :=
  match s with
  | Some x => Z.of_nat (String.length x)
  | None => 0
  end.

(** Another entry with the short name of [demo_sn_only]. *)
Definition demo_sn_again : ASN1_OBJECT :=
  mk_obj (Some "foo"%string) (Some "something else"%string) 7 None 0.

(** The built-in entry CN, and a caller's entry with its content octets. *)
Definition demo_cn : ASN1_OBJECT :=
  mk_obj (Some "CN"%string) (Some "commonName"%string) 2 (Some [x55; x04; x03]) 0.
Definition demo_cn_oid : ASN1_OBJECT :=
  mk_obj None None NID_undef (Some [x55; x04; x03]) 0.

(** The entry that [demo_registered] holds, in cell 2. *)
Definition demo_entry : ASN1_OBJECT :=
  mk_obj (Some "myShort"%string) (Some "My Long Name"%string) 3
    (Some [x2a; x03; x04; x05]) 0.

(** The registry after [OBJ_add_object] on [demo_sn_only]. *)
Definition demo_added : registry :=
  match OBJ_add_object demo_sn_only demo_st with
  | Some (_, st) => st
  | None => demo_st
  end.

(** The registry after five NIDs were reserved, and after an [OBJ_create]
    that follows. *)
Definition demo_reserved : registry :=
  match OBJ_new_nid 5 demo_st with
  | Some (_, st) => st
  | None => demo_st
  end.
Definition demo_reserved_created : registry :=
  match OBJ_create demo_table None (Some "late"%string) None demo_reserved with
  | Some (_, st) => st
  | None => demo_st
  end.

(** The registry after a second [OBJ_create]. *)
Definition demo_second : registry :=
  match OBJ_create demo_table (Some "1.2.3.4.6"%string) (Some "a2"%string) None
          demo_registered with
  | Some (_, st) => st
  | None => demo_st
  end.

(** A registry whose lock cannot be taken. *)
Definition demo_nolock : registry := mk_registry ∅ ∅ None false 3 false [] [].

(** A line of an object file as [BIO_gets] leaves it in a buffer of forty
    characters. *)
Definition demo_line : list ascii :=
  load_line (list_ascii_of_string "1.2.3.4.5 myShort MyLong" ++ [newline])
    (repeat NUL 40).

(** An entry with all four keys. *)
Definition demo_full : ASN1_OBJECT :=
  mk_obj (Some "foo"%string) (Some "bar"%string) 9 (Some [x2a; x03]) 0.

(** * Running the monad and the allocation plan *)

Lemma bind_eq {A B} (m : M A) (k : A → M B) st :
  bind m k st = match m st with Some (a, s) => k a s | None => None end.
Proof. reflexivity. Qed.

Lemma bind_inv {A B} (m : M A) (k : A → M B) st b st' :
  bind m k st = Some (b, st') → ∃ a s, m st = Some (a, s) ∧ k a s = Some (b, st').
Proof. unfold bind. destruct (m st) as [[a s]|]; [eauto|done]. Qed.

Lemma alloc_ok_eq st :
  alloc_ok st = Some (hd true (alloc_plan st), after_allocs 1 st).
Proof. destruct st as [? ? ? ? ? ? ? [|b p]]; reflexivity. Qed.

Lemma after_allocs_add j k st : after_allocs j (after_allocs k st) = after_allocs (k + j) st.
Proof. unfold after_allocs, with_plan. simpl. by rewrite drop_drop. Qed.

Lemma granted_S k s :
  granted (S k) s = hd true (alloc_plan s) && granted k (after_allocs 1 s).
Proof.
  unfold granted, after_allocs. simpl. destruct (alloc_plan s) as [|b p]; simpl; [|done].
  by rewrite take_nil.
Qed.

Lemma after_allocs_0 st : after_allocs 0 st = st.
Proof. by destruct st. Qed.

Lemma granted_add j k st :
  granted (j + k) st = granted j st && granted k (after_allocs j st).
Proof.
  unfold granted, after_allocs. simpl.
  rewrite <- (take_drop j (take (j + k) (alloc_plan st))), forallb_app.
  rewrite take_take, Nat.min_l by lia. f_equal.
  rewrite <- take_drop_commute. f_equal.
Qed.

Lemma all_granted_granted k st : all_granted st = true → granted k st = true.
Proof.
  unfold all_granted, granted. intros H.
  rewrite <- (take_drop k (alloc_plan st)), forallb_app in H.
  by apply andb_true_iff in H as [H _].
Qed.

Lemma BN_try_eq {A} (a : A) st :
  BN_try a st
  = Some (if granted 1 st then Some a else None, after_allocs 1 st).
Proof.
  unfold BN_try. rewrite bind_eq, alloc_ok_eq. unfold ret.
  replace (granted 1 st) with (hd true (alloc_plan st)); [done|].
  unfold granted. destruct (alloc_plan st) as [|b p]; simpl; [done|].
  by rewrite andb_true_r.
Qed.

Lemma all_granted_after k st :
  all_granted st = true → all_granted (after_allocs k st) = true.
Proof.
  unfold all_granted, after_allocs. simpl. intros H.
  rewrite <- (take_drop k (alloc_plan st)), forallb_app in H.
  by apply andb_true_iff in H as [_ H].
Qed.

(** * Properties of OBJ_obj2txt *)

Lemma poke_Some (m : list ascii) (d : nat) c :
  (d < length m)%nat →
  poke m (Z.of_nat d) c = Some (take d m ++ c :: drop (S d) m).
Proof.
  intros H. unfold poke.
  replace ((0 <=? Z.of_nat d) && (Z.of_nat d <? Z.of_nat (length m))) with true.
  2:{ symmetry. apply andb_true_iff. split; [apply Z.leb_le | apply Z.ltb_lt]; lia. }
  rewrite Nat2Z.id. f_equal. by apply insert_take_drop.
Qed.

Lemma strlcpy_spec (s : list ascii) : ∀ (m : list ascii) (d sz : nat),
  (d + S sz ≤ length m)%nat →
  OPENSSL_strlcpy m (Z.of_nat d) s (Z.of_nat (S sz))
  = Some (take d m ++ take sz s ++ NUL :: drop (d + Nat.min (length s) sz + 1) m).
Proof.
  induction s as [|c s IH]; intros m d sz H; simpl.
  - rewrite poke_Some by lia. rewrite take_nil. simpl.
    replace (d + 0 + 1)%nat with (S d) by lia. done.
  - destruct sz as [|sz].
    + simpl. rewrite poke_Some by lia. replace (d + 0 + 1)%nat with (S d) by lia. done.
    + replace (1 <? Z.of_nat (S (S sz))) with true by (symmetry; apply Z.ltb_lt; lia).
      rewrite poke_Some by lia. simpl.
      replace (Z.of_nat d + 1) with (Z.of_nat (S d)) by lia.
      replace (Z.of_nat (S (S sz)) - 1) with (Z.of_nat (S sz)) by lia.
      rewrite IH.
      2:{ rewrite length_app, length_take. simpl. rewrite length_drop. lia. }
      f_equal.
      assert (Hd : length (take d m) = d) by (rewrite length_take; lia).
      replace (take (S d) (take d m ++ c :: drop (S d) m)) with (take d m ++ [c]).
      2:{ rewrite take_app_ge by lia. rewrite Hd. replace (S d - d)%nat with 1%nat by lia.
          simpl. by rewrite take_0. }
      rewrite <- app_assoc. simpl. do 3 f_equal.
      rewrite drop_app_ge by lia. rewrite Hd.
      replace (S (d + Nat.min (length s) sz + 1) - d)%nat with (S (Nat.min (length s) sz + 1)) by lia.
      simpl. rewrite drop_drop. do 2 f_equal. lia.
Qed.

Lemma strlcpy_zero (s m : list ascii) d : OPENSSL_strlcpy m d s 0 = Some m.
Proof. by destruct s. Qed.

Lemma shows_grow cap out s m :
  (cap - 1 ≤ length out)%nat → shows cap out m → shows cap (out ++ s) m.
Proof.
  unfold shows. rewrite length_app. intros H [H1 H2].
  replace (Nat.min (length out + length s) (cap - 1)) with (cap - 1)%nat by lia.
  replace (Nat.min (length out) (cap - 1)) with (cap - 1)%nat in * by lia.
  split; [|done]. rewrite take_app_le by lia. done.
Qed.

Lemma shows_copy cap out s m d sz rest :
  d = Nat.min (length out) (cap - 1) → (d + sz + 1 ≤ cap)%nat →
  (length s ≤ sz ∨ d + sz + 1 = cap)%nat →
  (d = length out ∨ sz = 0)%nat →
  take d m = take d out → (d ≤ length m)%nat →
  shows cap (out ++ s) (take d m ++ take sz s ++ NUL :: rest).
Proof.
  intros Hd Hcap Hfit Hor Htk Hlen. unfold shows. rewrite length_app.
  assert (Hdl : length (take d m) = d) by (rewrite length_take; lia).
  destruct (decide (length out + length s ≤ cap - 1)%nat) as [Hle|Hgt].
  - assert (d = length out) by lia.
    assert (length s ≤ sz)%nat by lia.
    replace (Nat.min (length out + length s) (cap - 1)) with (d + length s)%nat by lia.
    rewrite (take_ge s) by lia.
    rewrite Htk. rewrite (take_ge out) by lia.
    split.
    + rewrite app_assoc. rewrite take_app_length' by (rewrite length_app; lia).
      rewrite take_ge by (rewrite length_app; lia). done.
    + rewrite app_assoc. rewrite lookup_app_r; rewrite length_app; [|lia].
      replace (d + length s - (length out + length s))%nat with 0%nat by lia. done.
  - replace (Nat.min (length out + length s) (cap - 1)) with (d + sz)%nat by lia.
    assert (Hsz : length (take sz s) = sz) by (rewrite length_take; lia).
    split.
    + rewrite app_assoc. rewrite take_app_length' by (rewrite length_app; lia).
      rewrite Htk. destruct Hor as [->| ->].
      * rewrite (take_ge out (length out)); [|lia]. rewrite take_app_ge by lia.
        replace (length out + sz - length out)%nat with sz by lia.
        done.
      * rewrite take_0, app_nil_r. replace (d + 0)%nat with d by lia.
        rewrite take_app_le by lia. done.
    + rewrite app_assoc. rewrite lookup_app_r; rewrite length_app; [|lia].
      replace (d + sz - (length (take d m) + length (take sz s)))%nat with 0%nat by lia. done.
Qed.

Lemma put_string_inv cap frame out s cur :
  cur_inv cap frame out cur →
  ∃ cur', put_string s cur = Some cur' ∧ cur_inv cap frame (out ++ s) cur'
          ∧ (mem cur = None ↔ mem cur' = None).
Proof.
  unfold cur_inv, put_string. destruct (mem cur) as [m|] eqn:Hm.
  2:{ intros _. exists cur. rewrite Hm. done. }
  intros (Hcap & Hint & Hfr & Hsh & b & Hb & Hcase).
  rewrite Hb. destruct Hcase as [[-> Hfull] | (Hb1 & Hb2 & Hpos & Hmin)].
  - change (Z.of_nat 0) with 0. unfold to_size_t. rewrite Z.mod_0_l by lia.
    rewrite strlcpy_zero. simpl.
    destruct (0 <? Z.of_nat (length s)) eqn:E;
      [apply Z.ltb_lt in E | apply Z.ltb_ge in E];
      (eexists; split; [reflexivity|]; simpl; split; [|done];
       split; [done|]; split; [done|]; split; [done|];
       split; [intros; apply shows_grow; [lia|auto] |];
       exists 0%nat; split; [lia|]; left; rewrite length_app; lia).
  - unfold to_size_t. rewrite Z.mod_small by lia. rewrite Hpos.
    destruct b as [|sz]; [lia|].
    rewrite strlcpy_spec by lia. simpl.
    set (d := (cap - S sz)%nat) in *.
    assert (Hor : (d = length out ∨ sz = 0)%nat) by lia.
    assert (Htk : take d m = take d out).
    { destruct Hsh as [Hsh _]; [lia|]. rewrite <- Hmin in Hsh. done. }
    assert (Hshows : shows cap (out ++ s)
      (take d m ++ take sz s ++ NUL :: drop (d + Nat.min (length s) sz + 1) m)).
    { apply shows_copy; auto; lia. }
    assert (Hlen' : length (take d m ++ take sz s ++ NUL :: drop (d + Nat.min (length s) sz + 1) m) = length m).
    { rewrite !length_app. simpl. rewrite !length_take, length_drop. lia. }
    assert (Hfr' : drop cap (take d m ++ take sz s ++ NUL :: drop (d + Nat.min (length s) sz + 1) m) = frame).
    { rewrite app_assoc. rewrite drop_app_ge; rewrite length_app, !length_take; [|lia].
      rewrite <- Hfr.
      replace (cap - (Nat.min d (length m) + Nat.min sz (length s)))%nat
        with (S (sz - Nat.min (length s) sz)) by lia.
      simpl. rewrite drop_drop. f_equal. lia. }
    destruct (Z.of_nat (S sz) <? Z.of_nat (length s)) eqn:E.
    + apply Z.ltb_lt in E. eexists; split; [reflexivity|]. simpl. split; [|done].
      split; [lia|]. split; [done|]. split; [done|]. split; [done|].
      exists 0%nat. split; [lia|]. left. rewrite length_app. lia.
    + apply Z.ltb_ge in E. eexists; split; [reflexivity|]. simpl. split; [|done].
      split; [lia|]. split; [done|]. split; [done|]. split; [done|].
      exists (S sz - length s)%nat. split; [lia|].
      rewrite length_app.
      destruct (decide (length s = S sz)); [left; lia|right]. lia.
Qed.

Lemma put_char_inv cap frame out c cur :
  cur_inv cap frame out cur →
  ∃ cur', put_char c cur = Some cur' ∧ cur_inv cap frame (out ++ [c]) cur'
          ∧ (mem cur = None ↔ mem cur' = None).
Proof.
  unfold cur_inv, put_char. destruct (mem cur) as [m|] eqn:Hm.
  2:{ intros _. exists cur. rewrite Hm. done. }
  intros (Hcap & Hint & Hfr & Hsh & b & Hb & Hcase).
  rewrite Hb. destruct (1 <? Z.of_nat b) eqn:E;
    [apply Z.ltb_lt in E | apply Z.ltb_ge in E].
  - destruct Hcase as [[-> _] | (Hb1 & Hb2 & Hpos & Hmin)]; [lia|].
    rewrite Hpos. set (d := (cap - b)%nat) in *.
    rewrite poke_Some by lia. simpl.
    replace (Z.of_nat d + 1) with (Z.of_nat (S d)) by lia.
    assert (Hl1 : length (take d m ++ c :: drop (S d) m) = length m).
    { rewrite length_app. simpl. rewrite length_take, length_drop. lia. }
    rewrite poke_Some by lia. simpl.
    assert (Hdl : length (take d m) = d) by (rewrite length_take; lia).
    assert (Ht : take (S d) (take d m ++ c :: drop (S d) m) = take d m ++ take 1 [c]).
    { rewrite take_app_ge by lia. rewrite Hdl.
      replace (S d - d)%nat with 1%nat by lia. simpl. by rewrite take_0. }
    rewrite Ht.
    assert (Htk : take d m = take d out).
    { destruct Hsh as [Hsh _]; [lia|]. rewrite <- Hmin in Hsh. done. }
    eexists; split; [reflexivity|]. simpl. split; [|done].
    split. { rewrite !length_app. simpl. rewrite length_take, length_drop.
             rewrite Hl1. lia. }
    split; [done|]. split.
    { rewrite <- app_assoc. simpl. rewrite drop_app_ge by lia. rewrite Hdl.
      replace (cap - d)%nat with (S (S (b - 2))) by lia. simpl.
      rewrite drop_drop. replace (S (S d) + (b - 2))%nat with (S d + S (b - 2))%nat by lia.
      rewrite <- drop_drop.
      replace (drop (S d) (take d m ++ c :: drop (S d) m)) with (drop (S d) m).
      2:{ rewrite drop_app_ge by lia. rewrite Hdl.
          replace (S d - d)%nat with 1%nat by lia. done. }
      rewrite drop_drop. rewrite <- Hfr. f_equal. lia. }
    split. { intros _. rewrite <- app_assoc. apply (shows_copy cap out [c] m d 1); auto; simpl; lia. }
    exists (b - 1)%nat. split; [lia|]. right. rewrite length_app. simpl. lia.
  - eexists; split; [reflexivity|]. rewrite Hm. split; [|done].
    split; [done|]. split; [done|]. split; [done|].
    split. { intros. apply shows_grow; [|auto].
             destruct Hcase as [[-> ?] | ?]; lia. }
    exists b. split; [done|]. rewrite length_app. simpl.
    destruct Hcase as [[-> ?] | ?]; [left|right]; lia.
Qed.

Lemma low7_range c : 0 ≤ Z.land (byte_val c) 127 < 128.
Proof.
  change 127 with (Z.ones 7). rewrite Z.land_ones by lia.
  apply Z.mod_pos_bound. lia.
Qed.

Lemma lor_low7 a b : 0 ≤ b < 128 → Z.lor (128 * a) b = 128 * a + b.
Proof.
  intros Hb.
  assert (H0 : Z.land (128 * a) b = 0).
  { apply Z.bits_inj'. intros n Hn. rewrite Z.land_spec, Z.bits_0.
    destruct (Z.lt_ge_cases n 7).
    - replace (128 * a) with (Z.shiftl a 7) by (rewrite Z.shiftl_mul_pow2; lia).
      rewrite Z.shiftl_spec_low by lia. done.
    - replace b with (b mod 2 ^ 7) by (apply Z.mod_small; lia).
      rewrite Z.mod_pow2_bits_high by lia. apply andb_false_r. }
  rewrite <- Z.lxor_lor by done. symmetry. by apply Z.add_nocarry_lxor.
Qed.

Lemma lift_eq {A} (o : option A) st :
  lift o st = match o with Some a => Some (a, st) | None => None end.
Proof. reflexivity. Qed.

Lemma granted_0 st : granted 0 st = true.
Proof. reflexivity. Qed.

Lemma put_arc_inv cap frame out (l : Z) (use_bn : bool) (bl : option Z) cur n (v : Z) st :
  cur_inv cap frame out cur → 0 ≤ v →
  (if use_bn then bl = Some v else l = v) →
  ∃ cur' k,
    put_arc l use_bn bl cur n st
    = Some ((cur', if granted k st
                   then Some (n + Z.of_nat (length ("."%char :: dec v))) else None),
            after_allocs k st)
    ∧ cur_inv cap frame (out ++ if granted k st then "."%char :: dec v else []) cur'
    ∧ (mem cur = None ↔ mem cur' = None)
    ∧ (use_bn = false → k = 0%nat).
Proof.
  intros Hinv Hv Hval. unfold put_arc. destruct use_bn.
  - subst bl. rewrite bind_eq, lift_eq, bind_eq. unfold BN_bn2dec. rewrite BN_try_eq.
    replace (v <? 0) with false by (symmetry; apply Z.ltb_ge; lia).
    destruct (granted 1 st) eqn:Eg.
    2:{ exists cur, 1%nat. rewrite Eg, app_nil_r. done. }
    rewrite bind_eq, lift_eq.
    destruct (mem cur) as [m|] eqn:Hm.
    + destruct (put_char_inv cap frame out "."%char cur Hinv) as (c1 & E1 & I1 & M1).
      destruct (put_string_inv cap frame (out ++ ["."%char]) (dec v) c1 I1) as (c2 & E2 & I2 & M2).
      rewrite E1. simpl. rewrite E2. exists c2, 1%nat. rewrite Eg. split.
      { unfold ret. do 4 f_equal. lia. }
      rewrite <- app_assoc in I2. split; [done|]. rewrite Hm in M1. split; [tauto|done].
    + exists cur, 1%nat. rewrite Eg. split.
      { unfold ret. do 4 f_equal. simpl length. lia. }
      split; [unfold cur_inv; by rewrite Hm|]. by rewrite Hm.
  - subst l. rewrite bind_eq, lift_eq.
    assert (∃ c2, match mem cur with
                  | Some _ => if 0 <? buf_len cur
                              then put_string ("."%char :: dec v) cur else Some cur
                  | None => Some cur
                  end = Some c2
              ∧ cur_inv cap frame (out ++ "."%char :: dec v) c2
              ∧ (mem cur = None ↔ mem c2 = None)) as (c2 & -> & I2 & M2).
    { destruct (mem cur) as [m|] eqn:Hm.
      + destruct (0 <? buf_len cur) eqn:E.
        * destruct (put_string_inv cap frame out ("."%char :: dec v) cur Hinv) as (c2 & E2 & I2 & M2).
          rewrite E2. exists c2. rewrite Hm in M2. done.
        * exists cur. split; [reflexivity|]. split; [|rewrite Hm; done].
          apply Z.ltb_ge in E. unfold cur_inv in *. rewrite Hm in *.
          destruct Hinv as (Hcap & Hint & Hfr & Hsh & b & Hb & Hcase).
          assert (b = 0%nat) by lia. subst b.
          destruct Hcase as [[_ Hfull]|?]; [|lia].
          split; [done|]. split; [done|]. split; [done|].
          split. { intros. apply shows_grow; [lia|auto]. }
          exists 0%nat. split; [done|]. left. rewrite length_app. lia.
      + exists cur. split; [reflexivity|]. split; [|rewrite Hm; done].
        unfold cur_inv. by rewrite Hm. }
    exists c2, 0%nat. rewrite granted_0, after_allocs_0. done.
Qed.

Lemma split_first_spec (l : Z) (use_bn : bool) (bl : option Z) (v : Z) st :
  (if use_bn then bl = Some v ∧ 2 ^ 57 ≤ l ∧ 2 ^ 57 ≤ v else l = v ∧ 0 ≤ v < 2 ^ 64) →
  ∃ l' bl' k,
    split_first l use_bn bl st
    = Some (if granted k st then Some (fst (first_arcs v), l', bl') else None,
            after_allocs k st)
    ∧ 0 ≤ snd (first_arcs v)
    ∧ (if use_bn then bl' = Some (snd (first_arcs v)) else l' = snd (first_arcs v))
    ∧ (use_bn = false → k = 0%nat).
Proof.
  intros Hw. unfold split_first, first_arcs. destruct use_bn.
  - destruct Hw as (-> & Hl & Hv).
    replace (80 <=? l) with true by (symmetry; apply Z.leb_le; lia).
    replace (v <? 80) with false by (symmetry; apply Z.ltb_ge; lia).
    rewrite bind_eq, lift_eq, bind_eq. unfold BN_sub_word. rewrite BN_try_eq.
    exists l, (Some (v - 80)), 1%nat. simpl. split; [by destruct (granted 1 st)|].
    split; [lia|done].
  - destruct Hw as (-> & Hv).
    destruct (80 <=? v) eqn:E; [apply Z.leb_le in E | apply Z.leb_gt in E].
    + replace (v <? 80) with false by (symmetry; apply Z.ltb_ge; lia).
      exists ((v - 80) mod 2 ^ 64), bl, 0%nat. rewrite granted_0, after_allocs_0.
      split; [done|]. simpl. split; [lia|]. split; [|done].
      apply Z.mod_small. lia.
    + replace (v <? 80) with true by (symmetry; apply Z.ltb_lt; lia).
      exists ((v - v / 40 * 40) mod 2 ^ 64), bl, 0%nat. rewrite granted_0, after_allocs_0.
      split; [done|]. simpl.
      assert (0 ≤ v mod 40 < 40) by (apply Z.mod_pos_bound; lia).
      split; [lia|]. split; [|done]. rewrite Z.mod_small.
      * rewrite Z.mod_eq by lia. lia.
      * rewrite (Z.mod_eq v 40) in H by lia. lia.
Qed.

Lemma put_subid_inv cap frame out (l : Z) (use_bn : bool) (bl : option Z)
    first cur n (v : Z) st :
  cur_inv cap frame out cur →
  (if use_bn then bl = Some v ∧ 2 ^ 57 ≤ l ∧ 2 ^ 57 ≤ v else l = v ∧ 0 ≤ v < 2 ^ 64) →
  ∃ bl' cur' pre k,
    put_subid l use_bn bl first cur n st
    = Some ((cur', if granted k st
                   then Some (bl', n + Z.of_nat (length (arc_text first v))) else None),
            after_allocs k st)
    ∧ cur_inv cap frame (out ++ pre) cur'
    ∧ pre `prefix_of` arc_text first v
    ∧ (granted k st = true → pre = arc_text first v)
    ∧ (mem cur = None ↔ mem cur' = None)
    ∧ (use_bn = false → k = 0%nat).
Proof.
  intros Hinv Hw. unfold put_subid, arc_text. destruct first.
  - destruct (split_first_spec l use_bn bl v st Hw) as (l' & bl' & k1 & E0 & Hnn & Hval & Hk1).
    rewrite bind_eq, E0.
    destruct (granted k1 st) eqn:Eg1.
    2:{ exists bl', cur, [], k1. rewrite Eg1, app_nil_r. split; [done|]. split; [done|].
        split; [apply prefix_nil|]. split; [done|]. split; [done|].
        intros Hb. rewrite (Hk1 Hb), granted_0 in Eg1. done. }
    destruct (put_char_inv cap frame out (ascii_of_N (Z.to_N (fst (first_arcs v) + 48))) cur Hinv)
      as (c1 & E1 & I1 & M1).
    rewrite bind_eq, lift_eq, E1, bind_eq.
    destruct (put_arc_inv cap frame _ l' use_bn bl' c1 (n + 1) _ (after_allocs k1 st) I1 Hnn Hval)
      as (c2 & k2 & E2 & I2 & M2 & Hk2).
    rewrite E2. rewrite after_allocs_add. cbn [fst snd]. unfold ret.
    exists bl', c2, (digit (fst (first_arcs v)) ::
                    if granted k2 (after_allocs k1 st)
                    then "."%char :: dec (snd (first_arcs v)) else []), (k1 + k2)%nat.
    rewrite granted_add, Eg1. cbn [andb]. split.
    { destruct (granted k2 (after_allocs k1 st)); [|done].
      do 5 f_equal. simpl length. lia. }
    split. { rewrite <- app_assoc in I2. exact I2. }
    split. { destruct (granted k2 (after_allocs k1 st)); [done|].
             by apply (prefix_app_r [_] [_] (_ :: _)). }
    split. { by intros ->. }
    split; [tauto|]. intros Hb. by rewrite (Hk1 Hb), (Hk2 Hb).
  - assert (Hv : 0 ≤ v) by (destruct use_bn; lia).
    assert (Hval : if use_bn then bl = Some v else l = v) by (destruct use_bn; tauto).
    destruct (put_arc_inv cap frame out l use_bn bl cur n v st Hinv Hv Hval)
      as (c2 & k & E2 & I2 & M2 & Hk).
    rewrite bind_eq, E2. cbn [fst snd]. unfold ret.
    exists bl, c2, (if granted k st then "."%char :: dec v else []), k.
    split. { by destruct (granted k st). }
    split; [done|]. split. { destruct (granted k st); [done|apply prefix_nil]. }
    split. { by intros ->. }
    done.
Qed.

Lemma first_subid_ge (p : list byte) : ∀ acc,
  0 ≤ acc → p ≠ [] → 128 * acc ≤ first_subid p acc.
Proof.
  induction p as [|c p IH]; intros acc Hacc Hne; [done|]. simpl.
  pose proof (low7_range c) as H7.
  destruct (negb (Z.land (byte_val c) 128 =? 0)); [|lia].
  destruct p as [|c' p']; [simpl; lia|].
  specialize (IH (128 * acc + Z.land (byte_val c) 127) ltac:(lia) ltac:(done)). lia.
Qed.

Lemma subids_first (p : list byte) : ∀ acc vs,
  p ≠ [] → subids p acc = Some vs → ∃ vs', vs = first_subid p acc :: vs'.
Proof.
  induction p as [|c p IH]; intros acc vs Hne; [done|]. simpl.
  destruct (negb (Z.land (byte_val c) 128 =? 0)).
  - destruct p as [|c' p']; [done|]. intros H. apply IH in H; done.
  - destruct (subids p 0) as [vs'|]; simpl; [|done]. intros [= <-]. eauto.
Qed.

Lemma subids_done_Some (p : list byte) : ∀ acc vs,
  subids p acc = Some vs → subids_done p acc = vs.
Proof.
  induction p as [|c p IH]; intros acc vs; simpl; [by intros [= <-]|].
  destruct (negb (Z.land (byte_val c) 128 =? 0)).
  - destruct p as [|c' p']; [done|]. apply IH.
  - destruct (subids p 0) as [vs'|] eqn:E; simpl; [|done]. intros [= <-].
    by rewrite (IH 0 vs').
Qed.

Lemma add_group_spec c (l : Z) (use_bn : bool) (bl : option Z) acc st :
  word_inv l use_bn bl acc →
  let v := 128 * acc + Z.land (byte_val c) 127 in
  ∃ l' bl' k,
    add_group (byte_val c) l use_bn bl st
    = Some (if granted k st then Some (l', bl') else None, after_allocs k st)
    ∧ (if use_bn then bl' = Some v ∧ 2 ^ 57 ≤ l' ∧ 2 ^ 57 ≤ v
       else l' = v ∧ 0 ≤ v < 2 ^ 64)
    ∧ (use_bn = false → k = 0%nat).
Proof.
  intros (Hacc & Hw) v. pose proof (low7_range c) as H7. unfold add_group.
  destruct use_bn.
  - destruct Hw as (-> & Hl & Hb).
    rewrite bind_eq, lift_eq, bind_eq. unfold BN_add_word. rewrite BN_try_eq.
    exists l, (Some v), 1%nat. split; [by destruct (granted 1 st)|].
    split; [|done]. unfold v. split; [done|]. lia.
  - destruct Hw as (-> & Hl). exists v, bl, 0%nat.
    rewrite granted_0, after_allocs_0, lor_low7 by done. split; [done|].
    split; [|done]. unfold v. lia.
Qed.

Lemma promote_spec (l : Z) (use_bn : bool) (bl : option Z) v st :
  (if use_bn then bl = Some v ∧ 2 ^ 57 ≤ l ∧ 2 ^ 57 ≤ v else l = v ∧ 0 ≤ v < 2 ^ 64) →
  ∃ use_bn' bl' k,
    promote l use_bn bl st
    = Some (if granted k st then Some (use_bn', bl') else None, after_allocs k st)
    ∧ (if use_bn' then bl' = Some v ∧ 2 ^ 57 ≤ l ∧ 2 ^ 57 ≤ v
       else l = v ∧ 0 ≤ v < 2 ^ 57)
    ∧ (use_bn = false → v < 2 ^ 57 → k = 0%nat ∧ use_bn' = false).
Proof.
  intros Hw. unfold promote. destruct use_bn.
  - cbn [negb andb]. exists true, bl, 0%nat. rewrite granted_0, after_allocs_0.
    split; [done|]. split; [done|]. done.
  - destruct Hw as (-> & Hv). cbn [negb andb].
    change (Z.shiftr ULONG_MAX 7) with (2 ^ 57 - 1).
    destruct (2 ^ 57 - 1 <? v) eqn:E; [apply Z.ltb_lt in E | apply Z.ltb_ge in E].
    2:{ exists false, bl, 0%nat. rewrite granted_0, after_allocs_0.
        split; [done|]. split; [lia|done]. }
    assert (Hset : ∀ b s0,
      (r <- BN_set_word b v;;
       ret (match r with Some b' => Some (true, Some b') | None => None end)) s0
      = Some (if granted 1 s0 then Some (true, Some v) else None, after_allocs 1 s0)).
    { intros b s0. rewrite bind_eq. unfold BN_set_word. rewrite BN_try_eq.
      by destruct (granted 1 s0). }
    rewrite bind_eq. destruct bl as [b|].
    + unfold ret at 1. rewrite Hset. exists true, (Some v), 1%nat.
      split; [done|]. split; [|lia]. split; [done|]. lia.
    + unfold BN_new. rewrite BN_try_eq. destruct (granted 1 st) eqn:Eg1.
      * rewrite Hset, after_allocs_add. exists true, (Some v), 2%nat.
        rewrite (granted_add 1 1), Eg1. cbn [andb]. split; [done|].
        split; [|lia]. split; [done|]. lia.
      * exists true, (Some v), 1%nat. rewrite Eg1. split; [done|].
        split; [|lia]. split; [done|]. lia.
Qed.

Lemma shift_group_spec (l : Z) (use_bn : bool) (bl : option Z) v st :
  (if use_bn then bl = Some v ∧ 2 ^ 57 ≤ l ∧ 2 ^ 57 ≤ v else l = v ∧ 0 ≤ v < 2 ^ 64) →
  ∃ l' use_bn' bl' k,
    shift_group l use_bn bl st
    = Some (if granted k st then Some (l', use_bn', bl') else None, after_allocs k st)
    ∧ (granted k st = true → word_inv l' use_bn' bl' v)
    ∧ (use_bn = false → v < 2 ^ 57 → k = 0%nat ∧ use_bn' = false).
Proof.
  intros Hw. unfold shift_group.
  assert (H128 : ∀ z, Z.shiftl z 7 = 128 * z) by (intros; rewrite Z.shiftl_mul_pow2; lia).
  assert (Hv : 0 ≤ v) by (destruct use_bn; lia).
  destruct (promote_spec l use_bn bl v st Hw) as (ub & bl1 & k1 & E1 & Hw1 & Hk1).
  rewrite bind_eq, E1. destruct (granted k1 st) eqn:Eg1.
  2:{ exists 0, false, None, k1. rewrite Eg1. split; [done|]. split; [done|].
      intros Hb Hlt. destruct (Hk1 Hb Hlt) as [Hz _]. rewrite Hz, granted_0 in Eg1. done. }
  destruct ub.
  - destruct Hw1 as (-> & Hl & Hb).
    rewrite bind_eq, lift_eq, bind_eq. unfold BN_lshift. rewrite BN_try_eq, H128.
    rewrite after_allocs_add.
    exists l, true, (Some (128 * v)), (k1 + 1)%nat. rewrite granted_add, Eg1. cbn [andb].
    split; [by destruct (granted 1 (after_allocs k1 st))|].
    split. { intros _. split; [lia|]. split; [done|]. lia. }
    intros Hub Hlt. lia.
  - destruct Hw1 as (-> & Hlt). exists (128 * v), false, bl1, k1. rewrite Eg1.
    unfold ret. rewrite H128, Z.mod_small by lia. split; [done|].
    split. { intros _. split; [lia|]. lia. }
    done.
Qed.

(** The loop of lines 520-614: the run consumes [k] outcomes of the
    allocation plan; if all of them are granted, every complete
    sub-identifier has been printed and the result is the length of the text
    (or -1 for a truncated content); if one is refused, the result is -1 and
    a beginning of the text has been printed. *)
Lemma obj2txt_arcs_spec (p : list byte) :
  ∀ l use_bn bl first cur n acc cap frame out st,
  word_inv l use_bn bl acc →
  cur_inv cap frame out cur →
  ∃ r cur' pre k,
    obj2txt_arcs p l use_bn bl first cur n st = Some ((r, cur'), after_allocs k st)
    ∧ (mem cur = None ↔ mem cur' = None)
    ∧ cur_inv cap frame (out ++ pre) cur'
    ∧ pre `prefix_of` arcs_text first (subids_done p acc)
    ∧ (if granted k st
       then pre = arcs_text first (subids_done p acc)
            ∧ r = match subids p acc with
                  | Some vs => n + Z.of_nat (length (arcs_text first vs))
                  | None => -1
                  end
       else r = -1)
    ∧ (use_bn = false → ∀ vs, subids p acc = Some vs → word_arcs vs = true → k = 0%nat).
Proof.
  induction p as [|c p IH]; intros l use_bn bl first cur n acc cap frame out st Hw Hinv.
  - simpl. exists n, cur, [], 0%nat. rewrite granted_0, after_allocs_0, app_nil_r.
    split; [done|]. split; [done|]. split; [done|]. split; [done|].
    split; [|done]. split; [done|]. lia.
  - cbn [obj2txt_arcs subids subids_done].
    pose proof (low7_range c) as H7.
    destruct (add_group_spec c l use_bn bl acc st Hw) as (l1 & bl1 & k1 & E1 & Hw1 & Hk1).
    set (v := 128 * acc + Z.land (byte_val c) 127) in *.
    assert (Hacc : 0 ≤ acc) by apply Hw.
    destruct (negb (Z.land (byte_val c) 128 =? 0)) eqn:Hcont.
    + destruct p as [|c' p'].
      { simpl. exists (-1), cur, [], 0%nat. rewrite granted_0, after_allocs_0, app_nil_r.
        split; [done|]. split; [done|]. split; [done|]. split; [apply prefix_nil|].
        split; [done|]. done. }
      replace (Z.of_nat (length (c' :: p')) =? 0) with false
        by (symmetry; apply Z.eqb_neq; simpl; lia).
      cbn [andb]. cbv zeta. rewrite bind_eq, E1.
      destruct (granted k1 st) eqn:Eg1.
      2:{ exists (-1), cur, [], k1. rewrite Eg1, app_nil_r.
          split; [done|]. split; [done|]. split; [done|]. split; [apply prefix_nil|].
          split; [done|]. intros Hb. rewrite (Hk1 Hb), granted_0 in Eg1. done. }
      destruct (shift_group_spec l1 use_bn bl1 v (after_allocs k1 st) Hw1)
        as (l2 & ub2 & bl2 & k2 & E2 & Hw2 & Hk2).
      rewrite bind_eq, E2.
      destruct (granted k2 (after_allocs k1 st)) eqn:Eg2; [specialize (Hw2 eq_refl)|].
      2:{ exists (-1), cur, [], (k1 + k2)%nat.
          rewrite after_allocs_add, granted_add, Eg1, Eg2, app_nil_r.
          split; [done|]. split; [done|]. split; [done|]. split; [apply prefix_nil|].
          split; [done|]. intros Hb vs Hvs Hwa.
          destruct (subids_first (c' :: p') v vs ltac:(done) Hvs) as (vs' & ->).
          pose proof (first_subid_ge (c' :: p') v ltac:(unfold v; lia) ltac:(done)) as Hge.
          cbn [word_arcs forallb] in Hwa. apply andb_true_iff in Hwa as [Hlt%Z.ltb_lt _].
          destruct (Hk2 Hb ltac:(lia)) as [Hz _].
          rewrite Hz, granted_0 in Eg2. done. }
      destruct (IH l2 ub2 bl2 first cur n v cap frame out
                  (after_allocs k2 (after_allocs k1 st)) Hw2 Hinv)
        as (r & c3 & pre & k3 & E3 & M3 & I3 & P3 & R3 & Hk3).
      rewrite E3. exists r, c3, pre, (k1 + k2 + k3)%nat.
      rewrite !after_allocs_add, !granted_add, Eg1, Eg2. cbn [andb].
      rewrite after_allocs_add in R3.
      split; [by rewrite Nat.add_assoc|].
      split; [done|]. split; [done|]. split; [done|].
      split; [done|]. intros Hb vs Hvs Hwa.
      destruct (subids_first (c' :: p') v vs ltac:(done) Hvs) as (vs' & Hvs').
      pose proof (first_subid_ge (c' :: p') v ltac:(unfold v; lia) ltac:(done)) as Hge.
      assert (Hlt : first_subid (c' :: p') v < 2 ^ 64).
      { rewrite Hvs' in Hwa. cbn [word_arcs forallb] in Hwa.
        by apply andb_true_iff in Hwa as [Hlt%Z.ltb_lt _]. }
      destruct (Hk2 Hb ltac:(lia)) as [Hz2 Hub].
      rewrite (Hk1 Hb), Hz2, (Hk3 Hub vs Hvs Hwa). done.
    + rewrite andb_false_r. cbv zeta. rewrite bind_eq, E1.
      destruct (granted k1 st) eqn:Eg1.
      2:{ exists (-1), cur, [], k1. rewrite Eg1, app_nil_r.
          split; [done|]. split; [done|]. split; [done|]. split; [apply prefix_nil|].
          split; [done|]. intros Hb. rewrite (Hk1 Hb), granted_0 in Eg1. done. }
      destruct (put_subid_inv cap frame out l1 use_bn bl1 first cur n v
                  (after_allocs k1 st) Hinv Hw1)
        as (bl2 & c2 & pre2 & k2 & E2 & I2 & P2 & F2 & M2 & Hk2).
      rewrite bind_eq, E2. cbn [fst snd].
      destruct (granted k2 (after_allocs k1 st)) eqn:Eg2.
      2:{ exists (-1), c2, pre2, (k1 + k2)%nat.
          rewrite after_allocs_add, granted_add, Eg1, Eg2.
          split; [done|]. split; [done|]. split; [done|].
          split. { by apply prefix_app_r. }
          split; [done|]. intros Hb. rewrite (Hk2 Hb), granted_0 in Eg2. done. }
      rewrite (F2 eq_refl) in I2.
      destruct (IH 0 false bl2 false c2 (n + Z.of_nat (length (arc_text first v))) 0
                  cap frame (out ++ arc_text first v)
                  (after_allocs k2 (after_allocs k1 st)))
        as (r & c3 & pre3 & k3 & E3 & M3 & I3 & P3 & R3 & Hk3).
      { split; [lia|]. simpl. lia. }
      { done. }
      rewrite E3. exists r, c3, (arc_text first v ++ pre3), (k1 + k2 + k3)%nat.
      rewrite !after_allocs_add, !granted_add, Eg1, Eg2. cbn [andb].
      rewrite after_allocs_add in R3.
      split; [by rewrite Nat.add_assoc|].
      split; [tauto|]. split; [by rewrite app_assoc|].
      split. { by apply prefix_app. }
      split.
      { destruct (granted k3 (after_allocs (k1 + k2) st)); [|done].
        destruct R3 as [-> ->]. split; [done|].
        destruct (subids p 0) as [vs|]; simpl; [|done]. rewrite length_app. lia. }
      intros Hb vs Hvs Hwa.
      destruct (subids p 0) as [vs'|] eqn:Es; simpl in Hvs; [|done].
      injection Hvs as <-. cbn [word_arcs forallb] in Hwa.
      apply andb_true_iff in Hwa as [_ Hwa].
      rewrite (Hk1 Hb), (Hk2 Hb), (Hk3 eq_refl vs' eq_refl Hwa). done.
Qed.

Lemma subids_None (p : list byte) : ∀ acc, subids p acc = None ↔ truncated p.
Proof.
  unfold truncated. induction p as [|c p IH]; intros acc; simpl.
  - split; [done|]. intros (c & H & _). done.
  - destruct (Z.land (byte_val c) 128 =? 0) eqn:E; simpl;
      [apply Z.eqb_eq in E | apply Z.eqb_neq in E].
    + destruct p as [|c' p'].
      * simpl. split; [done|]. intros (x & [= <-] & H). done.
      * specialize (IH 0). destruct (subids (c' :: p') 0) eqn:Es; simpl.
        -- split; [done|]. intros H. apply IH in H. done.
        -- split; [|done]. intros _. by apply IH.
    + destruct p as [|c' p'].
      * split; [|done]. intros _. exists c. done.
      * apply IH.
Qed.

Lemma cur_inv_length cap frame out cur m :
  cur_inv cap frame out cur → mem cur = Some m →
  length m = (cap + length frame)%nat.
Proof.
  unfold cur_inv. intros H Hm. rewrite Hm in H. destruct H as (Hcap & _ & Hfr & _).
  rewrite <- Hfr, length_drop. lia.
Qed.

Lemma first_store (buf : option (list ascii)) buf_len :
  buffer_ok buf buf_len →
  ∃ buf1,
    match buf with
    | Some m => if 0 <? buf_len then m' ← poke m 0 NUL; Some (Some m') else Some (Some m)
    | None => Some None
    end = Some buf1
    ∧ holds buf buf_len [] buf1
    ∧ cur_inv (Z.to_nat buf_len)
        (match buf with Some m => drop (Z.to_nat buf_len) m | None => [] end)
        [] (mk_cur buf1 0 buf_len).
Proof.
  intros [Hr Hfit]. destruct buf as [m|]; [|exists None; done].
  specialize (Hfit m eq_refl).
  destruct (0 <? buf_len) eqn:E; [apply Z.ltb_lt in E | apply Z.ltb_ge in E].
  - change 0 with (Z.of_nat 0) at 1. rewrite poke_Some by lia. simpl.
    eexists; split; [reflexivity|].
    assert (Hd : drop (Z.to_nat buf_len) (NUL :: drop 1 m) = drop (Z.to_nat buf_len) m).
    { replace (Z.to_nat buf_len) with (S (Z.to_nat buf_len - 1)) by lia. simpl.
      rewrite drop_drop. f_equal. }
    split.
    + simpl. split. { simpl. rewrite length_drop. lia. }
      split; [done|]. intros _. split; done.
    + unfold cur_inv. simpl. split. { rewrite length_drop. lia. }
      split; [lia|]. split; [done|]. split. { intros _. split; done. }
      exists (Z.to_nat buf_len). split; [lia|]. right. lia.
  - assert (buf_len = 0) by lia. subst. eexists; split; [reflexivity|]. split.
    + simpl. split; [done|]. split; [done|]. lia.
    + unfold cur_inv. simpl. split; [lia|]. split; [lia|]. split; [done|].
      split; [lia|]. exists 0%nat. split; [done|]. left. lia.
Qed.

Lemma cur_inv_holds buf buf_len out cur buf1 :
  buffer_ok buf buf_len →
  holds buf buf_len [] buf1 →
  (buf1 = None ↔ mem cur = None) →
  cur_inv (Z.to_nat buf_len)
    (match buf with Some m => drop (Z.to_nat buf_len) m | None => [] end) out cur →
  holds buf buf_len out (mem cur).
Proof.
  intros [Hnn Hfit] Hh Hiff Hinv. unfold holds in *.
  destruct buf as [m|], buf1 as [m1|]; try done.
  - destruct (mem cur) as [m'|] eqn:Hm;
      [|destruct Hiff as [_ H]; by specialize (H eq_refl)].
    pose proof (cur_inv_length _ _ _ _ _ Hinv Hm) as Hl.
    unfold cur_inv in Hinv. rewrite Hm in Hinv.
    destruct Hinv as (Hcap & _ & Hfr & Hsh & _).
    destruct Hh as (Hl1 & Hd1 & _).
    specialize (Hfit m eq_refl).
    split. { rewrite Hl, length_drop. lia. }
    split; [done|]. intros. apply Hsh. lia.
  - destruct (mem cur); [|done]. destruct Hiff as [H _]. by specialize (H eq_refl).
Qed.

Section Obj2txt.

Variable T : builtin.

Lemma OBJ_obj2txt_dotted buf buf_len a d no_name st st1 :
  buffer_ok buf buf_len → data a = Some d →
  obj2txt_name T a no_name st = Some (None, st1) →
  ∃ r buf' pre k,
    OBJ_obj2txt T buf buf_len (Some a) no_name st
    = Some ((r, buf'), after_allocs k st1)
    ∧ holds buf buf_len pre buf'
    ∧ pre `prefix_of` arcs_text true (subids_done d 0)
    ∧ (586 < Z.of_nat (length d) → r = -1 ∧ pre = [] ∧ k = 0%nat)
    ∧ (Z.of_nat (length d) ≤ 586 →
         (if granted k st1
          then pre = arcs_text true (subids_done d 0)
               ∧ r = match subids d 0 with
                     | Some vs => Z.of_nat (length (arcs_text true vs))
                     | None => -1
                     end
          else r = -1)
         ∧ (∀ vs, subids d 0 = Some vs → word_arcs vs = true → k = 0%nat)).
Proof.
  intros Hok Hd Hname.
  destruct (first_store buf buf_len Hok) as (buf1 & E1 & H1 & I1).
  unfold OBJ_obj2txt. rewrite bind_eq, lift_eq, E1, Hd, bind_eq, Hname.
  unfold obj_length. rewrite Hd.
  destruct (586 <? Z.of_nat (length d)) eqn:E; [apply Z.ltb_lt in E | apply Z.ltb_ge in E].
  - exists (-1), buf1, [], 0%nat. rewrite after_allocs_0. split; [done|].
    split; [done|]. split; [apply prefix_nil|]. split; [done|]. lia.
  - destruct (obj2txt_arcs_spec d 0 false None true (mk_cur buf1 0 buf_len) 0 0 _ _ [] st1
                ltac:(split; [lia|simpl; lia]) I1)
      as (r & c2 & pre & k & E2 & M2 & I2 & P2 & R2 & K2).
    rewrite bind_eq, E2. exists r, (mem c2), pre, k. split; [done|].
    split. { eapply cur_inv_holds; eauto. }
    split; [done|]. split; [lia|]. intros _. split; [|by apply K2].
    destruct (granted k st1); [|done]. destruct R2 as [-> ->]. split; [done|].
    destruct (subids d 0); [|done]. lia.
Qed.

Lemma OBJ_obj2txt_named buf buf_len a d no_name st st1 s :
  buffer_ok buf buf_len → data a = Some d →
  obj2txt_name T a no_name st = Some (Some s, st1) →
  ∃ buf',
    OBJ_obj2txt T buf buf_len (Some a) no_name st
    = Some ((Z.of_nat (length (list_ascii_of_string s)), buf'), st1)
    ∧ holds buf buf_len (list_ascii_of_string s) buf'.
Proof.
  intros Hok Hd Hname.
  destruct (first_store buf buf_len Hok) as (buf1 & E1 & H1 & I1).
  unfold OBJ_obj2txt, bind, lift. rewrite E1, Hd, Hname.
  destruct (put_string_inv _ _ _ (list_ascii_of_string s) _ I1) as (c2 & E2 & I2 & M2).
  unfold put_string in E2. simpl in E2, M2.
  destruct buf1 as [m1|].
  - destruct (OPENSSL_strlcpy m1 0 (list_ascii_of_string s) (to_size_t buf_len))
      as [m'|] eqn:Ec; [|done]. simpl in E2. simpl.
    exists (Some m'). split; [done|].
    assert (mem c2 = Some m') as <-.
    { destruct (buf_len <? _) in E2; injection E2 as <-; done. }
    eapply cur_inv_holds; eauto.
  - simpl. exists None. split; [done|]. injection E2 as <-.
    eapply (cur_inv_holds buf buf_len _ (mk_cur None 0 buf_len)); eauto.
Qed.

Lemma obj2txt_name_no_name a st : obj2txt_name T a true st = Some (None, st).
Proof. reflexivity. Qed.

(** Consequences of [holds] a caller relies on. *)
Lemma holds_terminated buf buf_len out buf' m :
  holds buf buf_len out buf' → buf = Some m → 1 ≤ buf_len →
  ∃ m' k, buf' = Some m' ∧ (Z.of_nat k < buf_len) ∧ m' !! k = Some NUL.
Proof.
  unfold holds. intros H -> Hcap. destruct buf' as [m'|]; [|done].
  destruct H as (_ & _ & H). destruct (H Hcap) as [_ Hn].
  eexists _, _. split; [done|]. split; [|exact Hn]. lia.
Qed.

Lemma holds_whole buf buf_len out buf' m :
  holds buf buf_len out buf' → buf = Some m → Z.of_nat (length out) < buf_len →
  ∃ m', buf' = Some m' ∧ take (length out) m' = out ∧ m' !! length out = Some NUL.
Proof.
  unfold holds, shows. intros H -> Hcap. destruct buf' as [m'|]; [|done].
  destruct H as (_ & _ & H). destruct H as [H1 H2]; [lia|].
  replace (Nat.min (length out) (Z.to_nat buf_len - 1)) with (length out) in * by lia.
  rewrite (take_ge out) in H1 by lia. eauto.
Qed.

(** C10.  [OBJ_obj2txt] called on a NULL object, or on an object whose
    [data] pointer is NULL, returns 0, which is not the error value -1, and
    leaves the registry as it was.  A NULL buffer stays NULL; a buffer of
    capacity at least 1 gets a NUL as its first character, so that it reads
    as the empty string; a buffer of capacity below 1 is not written.  The
    buffer is assumed to be as long as the capacity the caller states. *)
Theorem obj2txt_absent_object buf buf_len a no_name st :
  fits buf buf_len →
  a = None ∨ (∃ o, a = Some o ∧ data o = None) →
  ∃ buf',
    OBJ_obj2txt T buf buf_len a no_name st = Some ((0, buf'), st)
    ∧ (buf = None → buf' = None)
    ∧ (∀ m, buf = Some m → 1 ≤ buf_len →
         buf' = Some (<[0%nat := NUL]> m) ∧ c_string (<[0%nat := NUL]> m) 0 = EmptyString)
    ∧ (∀ m, buf = Some m → buf_len < 1 → buf' = Some m).
Proof.
  intros Hfit Ha.
  assert (Hrun : OBJ_obj2txt T buf buf_len a no_name st
     = match (match buf with
              | Some m => if 0 <? buf_len then m' ← poke m 0 NUL; Some (Some m') else Some (Some m)
              | None => Some None
              end) with Some b => Some ((0, b), st) | None => None end).
  { unfold OBJ_obj2txt, bind, lift.
    destruct (match buf with Some m => _ | None => _ end) as [b|]; [|done].
    destruct Ha as [-> | (o & -> & Ho)]; [done|]. by rewrite Ho. }
  rewrite Hrun. clear Hrun.
  destruct buf as [m|].
  - specialize (Hfit m eq_refl).
    destruct (0 <? buf_len) eqn:E; [apply Z.ltb_lt in E | apply Z.ltb_ge in E].
    + change 0 with (Z.of_nat 0) at 1. rewrite poke_Some by lia. simpl.
      eexists. split; [reflexivity|]. split; [done|].
      destruct m as [|x m]; [simpl in Hfit; lia|].
      split; [|intros; lia]. intros ? [= <-] _. simpl. rewrite drop_0. done.
    + eexists. split; [reflexivity|]. split; [done|]. split; [intros; lia|].
      by intros ? [= <-] _.
  - eexists. split; [reflexivity|]. done.
Qed.


(** C2.  When [OBJ_obj2txt] prints non-empty content octets in dotted form
    and does not return -1, the content is a sequence [v0 :: vs'] of
    complete sub-identifiers and the text is [a0.b0] followed by the arcs
    [vs'], each behind a dot, where the first two arcs are got from the
    first sub-identifier: [a0 = v0 / 40] and [b0 = v0 mod 40] if [v0 < 80],
    else [a0 = 2] and [b0 = v0 - 80].  [v0] is the sub-identifier as an
    unbounded integer, so this covers the values that the code moves from
    the machine word to a BIGNUM.  The return value is the length of the
    whole text and the buffer holds what fits of it. *)
Theorem obj2txt_first_arcs buf buf_len a d no_name st st1 ret buf' st2 :
  buffer_ok buf buf_len →
  data a = Some d → d ≠ [] →
  obj2txt_name T a no_name st = Some (None, st1) →
  OBJ_obj2txt T buf buf_len (Some a) no_name st = Some ((ret, buf'), st2) →
  ret ≠ -1 →
  let v0 := first_subid d 0 in
  let a0 := if v0 <? 80 then v0 / 40 else 2 in
  let b0 := if v0 <? 80 then v0 mod 40 else v0 - 80 in
  ∃ vs' : list Z,
    subids d 0 = Some (v0 :: vs')
    ∧ let out := digit a0 :: "."%char :: dec b0 ++ arcs_text false vs' in
      ret = Z.of_nat (length out) ∧ holds buf buf_len out buf'.
Proof.
  intros Hok Hd Hne Hname Hrun Hret v0 a0 b0.
  destruct (OBJ_obj2txt_dotted buf buf_len a d no_name st st1 Hok Hd Hname)
    as (r & buf2 & pre & k & E & Hh & Hp & Hlong & Hshort).
  rewrite Hrun in E. injection E as -> -> ->.
  destruct (Z.lt_ge_cases 586 (Z.of_nat (length d))) as [H5|H5].
  { by destruct (Hlong H5). }
  destruct (Hshort ltac:(lia)) as [Hr _].
  destruct (granted k st1); [|done]. destruct Hr as [-> Hr].
  destruct (subids d 0) as [vs|] eqn:Es; [|done].
  destruct (subids_first d 0 vs Hne Es) as (vs' & ->).
  rewrite (subids_done_Some d 0 _ Es) in Hh.
  exists vs'. split; [done|]. cbv zeta.
  replace (digit a0 :: "."%char :: dec b0 ++ arcs_text false vs')
    with (arcs_text true (first_subid d 0 :: vs')).
  { done. }
  simpl. unfold arc_text, first_arcs. fold v0. unfold a0, b0.
  destruct (v0 <? 80); done.
Qed.

(** C5, as amended.  For an object with content octets that is printed by
    name, or whose content is accepted (at most 586 octets, last octet
    without continuation bit), there is one text [out] such that for every
    buffer and every capacity the call returns, and a buffer of capacity at
    least 1 has a NUL within its capacity afterwards.  The call makes [k]
    requests of the allocation plan: none when the object is printed by
    name or when every sub-identifier is below 2^64.  If none of them is
    refused, the call returns the length of [out], whether or not the
    buffer can take it, the buffer holds what fits of [out], and a buffer of
    capacity above the length of [out] holds [out] followed by a NUL.  If
    one is refused, the call returns -1. *)
Theorem obj2txt_length_and_terminator a d no_name st s st1 :
  data a = Some d →
  obj2txt_name T a no_name st = Some (s, st1) →
  (s = None → Z.of_nat (length d) ≤ 586 ∧ ¬ truncated d) →
  ∃ out : list ascii,
    ∀ buf buf_len, buffer_ok buf buf_len →
      ∃ r buf' k,
        OBJ_obj2txt T buf buf_len (Some a) no_name st
        = Some ((r, buf'), after_allocs k st1)
        ∧ (∀ m, buf = Some m → 1 ≤ buf_len →
             ∃ m' j, buf' = Some m' ∧ Z.of_nat j < buf_len ∧ m' !! j = Some NUL)
        ∧ (is_Some s ∨ (∀ vs, subids d 0 = Some vs → word_arcs vs = true) →
             k = 0%nat)
        ∧ (granted k st1 = false → r = -1)
        ∧ (granted k st1 = true →
             r = Z.of_nat (length out)
             ∧ holds buf buf_len out buf'
             ∧ (∀ m, buf = Some m → Z.of_nat (length out) < buf_len →
                  ∃ m', buf' = Some m' ∧ take (length out) m' = out
                        ∧ m' !! length out = Some NUL)).
Proof.
  intros Hd Hname Hvalid. destruct s as [s|].
  - exists (list_ascii_of_string s). intros buf buf_len Hok.
    destruct (OBJ_obj2txt_named buf buf_len a d no_name st st1 s Hok Hd Hname)
      as (buf' & E & Hh).
    exists (Z.of_nat (length (list_ascii_of_string s))), buf', 0%nat.
    rewrite after_allocs_0, granted_0. split; [done|].
    split. { intros m Hm Hcap.
             by apply (holds_terminated buf buf_len (list_ascii_of_string s) buf' m). }
    split; [done|]. split; [done|]. intros _. split; [done|]. split; [done|].
    intros m Hm Hcap. by apply (holds_whole buf buf_len _ buf' m).
  - destruct (Hvalid eq_refl) as [Hlen Hnt].
    destruct (subids d 0) as [vs|] eqn:Es.
    2:{ apply subids_None in Es. done. }
    exists (arcs_text true vs). intros buf buf_len Hok.
    destruct (OBJ_obj2txt_dotted buf buf_len a d no_name st st1 Hok Hd Hname)
      as (r & buf' & pre & k & E & Hh & Hp & _ & Hshort).
    destruct (Hshort Hlen) as [Hr Hk].
    exists r, buf', k. split; [done|].
    split. { intros m Hm Hcap. by apply (holds_terminated buf buf_len pre buf' m). }
    split. { intros [[? [=]]|Hw]. apply (Hk vs Es). by apply Hw. }
    split. { intros Hg. by rewrite Hg in Hr. }
    intros Hg. rewrite Hg, Es, (subids_done_Some d 0 vs Es) in Hr.
    destruct Hr as [-> ->]. split; [done|]. split; [done|].
    intros m Hm Hcap. by apply (holds_whole buf buf_len _ buf' m).
Qed.

End Obj2txt.

(** * Properties of the lookups *)

Lemma ossl_bsearch_go_None (cmp : nat → option Z) (base : list nat) :
  (∀ e, e ∈ base → ∃ c, cmp e = Some c ∧ c ≠ 0) →
  ∀ fuel l h, (h ≤ length base)%nat →
  ossl_bsearch_go fuel cmp base l h = Some None.
Proof.
  intros Hcmp. induction fuel as [|fuel IH]; intros l h Hh; [done|]. cbn [ossl_bsearch_go].
  destruct (l <? h)%nat eqn:E; [|done]. apply Nat.ltb_lt in E.
  assert (Hi : ((l + h) / 2 < h)%nat) by (apply Nat.Div0.div_lt_upper_bound; lia).
  destruct (lookup_lt_is_Some_2 base ((l + h) / 2)%nat) as [e He]; [lia|].
  rewrite He. cbn [mbind option_bind].
  destruct (Hcmp e) as (c & -> & Hc). { by eapply list_elem_of_lookup_2. }
  cbn [mbind option_bind]. destruct (c <? 0) eqn:E1; [apply IH; lia|].
  destruct (0 <? c) eqn:E2; [apply IH; lia|].
  apply Z.ltb_ge in E1, E2. lia.
Qed.

Lemma strcmp_0 a b : strcmp a b = 0 → a = b.
Proof.
  unfold strcmp. destruct (String.compare a b) eqn:E; try done.
  intros _. by apply String.compare_eq_iff.
Qed.

Lemma byte_val_inj x y : byte_val x = byte_val y → x = y.
Proof.
  unfold byte_val. intros H. apply N2Z.inj in H.
  pose proof (Byte.of_to_N x) as Hx. rewrite H, Byte.of_to_N in Hx. congruence.
Qed.

Lemma memcmp_0 (a : list byte) : ∀ b n,
  length a = n → length b = n → memcmp a b n = 0 → a = b.
Proof.
  induction a as [|x a IH]; intros [|y b] [|n]; simpl; try done.
  intros [= Ha] [= Hb].
  destruct (byte_val x <? byte_val y) eqn:E1; [done|].
  destruct (byte_val y <? byte_val x) eqn:E2; [done|].
  apply Z.ltb_ge in E1, E2. intros H. f_equal; [|by eapply IH].
  apply byte_val_inj. lia.
Qed.

Lemma existsb_false {A} (f : A → bool) (l : list A) x :
  existsb f l = false → x ∈ l → f x = false.
Proof.
  induction l as [|y l IH]; simpl; [by intros _ ?%elem_of_nil|].
  intros [Hy Hl]%orb_false_iff [->|Hx]%elem_of_cons; auto.
Qed.

Lemma forallb_elem {A} (f : A → bool) (l : list A) x :
  forallb f l = true → x ∈ l → f x = true.
Proof.
  induction l as [|y l IH]; simpl; [by intros _ ?%elem_of_nil|].
  intros [Hy Hl]%andb_true_iff [->|Hx]%elem_of_cons; auto.
Qed.

Lemma lh_find_None st key (l : list positive) :
  (∀ p, p ∈ l → ∃ v, view st p = Some v ∧ added_obj_cmp v key ≠ 0) →
  lh_find st key l = Some None.
Proof.
  induction l as [|p l IH]; intros H; [done|]. simpl.
  destruct (H p) as (v & -> & Hv); [by left|]. simpl.
  apply Z.eqb_neq in Hv. rewrite Hv. apply IH. intros q Hq. apply H. by right.
Qed.

(** A stored record compares equal to a key only under the key's tag and
    with the key's field. *)
Lemma added_obj_cmp_0 t o k key :
  added_obj_cmp (t, o) (k, key) = 0 →
  t = k ∧
  ((k = ADDED_SNAME → sn key ≠ None → sn o = sn key)
   ∧ (k = ADDED_LNAME → ln key ≠ None → ln o = ln key)
   ∧ (k = ADDED_NID → nid o = nid key)
   ∧ (k = ADDED_DATA → obj_length key ≠ 0 → data o = data key)).
Proof.
  unfold added_obj_cmp. simpl.
  destruct (t - k =? 0) eqn:E; simpl; [apply Z.eqb_eq in E | apply Z.eqb_neq in E; lia].
  assert (t = k) as -> by lia. intros H. split; [done|].
  unfold ADDED_SNAME, ADDED_LNAME, ADDED_NID, ADDED_DATA in *.
  repeat split; intros -> ; simpl in H.
  - intros Hk. destruct (sn o), (sn key); try done. by apply strcmp_0 in H as ->.
  - intros Hk. destruct (ln o), (ln key); try done. by apply strcmp_0 in H as ->.
  - lia.
  - intros Hk. destruct (obj_length o - obj_length key =? 0) eqn:El; simpl in H;
      [apply Z.eqb_eq in El | apply Z.eqb_neq in El; lia].
    unfold obj_length in *. destruct (data o) as [x|], (data key) as [y|]; simpl in *; try lia.
    f_equal. eapply memcmp_0; [| |exact H]; lia.
Qed.

Lemma index_has_false st t P l p :
  index_has st t P = false → wf_index st = true → added st = Some l → p ∈ l →
  ∃ t' o, view st p = Some (t', o) ∧ (t' = t → P o = false).
Proof.
  unfold index_has, wf_index. intros H Hwf Hl Hp. rewrite Hl in *.
  pose proof (existsb_false _ _ _ H Hp) as H1.
  pose proof (forallb_elem _ _ _ Hwf Hp) as H2. simpl in *.
  destruct (view st p) as [[t' o]|]; [|done].
  exists t', o. split; [done|]. intros ->. rewrite Z.eqb_refl in H1. done.
Qed.

Lemma retrieve_absent st t key (P : ASN1_OBJECT → bool) l :
  wf_index st = true → index_has st t P = false →
  (∀ o, added_obj_cmp (t, o) (t, key) = 0 → P o = true) →
  added st = Some l →
  lh_ADDED_OBJ_retrieve (t, key) st = Some (None, st).
Proof.
  intros Hwf Hno HP Hl. unfold lh_ADDED_OBJ_retrieve. rewrite Hl.
  rewrite lh_find_None; [done|]. intros p Hp.
  destruct (index_has_false st t P l p Hno Hwf Hl Hp) as (t' & o & Hv & Hf).
  exists (t', o). split; [done|]. intros H0.
  destruct (added_obj_cmp_0 _ _ _ _ H0) as [-> _].
  rewrite (HP o H0) in Hf. by specialize (Hf eq_refl).
Qed.

Section Lookups.
Variable T : builtin.
Hypothesis Hwf : wf_builtin T = true.

Lemma bsearch_sn_absent s :
  builtin_has T (sn_objs T) (has_sn s) = false →
  OBJ_bsearch_sn T (set_names (Some s) None key_obj) = Some None.
Proof.
  intros Hno. apply ossl_bsearch_go_None; [|done]. intros e He.
  unfold wf_builtin in Hwf. apply andb_true_iff in Hwf as [[H1 _]%andb_true_iff _].
  pose proof (forallb_elem _ _ _ H1 He) as Hw.
  pose proof (existsb_false _ _ _ Hno He) as Hn. simpl in Hw, Hn.
  unfold sn_cmp. simpl. destruct (nid_objs T !! e) as [x|]; [|done]. simpl.
  apply bool_decide_eq_true in Hw. apply bool_decide_eq_false in Hn.
  destruct (sn x) as [y|]; [|done]. simpl. eexists; split; [done|].
  intros H0%strcmp_0. congruence.
Qed.

Lemma bsearch_ln_absent s :
  builtin_has T (ln_objs T) (has_ln s) = false →
  OBJ_bsearch_ln T (set_names None (Some s) key_obj) = Some None.
Proof.
  intros Hno. apply ossl_bsearch_go_None; [|done]. intros e He.
  unfold wf_builtin in Hwf. apply andb_true_iff in Hwf as [[_ H1]%andb_true_iff _].
  pose proof (forallb_elem _ _ _ H1 He) as Hw.
  pose proof (existsb_false _ _ _ Hno He) as Hn. simpl in Hw, Hn.
  unfold ln_cmp. simpl. destruct (nid_objs T !! e) as [x|]; [|done]. simpl.
  apply bool_decide_eq_true in Hw. apply bool_decide_eq_false in Hn.
  destruct (ln x) as [y|]; [|done]. simpl. eexists; split; [done|].
  intros H0%strcmp_0. congruence.
Qed.

Lemma bsearch_obj_absent a d :
  data a = Some d → d ≠ [] →
  builtin_has T (obj_objs T) (has_der d) = false →
  OBJ_bsearch_obj T a = Some None.
Proof.
  intros Hd Hne Hno. apply ossl_bsearch_go_None; [|done]. intros e He.
  unfold wf_builtin in Hwf. apply andb_true_iff in Hwf as [_ H1].
  pose proof (forallb_elem _ _ _ H1 He) as Hw.
  pose proof (existsb_false _ _ _ Hno He) as Hn. simpl in Hw, Hn.
  unfold obj_cmp. destruct (nid_objs T !! e) as [x|]; [|done]. simpl.
  apply bool_decide_eq_false in Hn.
  destruct (obj_length a - obj_length x =? 0) eqn:E; simpl;
    [apply Z.eqb_eq in E | apply Z.eqb_neq in E; eauto].
  unfold obj_length in *. rewrite Hd in *.
  destruct d as [|b d]; [done|].
  replace (Z.of_nat (length (b :: d)) =? 0) with false by (symmetry; apply Z.eqb_neq; simpl; lia).
  destruct (data x) as [y|]; simpl in *; [|lia]. eexists; split; [done|].
  intros H0. apply Hn. f_equal. symmetry. eapply memcmp_0; [| |exact H0]; simpl; lia.
Qed.

End Lookups.

Section Lookups2.
Variable T : builtin.

Ltac run := unfold added_nid, bind, ret, get, lift, modify, ERR_raise,
  ossl_obj_read_lock, ossl_obj_unlock; simpl.

(** C3, amended.  For a key that is in neither the built-in table nor the
    added index: [OBJ_sn2nid], [OBJ_ln2nid] and [OBJ_obj2nid] return
    [NID_undef] and record no error when the read lock is obtained
    ([OBJ_obj2nid] does not take the lock for an entry without content
    octets); they record [ERR_R_UNABLE_TO_GET_READ_LOCK] when it is refused.
    For [OBJ_obj2nid] the key is the content octets of an entry whose own
    [nid] field is unset: a set [nid] field is returned as it is, without
    any lookup (lines 394-395).  [OBJ_nid2obj] returns NULL and always
    records an error: [OBJ_R_UNKNOWN_NID] when the lock is obtained, the
    lock error if not. *)
Theorem lookups_not_found st (s l : string) (a : ASN1_OBJECT) (n : Z) :
  wf_builtin T = true → wf_index st = true →
  sn_known T st s = false →
  ln_known T st l = false →
  nid a = NID_undef → (∀ d, data a = Some d → der_known T st d = false) →
  nid_known T st n = false →
  let st_lock :=
    if lock_ok st then st else with_err ERR_R_UNABLE_TO_GET_READ_LOCK st in
  OBJ_sn2nid T s st = Some (NID_undef, st_lock)
  ∧ OBJ_ln2nid T l st = Some (NID_undef, st_lock)
  ∧ OBJ_obj2nid T (Some a) st
    = Some (NID_undef, if obj_length a =? 0 then st else st_lock)
  ∧ OBJ_nid2obj T n st
    = Some (None, with_err (if lock_ok st then OBJ_R_UNKNOWN_NID
                            else ERR_R_UNABLE_TO_GET_READ_LOCK) st).
Proof.
  intros Hwf Hwi Hs Hl Ha Hd Hn st_lock. unfold st_lock.
  apply orb_false_iff in Hs as [Hs1 Hs2].
  apply orb_false_iff in Hl as [Hl1 Hl2].
  apply orb_false_iff in Hn as [Hn1 Hn2].
  repeat split.
  - unfold OBJ_sn2nid. run. rewrite (bsearch_sn_absent T Hwf s Hs1). simpl.
    destruct (lock_ok st); simpl; [|done].
    destruct (added st) as [l0|] eqn:El; [|done].
    rewrite (retrieve_absent st ADDED_SNAME _ (has_sn s) l0 Hwi Hs2); [done| |done].
    intros o H0. destruct (added_obj_cmp_0 _ _ _ _ H0) as (_ & H1 & _).
    apply bool_decide_eq_true. by apply H1.
  - unfold OBJ_ln2nid. run. rewrite (bsearch_ln_absent T Hwf l Hl1). simpl.
    destruct (lock_ok st); simpl; [|done].
    destruct (added st) as [l0|] eqn:El; [|done].
    rewrite (retrieve_absent st ADDED_LNAME _ (has_ln l) l0 Hwi Hl2); [done| |done].
    intros o H0. destruct (added_obj_cmp_0 _ _ _ _ H0) as (_ & _ & H1 & _).
    apply bool_decide_eq_true. by apply H1.
  - unfold OBJ_obj2nid, ossl_obj_obj2nid. rewrite Ha. simpl.
    destruct (obj_length a =? 0) eqn:E0; [done|]. apply Z.eqb_neq in E0.
    destruct (data a) as [d|] eqn:Ed; [|by unfold obj_length in E0; rewrite Ed in E0].
    specialize (Hd d eq_refl). apply orb_false_iff in Hd as [Hd1 Hd2].
    assert (d ≠ []) by (intros ->; unfold obj_length in E0; by rewrite Ed in E0).
    run. rewrite (bsearch_obj_absent T Hwf a d Ed H Hd1). simpl.
    destruct (lock_ok st); simpl; [|done].
    destruct (added st) as [l0|] eqn:El; [|done].
    rewrite (retrieve_absent st ADDED_DATA _ (has_der d) l0 Hwi Hd2); [done| |done].
    intros o H0. destruct (added_obj_cmp_0 _ _ _ _ H0) as (_ & _ & _ & _ & H1).
    apply bool_decide_eq_true. rewrite <- Ed. by apply H1.
  - unfold OBJ_nid2obj. rewrite Hn1. run.
    destruct (lock_ok st); simpl; [|done].
    destruct (added st) as [l0|] eqn:El; [|done].
    rewrite (retrieve_absent st ADDED_NID _ (has_nid n) l0 Hwi Hn2); [done| |done].
    intros o H0. destruct (added_obj_cmp_0 _ _ _ _ H0) as (_ & _ & _ & H1 & _).
    apply Z.eqb_eq. by apply H1.
Qed.
End Lookups2.

(** * Properties of registration *)

Lemma extends_refl st : extends st st.
Proof. by repeat split. Qed.

Lemma extends_trans a b c : extends a b → extends b c → extends a c.
Proof.
  intros (?&?&?&?) (?&?&?&?). repeat split; try congruence. by etrans.
Qed.

Lemma quiet_refl st : quiet st st.
Proof. by repeat split. Qed.

Lemma quiet_trans a b c : quiet a b → quiet b c → quiet a c.
Proof.
  intros (?&?&?&?&?&?&?) (?&?&?&?&?&?&?). repeat split; congruence.
Qed.

Lemma quiet_extends st st' : quiet st st' → extends st st'.
Proof. intros (Ho&?&?&?&?&?&?). repeat split; try done. by rewrite Ho. Qed.

Lemma lookup_post_quiet st st' : lookup_post st st' → quiet st st'.
Proof. intros [->| ->]; by repeat split. Qed.

Lemma quiet_wf_index st st' : quiet st st' → wf_index st = true → wf_index st' = true.
Proof.
  intros (Ho & Hr & Ha & _). unfold wf_index, view. by rewrite Ha, Hr, Ho.
Qed.

Lemma view_extends st st' p v : extends st st' → view st p = Some v → view st' p = Some v.
Proof.
  intros (Hr & _ & _ & Ho). unfold view. rewrite Hr.
  destruct (recs st !! p) as [r|]; simpl; [|done].
  destruct (objs st !! obj r) as [o|] eqn:E; simpl; [|done].
  intros [= <-]. by rewrite (lookup_weaken _ _ _ _ E Ho).
Qed.

Lemma lh_find_extends st st' key (l : list positive) r :
  extends st st' → lh_find st key l = Some r → lh_find st' key l = Some r.
Proof.
  intros He. induction l as [|p l IH]; simpl; [done|].
  destruct (view st p) as [v|] eqn:Ev; simpl; [|done].
  rewrite (view_extends _ _ _ _ He Ev). simpl.
  destruct (added_obj_cmp v key =? 0); [done|]. apply IH.
Qed.

Lemma lh_find_elem st key (l : list positive) p :
  lh_find st key l = Some (Some p) → p ∈ l ∧ is_Some (view st p).
Proof.
  induction l as [|q l IH]; simpl; [done|].
  destruct (view st q) as [v|] eqn:Ev; simpl; [|done].
  destruct (added_obj_cmp v key =? 0).
  - intros [= ->]. split; [by left|]. by rewrite Ev.
  - intros H. destruct (IH H). split; [by right|done].
Qed.

Lemma lh_find_total st key (l : list positive) :
  (∀ p, p ∈ l → is_Some (view st p)) → is_Some (lh_find st key l).
Proof.
  induction l as [|p l IH]; intros H; simpl; [done|].
  destruct (H p) as [v ->]; [by left|]. simpl.
  destruct (added_obj_cmp v key =? 0); [done|]. apply IH. intros q Hq. apply H. by right.
Qed.

Lemma ossl_bsearch_go_total (cmp : nat → option Z) (base : list nat) :
  (∀ e, e ∈ base → is_Some (cmp e)) →
  ∀ fuel l h, (h ≤ length base)%nat →
  ∃ r, ossl_bsearch_go fuel cmp base l h = Some r ∧ ∀ e, r = Some e → e ∈ base.
Proof.
  intros Hcmp. induction fuel as [|fuel IH]; intros l h Hh; [by exists None|].
  cbn [ossl_bsearch_go].
  destruct (l <? h)%nat eqn:E; [|by exists None]. apply Nat.ltb_lt in E.
  assert (Hi : ((l + h) / 2 < h)%nat) by (apply Nat.Div0.div_lt_upper_bound; lia).
  destruct (lookup_lt_is_Some_2 base ((l + h) / 2)%nat) as [e He]; [lia|].
  rewrite He. cbn [mbind option_bind].
  assert (Hin : e ∈ base) by (by eapply list_elem_of_lookup_2).
  destruct (Hcmp e Hin) as (c & ->). cbn [mbind option_bind].
  destruct (c <? 0); [apply IH; lia|].
  destruct (0 <? c); [apply IH; lia|].
  exists (Some e). split; [done|]. by intros ? [= <-].
Qed.

(** the state after the record lookup of a name or DER key *)
Section Lookup.
Variable T : builtin.
Hypothesis Hwf : wf_builtin T = true.

Lemma wf_index_view st l p :
  wf_index st = true → added st = Some l → p ∈ l → is_Some (view st p).
Proof.
  unfold wf_index. intros H Hl Hp. rewrite Hl in H.
  pose proof (forallb_elem _ _ _ H Hp) as H1.
  simpl in H1. by destruct (view st p).
Qed.

Lemma read_lock_eq lock st :
  ossl_obj_read_lock lock st = Some (negb lock || lock_ok st, st).
Proof. by destruct lock. Qed.

Lemma write_lock_eq lock st :
  ossl_obj_write_lock lock st = Some (negb lock || lock_ok st, st).
Proof. by destruct lock. Qed.

(** [adp->obj->nid] of a record found by the container. *)
Lemma rec_obj_nid_eq p st :
  rec_obj_nid p st = (r ← recs st !! p; o ← objs st !! obj r; Some (nid o, st)).
Proof.
  unfold rec_obj_nid, rec_obj, bind, get, lift, ret.
  destruct (recs st !! p) as [r|]; simpl; [|done].
  by destruct (objs st !! obj r).
Qed.

Lemma retrieve_eq key st :
  lh_ADDED_OBJ_retrieve key st
  = (l ← added st; r ← lh_find st key l; Some (r, st)).
Proof. unfold lh_ADDED_OBJ_retrieve. by destruct (added st). Qed.

Lemma added_nid_eq key lock st :
  added_nid key lock st =
  if negb lock || lock_ok st
  then n ← found_nid key st; Some (n, st)
  else Some (NID_undef, with_err ERR_R_UNABLE_TO_GET_READ_LOCK st).
Proof.
  unfold added_nid. rewrite bind_eq, read_lock_eq.
  destruct (negb lock || lock_ok st); simpl; [|done].
  rewrite bind_eq. unfold get. rewrite bind_eq. unfold found_nid.
  destruct (added st) as [l|] eqn:El; [|done].
  rewrite bind_eq, retrieve_eq, El. simpl.
  destruct (lh_find st key l) as [[p|]|]; simpl; [|done|done].
  rewrite rec_obj_nid_eq.
  destruct (recs st !! p) as [r|]; simpl; [|done].
  by destruct (objs st !! obj r).
Qed.

Lemma found_nid_total key st : wf_index st = true → is_Some (found_nid key st).
Proof.
  intros Hwi. unfold found_nid. destruct (added st) as [l|] eqn:El; [|done].
  destruct (lh_find_total st key l) as [r Hr].
  { intros p Hp. by eapply wf_index_view. }
  rewrite Hr. simpl. destruct r as [p|]; [|done].
  apply lh_find_elem in Hr as [_ [v Hv]]. unfold view in Hv.
  destruct (recs st !! p) as [r|]; simpl in *; [|done].
  by destruct (objs st !! obj r).
Qed.

Lemma found_nid_extends key st st' n :
  extends st st' → found_nid key st = Some n → found_nid key st' = Some n.
Proof.
  intros He. pose proof He as (Hr & Ha & Hl & Ho).
  unfold found_nid. rewrite Ha. destruct (added st) as [l|]; [|done].
  destruct (lh_find st key l) as [r|] eqn:Er; simpl; [|done].
  rewrite (lh_find_extends _ _ _ _ _ He Er). simpl.
  destruct r as [p|]; [|done]. rewrite Hr.
  destruct (recs st !! p) as [r|]; simpl; [|done].
  destruct (objs st !! obj r) as [o|] eqn:Eo; simpl; [|done].
  by rewrite (lookup_weaken _ _ _ _ Eo Ho).
Qed.

Lemma added_nid_total key lock st :
  wf_index st = true →
  ∃ n st', added_nid key lock st = Some (n, st') ∧ lookup_post st st'.
Proof.
  intros Hwi. rewrite added_nid_eq.
  destruct (found_nid_total key st Hwi) as [n ->]. simpl.
  destruct (negb lock || lock_ok st); eexists _, _; (split; [done|]); [by left|by right].
Qed.

Lemma added_nid_extends key lock st st' n st1 :
  extends st st' → added_nid key lock st = Some (n, st1) →
  lookup_post st st1
  ∧ ∃ st1', added_nid key lock st' = Some (n, st1') ∧ lookup_post st' st1'.
Proof.
  intros He. pose proof He as (_ & _ & Hl & _).
  rewrite !added_nid_eq, Hl.
  destruct (negb lock || lock_ok st).
  - destruct (found_nid key st) as [m|] eqn:E; simpl; [|done].
    intros [= <- <-]. rewrite (found_nid_extends _ _ _ _ He E). simpl.
    split; [by left|]. eexists. split; [done|]. by left.
  - intros [= <- <-]. split; [by right|]. eexists. split; [done|]. by right.
Qed.

Lemma OBJ_sn2nid_eq s st :
  OBJ_sn2nid T s st =
  (op ← OBJ_bsearch_sn T (set_names (Some s) None key_obj);
   match op with
   | Some b => e ← nid_objs T !! b; Some (nid e, st)
   | None => added_nid (ADDED_SNAME, set_names (Some s) None key_obj) true st
   end).
Proof.
  unfold OBJ_sn2nid. rewrite bind_eq. unfold lift.
  destruct (OBJ_bsearch_sn T _) as [[b|]|]; simpl; [|done|done].
  rewrite bind_eq. by destruct (nid_objs T !! b).
Qed.

Lemma OBJ_ln2nid_eq s st :
  OBJ_ln2nid T s st =
  (op ← OBJ_bsearch_ln T (set_names None (Some s) key_obj);
   match op with
   | Some b => e ← nid_objs T !! b; Some (nid e, st)
   | None => added_nid (ADDED_LNAME, set_names None (Some s) key_obj) true st
   end).
Proof.
  unfold OBJ_ln2nid. rewrite bind_eq. unfold lift.
  destruct (OBJ_bsearch_ln T _) as [[b|]|]; simpl; [|done|done].
  rewrite bind_eq. by destruct (nid_objs T !! b).
Qed.

Lemma ossl_obj_obj2nid_eq a lock st :
  ossl_obj_obj2nid T (Some a) lock st =
  if negb (nid a =? NID_undef) then Some (nid a, st)
  else if obj_length a =? 0 then Some (NID_undef, st)
  else
    op ← OBJ_bsearch_obj T a;
    match op with
    | Some b => e ← nid_objs T !! b; Some (nid e, st)
    | None => added_nid (ADDED_DATA, a) lock st
    end.
Proof.
  unfold ossl_obj_obj2nid.
  destruct (negb (nid a =? NID_undef)); [done|].
  destruct (obj_length a =? 0); [done|].
  rewrite bind_eq. unfold lift.
  destruct (OBJ_bsearch_obj T _) as [[b|]|]; simpl; [|done|done].
  rewrite bind_eq. by destruct (nid_objs T !! b).
Qed.

Lemma wf_sn_cmp o e : sn o ≠ None → e ∈ sn_objs T → is_Some (sn_cmp T o e) ∧ is_Some (nid_objs T !! e).
Proof.
  intros Ho He. unfold wf_builtin in Hwf.
  apply andb_true_iff in Hwf as [[H1 _]%andb_true_iff _].
  pose proof (forallb_elem _ _ _ H1 He) as Hw. simpl in Hw.
  unfold sn_cmp. destruct (sn o); [|done]. simpl.
  destruct (nid_objs T !! e) as [x|]; [|done]. simpl.
  apply bool_decide_eq_true in Hw. by destruct (sn x).
Qed.

Lemma wf_ln_cmp o e : ln o ≠ None → e ∈ ln_objs T → is_Some (ln_cmp T o e) ∧ is_Some (nid_objs T !! e).
Proof.
  intros Ho He. unfold wf_builtin in Hwf.
  apply andb_true_iff in Hwf as [[_ H1]%andb_true_iff _].
  pose proof (forallb_elem _ _ _ H1 He) as Hw. simpl in Hw.
  unfold ln_cmp. destruct (ln o); [|done]. simpl.
  destruct (nid_objs T !! e) as [x|]; [|done]. simpl.
  apply bool_decide_eq_true in Hw. by destruct (ln x).
Qed.

Lemma wf_obj_cmp o e : e ∈ obj_objs T → is_Some (obj_cmp T o e) ∧ is_Some (nid_objs T !! e).
Proof.
  intros He. unfold wf_builtin in Hwf.
  apply andb_true_iff in Hwf as [_ H1].
  pose proof (forallb_elem _ _ _ H1 He) as Hw. simpl in Hw.
  unfold obj_cmp. destruct (nid_objs T !! e) as [x|]; [|done]. simpl. split; [|done].
  destruct (obj_length o - obj_length x =? 0) eqn:Ej; simpl; [|done].
  apply Z.eqb_eq in Ej.
  destruct (obj_length o =? 0) eqn:E0; [done|]. apply Z.eqb_neq in E0.
  unfold obj_length in *.
  destruct (data o), (data x); simpl in *; try done; lia.
Qed.

Lemma builtin_lookup_total (cmp : nat → option Z) (base : list nat) :
  (∀ e, e ∈ base → is_Some (cmp e) ∧ is_Some (nid_objs T !! e)) →
  ∃ op, OBJ_bsearch_ cmp base = Some op
        ∧ ∀ b, op = Some b → is_Some (nid_objs T !! b).
Proof.
  intros H. destruct (ossl_bsearch_go_total cmp base (λ e He, proj1 (H e He))
    (length base) 0%nat (length base) (le_n _)) as (op & E & Hin).
  exists op. split; [done|]. intros b ->. by apply H, Hin.
Qed.

Lemma sn2nid_total s st :
  wf_index st = true →
  ∃ n st', OBJ_sn2nid T s st = Some (n, st') ∧ lookup_post st st'.
Proof.
  intros Hwi. rewrite OBJ_sn2nid_eq.
  destruct (builtin_lookup_total (sn_cmp T (set_names (Some s) None key_obj)) (sn_objs T))
    as (op & E & Hb). { intros e He. by apply wf_sn_cmp. }
  unfold OBJ_bsearch_sn. rewrite E. simpl. destruct op as [b|].
  - destruct (Hb b eq_refl) as [e ->]. simpl. eexists _, _. split; [done|]. by left.
  - by apply added_nid_total.
Qed.

Lemma ln2nid_total s st :
  wf_index st = true →
  ∃ n st', OBJ_ln2nid T s st = Some (n, st') ∧ lookup_post st st'.
Proof.
  intros Hwi. rewrite OBJ_ln2nid_eq.
  destruct (builtin_lookup_total (ln_cmp T (set_names None (Some s) key_obj)) (ln_objs T))
    as (op & E & Hb). { intros e He. by apply wf_ln_cmp. }
  unfold OBJ_bsearch_ln. rewrite E. simpl. destruct op as [b|].
  - destruct (Hb b eq_refl) as [e ->]. simpl. eexists _, _. split; [done|]. by left.
  - by apply added_nid_total.
Qed.

Lemma sn2nid_extends s st st' n st1 :
  extends st st' → OBJ_sn2nid T s st = Some (n, st1) →
  lookup_post st st1
  ∧ ∃ st1', OBJ_sn2nid T s st' = Some (n, st1') ∧ lookup_post st' st1'.
Proof.
  intros He. rewrite !OBJ_sn2nid_eq.
  destruct (OBJ_bsearch_sn T _) as [[b|]|]; simpl; [|by apply added_nid_extends|done].
  destruct (nid_objs T !! b); simpl; [|done]. intros [= <- <-].
  split; [by left|]. eexists. split; [done|]. by left.
Qed.

Lemma ln2nid_extends s st st' n st1 :
  extends st st' → OBJ_ln2nid T s st = Some (n, st1) →
  lookup_post st st1
  ∧ ∃ st1', OBJ_ln2nid T s st' = Some (n, st1') ∧ lookup_post st' st1'.
Proof.
  intros He. rewrite !OBJ_ln2nid_eq.
  destruct (OBJ_bsearch_ln T _) as [[b|]|]; simpl; [|by apply added_nid_extends|done].
  destruct (nid_objs T !! b); simpl; [|done]. intros [= <- <-].
  split; [by left|]. eexists. split; [done|]. by left.
Qed.

Lemma obj2nid_extends a lock st st' n st1 :
  extends st st' → ossl_obj_obj2nid T (Some a) lock st = Some (n, st1) →
  lookup_post st st1
  ∧ ∃ st1', ossl_obj_obj2nid T (Some a) lock st' = Some (n, st1') ∧ lookup_post st' st1'.
Proof.
  intros He. rewrite !ossl_obj_obj2nid_eq.
  destruct (negb (nid a =? NID_undef)).
  { intros [= <- <-]. split; [by left|]. eexists. split; [done|]. by left. }
  destruct (obj_length a =? 0).
  { intros [= <- <-]. split; [by left|]. eexists. split; [done|]. by left. }
  destruct (OBJ_bsearch_obj T _) as [[b|]|]; simpl; [|by apply added_nid_extends|done].
  destruct (nid_objs T !! b); simpl; [|done]. intros [= <- <-].
  split; [by left|]. eexists. split; [done|]. by left.
Qed.

Lemma obj2nid_unlocked a st :
  lock_ok st = true →
  ossl_obj_obj2nid T (Some a) false st = ossl_obj_obj2nid T (Some a) true st.
Proof.
  intros Hl. rewrite !ossl_obj_obj2nid_eq, !added_nid_eq, Hl. done.
Qed.

End Lookup.

Lemma base128_more_nonempty fuel : ∀ v acc, acc ≠ [] → base128_more fuel v acc ≠ [].
Proof.
  induction fuel as [|fuel IH]; intros v acc H; simpl; [done|].
  destruct (v =? 0); [done|]. by apply IH.
Qed.

Lemma text_to_der_nonempty s der : text_to_der s = Some der → der ≠ [].
Proof.
  unfold text_to_der. destruct (mapM _ _) as [[|a [|b rest]]|]; simpl; try done.
  destruct (_ || _); [|done]. destruct (586 <? _); [done|]. intros [= <-].
  simpl. intros H%app_eq_nil. destruct H as [H _]. revert H.
  by apply base128_more_nonempty.
Qed.

Lemma txt2obj_dotted_eq s st :
  txt2obj_dotted s st =
  match text_to_der s with
  | None => Some (None, with_err ASN1_R_INVALID_OID st)
  | Some der =>
      if granted 2 st then
        let p := fresh (dom (objs st)) in
        Some (Some (Dyn p), with_objs (insert p (der_entry der)) (after_allocs 2 st))
      else Some (None, after_allocs (if hd true (alloc_plan st) then 2 else 1) st)
  end.
Proof.
  unfold txt2obj_dotted, a2d_ASN1_OBJECT, bind.
  destruct (text_to_der s) as [der|] eqn:E; [|done].
  pose proof (text_to_der_nonempty s der E) as Hne. unfold ret at 1.
  replace (Z.of_nat (length der) <=? 0) with false.
  2:{ symmetry. apply Z.leb_gt. destruct der; [done|simpl; lia]. }
  rewrite alloc_ok_eq. unfold granted.
  destruct st as [o r a e n k q [|b1 [|b2 p]]]; try reflexivity.
  - destruct b1; reflexivity.
  - destruct b1; [|reflexivity]. destruct b2; reflexivity.
Qed.

Section Create.
Variable T : builtin.
Hypothesis Hwf : wf_builtin T = true.

Lemma create_name_clash_total sn ln st :
  wf_index st = true →
  ∃ b st2, create_name_clash T sn ln st = Some (b, st2) ∧ quiet st st2
    ∧ (∀ s n st1, sn = Some s → OBJ_sn2nid T s st = Some (n, st1) → n ≠ NID_undef → b = true)
    ∧ (∀ l n st1, ln = Some l → OBJ_ln2nid T l st = Some (n, st1) → n ≠ NID_undef → b = true).
Proof.
  intros Hwi. unfold create_name_clash. rewrite bind_eq.
  assert (H1 : ∃ b1 st1, match sn with
      | Some s => nid <- OBJ_sn2nid T s;; ret (negb (nid =? NID_undef))
      | None => ret false end st = Some (b1, st1) ∧ quiet st st1
      ∧ (∀ s n st1, sn = Some s → OBJ_sn2nid T s st = Some (n, st1) → n ≠ NID_undef → b1 = true)).
  { destruct sn as [s|].
    - destruct (sn2nid_total T Hwf s st Hwi) as (n & st1 & E & Hp).
      rewrite bind_eq, E. eexists _, _. split; [reflexivity|].
      split; [by apply lookup_post_quiet|].
      intros ? ? ? [= <-] E2 Hn. rewrite E in E2. injection E2 as <- <-.
      apply negb_true_iff. by apply Z.eqb_neq.
    - eexists _, _. split; [reflexivity|]. split; [apply quiet_refl|]. done. }
  destruct H1 as (b1 & st1 & -> & Hq1 & HA).
  destruct b1.
  { exists true, st1. split; [reflexivity|]. split; [exact Hq1|]. split; intros; reflexivity. }
  destruct ln as [l|].
  - destruct (ln2nid_total T Hwf l st1 (quiet_wf_index _ _ Hq1 Hwi)) as (n & st2 & E & Hp).
    rewrite bind_eq, E. eexists _, _. split; [reflexivity|].
    split. { eapply quiet_trans; [done|]. by apply lookup_post_quiet. }
    split. { intros s0 n0 s0' Hs0 E0 Hn0. by specialize (HA _ _ _ Hs0 E0 Hn0). }
    intros ? m s1 [= <-] E2 Hm.
    destruct (ln2nid_extends T l st st1 m s1 (quiet_extends _ _ Hq1) E2) as (_ & s1' & E3 & _).
    rewrite E in E3. injection E3 as -> _.
    apply negb_true_iff. by apply Z.eqb_neq.
  - exists false, st1. split; [reflexivity|]. split; [exact Hq1|].
    split; [exact HA|]. intros; discriminate.
Qed.

(** C6.  [OBJ_create] returns 0 with [OBJ_R_OID_EXISTS] on top of the error
    queue, and leaves the entries, the records, the index and the NID counter
    as they were, whenever the short name or the long name given resolves to
    a NID other than [NID_undef], or the OID text given encodes to content
    octets that [OBJ_obj2nid] finds (with the lock and the two allocations
    of the temporary entry granted, so that the encoding takes place). *)
Theorem create_already_exists oid sn ln st :
  wf_index st = true →
  (∃ s n st1, sn = Some s ∧ OBJ_sn2nid T s st = Some (n, st1) ∧ n ≠ NID_undef)
  ∨ (∃ l n st1, ln = Some l ∧ OBJ_ln2nid T l st = Some (n, st1) ∧ n ≠ NID_undef)
  ∨ (∃ t der n st1, oid = Some t ∧ text_to_der t = Some der
       ∧ OBJ_obj2nid T (Some (der_entry der)) st = Some (n, st1) ∧ n ≠ NID_undef
       ∧ lock_ok st = true ∧ granted 2 st = true) →
  ∃ st', OBJ_create T oid sn ln st = Some (0, st')
         ∧ head (err_queue st') = Some OBJ_R_OID_EXISTS
         ∧ unchanged st st'.
Proof.
  intros Hwi Hcase. unfold OBJ_create.
  assert (Hsome : bool_decide (oid = None) && bool_decide (sn = None)
                  && bool_decide (ln = None) = false).
  { destruct Hcase as [(s&?&?&->&_)|[(l&?&?&->&_)|(t&?&?&?&->&_)]];
      rewrite ?andb_false_r; try done. }
  rewrite Hsome. rewrite bind_eq.
  destruct (create_name_clash_total sn ln st Hwi) as (b & st2 & -> & Hq & HA & HB).
  destruct b.
  { eexists. split; [reflexivity|]. simpl. split; [done|].
    destruct Hq as (?&?&?&?&?&?&?). by repeat split. }
  destruct Hcase as [(s&n&s1&Hs&E&Hn)|[(l&n&s1&Hl&E&Hn)|(t&der&n&s1&Ho&Ed&E&Hn&Hlk&Hg)]].
  { by specialize (HA _ _ _ Hs E Hn). }
  { by specialize (HB _ _ _ Hl E Hn). }
  subst oid. pose proof Hq as (Hq1 & Hq2 & Hq3 & Hq4 & Hq5 & Hq6 & Hq7).
  rewrite bind_eq. unfold create_tmpoid. rewrite bind_eq.
  change (OBJ_txt2obj T t true st2) with (txt2obj_dotted t st2).
  rewrite txt2obj_dotted_eq, Ed.
  assert (Hg2 : granted 2 st2 = true) by (unfold granted; by rewrite Hq7).
  rewrite Hg2. cbv zeta. rewrite Hq1.
  set (p := fresh (dom (objs st))).
  set (st3 := with_objs (insert p (der_entry der)) (after_allocs 2 st2)).
  assert (Hp : objs st !! p = None).
  { apply not_elem_of_dom. apply is_fresh. }
  unfold ret at 1. rewrite bind_eq, write_lock_eq.
  assert (Hl3 : lock_ok st3 = true) by (simpl; congruence).
  rewrite Hl3. cbn [negb orb].
  rewrite bind_eq. unfold create_oid_known. rewrite bind_eq.
  assert (Hload : load_obj p st3 = Some (der_entry der, st3)).
  { unfold load_obj. rewrite bind_eq. unfold get, lift. simpl.
    rewrite Hq1. by rewrite lookup_insert_eq. }
  rewrite Hload. rewrite bind_eq.
  assert (Hext : extends st st3).
  { unfold st3. repeat split; simpl; try done. rewrite Hq1. by apply insert_subseteq. }
  rewrite (obj2nid_unlocked T _ st3 Hl3).
  destruct (obj2nid_extends T _ true st st3 n s1 Hext E) as (_ & st4 & E4 & Hp4).
  rewrite E4. unfold ret at 1.
  replace (negb (n =? NID_undef)) with true
    by (symmetry; apply negb_true_iff; by apply Z.eqb_neq).
  rewrite bind_eq. unfold ERR_raise, modify.
  unfold create_err. rewrite bind_eq. unfold ossl_obj_unlock, ret at 1.
  rewrite bind_eq. unfold ASN1_OBJECT_free. rewrite bind_eq.
  apply lookup_post_quiet in Hp4. pose proof Hp4 as (Hr1 & Hr2 & Hr3 & Hr4 & Hr5 & Hr6 & Hr7).
  assert (Hload2 : load_obj p (with_err OBJ_R_OID_EXISTS st4) = Some (der_entry der, with_err OBJ_R_OID_EXISTS st4)).
  { unfold load_obj. rewrite bind_eq. unfold get, lift. simpl.
    rewrite Hr1. simpl. rewrite Hq1. by rewrite lookup_insert_eq. }
  rewrite Hload2. simpl. eexists. split; [reflexivity|]. simpl. split; [done|].
  unfold st3 in *. simpl in *.
  repeat split; simpl; try congruence.
  rewrite Hr1, Hq1. by rewrite delete_insert_id.
Qed.

End Create.

(** * Properties of the bulk loader *)

Lemma skip_ge P buf k : (k ≤ skip P buf k)%nat.
Proof. unfold skip. lia. Qed.

Lemma rd_insert_0 (buf : list ascii) k c : k ≠ 0%nat → rd (<[k := c]> buf) 0 = rd buf 0.
Proof. intros H. unfold rd. by rewrite list_lookup_insert_ne. Qed.

Lemma rd_insert_eq (buf : list ascii) k c :
  rd buf k ≠ NUL → rd (<[k := c]> buf) k = c.
Proof.
  unfold rd. intros H. destruct (buf !! k) eqn:E; [|done].
  rewrite list_lookup_insert_eq; [done|]. by eapply lookup_lt_Some.
Qed.

Lemma isalnum_not_NUL c : ossl_isalnum c = true → Ascii.eqb c NUL = false.
Proof.
  intros H. apply Ascii.eqb_neq. intros ->. done.
Qed.

Lemma create_objects_line_stops buf l :
  (create_objects_line buf l).2 = None ↔ line_stops buf = true.
Proof.
  unfold create_objects_line, line_stops. fold oid_char.
  change (λ c, ossl_isdigit c || (c =? ".")%char) with oid_char.
  destruct (ossl_isalnum (rd buf 0)) eqn:Ea; simpl; [|done].
  pose proof (isalnum_not_NUL _ Ea) as Hn0.
  set (s0 := skip oid_char buf 0).
  destruct (Ascii.eqb (rd buf s0) NUL) eqn:E1; simpl.
  - rewrite Hn0. simpl. split; [done|]. intros H%Nat.eqb_eq.
    rewrite H in E1. congruence.
  - assert (Hs : rd (<[s0 := NUL]> buf) 0 = if (s0 =? 0)%nat then NUL else rd buf 0).
    { destruct (s0 =? 0)%nat eqn:E0.
      - apply Nat.eqb_eq in E0. rewrite E0 in *. apply rd_insert_eq.
        intros H. rewrite H in Hn0. done.
      - apply Nat.eqb_neq in E0. by apply rd_insert_0. }
    set (b1 := <[s0 := NUL]> buf) in *.
    set (s1 := skip ossl_isspace b1 (S s0)).
    assert (Hfin : ∀ b2 (s : option nat) (l2 : option nat),
      (b2 = b1 ∨ ∃ k, k ≠ 0%nat ∧ b2 = <[k := NUL]> b1) →
      (let '(b, s, l) := (b2, s, l2) in
       if Ascii.eqb (rd b 0) NUL then (b, l, None)
       else (b, l, Some (c_string b 0, c_string b <$> s, c_string b <$> l))).2 = None
      ↔ (s0 =? 0)%nat = true).
    { intros b2 s l2 Hb. simpl.
      assert (rd b2 0 = rd b1 0) as ->.
      { destruct Hb as [->|(k & Hk & ->)]; [done|by apply rd_insert_0]. }
      rewrite Hs. destruct (s0 =? 0)%nat; simpl; [done|]. by rewrite Hn0. }
    destruct (Ascii.eqb (rd b1 s1) NUL).
    { apply Hfin. by left. }
    set (l1 := skip _ b1 s1).
    destruct (negb (Ascii.eqb (rd b1 l1) NUL)).
    + assert (l1 ≠ 0%nat).
      { pose proof (skip_ge (λ c, negb (Ascii.eqb c NUL) && negb (ossl_isspace c)) b1 s1).
        pose proof (skip_ge ossl_isspace b1 (S s0)). fold l1 in H. fold s1 in H0. lia. }
      destruct (Ascii.eqb (rd (<[l1:=NUL]> b1) _) NUL); apply Hfin; right; eauto.
    + apply Hfin. by left.
Qed.

Section Bulk.
Variable T : builtin.

Lemma create_objects_loop_loads (lines : list (list ascii)) :
  ∀ buf l num st r st',
  create_objects_loop T lines buf l num st = Some (r, st')
  ↔ ∃ n, loads T lines buf l st n st' ∧ r = num + n.
Proof.
  induction lines as [|line rest IH]; intros buf l num st r st'.
  - simpl. unfold ret. split.
    + intros [= <- <-]. exists 0. split; [constructor|lia].
    + intros (n & H & ->). inversion H; subst. do 2 f_equal. lia.
  - cbn [create_objects_loop]. cbv zeta.
    pose proof (create_objects_line_stops (load_line line buf) l) as Hstop.
    destruct (create_objects_line (load_line line buf) l) as [[buf' l'] call] eqn:Ec.
    simpl in Hstop. simpl.
    destruct call as [[[o s] ln]|].
    + assert (Hns : line_stops (load_line line buf) = false).
      { destruct (line_stops _); [|done]. by destruct Hstop as [_ H]; specialize (H eq_refl). }
      rewrite bind_eq. split.
      * destruct (OBJ_create T (Some o) s ln st) as [[k st1]|] eqn:Ek; [|done].
        destruct (k =? 0) eqn:E0; [apply Z.eqb_eq in E0 | apply Z.eqb_neq in E0].
        -- subst k. intros [= <- <-]. exists 0. split; [|lia].
           eapply loads_refused; eauto.
        -- intros (n & Hl & ->)%IH. exists (n + 1). split; [|lia].
           eapply loads_registered; eauto.
      * intros (n & H & ->). inversion H; subst.
        -- congruence.
        -- rewrite Ec in *. simplify_eq.
           match goal with E : OBJ_create _ _ _ _ _ = _ |- _ => rewrite E end.
           simpl. unfold ret. do 2 f_equal. lia.
        -- rewrite Ec in *. simplify_eq.
           match goal with E : OBJ_create _ _ _ _ _ = _ |- _ => rewrite E end.
           replace (k =? 0) with false by (symmetry; by apply Z.eqb_neq).
           apply IH. eexists. split; [done|lia].
    + assert (Hs : line_stops (load_line line buf) = true) by (by apply Hstop).
      unfold ret. split.
      * intros [= <- <-]. exists 0. split; [by constructor|lia].
      * intros (n & H & ->). inversion H; subst; try congruence. do 2 f_equal. lia.
Qed.

(** The runs of [OBJ_create_objects] that return: the call returns [num]
    and ends in [st'] exactly when reading the lines of the source registers
    [num] lines and ends in [st'].  Every line that does not stop the
    loading makes one [OBJ_create] call; a successful call counts one and
    loading goes on; the end of the source, a line that starts with a
    character that is not alphanumeric, a line with an empty OID field and
    the first refused [OBJ_create] end the loading with the count reached so
    far.  A run in which an [OBJ_create] call faults does not return. *)
Lemma create_objects_returns (bio : list ascii) st num st' :
  OBJ_create_objects T bio st = Some (num, st')
  ↔ loads T (BIO_lines bio [] 511) (repeat NUL 512) None st num st'.
Proof.
  unfold OBJ_create_objects. rewrite create_objects_loop_loads. split.
  - intros (n & H & ->). by replace (0 + n) with n by lia.
  - intros H. exists num. split; [done|lia].
Qed.

Lemma loads_bounds lines buf l st n st' :
  loads T lines buf l st n st' → 0 ≤ n ≤ Z.of_nat (length lines).
Proof. induction 1; simpl; lia. Qed.

End Bulk.

(** * The three passes of [ossl_obj_cleanup_int] *)

Lemma refs_cons R p l o :
  refs R (p :: l) o = ((if decide (target R p = Some o) then 1 else 0) + refs R l o)%nat.
Proof. unfold refs. rewrite filter_cons. by destruct (decide _). Qed.

Lemma refs_0 R l o p : refs R l o = 0%nat → p ∈ l → target R p ≠ Some o.
Proof.
  unfold refs. intros H Hp Ht.
  assert (p ∈ filter (λ p, target R p = Some o) l) as Hin by (by apply list_elem_of_filter).
  destruct (filter _ l); [by apply elem_of_nil in Hin|done].
Qed.

Lemma refs_le R l o : (refs R l o ≤ length l)%nat.
Proof. unfold refs. apply length_filter. Qed.

Lemma zeroed_zeroed x : zeroed (zeroed x) = zeroed x.
Proof.
  unfold zeroed, set_flags, set_nid. simpl. f_equal.
  by rewrite <- Z.lor_assoc, Z.lor_diag.
Qed.

Lemma zeroed_dynamic x : dynamic (zeroed x).
Proof.
  unfold dynamic, zeroed. simpl.
  change DYNAMIC_BITS with 13. change ASN1_OBJECT_FLAG_DYNAMIC with 1.
  rewrite Z.land_lor_distr_l. change (Z.land 13 1) with 1.
  intros H%Z.lor_eq_0_iff. lia.
Qed.

Lemma wrap_int_small z : - 2 ^ 31 ≤ z < 2 ^ 31 → wrap_int z = z.
Proof. intros H. unfold wrap_int. rewrite Z.mod_small; lia. Qed.

Lemma set_nid_id x : set_nid (nid x) x = x.
Proof. by destruct x. Qed.

Ltac run_all := cbv [cleanup1_doall cleanup2_doall cleanup3_doall rec_obj
  load_obj store_obj ASN1_OBJECT_free OPENSSL_free_rec bind get lift ret
  modify].

Lemma cleanup1_eq a st :
  cleanup1_doall a st =
  (r ← recs st !! a; x ← objs st !! obj r;
   Some (tt, with_objs (insert (obj r) (zeroed x)) st)).
Proof.
  run_all. destruct (recs st !! a) as [r|]; simpl; [|done].
  destruct (objs st !! obj r) as [x|] eqn:E; simpl; [|done]. by rewrite ?E.
Qed.

Lemma cleanup2_eq a st :
  cleanup2_doall a st =
  (r ← recs st !! a; x ← objs st !! obj r;
   Some (tt, with_objs (insert (obj r) (set_nid (wrap_int (nid x + 1)) x)) st)).
Proof.
  run_all. destruct (recs st !! a) as [r|]; simpl; [|done].
  destruct (objs st !! obj r) as [x|] eqn:E; simpl; [|done]. by rewrite ?E.
Qed.

Lemma cleanup3_eq a st :
  cleanup3_doall a st =
  (r ← recs st !! a; x ← objs st !! obj r;
   let n := wrap_int (nid x - 1) in
   let freed := (n =? 0) && negb (Z.land (flags x) ASN1_OBJECT_FLAG_DYNAMIC =? 0) in
   Some (tt, with_recs (delete a)
               (with_objs (if freed then delete (obj r)
                           else insert (obj r) (set_nid n x)) st))).
Proof.
  run_all. destruct (recs st !! a) as [r|] eqn:Er; simpl; [|done].
  destruct (objs st !! obj r) as [x|] eqn:E; simpl; [|done].
  rewrite E. simpl.
  destruct (wrap_int (nid x - 1) =? 0) eqn:En; simpl.
  - rewrite lookup_insert_eq. simpl.
    destruct (Z.land (flags x) ASN1_OBJECT_FLAG_DYNAMIC =? 0); simpl; rewrite Er; simpl.
    + done.
    + unfold with_recs, with_objs. simpl. do 3 f_equal. by rewrite delete_insert_eq.
  - rewrite Er. done.
Qed.

Lemma put_id st : put (objs st) (recs st) st = st.
Proof. by destruct st. Qed.

Section Passes.
Variable st0 : registry.
Variable R : gmap positive ADDED_OBJ.

Lemma live_cons O p l : live R O (p :: l) →
  (∃ r x, R !! p = Some r ∧ O !! obj r = Some x) ∧ live R O l.
Proof.
  intros H. split.
  - destruct (H p) as (r & Hr & [x Hx]); [by left|]. eauto.
  - intros q Hq. apply H. by right.
Qed.

Lemma live_insert O l o x : live R O l → live R (<[o := x]> O) l.
Proof.
  intros H p Hp. destruct (H p Hp) as (r & Hr & Hx). exists r. split; [done|].
  rewrite lookup_insert. destruct (decide (o = obj r)); [done|done].
Qed.

Lemma target_Some p r : R !! p = Some r → target R p = Some (obj r).
Proof. unfold target. by intros ->. Qed.

Lemma pass1 (l : list positive) : ∀ O,
  live R O l →
  ∃ O', doall cleanup1_doall l (put O R st0) = Some (tt, put O' R st0)
    ∧ ∀ o, O' !! o = if decide (refs R l o = 0%nat) then O !! o else zeroed <$> O !! o.
Proof.
  induction l as [|p l IH]; intros O Hl.
  - exists O. split; [reflexivity|]. intros o. by rewrite decide_True.
  - apply live_cons in Hl as [(r & x & Hr & Hx) Hl].
    cbn [doall]. rewrite bind_eq, cleanup1_eq. simpl. rewrite Hr. simpl. rewrite Hx. simpl.
    change (with_objs _ (put O R st0)) with (put (<[obj r := zeroed x]> O) R st0).
    destruct (IH (<[obj r := zeroed x]> O)) as (O' & -> & HO'). { by apply live_insert. }
    exists O'. split; [done|]. intros o. rewrite HO', refs_cons, (target_Some _ _ Hr).
    rewrite lookup_insert.
    destruct (decide (obj r = o)) as [<-|Hne].
    + rewrite (decide_True (P := Some (obj r) = Some (obj r))) by done.
      rewrite Hx. repeat case_decide; simpl; rewrite ?zeroed_zeroed; try done; lia.
    + rewrite (decide_False (P := Some (obj r) = Some o)) by congruence. done.
Qed.

Lemma pass2 (l : list positive) : ∀ O,
  live R O l →
  (∀ o x, refs R l o ≠ 0%nat → O !! o = Some x →
     0 ≤ nid x ∧ nid x + Z.of_nat (refs R l o) < 2 ^ 31) →
  ∃ O', doall cleanup2_doall l (put O R st0) = Some (tt, put O' R st0)
    ∧ ∀ o, O' !! o =
        if decide (refs R l o = 0%nat) then O !! o
        else (λ x, set_nid (nid x + Z.of_nat (refs R l o)) x) <$> O !! o.
Proof.
  induction l as [|p l IH]; intros O Hl Hb.
  - exists O. split; [reflexivity|]. intros o. by rewrite decide_True.
  - apply live_cons in Hl as [(r & x & Hr & Hx) Hl].
    cbn [doall]. rewrite bind_eq, cleanup2_eq. simpl. rewrite Hr. simpl. rewrite Hx. simpl.
    change (with_objs _ (put O R st0))
      with (put (<[obj r := set_nid (wrap_int (nid x + 1)) x]> O) R st0).
    assert (Hrp : refs R (p :: l) (obj r) = S (refs R l (obj r))).
    { rewrite refs_cons, (target_Some _ _ Hr).
      by rewrite (decide_True (P := Some (obj r) = Some (obj r))). }
    pose proof (Hb _ _ ltac:(rewrite Hrp; lia) Hx) as Hbx. rewrite Hrp in Hbx.
    rewrite wrap_int_small by lia.
    destruct (IH (<[obj r := set_nid (nid x + 1) x]> O)) as (O' & -> & HO').
    { by apply live_insert. }
    { intros o y Hro. rewrite lookup_insert. destruct (decide (obj r = o)) as [<-|Hne].
      - intros [= <-]. simpl. lia.
      - intros Hy. assert (Hro' : refs R (p :: l) o = refs R l o).
        { rewrite refs_cons, (target_Some _ _ Hr).
          by rewrite (decide_False (P := Some (obj r) = Some o)) by congruence. }
        pose proof (Hb o y ltac:(rewrite Hro'; done) Hy) as Hby.
        by rewrite Hro' in Hby. }
    exists O'. split; [done|]. intros o. rewrite HO'.
    rewrite lookup_insert.
    destruct (decide (obj r = o)) as [<-|Hne].
    + rewrite Hrp, Hx. rewrite (decide_False (P := S _ = 0%nat)) by lia.
      case_decide as Hz; simpl.
      all: unfold set_nid; simpl; do 2 f_equal; lia.
    + assert (Hro' : refs R (p :: l) o = refs R l o).
      { rewrite refs_cons, (target_Some _ _ Hr).
        by rewrite (decide_False (P := Some (obj r) = Some o)) by congruence. }
      by rewrite Hro'.
Qed.

Lemma set_nid_set_nid a b x : set_nid a (set_nid b x) = set_nid a x.
Proof. reflexivity. Qed.

Lemma pass3 (l : list positive) : ∀ O R' (e : positive → nat),
  NoDup l →
  (∀ p, p ∈ l → R' !! p = R !! p) →
  (∀ p, p ∈ l → ∃ r x, R !! p = Some r ∧ O !! obj r = Some x
      ∧ nid x = Z.of_nat (refs R l (obj r) + e (obj r)) ∧ dynamic x) →
  (∀ o, Z.of_nat (refs R l o + e o) < 2 ^ 31) →
  ∃ O' R'',
    doall cleanup3_doall l (put O R' st0) = Some (tt, put O' R'' st0)
    ∧ (∀ p, R'' !! p = if decide (p ∈ l) then None else R' !! p)
    ∧ ∀ o, O' !! o =
        if decide (refs R l o = 0%nat) then O !! o
        else if decide (e o = 0%nat) then None
        else set_nid (Z.of_nat (e o)) <$> O !! o.
Proof.
  induction l as [|p l IH]; intros O R' e Hnd Hrec Hlive Hb.
  - exists O, R'. split; [reflexivity|]. split.
    + intros p. rewrite decide_False; [done|]. apply not_elem_of_nil.
    + intros o. by rewrite decide_True.
  - apply NoDup_cons in Hnd as [Hp Hnd].
    destruct (Hlive p) as (r & x & Hr & Hx & Hn & Hdyn); [by left|].
    cbn [doall]. rewrite bind_eq, cleanup3_eq. simpl.
    rewrite (Hrec p) by (by left). rewrite Hr. simpl. rewrite Hx. simpl.
    rewrite refs_cons, (target_Some _ _ Hr) in Hn.
    rewrite (decide_True (P := Some (obj r) = Some (obj r))) in Hn by done.
    pose proof (Hb (obj r)) as Hbo. rewrite refs_cons, (target_Some _ _ Hr) in Hbo.
    rewrite (decide_True (P := Some (obj r) = Some (obj r))) in Hbo by done.
    set (m := (refs R l (obj r) + e (obj r))%nat) in *.
    assert (Hw : wrap_int (nid x - 1) = Z.of_nat m) by (rewrite wrap_int_small; lia).
    rewrite Hw.
    assert (Hd : negb (Z.land (flags x) ASN1_OBJECT_FLAG_DYNAMIC =? 0) = true).
    { apply negb_true_iff. by apply Z.eqb_neq. }
    rewrite Hd, andb_true_r.
    set (O1 := (if Z.of_nat m =? 0 then delete (obj r)
                else <[obj r := set_nid (Z.of_nat m) x]>) O).
    change (with_recs _ (with_objs _ (put O R' st0))) with (put O1 (delete p R') st0).
    assert (HO1 : ∀ o, o ≠ obj r → O1 !! o = O !! o).
    { intros o Ho. unfold O1. destruct (Z.of_nat m =? 0).
      - by rewrite lookup_delete_ne.
      - by rewrite lookup_insert_ne. }
    assert (HO1r : O1 !! obj r = if decide (m = 0%nat) then None
                                 else Some (set_nid (Z.of_nat m) x)).
    { unfold O1. destruct (decide (m = 0%nat)) as [->|Hm].
      - simpl. by rewrite lookup_delete_eq.
      - replace (Z.of_nat m =? 0) with false by (symmetry; apply Z.eqb_neq; lia).
        by rewrite lookup_insert_eq. }
    destruct (IH O1 (delete p R') e Hnd) as (O' & R'' & -> & HR & HO).
    { intros q Hq. rewrite lookup_delete_ne by (intros ->; done). apply Hrec. by right. }
    { intros q Hq. destruct (Hlive q) as (r' & x' & Hr' & Hx' & Hn' & Hd'); [by right|].
      rewrite refs_cons, (target_Some _ _ Hr) in Hn'.
      destruct (decide (obj r' = obj r)) as [Heq|Hne].
      - rewrite Heq in *. rewrite Hx in Hx'. injection Hx' as <-.
        assert (refs R l (obj r) ≠ 0%nat).
        { intros H0. apply (refs_0 R l (obj r) q H0 Hq). rewrite <- Heq. by apply target_Some. }
        exists r', (set_nid (Z.of_nat m) x). split; [done|]. rewrite Heq, HO1r.
        rewrite decide_False by (unfold m; lia). done.
      - exists r', x'. split; [done|]. rewrite HO1 by done. split; [done|].
        rewrite (decide_False (P := Some (obj r) = Some (obj r'))) in Hn' by congruence.
        done. }
    { intros o. specialize (Hb o). rewrite refs_cons in Hb. lia. }
    exists O', R''. split; [done|]. split.
    + intros q. rewrite HR. destruct (decide (q = p)) as [->|Hqp].
      * rewrite (decide_True (P := p ∈ p :: l)) by (by left).
        rewrite lookup_delete_eq. by destruct (decide (p ∈ l)).
      * rewrite lookup_delete_ne by done.
        destruct (decide (q ∈ l)).
        -- rewrite decide_True; [done|by right].
        -- rewrite decide_False; [done|]. by intros [?|?]%elem_of_cons.
    + intros o. rewrite HO, refs_cons, (target_Some _ _ Hr).
      destruct (decide (obj r = o)) as [<-|Hne].
      * rewrite (decide_True (P := Some (obj r) = Some (obj r))) by done.
        rewrite HO1r, Hx. unfold m.
        repeat case_decide; simpl; try done; try lia.
        do 2 f_equal. lia.
      * rewrite (decide_False (P := Some (obj r) = Some o)) by congruence.
        rewrite HO1 by done. done.
Qed.

End Passes.

Lemma refs_app R l1 l2 o : refs R (l1 ++ l2) o = (refs R l1 o + refs R l2 o)%nat.
Proof. unfold refs. by rewrite filter_app, length_app. Qed.

Lemma lh_doall_eq f st l :
  added st = Some l → lh_ADDED_OBJ_doall f st = doall f l st.
Proof. intros H. unfold lh_ADDED_OBJ_doall. rewrite bind_eq. unfold get. by rewrite H. Qed.

Lemma wf_index_live st l :
  added st = Some l → wf_index st = true → live (recs st) (objs st) l.
Proof.
  intros Hl Hwf p Hp. unfold wf_index in Hwf. rewrite Hl in Hwf.
  pose proof (forallb_elem _ _ _ Hwf Hp) as H. simpl in H. unfold view in H.
  destruct (recs st !! p) as [r|]; simpl in H; [|done]. exists r. split; [done|].
  by destruct (objs st !! obj r).
Qed.

Lemma count_passes_spec st l :
  added st = Some l → wf_index st = true →
  (∀ o, (refs (recs st) l o ≤ 4)%nat) →
  ∃ O2, count_passes st = Some (tt, put O2 (recs st) st)
    ∧ ∀ o, O2 !! o =
        if decide (refs (recs st) l o = 0%nat) then objs st !! o
        else set_nid (Z.of_nat (refs (recs st) l o)) <$> (zeroed <$> objs st !! o).
Proof.
  intros Hl Hwf H4. pose proof (wf_index_live st l Hl Hwf) as Hlive.
  destruct (pass1 st (recs st) l (objs st) Hlive) as (O1 & E1 & HO1).
  rewrite put_id in E1.
  assert (Hlive1 : live (recs st) O1 l).
  { intros p Hp. destruct (Hlive p Hp) as (r & Hr & [x Hx]). exists r. split; [done|].
    rewrite HO1, Hx. by case_decide. }
  destruct (pass2 st (recs st) l O1 Hlive1) as (O2 & E2 & HO2).
  { intros o x Hro. rewrite HO1. specialize (H4 o).
    rewrite decide_False by done.
    destruct (objs st !! o) as [y|]; simpl; [|done]. intros [= <-]. simpl. lia. }
  exists O2. split.
  - unfold count_passes. rewrite bind_eq, (lh_doall_eq _ _ l Hl), E1.
    by rewrite (lh_doall_eq _ _ l).
  - intros o. rewrite HO2, HO1. case_decide; [done|].
    destruct (objs st !! o) as [y|]; simpl; [|done]. done.
Qed.

Lemma at_most_four_spec R l :
  at_most_four R l = true → ∀ o, (refs R l o ≤ 4)%nat.
Proof.
  intros H o. destruct (decide (refs R l o = 0%nat)) as [->|Hn]; [lia|].
  assert (∃ p, p ∈ l ∧ target R p = Some o) as (p & Hp & Ht).
  { unfold refs in Hn. destruct (filter _ l) as [|p f] eqn:Ef; [done|].
    assert (Hpf : p ∈ filter (λ p, target R p = Some o) l) by (rewrite Ef; by left).
    apply list_elem_of_filter in Hpf as [? ?]. by exists p. }
  pose proof (forallb_elem _ _ _ H Hp) as Hb. simpl in Hb. rewrite Ht in Hb.
  by apply Nat.leb_le in Hb.
Qed.

(** C8.  Teardown of an index whose records are distinct and allocated, no
    entry being referenced by more than four of them.  After the zeroing and
    the incrementing pass every referenced entry has as [nid] the number of
    records that reference it, between 1 and 4.  At every point of the third
    pass the records visited are freed, the others are untouched, and a
    referenced entry is still allocated exactly when a record not yet visited
    references it: it is freed at its last record, once.  The whole
    [ossl_obj_cleanup_int] runs without fault, frees every record of the
    index and every referenced entry, touches no other cell and leaves no
    index. *)
Theorem cleanup_frees_once st l :
  added st = Some l → NoDup l → wf_index st = true →
  at_most_four (recs st) l = true →
  ∃ st2,
    count_passes st = Some (tt, st2)
    ∧ recs st2 = recs st ∧ added st2 = added st
    ∧ (∀ p r, p ∈ l → recs st !! p = Some r →
         ∃ x, objs st2 !! obj r = Some x
              ∧ nid x = Z.of_nat (refs (recs st) l (obj r)) ∧ 1 ≤ nid x ≤ 4)
    ∧ (∀ visited todo, l = visited ++ todo →
         ∃ st3, doall cleanup3_doall visited st2 = Some (tt, st3)
           ∧ (∀ p, p ∈ visited → recs st3 !! p = None)
           ∧ (∀ p, p ∈ todo → recs st3 !! p = recs st !! p)
           ∧ ∀ o, refs (recs st) l o ≠ 0%nat →
               (is_Some (objs st3 !! o) ↔ refs (recs st) todo o ≠ 0%nat))
    ∧ ∃ st3,
        ossl_obj_cleanup_int st = Some (tt, st3)
        ∧ added st3 = None
        ∧ (∀ p, recs st3 !! p = if decide (p ∈ l) then None else recs st !! p)
        ∧ (∀ o, objs st3 !! o =
                if decide (refs (recs st) l o = 0%nat) then objs st !! o else None).
Proof.
  intros Hl Hnd Hwf H4b. pose proof (at_most_four_spec _ _ H4b) as H4.
  destruct (count_passes_spec st l Hl Hwf H4) as (O2 & E12 & HO2).
  pose proof (wf_index_live st l Hl Hwf) as Hlive.
  set (R := recs st) in *.
  assert (Hpos : ∀ p r, p ∈ l → R !! p = Some r → refs R l (obj r) ≠ 0%nat).
  { intros p r Hp Hr H0. by apply (refs_0 R l (obj r) p H0 Hp), target_Some. }
  assert (Hx2 : ∀ p r, p ∈ l → R !! p = Some r →
     ∃ x, O2 !! obj r = Some x ∧ nid x = Z.of_nat (refs R l (obj r)) ∧ dynamic x).
  { intros p r Hp Hr. destruct (Hlive p Hp) as (r' & Hr' & [y Hy]).
    rewrite Hr in Hr'. injection Hr' as <-.
    rewrite HO2, Hy. rewrite decide_False by (by eapply Hpos). simpl.
    eexists. split; [done|]. split; [done|]. apply zeroed_dynamic. }
  assert (Hsplit : ∀ visited todo, l = visited ++ todo →
     ∃ O3 R3, doall cleanup3_doall visited (put O2 R st) = Some (tt, put O3 R3 st)
       ∧ (∀ p, R3 !! p = if decide (p ∈ visited) then None else R !! p)
       ∧ ∀ o, O3 !! o =
           if decide (refs R visited o = 0%nat) then O2 !! o
           else if decide (refs R todo o = 0%nat) then None
           else set_nid (Z.of_nat (refs R todo o)) <$> O2 !! o).
  { intros visited todo ->.
    apply (pass3 st R visited O2 R (λ o, refs R todo o)).
    - by apply NoDup_app in Hnd as [? _].
    - done.
    - intros p Hp. destruct (Hlive p) as (r & Hr & _). { apply elem_of_app. by left. }
      destruct (Hx2 p r) as (x & Hx & Hn & Hd); [apply elem_of_app; by left|done|].
      exists r, x. split; [done|]. split; [done|]. split; [|done].
      by rewrite Hn, refs_app.
    - intros o. specialize (H4 o). rewrite refs_app in H4. lia. }
  exists (put O2 R st). split; [done|]. split; [done|]. split; [done|]. split.
  { intros p r Hp Hr. destruct (Hx2 p r Hp Hr) as (x & Hx & Hn & _).
    exists x. split; [done|]. split; [done|].
    specialize (H4 (obj r)). pose proof (Hpos p r Hp Hr). lia. }
  split.
  { intros visited todo Hvt. destruct (Hsplit visited todo Hvt) as (O3 & R3 & E3 & HR3 & HO3).
    exists (put O3 R3 st). split; [done|]. simpl. split; [|split].
    - intros p Hp. rewrite HR3. by rewrite decide_True.
    - intros p Hp. rewrite HR3. rewrite decide_False; [done|].
      subst l. apply NoDup_app in Hnd as (_ & Hd & _). intros Hv. by apply (Hd p).
    - intros o Ho. rewrite HO3.
      assert (is_Some (O2 !! o)) as [y Hy].
      { rewrite HO2. rewrite decide_False by done.
        assert (∃ p, p ∈ l ∧ target R p = Some o) as (p & Hp & Ht).
        { unfold refs in Ho. destruct (filter _ l) as [|p f] eqn:Ef; [done|].
          assert (Hpf : p ∈ filter (λ p, target R p = Some o) l) by (rewrite Ef; by left).
          apply list_elem_of_filter in Hpf as [? ?]. by exists p. }
        destruct (Hlive p Hp) as (r & Hr & [z Hz]). rewrite (target_Some _ _ _ Hr) in Ht.
        injection Ht as <-. rewrite Hz. by eexists. }
      rewrite Hy. subst l. rewrite refs_app in Ho.
      repeat case_decide; simpl; split; intros; try done; try lia; by eexists. }
  destruct (Hsplit l [] ltac:(by rewrite app_nil_r)) as (O3 & R3 & E3 & HR3 & HO3).
  exists (with_added None false (put O3 R3 st)). split.
  - unfold ossl_obj_cleanup_int. rewrite bind_eq. unfold get. rewrite Hl.
    unfold count_passes in E12. rewrite bind_eq in E12.
    rewrite bind_eq.
    destruct (lh_ADDED_OBJ_doall cleanup1_doall st) as [[[] s1]|]; [|done].
    rewrite bind_eq, E12. rewrite bind_eq.
    rewrite (lh_doall_eq _ _ l) by done. rewrite E3. done.
  - split; [done|]. split; [done|]. intros o. simpl. rewrite HO3.
    case_decide; [by rewrite HO2, decide_True|]. by rewrite decide_True.
Qed.

(** * The claims at the demo table *)

(** C1, evaluation at the failing input: an entry with a short name only is
    registered while the table refuses the insertion of its SNAME record.
    The rollback loop of lines 304-308 then hands the NULL pointer
    [ao[ADDED_DATA]] to [lh_ADDED_OBJ_delete]: the call is a memory fault,
    through [OBJ_add_object] as well as through [OBJ_create], instead of a
    failed registration that leaves the index as it was. *)
Theorem add_object_rollback_faults :
  OBJ_add_object demo_sn_only (with_plan [true; true; true; true; false] demo_st) = None
  ∧ OBJ_create demo_table None (Some "foo"%string) None
      (with_plan [true; true; true; true; true; false] demo_st) = None.
Proof. split; vm_compute; reflexivity. Qed.

(** When the entry has all four keys the same failure, at the LNAME record,
    is rolled back: the registration fails and the index is empty again. *)
Example add_object_rollback_complete :
  ∃ st', OBJ_create demo_table (Some "1.2.3"%string) (Some "foo"%string)
           (Some "bar"%string) (with_plan (repeat true 10 ++ [false]) demo_st)
         = Some (0, st')
    ∧ added st' = Some [] ∧ objs st' = ∅ ∧ recs st' = ∅
    ∧ err_queue st' = [ERR_R_CRYPTO_LIB].
Proof. eexists. split; [vm_compute; reflexivity|]. repeat split. Qed.

(** C10 at a buffer of twelve characters and a NULL object. *)
Lemma obj2txt_absent_object_witness :
  ∃ buf',
    OBJ_obj2txt demo_table (Some demo_buf) 12 None false demo_st
    = Some ((0, buf'), demo_st)
    ∧ (Some demo_buf = None → buf' = None)
    ∧ (∀ m, Some demo_buf = Some m → 1 ≤ 12 →
         buf' = Some (<[0%nat := NUL]> m) ∧ c_string (<[0%nat := NUL]> m) 0 = EmptyString)
    ∧ (∀ m, Some demo_buf = Some m → 12 < 1 → buf' = Some m).
Proof.
  apply (obj2txt_absent_object demo_table (Some demo_buf) 12 None false demo_st).
  - intros m [= <-]. simpl. lia.
  - left. reflexivity.
Defined.



(** C2 at the content octets of 2.999.3: the first sub-identifier is 1079. *)
Lemma obj2txt_first_arcs_witness :
  ∃ vs' : list Z,
    subids demo_der 0 = Some (1079 :: vs')
    ∧ let out := digit 2 :: "."%char :: dec 999 ++ arcs_text false vs' in
      7 = Z.of_nat (length out)
      ∧ holds (Some demo_buf) 12 out
          (Some (list_ascii_of_string "2.999.3" ++ NUL :: repeat "#"%char 4)).
Proof.
  apply (obj2txt_first_arcs demo_table (Some demo_buf) 12 demo_oid demo_der true
           demo_st demo_st 7
           (Some (list_ascii_of_string "2.999.3" ++ NUL :: repeat "#"%char 4)) demo_st).
  - split; [lia|]. intros m [= <-]. simpl. lia.
  - reflexivity.
  - discriminate.
  - reflexivity.
  - vm_compute. reflexivity.
  - lia.
Defined.

(** A sub-identifier beyond the machine word goes through the BIGNUM: the
    content octets [demo_wide] print as 2 and 2^70 - 80. *)
Example obj2txt_wide_arc :
  ∃ m st',
    OBJ_obj2txt demo_table (Some (repeat "#"%char 40)) 40 (Some demo_wide_oid) true demo_st
    = Some ((24, Some m), st')
    ∧ c_string m 0 = "2.1180591620717411303344"%string.
Proof. eexists _, _. split; vm_compute; reflexivity. Qed.

(** C5 as stated fails: the content octets [demo_wide] are accepted, and
    the call returns the length 24 of their text when the BIGNUM it needs
    is granted; when [BN_new] is refused (lines 538-539) the same call
    returns -1. *)
Lemma obj2txt_bignum_refused :
  (∃ buf' st', OBJ_obj2txt demo_table (Some demo_buf) 12 (Some demo_wide_oid) true demo_st
               = Some ((24, buf'), st'))
  ∧ (∃ buf' st', OBJ_obj2txt demo_table (Some demo_buf) 12 (Some demo_wide_oid) true
                   (with_plan [false] demo_st)
                 = Some ((-1, buf'), st'))
  ∧ ¬ (∀ T a d no_name st s st1,
         data a = Some d →
         obj2txt_name T a no_name st = Some (s, st1) →
         (s = None → Z.of_nat (length d) ≤ 586 ∧ ¬ truncated d) →
         ∃ out : list ascii,
           ∀ buf buf_len, buffer_ok buf buf_len →
             ∃ buf' st',
               OBJ_obj2txt T buf buf_len (Some a) no_name st
               = Some ((Z.of_nat (length out), buf'), st')).
Proof.
  split; [eexists _, _; vm_compute; reflexivity|].
  split; [eexists _, _; vm_compute; reflexivity|].
  intros H.
  destruct (H demo_table demo_wide_oid demo_wide true (with_plan [false] demo_st) None
              (with_plan [false] demo_st)) as (out & Hout).
  - reflexivity.
  - reflexivity.
  - intros _. split; [simpl; lia|]. intros (c & Hc & Hn).
    injection Hc as <-. vm_compute in Hn. lia.
  - destruct (Hout (Some demo_buf) 12) as (buf' & st' & E).
    + split; [lia|]. intros m [= <-]. simpl. lia.
    + eassert (E2 : OBJ_obj2txt demo_table (Some demo_buf) 12 (Some demo_wide_oid) true
                      (with_plan [false] demo_st) = Some ((-1, _), _))
        by (vm_compute; reflexivity).
      rewrite E2 in E. injection E as E _ _. lia.
Qed.

(** C5, as amended, at the content octets of 2.999.3. *)
Lemma obj2txt_length_and_terminator_witness :
  ∃ out : list ascii,
    ∀ buf buf_len, buffer_ok buf buf_len →
      ∃ r buf' k,
        OBJ_obj2txt demo_table buf buf_len (Some demo_oid) true demo_st
        = Some ((r, buf'), after_allocs k demo_st)
        ∧ (∀ m, buf = Some m → 1 ≤ buf_len →
             ∃ m' j, buf' = Some m' ∧ Z.of_nat j < buf_len ∧ m' !! j = Some NUL)
        ∧ (is_Some (@None string)
           ∨ (∀ vs, subids demo_der 0 = Some vs → word_arcs vs = true) →
             k = 0%nat)
        ∧ (granted k demo_st = false → r = -1)
        ∧ (granted k demo_st = true →
             r = Z.of_nat (length out)
             ∧ holds buf buf_len out buf'
             ∧ (∀ m, buf = Some m → Z.of_nat (length out) < buf_len →
                  ∃ m', buf' = Some m' ∧ take (length out) m' = out
                        ∧ m' !! length out = Some NUL)).
Proof.
  apply (obj2txt_length_and_terminator demo_table demo_oid demo_der true demo_st
           None demo_st).
  - reflexivity.
  - reflexivity.
  - intros _. split; [simpl; lia|]. intros (c & Hc & Hn).
    injection Hc as <-. vm_compute in Hn. lia.
Defined.

(** C3 as stated fails for [OBJ_nid2obj]: a NID that is in neither table
    is answered with NULL and with [OBJ_R_UNKNOWN_NID] on the error queue,
    although the lock was taken and nothing else went wrong. *)
Lemma nid2obj_absent_raises :
  ¬ (∀ T st n, wf_builtin T = true → wf_index st = true → lock_ok st = true →
       nid_known T st n = false →
       ∃ st', OBJ_nid2obj T n st = Some (None, st') ∧ err_queue st' = err_queue st).
Proof.
  intros H.
  destruct (H demo_table demo_st 7) as (st' & E & Hq); try reflexivity.
  vm_compute in E. injection E as <-. discriminate Hq.
Qed.

(** C3, amended, at keys the demo table does not have. *)
Lemma lookups_not_found_witness :
  OBJ_sn2nid demo_table "nope" demo_st = Some (NID_undef, demo_st)
  ∧ OBJ_ln2nid demo_table "no such thing" demo_st = Some (NID_undef, demo_st)
  ∧ OBJ_obj2nid demo_table (Some demo_oid) demo_st = Some (NID_undef, demo_st)
  ∧ OBJ_nid2obj demo_table 7 demo_st = Some (None, with_err OBJ_R_UNKNOWN_NID demo_st).
Proof.
  apply (lookups_not_found demo_table demo_st "nope" "no such thing" demo_oid 7).
  - reflexivity.
  - reflexivity.
  - reflexivity.
  - reflexivity.
  - reflexivity.
  - intros d [= <-]. reflexivity.
  - reflexivity.
Defined.

(** C6 at the built-in short name CN. *)
Lemma create_already_exists_witness :
  ∃ st', OBJ_create demo_table (Some "1.2.3.4"%string) (Some "CN"%string) None demo_st
         = Some (0, st')
         ∧ head (err_queue st') = Some OBJ_R_OID_EXISTS ∧ unchanged demo_st st'.
Proof.
  apply (create_already_exists demo_table).
  - reflexivity.
  - reflexivity.
  - left. exists "CN"%string, 2, demo_st. split; [reflexivity|].
    split; [vm_compute; reflexivity|]. discriminate.
Defined.

(** C9, evaluation at the failing input: the second line of [demo_bio]
    gives an OID and a short name but no long name.  When the table refuses
    the insertion of the NID record of its entry (the 21st allocation
    request of the run), [OBJ_create] (line 773) does not fail: the rollback
    loop of lines 304-308 hands the NULL pointer [ao[ADDED_LNAME]] to
    [lh_ADDED_OBJ_delete], and the loader faults instead of returning the
    count 1 of the line registered before.  A refusal one request earlier,
    at the SNAME record, is rolled back, and the loader returns 1; with no
    refusal it returns 2. *)
Theorem create_objects_faults :
  OBJ_create_objects demo_table demo_bio (with_plan (repeat true 20 ++ [false]) demo_st)
  = None
  ∧ (∃ st', OBJ_create_objects demo_table demo_bio
              (with_plan (repeat true 19 ++ [false]) demo_st) = Some (1, st'))
  ∧ OBJ_create_objects demo_table demo_bio demo_st = Some (2, demo_loaded).
Proof.
  split; [vm_compute; reflexivity|].
  split; [eexists; vm_compute; reflexivity|].
  vm_compute. reflexivity.
Qed.

(** Two well-formed lines, no refusal: both are registered. *)
Example create_objects_two_lines :
  loads demo_table (BIO_lines demo_bio [] 511) (repeat NUL 512) None demo_st 2 demo_loaded.
Proof.
  apply (create_objects_returns demo_table demo_bio demo_st 2 demo_loaded).
  vm_compute. reflexivity.
Qed.

(** C8 at the registry that holds one added entry under its four keys. *)
Lemma cleanup_frees_once_witness :
  ∃ st3, ossl_obj_cleanup_int demo_registered = Some (tt, st3)
         ∧ added st3 = None
         ∧ (∀ p, recs st3 !! p
                 = if decide (p ∈ demo_index) then None else recs demo_registered !! p)
         ∧ (∀ o, objs st3 !! o
                 = if decide (refs (recs demo_registered) demo_index o = 0%nat)
                   then objs demo_registered !! o else None).
Proof.
  destruct (cleanup_frees_once demo_registered demo_index) as (st2 & _ & _ & _ & _ & _ & H).
  - vm_compute. reflexivity.
  - apply (bool_decide_unpack _). vm_compute. exact I.
  - reflexivity.
  - reflexivity.
  - exact H.
Defined.

(** * The hash callback agrees with the comparison callback *)

Lemma memcmp_0_data (a b : ASN1_OBJECT) :
  obj_length a = obj_length b →
  memcmp (default [] (data a)) (default [] (data b)) (Z.to_nat (obj_length a)) = 0 →
  default [] (data a) = default [] (data b).
Proof.
  intros Hl Hm. apply (memcmp_0 _ _ (Z.to_nat (obj_length a))); [| |done].
  - unfold obj_length. destruct (data a); simpl; lia.
  - rewrite Hl. unfold obj_length. destruct (data b); simpl; lia.
Qed.

(** X1.  The hash callback [added_obj_hash] (lines 121-152) is consistent
    with the comparison callback [added_obj_cmp] (lines 154-190): two tagged
    keys that compare equal have the same hash value, whatever the string
    hash is. *)
Theorem added_obj_hash_cmp strhash (ca cb : Z * ASN1_OBJECT) :
  added_obj_cmp ca cb = 0 →
  added_obj_hash strhash ca = added_obj_hash strhash cb.
Proof.
  destruct ca as [t a], cb as [k b]. unfold added_obj_cmp, added_obj_hash. simpl.
  destruct (t - k =? 0) eqn:Et; simpl; [|intros; apply Z.eqb_neq in Et; lia].
  apply Z.eqb_eq in Et. assert (k = t) as -> by lia. clear Et.
  destruct (t =? ADDED_DATA).
  { destruct (obj_length a - obj_length b =? 0) eqn:El; simpl;
      [|intros; apply Z.eqb_neq in El; lia].
    apply Z.eqb_eq in El. assert (Hl : obj_length a = obj_length b) by lia.
    intros Hm. by rewrite (memcmp_0_data a b Hl Hm), Hl. }
  destruct (t =? ADDED_SNAME).
  { destruct (sn a) as [x|], (sn b) as [y|]; try done. by intros ->%strcmp_0. }
  destruct (t =? ADDED_LNAME).
  { destruct (ln a) as [x|], (ln b) as [y|]; try done. by intros ->%strcmp_0. }
  destruct (t =? ADDED_NID); [|done].
  intros H. by replace (nid a) with (nid b) by lia.
Qed.

Lemma hash_tagged_tag t ret : Z.shiftr (hash_tagged t ret) 30 = t.
Proof.
  unfold hash_tagged. rewrite Z.shiftr_lor, Z.shiftr_shiftl_l by lia.
  replace (30 - 30) with 0 by lia. rewrite Z.shiftl_0_r.
  rewrite (Z.shiftr_div_pow2 (Z.land _ _)) by lia.
  assert (0 ≤ Z.land ret 1073741823 < 2 ^ 30).
  { change 1073741823 with (Z.ones 30). rewrite Z.land_ones by lia.
    apply Z.mod_pos_bound. lia. }
  rewrite Z.div_small by lia. done.
Qed.

(** X2.  For each of the four key types the hash value carries the type
    in its bits 30 and 31 (lines 149-150): shifted right by 30 it is the
    type again, so keys of different types never share a hash value. *)
Theorem added_obj_hash_tag strhash (t : Z) (a : ASN1_OBJECT) :
  0 ≤ t ≤ 3 →
  Z.shiftr (added_obj_hash strhash (t, a)) 30 = t.
Proof.
  intros Ht. unfold added_obj_hash. simpl.
  assert (t = 0 ∨ t = 1 ∨ t = 2 ∨ t = 3) as [-> | [-> | [-> | ->]]] by lia; simpl;
    apply hash_tagged_tag.
Qed.

(** * The lookups on every input *)

Section MoreLookups.
Variable T : builtin.

Lemma OBJ_nid2obj_eq n st :
  OBJ_nid2obj T n st =
  if nid_static T n then Some (Some (Static (Z.to_nat n)), st)
  else if lock_ok st then
    match added st with
    | None => Some (None, with_err OBJ_R_UNKNOWN_NID st)
    | Some l =>
        r ← lh_find st (ADDED_NID, set_nid n key_obj) l;
        match r with
        | Some p => rc ← recs st !! p; Some (Some (Dyn (obj rc)), st)
        | None => Some (None, with_err OBJ_R_UNKNOWN_NID st)
        end
    end
  else Some (None, with_err ERR_R_UNABLE_TO_GET_READ_LOCK st).
Proof.
  unfold OBJ_nid2obj, nid_static.
  destruct (_ || _); [done|].
  rewrite bind_eq, read_lock_eq. simpl.
  destruct (lock_ok st) eqn:Hl; simpl; [|done].
  rewrite bind_eq. unfold get. rewrite bind_eq.
  destruct (added st) as [l|] eqn:Ha; [|done].
  rewrite retrieve_eq, Ha. simpl.
  destruct (lh_find st _ l) as [[p|]|]; simpl; [|done|done].
  cbv [bind ossl_obj_unlock ret rec_obj get lift].
  destruct (recs st !! p); done.
Qed.

Lemma wf_nids_elem i e :
  wf_nids T = true → nid_objs T !! i = Some e →
  nid e = NID_undef ∨ nid e = Z.of_nat i.
Proof.
  intros H He. unfold wf_nids in H.
  assert (Hin : (i, e) ∈ imap pair (nid_objs T)).
  { apply list_elem_of_lookup. exists i. rewrite list_lookup_imap, He. done. }
  pose proof (forallb_elem _ _ _ H Hin) as Hb. simpl in Hb.
  apply orb_true_iff in Hb as [Hb|Hb]; apply Z.eqb_eq in Hb; auto.
Qed.

Lemma nid_static_builtin n e :
  0 ≤ n → nid_objs T !! Z.to_nat n = Some e →
  n = NID_undef ∨ nid e ≠ NID_undef → nid_static T n = true.
Proof.
  intros Hn He Hd. unfold nid_static. destruct (n =? NID_undef) eqn:E0; [done|].
  apply Z.eqb_neq in E0. destruct Hd as [?|Hd]; [done|]. simpl. rewrite He.
  assert (Z.to_nat n < length (nid_objs T))%nat by (by eapply lookup_lt_Some).
  unfold NUM_NID, NID_undef in *.
  replace (0 <? n) with true by (symmetry; apply Z.ltb_lt; lia).
  replace (n <? Z.of_nat (length (nid_objs T))) with true by (symmetry; apply Z.ltb_lt; lia).
  simpl. apply negb_true_iff. by apply Z.eqb_neq.
Qed.

(** X3.  For a NID inside the built-in table whose slot is in use, and for
    [NID_undef], [OBJ_nid2obj] returns the slot of the table itself, and
    [OBJ_nid2sn] and [OBJ_nid2ln] return its two names; the registry is not
    touched and the added index is not consulted. *)
Theorem nid2obj_builtin n e st :
  0 ≤ n → nid_objs T !! Z.to_nat n = Some e →
  n = NID_undef ∨ nid e ≠ NID_undef →
  OBJ_nid2obj T n st = Some (Some (Static (Z.to_nat n)), st)
  ∧ OBJ_nid2sn T n st = Some (sn e, st)
  ∧ OBJ_nid2ln T n st = Some (ln e, st).
Proof.
  intros Hn He Hd. pose proof (nid_static_builtin n e Hn He Hd) as Hs.
  assert (E : OBJ_nid2obj T n st = Some (Some (Static (Z.to_nat n)), st)).
  { by rewrite OBJ_nid2obj_eq, Hs. }
  split; [done|]. unfold OBJ_nid2sn, OBJ_nid2ln. rewrite !bind_eq, E.
  cbv [bind deref get lift ret]. by rewrite He.
Qed.

Lemma nid2obj_nid n st p st' a st'' :
  wf_nids T = true → n ≠ NID_undef →
  OBJ_nid2obj T n st = Some (Some p, st') →
  deref T p st' = Some (a, st'') →
  st' = st ∧ nid a = n.
Proof.
  intros Hwf Hn E Hd. rewrite OBJ_nid2obj_eq in E.
  destruct (nid_static T n) eqn:Hs.
  - injection E as <- <-. cbv [deref bind get lift] in Hd.
    destruct (nid_objs T !! Z.to_nat n) as [e|] eqn:He; [|done].
    injection Hd as <- _. split; [done|].
    unfold nid_static in Hs. rewrite He in Hs.
    destruct (n =? NID_undef) eqn:E0; [apply Z.eqb_eq in E0; done|]. simpl in Hs.
    apply andb_true_iff in Hs as [Hs Hne]. apply andb_true_iff in Hs as [H0 _].
    apply Z.ltb_lt in H0. apply negb_true_iff, Z.eqb_neq in Hne.
    destruct (wf_nids_elem _ _ Hwf He) as [?|Hi]; [done|]. rewrite Hi. lia.
  - destruct (lock_ok st); [|done].
    destruct (added st) as [l|]; [|done].
    destruct (lh_find st _ l) as [[q|]|] eqn:Ef; simpl in E; [|done|done].
    destruct (recs st !! q) as [rc|] eqn:Hq; simpl in E; [|done].
    injection E as <- <-. split; [done|].
    cbv [deref bind get lift] in Hd.
    destruct (objs st !! obj rc) as [x|] eqn:Hx; [|done]. injection Hd as <- _.
    assert (Hc : added_obj_cmp (type rc, x) (ADDED_NID, set_nid n key_obj) = 0).
    { clear -Ef Hq Hx. induction l as [|q' l IH]; [done|]. simpl in Ef.
      destruct (view st q') as [v|] eqn:Hv; simpl in Ef; [|done].
      destruct (added_obj_cmp v _ =? 0) eqn:Ec.
      - injection Ef as ->. unfold view in Hv. rewrite Hq in Hv. simpl in Hv.
        rewrite Hx in Hv. injection Hv as <-. by apply Z.eqb_eq.
      - by apply IH. }
    apply added_obj_cmp_0 in Hc as (_ & _ & _ & Hc & _). by apply Hc.
Qed.

(** X4.  Round trip NID, entry, NID: when every slot in use of the
    built-in table carries its own index as NID, the entry that
    [OBJ_nid2obj] returns for a NID other than [NID_undef] has that NID, and
    [OBJ_obj2nid] maps the entry back to it; the lookup leaves the registry
    as it was. *)
Theorem nid2obj_obj2nid n st p st' a st'' :
  wf_nids T = true → n ≠ NID_undef →
  OBJ_nid2obj T n st = Some (Some p, st') →
  deref T p st' = Some (a, st'') →
  st' = st ∧ nid a = n ∧ OBJ_obj2nid T (Some a) st = Some (n, st).
Proof.
  intros Hwf Hn E Hd.
  destruct (nid2obj_nid n st p st' a st'' Hwf Hn E Hd) as [-> Ha].
  split; [done|]. split; [done|].
  unfold OBJ_obj2nid. rewrite ossl_obj_obj2nid_eq, Ha.
  replace (n =? NID_undef) with false by (symmetry; by apply Z.eqb_neq). done.
Qed.

Hypothesis Hwf : wf_builtin T = true.

Lemma obj2nid_total a lock st :
  wf_index st = true →
  ∃ n st', ossl_obj_obj2nid T a lock st = Some (n, st') ∧ lookup_post st st'.
Proof.
  intros Hwi. destruct a as [a|]; [|exists NID_undef, st; split; [done|by left]].
  rewrite ossl_obj_obj2nid_eq.
  destruct (negb (nid a =? NID_undef)); [exists (nid a), st; split; [done|by left]|].
  destruct (obj_length a =? 0); [exists NID_undef, st; split; [done|by left]|].
  destruct (builtin_lookup_total T (obj_cmp T a) (obj_objs T)) as (op & E & Hop).
  { intros e He. by apply wf_obj_cmp. }
  unfold OBJ_bsearch_obj. rewrite E. simpl. destruct op as [b|].
  - destruct (Hop b eq_refl) as [e He]. rewrite He. simpl.
    exists (nid e), st. split; [done|by left].
  - by apply added_nid_total.
Qed.

Lemma nid2obj_total n st :
  wf_index st = true →
  ∃ r st', OBJ_nid2obj T n st = Some (r, st') ∧ quiet st st'
    ∧ match r with
      | Some (Static i) => i = Z.to_nat n ∧ nid_static T n = true
      | Some (Dyn o) => is_Some (objs st' !! o)
      | None => True
      end.
Proof.
  intros Hwi. rewrite OBJ_nid2obj_eq.
  assert (Hq : ∀ r, quiet st (with_err r st)) by (intros; by repeat split).
  destruct (nid_static T n) eqn:Hs.
  { eexists _, _. split; [done|]. split; [apply quiet_refl|done]. }
  destruct (lock_ok st); [|eexists _, _; split; [done|]; split; [apply Hq|done]].
  destruct (added st) as [l|] eqn:Ha; [|eexists _, _; split; [done|]; split; [apply Hq|done]].
  destruct (lh_find_total st (ADDED_NID, set_nid n key_obj) l) as [r Er].
  { intros p Hp. by apply (wf_index_view st l). }
  rewrite Er. simpl. destruct r as [p|];
    [|eexists _, _; split; [done|]; split; [apply Hq|done]].
  apply lh_find_elem in Er as [_ [v Hv]]. unfold view in Hv.
  destruct (recs st !! p) as [rc|]; simpl in *; [|done].
  eexists _, _. split; [done|]. split; [apply quiet_refl|].
  destruct (objs st !! obj rc); [by eexists|done].
Qed.

Lemma deref_nid2obj n r st st' :
  wf_index st = true → 0 < NUM_NID T →
  OBJ_nid2obj T n st = Some (Some r, st') →
  ∃ a, deref T r st' = Some (a, st').
Proof.
  intros Hwi Hnum E. destruct (nid2obj_total n st Hwi) as (r0 & st0 & E0 & _ & Hr).
  rewrite E in E0. injection E0 as <- <-. cbv [deref bind get lift].
  destruct r as [i|o].
  - destruct Hr as [-> Hs]. unfold nid_static in Hs.
    destruct (nid_objs T !! Z.to_nat n) as [e|] eqn:He; [by eexists|].
    rewrite andb_false_r, orb_false_r in Hs. apply Z.eqb_eq in Hs. subst n.
    apply lookup_ge_None in He. unfold NUM_NID in Hnum.
    change (Z.to_nat NID_undef) with 0%nat in He. lia.
  - destruct Hr as [a ->]. by eexists.
Qed.

Lemma nid2sn_total n st :
  wf_index st = true → 0 < NUM_NID T →
  ∃ r st', OBJ_nid2sn T n st = Some (r, st') ∧ quiet st st'.
Proof.
  intros Hwi Hnum. destruct (nid2obj_total n st Hwi) as (r & st' & E & H & _).
  unfold OBJ_nid2sn. rewrite bind_eq, E. destruct r as [r|]; [|eauto].
  destruct (deref_nid2obj n r st st' Hwi Hnum E) as [a Ea]. rewrite bind_eq, Ea. eauto.
Qed.

Lemma nid2ln_total n st :
  wf_index st = true → 0 < NUM_NID T →
  ∃ r st', OBJ_nid2ln T n st = Some (r, st') ∧ quiet st st'.
Proof.
  intros Hwi Hnum. destruct (nid2obj_total n st Hwi) as (r & st' & E & H & _).
  unfold OBJ_nid2ln. rewrite bind_eq, E. destruct r as [r|]; [|eauto].
  destruct (deref_nid2obj n r st st' Hwi Hnum E) as [a Ea]. rewrite bind_eq, Ea. eauto.
Qed.

(** X5.  On a registry whose index is well formed no lookup faults and
    none modifies the registry: [OBJ_sn2nid], [OBJ_ln2nid], [OBJ_obj2nid],
    [OBJ_nid2obj], [OBJ_nid2sn] and [OBJ_nid2ln] return on every argument,
    and the state they leave differs from the one they started in by the
    error queue at most. *)
Theorem lookups_read_only st :
  wf_index st = true → 0 < NUM_NID T →
  (∀ s, ∃ n st', OBJ_sn2nid T s st = Some (n, st') ∧ quiet st st')
  ∧ (∀ l, ∃ n st', OBJ_ln2nid T l st = Some (n, st') ∧ quiet st st')
  ∧ (∀ a, ∃ n st', OBJ_obj2nid T a st = Some (n, st') ∧ quiet st st')
  ∧ (∀ n, ∃ r st', OBJ_nid2obj T n st = Some (r, st') ∧ quiet st st')
  ∧ (∀ n, ∃ r st', OBJ_nid2sn T n st = Some (r, st') ∧ quiet st st')
  ∧ (∀ n, ∃ r st', OBJ_nid2ln T n st = Some (r, st') ∧ quiet st st').
Proof.
  intros Hwi Hnum.
  split; [|split; [|split; [|split; [|split]]]].
  - intros s. destruct (sn2nid_total T Hwf s st Hwi) as (n & st' & E & H).
    exists n, st'. split; [done|by apply lookup_post_quiet].
  - intros l. destruct (ln2nid_total T Hwf l st Hwi) as (n & st' & E & H).
    exists n, st'. split; [done|by apply lookup_post_quiet].
  - intros a. destruct (obj2nid_total a true st Hwi) as (n & st' & E & H).
    exists n, st'. split; [done|by apply lookup_post_quiet].
  - intros n. destruct (nid2obj_total n st Hwi) as (r & st' & E & H & _). eauto.
  - intros n. by apply nid2sn_total.
  - intros n. by apply nid2ln_total.
Qed.

Lemma obj2txt_name_total a no_name st :
  wf_index st = true → 0 < NUM_NID T →
  ∃ s st1, obj2txt_name T a no_name st = Some (s, st1) ∧ quiet st st1.
Proof.
  intros Hwi Hnum. unfold obj2txt_name.
  destruct no_name; [exists None, st; split; [done|apply quiet_refl]|].
  destruct (obj2nid_total (Some a) true st Hwi) as (n & st1 & E & H1%lookup_post_quiet).
  rewrite bind_eq. unfold OBJ_obj2nid. rewrite E.
  destruct (n =? NID_undef); [by exists None, st1|].
  pose proof (quiet_wf_index _ _ H1 Hwi) as Hwi1.
  destruct (nid2ln_total n st1 Hwi1 Hnum) as (s & st2 & E2 & H2).
  rewrite bind_eq, E2. destruct s as [s|].
  - exists (Some s), st2. split; [done|]. by eapply quiet_trans.
  - destruct (nid2sn_total n st2 (quiet_wf_index _ _ H2 Hwi1) Hnum) as (s & st3 & E3 & H3).
    rewrite E3. exists s, st3. split; [done|]. eapply quiet_trans; [|done]. by eapply quiet_trans.
Qed.

Lemma holds_safe buf buf_len out buf' :
  holds buf buf_len out buf' →
  (buf = None → buf' = None)
  ∧ ∀ m, buf = Some m →
      ∃ m', buf' = Some m' ∧ length m' = length m
        ∧ drop (Z.to_nat buf_len) m' = drop (Z.to_nat buf_len) m
        ∧ (1 ≤ buf_len → ∃ k : nat, Z.of_nat k < buf_len ∧ m' !! k = Some NUL).
Proof.
  unfold holds. intros H. destruct buf as [m|], buf' as [m'|]; try done.
  split; [done|]. intros ? [= <-]. destruct H as (Hl & Hd & Hs).
  exists m'. split; [done|]. split; [done|]. split; [done|].
  intros Hcap. destruct (Hs Hcap) as [_ Hn]. eexists. split; [|exact Hn]. lia.
Qed.

(** X6.  [OBJ_obj2txt] is memory safe on every entry, well formed or not,
    and every buffer of the capacity stated: it returns a result of at least
    -1 and leaves the registry alone up to the error queue and the [k]
    requests it makes of the allocation plan; it writes nothing at or beyond
    [buf_len], keeps the size of the buffer, and when [buf_len] is at least
    1 it leaves a NUL among the first [buf_len] characters.  This holds
    whether or not a BIGNUM request is refused. *)
Theorem obj2txt_safe buf buf_len a no_name st :
  buffer_ok buf buf_len → wf_index st = true → 0 < NUM_NID T →
  ∃ ret buf' st1 k,
    OBJ_obj2txt T buf buf_len a no_name st = Some ((ret, buf'), after_allocs k st1)
    ∧ quiet st st1 ∧ -1 ≤ ret
    ∧ (buf = None → buf' = None)
    ∧ ∀ m, buf = Some m →
        ∃ m', buf' = Some m' ∧ length m' = length m
          ∧ drop (Z.to_nat buf_len) m' = drop (Z.to_nat buf_len) m
          ∧ (1 ≤ buf_len → ∃ j : nat, Z.of_nat j < buf_len ∧ m' !! j = Some NUL).
Proof.
  intros Hok Hwi Hnum.
  assert (Habs : a = None ∨ (∃ o, a = Some o ∧ data o = None) →
    ∃ buf', OBJ_obj2txt T buf buf_len a no_name st = Some ((0, buf'), st)
            ∧ holds buf buf_len [] buf').
  { intros Ha. destruct (first_store buf buf_len Hok) as (buf1 & E1 & H1 & _).
    exists buf1. split; [|done]. unfold OBJ_obj2txt, bind, lift. rewrite E1.
    destruct Ha as [-> | (o & -> & Ho)]; [done|]. by rewrite Ho. }
  destruct a as [a|].
  2:{ destruct Habs as (buf' & E & H); [by left|].
      exists 0, buf', st, 0%nat. rewrite after_allocs_0.
      split; [done|]. split; [apply quiet_refl|]. split; [lia|].
      by apply (holds_safe _ _ []). }
  destruct (data a) as [d|] eqn:Hd.
  2:{ destruct Habs as (buf' & E & H); [right; eauto|].
      exists 0, buf', st, 0%nat. rewrite after_allocs_0.
      split; [done|]. split; [apply quiet_refl|]. split; [lia|].
      by apply (holds_safe _ _ []). }
  destruct (obj2txt_name_total a no_name st Hwi Hnum) as (s & st1 & En & Hq).
  destruct s as [s|].
  - destruct (OBJ_obj2txt_named T buf buf_len a d no_name st st1 s Hok Hd En)
      as (buf' & E & H).
    eexists _, buf', st1, 0%nat. rewrite after_allocs_0.
    split; [exact E|]. split; [done|]. split; [lia|].
    by eapply holds_safe.
  - destruct (OBJ_obj2txt_dotted T buf buf_len a d no_name st st1 Hok Hd En)
      as (r & buf' & pre & k & E & H & _ & Hlong & Hshort).
    exists r, buf', st1, k. split; [exact E|]. split; [done|]. split.
    { destruct (Z.lt_ge_cases 586 (Z.of_nat (length d))) as [H5|H5].
      - destruct (Hlong H5) as (-> & _). lia.
      - destruct (Hshort ltac:(lia)) as [Hr _].
        destruct (granted k st1); [|lia]. destruct Hr as [_ ->].
        destruct (subids d 0); lia. }
    by eapply holds_safe.
Qed.

End MoreLookups.

(** * The binary searches over sorted indexes *)

Lemma ossl_bsearch_go_found (cmp : nat → option Z) (base : list nat) j e :
  base !! j = Some e →
  (∀ i b, base !! i = Some b →
     ∃ c, cmp b = Some c ∧ ((i < j)%nat → 0 < c) ∧ (i = j → c = 0)
          ∧ ((j < i)%nat → c < 0)) →
  ∀ fuel l h, (l ≤ j < h)%nat → (h ≤ length base)%nat → (h - l ≤ fuel)%nat →
  ossl_bsearch_go fuel cmp base l h = Some (Some e).
Proof.
  intros Hj Hc. induction fuel as [|fuel IH]; intros l h Hlh Hh Hf; [lia|].
  cbn [ossl_bsearch_go].
  replace (l <? h)%nat with true by (symmetry; apply Nat.ltb_lt; lia).
  set (i := ((l + h) / 2)%nat).
  assert (Hi : (l ≤ i < h)%nat).
  { unfold i. split.
    - apply Nat.div_le_lower_bound; lia.
    - apply Nat.Div0.div_lt_upper_bound; lia. }
  destruct (lookup_lt_is_Some_2 base i) as [b Hb]; [lia|].
  rewrite Hb. simpl. destruct (Hc i b Hb) as (c & -> & H1 & H2 & H3). simpl.
  destruct (decide (i < j)%nat) as [Hlt|Hge].
  - specialize (H1 Hlt).
    replace (c <? 0) with false by (symmetry; apply Z.ltb_ge; lia).
    replace (0 <? c) with true by (symmetry; apply Z.ltb_lt; lia).
    apply IH; lia.
  - destruct (decide (i = j)) as [Heq|Hne].
    + rewrite (H2 Heq). simpl. subst i. rewrite Heq in Hb. congruence.
    + assert (Hgt : (j < i)%nat) by lia. specialize (H3 Hgt).
      replace (c <? 0) with true by (symmetry; apply Z.ltb_lt; lia).
      apply IH; lia.
Qed.

Lemma sorted_index_lt T cmp base i j bi bj :
  sorted_index T cmp base = true →
  base !! i = Some bi → base !! j = Some bj → (i < j)%nat →
  ∃ e c, nid_objs T !! bi = Some e ∧ cmp e bj = Some c ∧ c < 0.
Proof.
  intros H Hi Hj Hlt. unfold sorted_index in H.
  assert (Hin : ∀ k b, base !! k = Some b → (k, b) ∈ imap pair base).
  { intros k b Hk. apply list_elem_of_lookup. exists k. by rewrite list_lookup_imap, Hk. }
  pose proof (forallb_elem _ _ _ H (Hin i bi Hi)) as H1. simpl in H1.
  pose proof (forallb_elem _ _ _ H1 (Hin j bj Hj)) as H2. simpl in H2.
  replace (i <? j)%nat with true in H2 by (symmetry; apply Nat.ltb_lt; lia).
  destruct (nid_objs T !! bi) as [e|]; simpl in H2; [|done].
  destruct (cmp e bj) as [c|] eqn:Ec; [|done].
  exists e, c. split; [done|]. split; [done|]. by apply Z.ltb_lt.
Qed.

Lemma strcmp_refl a : strcmp a a = 0.
Proof.
  unfold strcmp. pose proof (String.compare_antisym a a) as H.
  by destruct (String.compare a a).
Qed.

Lemma strcmp_antisym a b : strcmp a b < 0 → 0 < strcmp b a.
Proof.
  unfold strcmp. rewrite (String.compare_antisym b a).
  destruct (String.compare a b); simpl; lia.
Qed.

Lemma memcmp_refl (a : list byte) : ∀ n, memcmp a a n = 0.
Proof.
  induction a as [|x a IH]; intros [|n]; simpl; try done.
  rewrite Z.ltb_irrefl. apply IH.
Qed.

Lemma memcmp_antisym (a : list byte) : ∀ b n, memcmp a b n < 0 → 0 < memcmp b a n.
Proof.
  induction a as [|x a IH]; intros [|y b] [|n]; simpl; try lia.
  destruct (byte_val x <? byte_val y) eqn:E1.
  - apply Z.ltb_lt in E1.
    replace (byte_val y <? byte_val x) with false by (symmetry; apply Z.ltb_ge; lia). lia.
  - destruct (byte_val y <? byte_val x) eqn:E2; [lia|]. apply IH.
Qed.

Section BuiltinFound.
Variable T : builtin.

Lemma obj_cmp_data a b x : data a = data b → obj_cmp T a x = obj_cmp T b x.
Proof. intros H. unfold obj_cmp, obj_length. by rewrite H. Qed.

Lemma bsearch_found cmp base j b :
  base !! j = Some b →
  (∀ i bi, base !! i = Some bi →
     ∃ c, cmp bi = Some c ∧ ((i < j)%nat → 0 < c) ∧ (i = j → c = 0)
          ∧ ((j < i)%nat → c < 0)) →
  OBJ_bsearch_ cmp base = Some (Some b).
Proof.
  intros Hj Hc. unfold OBJ_bsearch_, ossl_bsearch.
  apply (ossl_bsearch_go_found cmp base j b Hj Hc).
  - apply lookup_lt_Some in Hj. lia.
  - lia.
  - lia.
Qed.

Lemma bsearch_sn_found j b e s :
  sorted_sn T = true → sn_objs T !! j = Some b →
  nid_objs T !! b = Some e → sn e = Some s →
  OBJ_bsearch_sn T (set_names (Some s) None key_obj) = Some (Some b).
Proof.
  intros Hs Hj He Hn. apply (bsearch_found _ _ j b Hj).
  intros i bi Hi. unfold sn_cmp at 1. simpl.
  destruct (lt_eq_lt_dec i j) as [[Hlt|Heq]|Hgt].
  - destruct (sorted_index_lt T _ _ i j bi b Hs Hi Hj Hlt) as (ei & c & Hei & Hc & Hneg).
    unfold sn_cmp in Hc. rewrite He in Hc. simpl in Hc. rewrite Hn in Hc.
    destruct (sn ei) as [x|] eqn:Hx; simpl in Hc; [|done]. injection Hc as <-.
    rewrite Hei. simpl. rewrite Hx. simpl. eexists. split; [done|].
    split; [intros; by apply strcmp_antisym|]. split; intros; lia.
  - subst i. rewrite Hj in Hi. injection Hi as <-. rewrite He. simpl. rewrite Hn. simpl.
    eexists. split; [done|]. rewrite strcmp_refl. split; [lia|]. split; [done|lia].
  - destruct (sorted_index_lt T _ _ j i b bi Hs Hj Hi Hgt) as (ej & c & Hej & Hc & Hneg).
    rewrite He in Hej. injection Hej as <-.
    unfold sn_cmp in Hc. rewrite Hn in Hc. simpl in Hc.
    destruct (nid_objs T !! bi) as [ei|]; simpl in *; [|done].
    destruct (sn ei) as [x|]; simpl in *; [|done]. injection Hc as <-.
    eexists. split; [done|]. split; [lia|]. split; [lia|done].
Qed.

Lemma bsearch_ln_found j b e s :
  sorted_ln T = true → ln_objs T !! j = Some b →
  nid_objs T !! b = Some e → ln e = Some s →
  OBJ_bsearch_ln T (set_names None (Some s) key_obj) = Some (Some b).
Proof.
  intros Hs Hj He Hn. apply (bsearch_found _ _ j b Hj).
  intros i bi Hi. unfold ln_cmp at 1. simpl.
  destruct (lt_eq_lt_dec i j) as [[Hlt|Heq]|Hgt].
  - destruct (sorted_index_lt T _ _ i j bi b Hs Hi Hj Hlt) as (ei & c & Hei & Hc & Hneg).
    unfold ln_cmp in Hc. rewrite He in Hc. simpl in Hc. rewrite Hn in Hc.
    destruct (ln ei) as [x|] eqn:Hx; simpl in Hc; [|done]. injection Hc as <-.
    rewrite Hei. simpl. rewrite Hx. simpl. eexists. split; [done|].
    split; [intros; by apply strcmp_antisym|]. split; intros; lia.
  - subst i. rewrite Hj in Hi. injection Hi as <-. rewrite He. simpl. rewrite Hn. simpl.
    eexists. split; [done|]. rewrite strcmp_refl. split; [lia|]. split; [done|lia].
  - destruct (sorted_index_lt T _ _ j i b bi Hs Hj Hi Hgt) as (ej & c & Hej & Hc & Hneg).
    rewrite He in Hej. injection Hej as <-.
    unfold ln_cmp in Hc. rewrite Hn in Hc. simpl in Hc.
    destruct (nid_objs T !! bi) as [ei|]; simpl in *; [|done].
    destruct (ln ei) as [x|]; simpl in *; [|done]. injection Hc as <-.
    eexists. split; [done|]. split; [lia|]. split; [lia|done].
Qed.

Lemma obj_cmp_antisym ei ej bi bj c :
  nid_objs T !! bi = Some ei → nid_objs T !! bj = Some ej →
  obj_cmp T ei bj = Some c → c < 0 →
  ∃ c', obj_cmp T ej bi = Some c' ∧ 0 < c'.
Proof.
  unfold obj_cmp. intros Hi Hj. rewrite Hi, Hj. simpl.
  destruct (obj_length ei - obj_length ej =? 0) eqn:El; simpl.
  - apply Z.eqb_eq in El. replace (obj_length ej - obj_length ei) with 0 by lia. simpl.
    replace (obj_length ej) with (obj_length ei) by lia.
    destruct (obj_length ei =? 0); [intros [= <-]; lia|].
    destruct (data ei) as [x|], (data ej) as [y|]; simpl; try done.
    intros [= <-] Hc. eexists. split; [done|]. by apply memcmp_antisym.
  - apply Z.eqb_neq in El. intros [= <-] Hc.
    replace (obj_length ej - obj_length ei =? 0) with false
      by (symmetry; apply Z.eqb_neq; lia). simpl. eexists. split; [done|]. lia.
Qed.

Lemma obj_cmp_self e b :
  nid_objs T !! b = Some e → obj_cmp T e b = Some 0.
Proof.
  unfold obj_cmp. intros ->. simpl. rewrite Z.sub_diag. simpl.
  destruct (obj_length e =? 0) eqn:E0; [done|].
  destruct (data e) as [x|] eqn:Hx; simpl.
  - by rewrite memcmp_refl.
  - unfold obj_length in E0. by rewrite Hx in E0.
Qed.

Lemma bsearch_obj_found j b e a :
  sorted_obj T = true → obj_objs T !! j = Some b →
  nid_objs T !! b = Some e → data a = data e →
  OBJ_bsearch_obj T a = Some (Some b).
Proof.
  intros Hs Hj He Hd. apply (bsearch_found _ _ j b Hj).
  intros i bi Hi. rewrite (obj_cmp_data a e bi Hd).
  destruct (lt_eq_lt_dec i j) as [[Hlt|Heq]|Hgt].
  - destruct (sorted_index_lt T _ _ i j bi b Hs Hi Hj Hlt) as (ei & c & Hei & Hc & Hneg).
    destruct (obj_cmp_antisym ei e bi b c Hei He Hc Hneg) as (c' & -> & Hpos).
    exists c'. split; [done|]. split; [done|]. split; intros; lia.
  - subst i. rewrite Hj in Hi. injection Hi as <-. rewrite (obj_cmp_self e b He).
    eexists. split; [done|]. split; [lia|]. split; [done|lia].
  - destruct (sorted_index_lt T _ _ j i b bi Hs Hj Hi Hgt) as (ej & c & Hej & Hc & Hneg).
    rewrite He in Hej. injection Hej as <-.
    exists c. split; [done|]. split; [lia|]. split; [lia|done].
Qed.

(** X7.  With the three built-in indexes sorted, the binary searches find
    what the indexes list: the short name, the long name and the content
    octets of a built-in entry resolve to the NID of that entry, with the
    registry untouched, whatever the added index holds. *)
Theorem builtin_keys_found b e st :
  sorted_sn T = true → sorted_ln T = true → sorted_obj T = true →
  nid_objs T !! b = Some e →
  (b ∈ sn_objs T → ∀ s, sn e = Some s → OBJ_sn2nid T s st = Some (nid e, st))
  ∧ (b ∈ ln_objs T → ∀ l, ln e = Some l → OBJ_ln2nid T l st = Some (nid e, st))
  ∧ (b ∈ obj_objs T → ∀ a, nid a = NID_undef → obj_length a ≠ 0 → data a = data e →
       OBJ_obj2nid T (Some a) st = Some (nid e, st)).
Proof.
  intros H1 H2 H3 He. split; [|split].
  - intros [j Hj]%list_elem_of_lookup s Hs.
    rewrite OBJ_sn2nid_eq, (bsearch_sn_found j b e s H1 Hj He Hs). simpl. by rewrite He.
  - intros [j Hj]%list_elem_of_lookup l Hl.
    rewrite OBJ_ln2nid_eq, (bsearch_ln_found j b e l H2 Hj He Hl). simpl. by rewrite He.
  - intros [j Hj]%list_elem_of_lookup a Hn Hlen Hd.
    unfold OBJ_obj2nid. rewrite ossl_obj_obj2nid_eq, Hn. simpl.
    replace (obj_length a =? 0) with false by (symmetry; by apply Z.eqb_neq).
    rewrite (bsearch_obj_found j b e a H3 Hj He Hd). simpl. by rewrite He.
Qed.

End BuiltinFound.

(** * Encoding and decoding of sub-identifiers *)

Lemma byte_val_of z : 0 ≤ z < 256 → byte_val (byte_of z) = z.
Proof.
  intros Hz. unfold byte_val, byte_of.
  destruct (Byte.of_N (Z.to_N z)) as [b|] eqn:E.
  - simpl. apply Byte.to_of_N in E. rewrite E. lia.
  - apply Byte.of_N_None_iff in E. lia.
Qed.

Lemma subids_cont c p v acc :
  byte_val c = 128 + v → 0 ≤ v < 128 → p ≠ [] →
  subids (c :: p) acc = subids p (128 * acc + v).
Proof.
  intros Hc Hv Hp. cbn [subids]. rewrite Hc.
  assert (H7 : Z.land (128 + v) 127 = v).
  { change 127 with (Z.ones 7). rewrite Z.land_ones by lia.
    rewrite <- (Z.mod_unique_pos (128 + v) (2 ^ 7) 1 v); lia. }
  assert (H8 : Z.land (128 + v) 128 = 128).
  { apply Z.bits_inj'. intros n Hn. rewrite Z.land_spec.
    change 128 with (2 ^ 7) at 2 3. rewrite Z.pow2_bits_eqb by lia.
    destruct (Z.eqb_spec 7 n) as [<-|Hne]; [|apply andb_false_r].
    rewrite andb_true_r. rewrite Z.testbit_eqb by lia.
    change (2 ^ 7) with 128.
    replace ((128 + v) / 128) with 1 by (apply Z.div_unique with v; lia). done. }
  rewrite H7, H8. simpl. destruct p; [done|done].
Qed.

Lemma subids_last c p v acc :
  byte_val c = v → 0 ≤ v < 128 →
  subids (c :: p) acc = (vs ← subids p 0; Some ((128 * acc + v) :: vs)).
Proof.
  intros Hc Hv. cbn [subids]. rewrite Hc.
  assert (H7 : Z.land v 127 = v).
  { change 127 with (Z.ones 7). rewrite Z.land_ones by lia. apply Z.mod_small. lia. }
  assert (H8 : Z.land v 128 = 0).
  { apply Z.bits_inj'. intros n Hn. rewrite Z.land_spec, Z.bits_0.
    change 128 with (2 ^ 7). rewrite Z.pow2_bits_eqb by lia.
    destruct (Z.eqb_spec 7 n) as [<-|Hne]; [|apply andb_false_r].
    rewrite andb_true_r. rewrite Z.testbit_eqb by lia.
    change (2 ^ 7) with 128. by rewrite Z.div_small by lia. }
  rewrite H7, H8. simpl. done.
Qed.

Lemma subids_base128_more rest (fuel : nat) : ∀ v acc,
  0 ≤ v < 128 ^ Z.of_nat fuel → acc ≠ [] →
  subids (base128_more fuel v acc ++ rest) 0 = subids (acc ++ rest) v.
Proof.
  induction fuel as [|fuel IH]; intros v acc Hv Hacc.
  - simpl in *. by replace v with 0 by lia.
  - cbn [base128_more]. destruct (v =? 0) eqn:E0; [apply Z.eqb_eq in E0; by subst|].
    apply Z.eqb_neq in E0.
    rewrite IH; [| |done].
    + rewrite <- app_comm_cons.
      rewrite (subids_cont _ _ (v mod 128)).
      * f_equal. pose proof (Z.div_mod v 128). lia.
      * apply byte_val_of. pose proof (Z.mod_pos_bound v 128). lia.
      * apply Z.mod_pos_bound. lia.
      * by destruct acc.
    + split; [apply Z.div_pos; lia|].
      apply Z.div_lt_upper_bound; [lia|].
      rewrite Nat2Z.inj_succ, Z.pow_succ_r in Hv by lia. lia.
Qed.

Lemma subids_base128 v rest :
  0 ≤ v → subids (base128 v ++ rest) 0 = (vs ← subids rest 0; Some (v :: vs)).
Proof.
  intros Hv. unfold base128.
  rewrite subids_base128_more; [| |done].
  - cbn [app]. rewrite (subids_last _ _ (v mod 128)).
    + pose proof (Z.div_mod v 128). replace (128 * (v / 128) + v mod 128) with v by lia. done.
    + apply byte_val_of. pose proof (Z.mod_pos_bound v 128). lia.
    + apply Z.mod_pos_bound. lia.
  - split; [apply Z.div_pos; lia|].
    destruct (decide (v < 128)) as [Hs|Hb].
    + rewrite Z.div_small by lia. apply Z.pow_pos_nonneg; lia.
    + assert (7 ≤ Z.log2 v) by (apply Z.log2_le_pow2; lia).
      rewrite Z2Nat.id by lia.
      apply Z.div_lt_upper_bound; [lia|].
      pose proof (Z.log2_spec v ltac:(lia)) as [_ Hu].
      change 128 with (2 ^ 7). rewrite <- Z.pow_mul_r by lia.
      rewrite <- Z.pow_add_r by lia.
      eapply Z.lt_le_trans; [exact Hu|]. apply Z.pow_le_mono_r; lia.
Qed.

Lemma subids_encode vs :
  Forall (λ v, 0 ≤ v) vs → subids (encode_subids vs) 0 = Some vs.
Proof.
  unfold encode_subids. induction 1 as [|v vs Hv _ IH]; [done|].
  simpl. rewrite subids_base128 by done. by rewrite IH.
Qed.

Lemma arcs_text_false rest :
  arcs_text false rest = concat (map (λ v, "."%char :: dec v) rest).
Proof. induction rest as [|v rest IH]; [done|]. simpl. by rewrite IH. Qed.

Lemma arcs_text_dotted a b rest :
  (0 ≤ a ≤ 1 ∧ 0 ≤ b < 40) ∨ (a = 2 ∧ 0 ≤ b) →
  arcs_text true (40 * a + b :: rest) = dotted a b rest.
Proof.
  intros H. unfold dotted. simpl. rewrite arcs_text_false.
  unfold arc_text, first_arcs.
  destruct H as [[Ha Hb]|[-> Hb]].
  - replace (40 * a + b <? 80) with true by (symmetry; apply Z.ltb_lt; lia). simpl.
    replace ((40 * a + b) / 40) with a by (apply Z.div_unique with b; lia).
    replace ((40 * a + b) mod 40) with b by (apply Z.mod_unique with a; lia). done.
  - replace (40 * 2 + b <? 80) with false by (symmetry; apply Z.ltb_ge; lia). simpl.
    replace (40 * 2 + b - 80) with b by lia. done.
Qed.

Lemma parse_digits_acc (d : Decimal.uint) : ∀ acc : positive,
  parse_digits (list_ascii_of_string (NilEmpty.string_of_uint d)) (Z.pos acc)
  = Some (Z.pos (Pos.of_uint_acc d acc)).
Proof.
  induction d; intros acc; cbn [NilEmpty.string_of_uint list_ascii_of_string parse_digits
    Pos.of_uint_acc]; [done|..];
  match goal with
  | |- context [ossl_isdigit ?c] => change (ossl_isdigit c) with true; cbn match
  end;
  match goal with
  | |- parse_digits _ ?z = Some (Z.pos (Pos.of_uint_acc _ ?p)) =>
      replace z with (Z.pos p) by (unfold code; simpl; lia); apply IHd
  end.
Qed.

Lemma parse_digits_uint (d : Decimal.uint) :
  parse_digits (list_ascii_of_string (NilEmpty.string_of_uint d)) 0
  = Some (Z.of_N (Pos.of_uint d)).
Proof.
  induction d; cbn [NilEmpty.string_of_uint list_ascii_of_string parse_digits Pos.of_uint];
    [done|..];
  match goal with
  | |- context [ossl_isdigit ?c] => change (ossl_isdigit c) with true; cbn match
  end; [exact IHd|..];
  match goal with
  | |- parse_digits _ ?z = Some (Z.of_N (N.pos (Pos.of_uint_acc _ ?p))) =>
      change z with (Z.pos p); apply parse_digits_acc
  end.
Qed.

Lemma parse_digits_dec v : 0 ≤ v → parse_digits (dec v) 0 = Some v.
Proof.
  intros Hv. unfold dec, NilZero.string_of_uint.
  pose proof (DecimalN.Unsigned.of_to (Z.to_N v)) as Hr. unfold N.of_uint in Hr.
  destruct (N.to_uint (Z.to_N v)) eqn:E;
    try (rewrite parse_digits_uint, Hr; f_equal; lia).
  simpl in Hr. simpl. change (code "0") with 48. f_equal. lia.
Qed.

Lemma uint_digits (d : Decimal.uint) :
  Forall (λ c, ossl_isdigit c = true) (list_ascii_of_string (NilEmpty.string_of_uint d)).
Proof. induction d; simpl; constructor; done. Qed.

Lemma dec_digits v : Forall (λ c, ossl_isdigit c = true) (dec v).
Proof.
  unfold dec, NilZero.string_of_uint. destruct (N.to_uint (Z.to_N v)) eqn:E;
    try (rewrite <- E; apply uint_digits).
  simpl. constructor; done.
Qed.

Lemma dec_nonempty v : dec v ≠ [].
Proof.
  unfold dec, NilZero.string_of_uint. by destruct (N.to_uint (Z.to_N v)).
Qed.

Lemma parse_arc_dec v : 0 ≤ v → parse_arc (dec v) = Some v.
Proof.
  intros Hv. unfold parse_arc. pose proof (dec_nonempty v).
  destruct (dec v) eqn:E; [done|]. rewrite <- E. by apply parse_digits_dec.
Qed.

Lemma isdigit_not_dot c : ossl_isdigit c = true → Ascii.eqb c "."%char = false.
Proof.
  intros H. destruct (Ascii.eqb_spec c "."%char) as [->|]; [|done]. done.
Qed.

Lemma split_on_dot_word (w : list ascii) : ∀ s cur,
  Forall (λ c, ossl_isdigit c = true) w →
  split_on_dot (w ++ s) cur = split_on_dot s (rev w ++ cur).
Proof.
  induction w as [|c w IH]; intros s cur Hw; [done|].
  apply Forall_cons in Hw as [Hc Hw]. simpl. rewrite (isdigit_not_dot c Hc).
  rewrite IH by done. by rewrite <- app_assoc.
Qed.

Lemma split_on_dot_arcs (rest : list Z) : ∀ w,
  Forall (λ c, ossl_isdigit c = true) w →
  split_on_dot (w ++ concat (map (λ v, "."%char :: dec v) rest)) [] = w :: map dec rest.
Proof.
  induction rest as [|v rest IH]; intros w Hw.
  - simpl. rewrite split_on_dot_word by done. simpl. by rewrite app_nil_r, rev_involutive.
  - simpl. rewrite split_on_dot_word by done. simpl.
    rewrite app_nil_r, rev_involutive. f_equal. apply IH, dec_digits.
Qed.

Lemma mapM_parse_arcs (rest : list Z) :
  Forall (λ v, 0 ≤ v) rest → mapM parse_arc (map dec rest) = Some rest.
Proof.
  induction 1 as [|v rest Hv _ IH]; [done|].
  simpl. rewrite parse_arc_dec by done. simpl. by rewrite IH.
Qed.

Lemma text_to_der_dotted a b rest :
  (0 ≤ a ≤ 1 ∧ 0 ≤ b < 40) ∨ (a = 2 ∧ 0 ≤ b) →
  Forall (λ v, 0 ≤ v) rest →
  Z.of_nat (length (encode_subids (40 * a + b :: rest))) ≤ 586 →
  text_to_der (string_of_list_ascii (dotted a b rest))
  = Some (encode_subids (40 * a + b :: rest)).
Proof.
  intros Hab Hrest Hlen. unfold text_to_der.
  rewrite list_ascii_of_string_of_list_ascii. unfold dotted.
  assert (Hda : ossl_isdigit (digit a) = true ∧ parse_arc [digit a] = Some a).
  { assert (a = 0 ∨ a = 1 ∨ a = 2) as [-> | [-> | ->]] by lia; done. }
  destruct Hda as [Hd Hp].
  change (digit a :: "."%char :: ?x) with ([digit a] ++ "."%char :: x).
  rewrite split_on_dot_word by (by constructor). cbn [split_on_dot rev app].
  change ("."%char =? "."%char)%char with true. cbn match. cbn [rev app].
  rewrite split_on_dot_arcs by apply dec_digits.
  cbn [mapM]. rewrite Hp. cbn [mbind option_bind].
  assert (Hb : 0 ≤ b) by lia. rewrite (parse_arc_dec b Hb). cbn [mbind option_bind].
  rewrite (mapM_parse_arcs rest Hrest). cbn [mbind option_bind mret option_ret].
  replace (((a <=? 1) && (b <? 40)) || (a =? 2)) with true.
  2:{ symmetry. destruct Hab as [[Ha Hb']|[-> _]]; [|done].
      apply orb_true_iff. left. apply andb_true_iff. split; [apply Z.leb_le|apply Z.ltb_lt]; lia. }
  fold (encode_subids (40 * a + b :: rest)).
  replace (586 <? _) with false by (symmetry; apply Z.ltb_ge; lia). done.
Qed.

Section Decode.
Variable T : builtin.

Lemma OBJ_obj2txt_encoded buf buf_len a0 b0 rest a no_name st st1 :
  (0 ≤ a0 ≤ 1 ∧ 0 ≤ b0 < 40) ∨ (a0 = 2 ∧ 0 ≤ b0) →
  Forall (λ v, 0 ≤ v) rest →
  data a = Some (encode_subids (40 * a0 + b0 :: rest)) →
  Z.of_nat (length (encode_subids (40 * a0 + b0 :: rest))) ≤ 586 →
  obj2txt_name T a no_name st = Some (None, st1) →
  word_arcs (40 * a0 + b0 :: rest) = true ∨ all_granted st1 = true →
  buffer_ok buf buf_len →
  ∃ buf' k,
    OBJ_obj2txt T buf buf_len (Some a) no_name st
    = Some ((Z.of_nat (length (dotted a0 b0 rest)), buf'), after_allocs k st1)
    ∧ holds buf buf_len (dotted a0 b0 rest) buf'
    ∧ (word_arcs (40 * a0 + b0 :: rest) = true → k = 0%nat).
Proof.
  intros Hab Hrest Hd Hlen Hname Hbn Hok.
  destruct (OBJ_obj2txt_dotted T buf buf_len a _ no_name st st1 Hok Hd Hname)
    as (r & buf' & pre & k & E & Hh & _ & _ & Hshort).
  destruct (Hshort Hlen) as [Hr Hk].
  assert (Hs : subids (encode_subids (40 * a0 + b0 :: rest)) 0 = Some (40 * a0 + b0 :: rest)).
  { apply subids_encode. constructor; [lia|done]. }
  assert (Hg : granted k st1 = true).
  { destruct Hbn as [Hw|Hall].
    - by rewrite (Hk _ Hs Hw).
    - by apply all_granted_granted. }
  rewrite Hg, Hs, (subids_done_Some _ _ _ Hs), (arcs_text_dotted a0 b0 rest Hab) in Hr.
  destruct Hr as [-> ->]. exists buf', k. split; [done|]. split; [done|].
  by apply Hk.
Qed.

(** X8.  [OBJ_obj2txt] inverts the base-128 encoding: for an entry that
    has no name to print and whose content octets encode the arcs
    [a0.b0.rest] (first arc 0 or 1 with a second arc below 40, or first arc
    2), the text produced is the dotted-decimal form of these arcs, and the
    result is its length, provided every sub-identifier is below 2^64 or no
    request of the allocation plan is refused: a larger sub-identifier goes
    through a BIGNUM, and the call returns -1 when that is refused.  With
    sub-identifiers below 2^64 no request is made. *)
Theorem obj2txt_decodes buf buf_len a0 b0 rest a no_name st st1 :
  (0 ≤ a0 ≤ 1 ∧ 0 ≤ b0 < 40) ∨ (a0 = 2 ∧ 0 ≤ b0) →
  Forall (λ v, 0 ≤ v) rest →
  data a = Some (encode_subids (40 * a0 + b0 :: rest)) →
  Z.of_nat (length (encode_subids (40 * a0 + b0 :: rest))) ≤ 586 →
  obj2txt_name T a no_name st = Some (None, st1) →
  word_arcs (40 * a0 + b0 :: rest) = true ∨ all_granted st1 = true →
  buffer_ok buf buf_len →
  ∃ buf' k,
    OBJ_obj2txt T buf buf_len (Some a) no_name st
    = Some ((Z.of_nat (length (dotted a0 b0 rest)), buf'), after_allocs k st1)
    ∧ holds buf buf_len (dotted a0 b0 rest) buf'
    ∧ (word_arcs (40 * a0 + b0 :: rest) = true → k = 0%nat).
Proof. apply OBJ_obj2txt_encoded. Qed.

(** X9.  Round trip text, entry, text: [OBJ_txt2obj] with [no_name] set
    turns the dotted-decimal text of valid arcs into an entry that holds
    their base-128 encoding (given the two allocations it asks for), and
    [OBJ_obj2txt] prints that entry as the same text, provided every
    sub-identifier is below 2^64 or no request of the allocation plan is
    refused. *)
Theorem txt2obj_obj2txt_roundtrip a0 b0 rest st buf buf_len :
  (0 ≤ a0 ≤ 1 ∧ 0 ≤ b0 < 40) ∨ (a0 = 2 ∧ 0 ≤ b0) →
  Forall (λ v, 0 ≤ v) rest →
  Z.of_nat (length (encode_subids (40 * a0 + b0 :: rest))) ≤ 586 →
  granted 2 st = true →
  word_arcs (40 * a0 + b0 :: rest) = true ∨ all_granted st = true →
  buffer_ok buf buf_len →
  ∃ p st1 e,
    OBJ_txt2obj T (string_of_list_ascii (dotted a0 b0 rest)) true st
    = Some (Some p, st1)
    ∧ deref T p st1 = Some (e, st1)
    ∧ data e = Some (encode_subids (40 * a0 + b0 :: rest))
    ∧ ∃ buf' k,
        OBJ_obj2txt T buf buf_len (Some e) true st1
        = Some ((Z.of_nat (length (dotted a0 b0 rest)), buf'), after_allocs k st1)
        ∧ holds buf buf_len (dotted a0 b0 rest) buf'.
Proof.
  intros Hab Hrest Hlen Hg Hbn Hok.
  unfold OBJ_txt2obj. cbn [negb]. rewrite txt2obj_dotted_eq.
  rewrite (text_to_der_dotted a0 b0 rest Hab Hrest Hlen), Hg.
  set (p := fresh (dom (objs st))).
  set (der := encode_subids (40 * a0 + b0 :: rest)) in *.
  set (st1 := with_objs (insert p (der_entry der)) (after_allocs 2 st)).
  exists (Dyn p), st1, (der_entry der).
  split; [done|]. split.
  { cbv [deref bind get lift]. simpl. by rewrite lookup_insert_eq. }
  split; [done|].
  destruct (OBJ_obj2txt_encoded buf buf_len a0 b0 rest (der_entry der) true st1 st1)
    as (buf' & k & E & Hh & _); try done.
  - destruct Hbn as [?|Hall]; [by left|right].
    by apply (all_granted_after 2) in Hall.
  - by exists buf', k.
Qed.

End Decode.

(** * [OBJ_txt2nid] *)

Lemma unchanged_refl st : unchanged st st.
Proof. by repeat split. Qed.

Lemma unchanged_trans a b c : unchanged a b → unchanged b c → unchanged a c.
Proof.
  intros (H1 & H2 & H3 & H4) (G1 & G2 & G3 & G4).
  repeat split; congruence.
Qed.

Lemma quiet_unchanged st st' : quiet st st' → unchanged st st'.
Proof. intros (H1 & H2 & H3 & H4 & H5 & _). by repeat split. Qed.

Lemma unchanged_after_allocs k st : unchanged st (after_allocs k st).
Proof. by repeat split. Qed.

Lemma unchanged_with_err r st : unchanged st (with_err r st).
Proof. by repeat split. Qed.

Lemma forallb_intro {A} (f : A → bool) (l : list A) :
  (∀ x, x ∈ l → f x = true) → forallb f l = true.
Proof. intros H. apply forallb_forall. intros x Hx. apply H. by apply list_elem_of_In. Qed.

Lemma wf_index_extends st st' : extends st st' → wf_index st = true → wf_index st' = true.
Proof.
  intros Hex Hwf. pose proof Hex as (_ & Ha & _). unfold wf_index in *. rewrite Ha.
  destruct (added st) as [l|]; [|done].
  apply forallb_intro. intros p Hp.
  pose proof (forallb_elem _ _ _ Hwf Hp) as H. simpl in H.
  destruct (view st p) as [v|] eqn:Hv; [|done].
  by rewrite (view_extends st st' p v Hex Hv).
Qed.

Section Txt2nid.
Variable T : builtin.
Hypothesis Hwf : wf_builtin T = true.

Lemma nid2obj_dyn n o st st' :
  OBJ_nid2obj T n st = Some (Some (Dyn o), st') →
  st' = st ∧ ∃ l p rc, added st = Some l ∧ p ∈ l ∧ recs st !! p = Some rc ∧ obj rc = o.
Proof.
  rewrite OBJ_nid2obj_eq. destruct (nid_static T n); [done|].
  destruct (lock_ok st); [|done]. destruct (added st) as [l|]; [|done].
  destruct (lh_find st _ l) as [[p|]|] eqn:Ef; simpl; [|done|done].
  destruct (recs st !! p) as [rc|] eqn:Hrc; simpl; [|done].
  intros [= <- <-]. split; [done|]. exists l, p, rc.
  apply lh_find_elem in Ef as [Hp _]. done.
Qed.

Lemma free_registered o st l p rc :
  entries_static st = true → added st = Some l → p ∈ l →
  recs st !! p = Some rc → obj rc = o →
  free_objptr (Dyn o) st = Some (tt, st).
Proof.
  intros Hs Ha Hp Hrc Ho. unfold entries_static in Hs. rewrite Ha in Hs.
  pose proof (forallb_elem _ _ _ Hs Hp) as H. simpl in H. unfold view in H.
  rewrite Hrc in H. simpl in H. rewrite Ho in H.
  destruct (objs st !! o) as [x|] eqn:Hx; simpl in H; [|done].
  cbv [free_objptr ASN1_OBJECT_free load_obj bind get lift ret modify].
  rewrite Hx, H. done.
Qed.

Lemma entries_static_quiet st st' :
  quiet st st' → entries_static st = true → entries_static st' = true.
Proof.
  intros (H1 & H2 & H3 & _) H. unfold entries_static, view in *.
  by rewrite H1, H2, H3.
Qed.

(** After [OBJ_nid2obj] gave [ob]: reading it, asking its NID and freeing
    it, as [OBJ_txt2nid] does. *)
Lemma txt2nid_tail_static ob st :
  wf_index st = true → entries_static st = true → 0 < NUM_NID T →
  ∀ n st2, OBJ_nid2obj T n st = Some (ob, st2) →
  ∃ k st',
    match ob with
    | None => ret NID_undef
    | Some p =>
        a <- deref T p;; nid <- OBJ_obj2nid T (Some a);; free_objptr p;; ret nid
    end st2 = Some (k, st')
    ∧ unchanged st st'
    ∧ ∀ p a s, ob = Some p → deref T p st2 = Some (a, s) → nid a ≠ NID_undef → k = nid a.
Proof.
  intros Hwi Hst Hnum n st2 E.
  destruct (nid2obj_total T n st Hwi) as (r & s2 & E' & Hq & _).
  rewrite E in E'. injection E' as <- <-.
  destruct ob as [p|].
  2:{ exists NID_undef, st2. split; [done|]. split; [by apply quiet_unchanged|done]. }
  destruct (deref_nid2obj T n p st st2 Hwi Hnum E) as [a Ea].
  rewrite bind_eq, Ea.
  pose proof (quiet_wf_index _ _ Hq Hwi) as Hwi2.
  destruct (obj2nid_total T Hwf (Some a) true st2 Hwi2) as (k & st3 & Ek & Hp).
  rewrite bind_eq. unfold OBJ_obj2nid at 1. rewrite Ek.
  pose proof (lookup_post_quiet _ _ Hp) as Hq3.
  assert (Hfree : free_objptr p st3 = Some (tt, st3)).
  { destruct p as [i|o]; [done|].
    destruct (nid2obj_dyn n o st st2 E) as (-> & l & q & rc & Ha & Hq' & Hrc & Ho).
    pose proof (entries_static_quiet _ _ Hq3 Hst) as Hst3.
    destruct Hq3 as (G1 & G2 & G3 & _).
    apply (free_registered o st3 l q rc); try done; congruence. }
  rewrite bind_eq, Hfree. exists k, st3. split; [done|]. split.
  { apply quiet_unchanged. by eapply quiet_trans. }
  intros p' a' s' [= <-] Ea' Hn. rewrite Ea in Ea'. injection Ea' as <- _.
  rewrite ossl_obj_obj2nid_eq in Ek.
  replace (nid a =? NID_undef) with false in Ek by (symmetry; by apply Z.eqb_neq).
  simpl in Ek. by injection Ek as <- _.
Qed.

Lemma name_to_nid_total s st :
  wf_index st = true →
  ∃ k st1, name_to_nid T s st = Some (k, st1) ∧ quiet st st1.
Proof.
  intros Hwi. unfold name_to_nid.
  destruct (sn2nid_total T Hwf s st Hwi) as (n1 & s1 & E1 & H1%lookup_post_quiet).
  rewrite bind_eq, E1. destruct (negb (n1 =? NID_undef)); [by exists n1, s1|].
  destruct (ln2nid_total T Hwf s s1 (quiet_wf_index _ _ H1 Hwi))
    as (n2 & s2 & E2 & H2%lookup_post_quiet).
  exists n2, s2. split; [done|]. by eapply quiet_trans.
Qed.

Lemma OBJ_txt2obj_eq s st k st1 :
  name_to_nid T s st = Some (k, st1) →
  OBJ_txt2obj T s false st =
  if negb (k =? NID_undef) then OBJ_nid2obj T k st1
  else if negb (ossl_isdigit (first_char s))
       then Some (None, with_err OBJ_R_UNKNOWN_OBJECT_NAME st1)
       else txt2obj_dotted s st1.
Proof.
  unfold name_to_nid, OBJ_txt2obj, bind. simpl.
  destruct (OBJ_sn2nid T s st) as [[n1 s1]|]; [|done].
  destruct (n1 =? NID_undef) eqn:E1; simpl.
  - intros E2. rewrite E2. destruct (negb (k =? NID_undef)); [done|].
    by destruct (negb (ossl_isdigit (first_char s))).
  - intros [= -> ->]. by rewrite E1.
Qed.

(** X10.  [OBJ_txt2nid] returns on every string and leaves the entries,
    the records, the index and the NID counter as they were: the temporary
    entry built for a numerical OID is released again (line 631), an entry
    of the table or of the index is not.  The result is the NID the name
    resolves to or, for a numerical OID, what [OBJ_obj2nid] answers for its
    encoding. *)
Theorem txt2nid_frees s st :
  wf_index st = true → entries_static st = true → 0 < NUM_NID T →
  ∃ n st',
    OBJ_txt2nid T s st = Some (n, st') ∧ unchanged st st'
    ∧ (∀ k st1 p st2,
         name_to_nid T s st = Some (k, st1) → k ≠ NID_undef →
         wf_nids T = true → OBJ_nid2obj T k st1 = Some (Some p, st2) → n = k)
    ∧ (∀ st1 der,
         name_to_nid T s st = Some (NID_undef, st1) →
         ossl_isdigit (first_char s) = true →
         text_to_der s = Some der → granted 2 st1 = true →
         ∃ st2, OBJ_obj2nid T (Some (der_entry der)) st1 = Some (n, st2)).
Proof.
  intros Hwi Hst Hnum.
  destruct (name_to_nid_total s st Hwi) as (k & st1 & En & Hq1).
  pose proof (quiet_wf_index _ _ Hq1 Hwi) as Hwi1.
  pose proof (entries_static_quiet _ _ Hq1 Hst) as Hst1.
  unfold OBJ_txt2nid. rewrite bind_eq, (OBJ_txt2obj_eq s st k st1 En).
  destruct (k =? NID_undef) eqn:Ek; [apply Z.eqb_eq in Ek; subst k|apply Z.eqb_neq in Ek];
    cbn [negb].
  - (* no name: dotted text or failure *)
    destruct (ossl_isdigit (first_char s)) eqn:Ed; cbn [negb].
    2:{ exists NID_undef, (with_err OBJ_R_UNKNOWN_OBJECT_NAME st1). split; [done|]. split.
        { eapply unchanged_trans; [by apply quiet_unchanged|apply unchanged_with_err]. }
        split; [intros ? ? ? ? E'; rewrite En in E'; by injection E' as <- <-|].
        intros ? ? E' ?. done. }
    rewrite txt2obj_dotted_eq. destruct (text_to_der s) as [der|] eqn:Et.
    2:{ exists NID_undef, (with_err ASN1_R_INVALID_OID st1). split; [done|]. split.
        { eapply unchanged_trans; [by apply quiet_unchanged|apply unchanged_with_err]. }
        split; [intros ? ? ? ? E'; rewrite En in E'; by injection E' as <- <-|].
        intros ? ? E' ? ?. done. }
    destruct (granted 2 st1) eqn:Eg.
    2:{ eexists NID_undef, _. split; [done|]. split.
        { eapply unchanged_trans; [by apply quiet_unchanged|apply unchanged_after_allocs]. }
        split; [intros ? ? ? ? E'; rewrite En in E'; by injection E' as <- <-|].
        intros ? ? E' ? ? ?. rewrite En in E'. injection E' as <-. congruence. }
    cbv zeta. set (p := fresh (dom (objs st1))).
    set (s2 := with_objs (insert p (der_entry der)) (after_allocs 2 st1)).
    assert (Hp : objs st1 !! p = None) by (apply not_elem_of_dom, is_fresh).
    assert (Hex : extends st1 s2).
    { repeat split; try done. simpl. by apply insert_subseteq. }
    assert (Hex0 : extends (after_allocs 2 st1) s2).
    { repeat split; try done. simpl. by apply insert_subseteq. }
    pose proof (wf_index_extends _ _ Hex Hwi1) as Hwi2.
    destruct (obj2nid_total T Hwf (Some (der_entry der)) true st1 Hwi1)
      as (n & s1' & E1 & Hp1).
    destruct (obj2nid_extends T (der_entry der) true st1 s2 n s1' Hex E1)
      as (_ & s3 & E3 & Hp3).
    assert (Ed2 : deref T (Dyn p) s2 = Some (der_entry der, s2)).
    { cbv [deref bind get lift]. simpl. by rewrite lookup_insert_eq. }
    rewrite bind_eq, Ed2, bind_eq. unfold OBJ_obj2nid at 1. rewrite E3.
    assert (Hfree : free_objptr (Dyn p) s3
                    = Some (tt, with_objs (delete p) s3)).
    { cbv [free_objptr ASN1_OBJECT_free load_obj bind get lift ret modify].
      destruct Hp3 as [->| ->]; simpl; by rewrite lookup_insert_eq. }
    rewrite bind_eq, Hfree. exists n, (with_objs (delete p) s3). split; [done|]. split.
    { eapply unchanged_trans; [by apply quiet_unchanged|].
      destruct Hp3 as [->| ->]; repeat split; simpl;
        by rewrite delete_insert_id. }
    split; [intros ? ? ? ? E'; rewrite En in E'; by injection E' as <- <-|].
    intros st1' der' E' _ Et' _. rewrite En in E'. injection E' as <-.
    injection Et' as <-. eauto.
  - (* a name *)
    destruct (OBJ_nid2obj T k st1) as [[ob s2]|] eqn:Eo.
    2:{ destruct (nid2obj_total T k st1 Hwi1) as (? & ? & E' & _). congruence. }
    destruct (txt2nid_tail_static ob st1 Hwi1 Hst1 Hnum k s2 Eo) as (n & st' & Et & Hu & Hv).
    exists n, st'. split; [done|]. split; [eapply unchanged_trans; [by apply quiet_unchanged|done]|].
    split.
    + intros k' st1' p st2 E' Hk Hwn Eo'. rewrite En in E'. injection E' as <- <-.
      rewrite Eo in Eo'. injection Eo' as -> ->.
      destruct (deref_nid2obj T k p st1 st2 Hwi1 Hnum Eo) as [a Ea].
      destruct (nid2obj_nid T k st1 p st2 a st2 Hwn Hk Eo Ea) as [_ Hn].
      rewrite (Hv p a st2 eq_refl Ea); [done|congruence].
    + intros ? ? E'. rewrite En in E'. injection E' as ? ?. done.
Qed.

End Txt2nid.

(** * The insert loop of [ossl_obj_add_object] *)

(** ** The container operations as functions of the records' views *)

Lemma lh_find_matches (s : registry) key (p : positive) (l' : list positive) :
  lh_find s key (p :: l') =
  matches s key p ≫= λ m : bool, if m then Some (Some p) else lh_find s key l'.
Proof. simpl. unfold matches. by destruct (view s p). Qed.

Lemma lh_replace_matches (s : registry) key (new p : positive) (l' : list positive) :
  lh_replace s key new (p :: l') =
  matches s key p ≫= λ m : bool,
    if m then Some (new :: l') else l'' ← lh_replace s key new l'; Some (p :: l'').
Proof. simpl. unfold matches. by destruct (view s p). Qed.

Lemma lh_find_ext s s' key key' (l : list positive) :
  (∀ q, q ∈ l → matches s' key' q = matches s key q) →
  lh_find s' key' l = lh_find s key l.
Proof.
  induction l as [|p l IH]; intros H; [done|].
  rewrite (lh_find_matches s), (lh_find_matches s'), H by (by left).
  destruct (matches s key p) as [[|]|]; simpl; try done.
  apply IH. intros q Hq. apply H. by right.
Qed.

Lemma lh_replace_ext s s' key key' new (l : list positive) :
  (∀ q, q ∈ l → matches s' key' q = matches s key q) →
  lh_replace s' key' new l = lh_replace s key new l.
Proof.
  induction l as [|p l IH]; intros H; [done|].
  rewrite (lh_replace_matches s), (lh_replace_matches s'), H by (by left).
  destruct (matches s key p) as [[|]|]; simpl; try done.
  rewrite IH; [done|]. intros q Hq. apply H. by right.
Qed.

(** After an insert the new record is the first match of its key. *)
Lemma lh_find_replace_same s key new (l l' : list positive) :
  lh_replace s key new l = Some l' → matches s key new = Some true →
  lh_find s key l' = Some (Some new).
Proof.
  revert l'. induction l as [|p l IH]; intros l' Hr Hm.
  - injection Hr as <-. rewrite lh_find_matches, Hm. done.
  - rewrite lh_replace_matches in Hr.
    destruct (matches s key p) as [[|]|] eqn:Ep; simpl in Hr; [| |done].
    + injection Hr as <-. rewrite lh_find_matches, Hm. done.
    + destruct (lh_replace s key new l) as [l''|]; simpl in Hr; [|done].
      injection Hr as <-. rewrite lh_find_matches, Ep. simpl. by apply IH.
Qed.

(** An insert under one key leaves the first match of any key untouched
    that the records it displaces and brings do not match. *)
Lemma lh_find_replace_other s key key' new (l l' : list positive) :
  lh_replace s key new l = Some l' →
  matches s key' new = Some false →
  (∀ q, q ∈ l → matches s key q = Some true → matches s key' q = Some false) →
  lh_find s key' l' = lh_find s key' l.
Proof.
  revert l'. induction l as [|p l IH]; intros l' Hr Hn Hd.
  - injection Hr as <-. rewrite lh_find_matches, Hn. done.
  - rewrite lh_replace_matches in Hr.
    destruct (matches s key p) as [[|]|] eqn:Ep; simpl in Hr; [| |done].
    + injection Hr as <-. rewrite (lh_find_matches _ _ new), Hn. cbn [mbind option_bind].
      rewrite (lh_find_matches _ _ p), (Hd p) by (done || by left). done.
    + destruct (lh_replace s key new l) as [l''|]; simpl in Hr; [|done].
      injection Hr as <-.
      rewrite !(lh_find_matches _ _ p).
      destruct (matches s key' p) as [[|]|]; simpl; try done.
      apply IH; [done|done|]. intros q Hq. apply Hd. by right.
Qed.

Lemma lh_replace_elem s key new (l l' : list positive) x :
  lh_replace s key new l = Some l' → x ∈ l' → x = new ∨ x ∈ l.
Proof.
  revert l'. induction l as [|p l IH]; intros l' Hr Hx.
  - injection Hr as <-. apply list_elem_of_singleton in Hx. by left.
  - rewrite lh_replace_matches in Hr.
    destruct (matches s key p) as [[|]|]; simpl in Hr; [| |done].
    + injection Hr as <-. apply elem_of_cons in Hx as [->|Hx]; [by left|].
      right. by right.
    + destruct (lh_replace s key new l) as [l''|]; simpl in Hr; [|done].
      injection Hr as <-. apply elem_of_cons in Hx as [->|Hx]; [right; by left|].
      destruct (IH l'' eq_refl Hx) as [?|?]; [by left|right; by right].
Qed.

Lemma lh_replace_new s key new (l l' : list positive) :
  lh_replace s key new l = Some l' → new ∈ l'.
Proof.
  revert l'. induction l as [|p l IH]; intros l' Hr.
  - injection Hr as <-. by left.
  - rewrite lh_replace_matches in Hr.
    destruct (matches s key p) as [[|]|]; simpl in Hr; [| |done].
    + injection Hr as <-. by left.
    + destruct (lh_replace s key new l) as [l''|]; simpl in Hr; [|done].
      injection Hr as <-. right. by apply IH.
Qed.

Lemma lh_replace_NoDup s key new (l l' : list positive) :
  lh_replace s key new l = Some l' → NoDup l → new ∉ l → NoDup l'.
Proof.
  revert l'. induction l as [|p l IH]; intros l' Hr Hnd Hn.
  - injection Hr as <-. apply NoDup_singleton.
  - apply NoDup_cons in Hnd as [Hp Hnd]. apply not_elem_of_cons in Hn as [Hne Hn].
    rewrite lh_replace_matches in Hr.
    destruct (matches s key p) as [[|]|]; simpl in Hr; [| |done].
    + injection Hr as <-. by apply NoDup_cons.
    + destruct (lh_replace s key new l) as [l''|] eqn:E; simpl in Hr; [|done].
      injection Hr as <-. apply NoDup_cons. split; [|by apply IH].
      intros Hin. destruct (lh_replace_elem _ _ _ _ _ _ E Hin) as [->|?]; done.
Qed.

Lemma lh_replace_refs s key new (l l' : list positive) R o :
  lh_replace s key new l = Some l' →
  (refs R l' o ≤ refs R l o + (if decide (target R new = Some o) then 1 else 0))%nat.
Proof.
  revert l'. induction l as [|p l IH]; intros l' Hr.
  - injection Hr as <-. rewrite refs_cons. unfold refs. simpl. lia.
  - rewrite lh_replace_matches in Hr.
    destruct (matches s key p) as [[|]|]; simpl in Hr; [| |done].
    + injection Hr as <-. rewrite !refs_cons. destruct (decide (target R p = Some o)); lia.
    + destruct (lh_replace s key new l) as [l''|] eqn:E; simpl in Hr; [|done].
      injection Hr as <-. rewrite !refs_cons. specialize (IH l'' eq_refl). lia.
Qed.

Lemma lh_replace_total s key new (l : list positive) :
  (∀ q, q ∈ l → is_Some (view s q)) → is_Some (lh_replace s key new l).
Proof.
  induction l as [|p l IH]; intros H; [done|].
  rewrite lh_replace_matches. unfold matches.
  destruct (H p ltac:(by left)) as [v ->]. simpl.
  destruct (_ =? 0); [done|].
  destruct IH as [l' ->]; [|done]. intros q Hq. apply H. by right.
Qed.

(** ** The comparison reads one field on each side *)

Lemma added_obj_cmp_same_key v t a b :
  same_key t a b → added_obj_cmp v (t, a) = added_obj_cmp v (t, b).
Proof.
  unfold same_key, added_obj_cmp. simpl. intros H.
  destruct (negb (v.1 - t =? 0)) eqn:Et; [done|].
  apply negb_false_iff, Z.eqb_eq in Et. assert (v.1 = t) as -> by lia.
  destruct (t =? ADDED_DATA); [by unfold obj_length; rewrite H|].
  destruct (t =? ADDED_SNAME); [by rewrite H|].
  destruct (t =? ADDED_LNAME); [by rewrite H|].
  destruct (t =? ADDED_NID); [by rewrite H|done].
Qed.

Lemma added_obj_cmp_tags t k a b : t ≠ k → added_obj_cmp (t, a) (k, b) ≠ 0.
Proof.
  intros H. unfold added_obj_cmp. simpl.
  replace (t - k =? 0) with false by (symmetry; apply Z.eqb_neq; lia). simpl. lia.
Qed.

Lemma added_obj_cmp_tag_eq v key : added_obj_cmp v key = 0 → v.1 = key.1.
Proof.
  unfold added_obj_cmp. destruct (v.1 - key.1 =? 0) eqn:E; simpl.
  - apply Z.eqb_eq in E. lia.
  - apply Z.eqb_neq in E. lia.
Qed.

(** A record matches its own key when it has the field of its type. *)
Lemma added_obj_cmp_self t a :
  (t = ADDED_SNAME → sn a ≠ None) → (t = ADDED_LNAME → ln a ≠ None) →
  added_obj_cmp (t, a) (t, a) = 0.
Proof.
  intros Hs Hl. unfold added_obj_cmp. simpl. rewrite Z.sub_diag. simpl.
  destruct (t =? ADDED_DATA).
  { rewrite Z.sub_diag. simpl. apply memcmp_refl. }
  destruct (t =? ADDED_SNAME) eqn:E1.
  { apply Z.eqb_eq in E1. destruct (sn a); [apply strcmp_refl|by destruct Hs]. }
  destruct (t =? ADDED_LNAME) eqn:E2.
  { apply Z.eqb_eq in E2. destruct (ln a); [apply strcmp_refl|by destruct Hl]. }
  destruct (t =? ADDED_NID); [lia|done].
Qed.

(** A record that matches a key compares with any other key as that key
    does. *)
Lemma added_obj_cmp_trans v k key :
  added_obj_cmp v k = 0 → added_obj_cmp v key = added_obj_cmp k key.
Proof.
  destruct v as [t a], k as [u b], key as [w c]. unfold added_obj_cmp. simpl.
  destruct (t - u =? 0) eqn:Et; simpl; [|intros; apply Z.eqb_neq in Et; lia].
  apply Z.eqb_eq in Et. assert (u = t) as -> by lia. clear Et.
  destruct (negb (t - w =? 0)); [done|].
  destruct (t =? ADDED_DATA).
  { destruct (obj_length a - obj_length b =? 0) eqn:El; simpl;
      [|intros; apply Z.eqb_neq in El; lia].
    apply Z.eqb_eq in El. assert (Hl : obj_length a = obj_length b) by lia.
    intros Hm. by rewrite (memcmp_0_data a b Hl Hm), Hl. }
  destruct (t =? ADDED_SNAME).
  { destruct (sn a) as [x|], (sn b) as [y|]; try done. by intros ->%strcmp_0. }
  destruct (t =? ADDED_LNAME).
  { destruct (ln a) as [x|], (ln b) as [y|]; try done. by intros ->%strcmp_0. }
  destruct (t =? ADDED_NID); [|done].
  intros H. by replace (nid a) with (nid b) by lia.
Qed.

Lemma same_answer_refl key s l : same_answer key s l s l.
Proof. by split. Qed.

Lemma same_answer_trans key a la b lb c lc :
  same_answer key a la b lb → same_answer key b lb c lc → same_answer key a la c lc.
Proof.
  intros [H1 H2] [H3 H4]. split; [congruence|].
  intros q Hq. destruct (H2 q Hq) as [? ?].
  destruct (H4 q) as [? ?]; [congruence|]. split; congruence.
Qed.

(** ** The steps of the insert loop *)

Lemma store_rec_eq p r s :
  store_rec p r s = (recs s !! p ≫= λ _, Some (tt, with_recs (insert p r) s)).
Proof. cbv [store_rec bind get lift modify]. by destruct (recs s !! p). Qed.

Lemma set_type_eq q t s :
  set_type q t s
  = (recs s !! q ≫= λ rq, Some (tt, with_recs (insert q (mk_added t (obj rq))) s)).
Proof. cbv [set_type bind get lift modify]. by destruct (recs s !! q). Qed.

Lemma key_of_eq p s : key_of (Some p) s = (view s p ≫= λ v, Some (v, s)).
Proof. done. Qed.

Lemma lh_insert_eq p s :
  lh_ADDED_OBJ_insert (Some p) s =
  (view s p ≫= λ key, added s ≫= λ l,
     if hd true (alloc_plan s)
     then lh_replace (after_allocs 1 s) key p l
          ≫= λ l', Some (tt, with_added (Some l') false (after_allocs 1 s))
     else Some (tt, with_added (Some l) true (after_allocs 1 s))).
Proof.
  unfold lh_ADDED_OBJ_insert. rewrite bind_eq, key_of_eq.
  destruct (view s p) as [key|]; simpl; [|done].
  rewrite bind_eq, alloc_ok_eq. simpl.
  destruct (added s) as [l|]; simpl; [|done].
  destruct (hd true (alloc_plan s)); done.
Qed.

Lemma view_after_allocs k s q : view (after_allocs k s) q = view s q.
Proof. done. Qed.

Lemma view_with_added a b s q : view (with_added a b s) q = view s q.
Proof. done. Qed.

Lemma matches_view s s' key q : view s' q = view s q → matches s' key q = matches s key q.
Proof. unfold matches. by intros ->. Qed.

Lemma lh_find_Some_matches s key (l : list positive) q :
  lh_find s key l = Some (Some q) → q ∈ l ∧ matches s key q = Some true.
Proof.
  induction l as [|p l IH]; [done|]. rewrite lh_find_matches.
  destruct (matches s key p) as [[|]|] eqn:E; simpl; [| |done].
  - intros [= <-]. split; [by left|done].
  - intros H. destruct (IH H). split; [by right|done].
Qed.

Lemma refs_ext R R' (l : list positive) o :
  (∀ q, q ∈ l → target R' q = target R q) → refs R' l o = refs R l o.
Proof.
  induction l as [|p l IH]; intros H; [done|].
  rewrite !refs_cons, H by (by left). rewrite IH; [done|].
  intros q Hq. apply H. by right.
Qed.

(** The rollback branch never reports success. *)
Lemma insert_all_failed {A} (m : M A) i ao aop s b s' :
  (m;; rollback i ao aop;; ERR_raise ERR_R_CRYPTO_LIB;; ret false) s = Some (b, s') →
  b = false.
Proof.
  intros H. apply bind_inv in H as (? & ? & _ & H).
  apply bind_inv in H as (? & ? & _ & H).
  apply bind_inv in H as (? & ? & _ & H). by injection H as <- _.
Qed.

Lemma insert_all_skip i rest o ao aop :
  cell ao i = None →
  insert_all (i :: rest) o ao aop = insert_all rest o ao aop.
Proof. intros H. cbn [insert_all]. by rewrite H. Qed.

Lemma insert_all_step i rest o ao aop s s' p :
  cell ao i = Some p →
  insert_all (i :: rest) o ao aop s = Some (true, s') →
  ∃ r0 key l prev s2 l',
    recs s !! p = Some r0 ∧ added s = Some l
    ∧ view (with_recs (insert p (mk_added (Z.of_nat i) o)) s) p = Some key
    ∧ lh_find (with_recs (insert p (mk_added (Z.of_nat i) o)) s) key l = Some prev
    ∧ match prev with
      | Some q => set_type q (-1) (with_recs (insert p (mk_added (Z.of_nat i) o)) s)
      | None => Some (tt, with_recs (insert p (mk_added (Z.of_nat i) o)) s)
      end = Some (tt, s2)
    ∧ (∃ key2, view s2 p = Some key2 ∧ lh_replace s2 key2 p l = Some l')
    ∧ added s2 = Some l
    ∧ insert_all rest o ao (<[i := prev]> aop)
        (with_added (Some l') false (after_allocs 1 s2)) = Some (true, s').
Proof.
  intros Hc H. cbn [insert_all] in H. rewrite Hc in H.
  rewrite bind_eq, store_rec_eq in H.
  destruct (recs s !! p) as [r0|] eqn:Hr0; simpl in H; [|done].
  set (s1 := with_recs (insert p (mk_added (Z.of_nat i) o)) s) in *.
  rewrite bind_eq, key_of_eq in H.
  destruct (view s1 p) as [key|] eqn:Hk; simpl in H; [|done].
  rewrite bind_eq, retrieve_eq in H.
  destruct (added s1) as [l|] eqn:Ha; simpl in H; [|done].
  destruct (lh_find s1 key l) as [prev|] eqn:Hf; simpl in H; [|done].
  rewrite bind_eq in H.
  destruct (match prev with Some q => set_type q (-1) | None => ret tt end s1)
    as [[[] s2]|] eqn:Hs2; [|done].
  assert (Ha2 : added s2 = Some l).
  { destruct prev as [q|]; [|by injection Hs2 as <-].
    rewrite set_type_eq in Hs2. destruct (recs s1 !! q); simpl in Hs2; [|done].
    by injection Hs2 as <-. }
  rewrite bind_eq, lh_insert_eq in H.
  destruct (view s2 p) as [key2|] eqn:Hk2; simpl in H; [|done].
  rewrite Ha2 in H. simpl in H.
  destruct (hd true (alloc_plan s2)).
  - destruct (lh_replace (after_allocs 1 s2) key2 p l) as [l'|] eqn:Hl'; simpl in H; [|done].
    rewrite bind_eq in H. cbv [lh_ADDED_OBJ_error bind get ret] in H. simpl in H.
    exists r0, key, l, prev, s2, l'. split; [done|]. split; [done|]. split; [done|].
    split; [done|]. split; [by destruct prev|]. split; [|done].
    exists key2. split; [done|]. rewrite <- Hl'. by apply lh_replace_ext.
  - rewrite bind_eq in H. cbv [lh_ADDED_OBJ_error bind get ret] in H. simpl in H.
    fold (@bind unit bool) in H.
    exfalso. clear -H.
    destruct (match prev with Some q => set_type q (Z.of_nat i) | None => λ st, Some (tt, st) end
                (with_added (Some l) true (after_allocs 1 s2))) as [[[] s3]|]; [|done].
    destruct (rollback i ao (<[i:=prev]> aop) s3) as [[[] s4]|]; [|done].
    simpl in H. done.
Qed.

Section InsertAll.
Variable o : positive.
Variable e : ASN1_OBJECT.
Variable ao : list (option positive).
Variable R0 : gmap positive ADDED_OBJ.
Variable l0 : list positive.

(** The cells of [ao] are distinct, and each key type with a cell matches
    itself in [e]. *)
Hypothesis ao_distinct : ∀ i j p, cell ao i = Some p → cell ao j = Some p → i = j.
Hypothesis ao_self : ∀ i p, cell ao i = Some p →
  added_obj_cmp (Z.of_nat i, e) (Z.of_nat i, e) = 0.

Lemma same_env_refl s : same_env s s.
Proof. by repeat split. Qed.

Lemma same_env_trans a b c : same_env a b → same_env b c → same_env a c.
Proof. intros (?&?&?&?) (?&?&?&?). repeat split; congruence. Qed.

Lemma insert_inv_skip i rest s l :
  cell ao i = None →
  insert_inv o e ao R0 l0 (i :: rest) s l → insert_inv o e ao R0 l0 rest s l.
Proof.
  intros Hc (J1 & J2 & J3 & J4 & J5 & J6 & J7 & J8 & J9).
  repeat split; try done.
  - simpl in J6. lia.
  - apply (J8 j p); [by right|done].
  - apply (J8 j p); [by right|done].
  - destruct (decide (i0 = i)) as [->|Hne]; [congruence|].
    apply (J9 i0 p); try done. by intros [?|?]%elem_of_cons.
  - destruct (decide (i0 = i)) as [->|Hne]; [congruence|].
    apply (J9 i0 p); try done. by intros [?|?]%elem_of_cons.
Qed.

Lemma insert_inv_step i rest aop s l s' p :
  cell ao i = Some p → (i < 4)%nat → i ∉ rest →
  insert_inv o e ao R0 l0 (i :: rest) s l →
  insert_all (i :: rest) o ao aop s = Some (true, s') →
  ∃ aop' s4 l4,
    insert_inv o e ao R0 l0 rest s4 l4 ∧ same_env s s4
    ∧ insert_all rest o ao aop' s4 = Some (true, s')
    ∧ ∀ key, 0 ≤ key.1 ≤ 3 → added_obj_cmp (Z.of_nat i, e) key ≠ 0 →
        same_answer key s l s4 l4.
Proof.
  intros Hc Hi Hir (J1 & J2 & J3 & J4 & J5 & J6 & J7 & J8 & J9) H.
  destruct (insert_all_step i rest o ao aop s s' p Hc H)
    as (r0 & key & l' & prev & s2 & l4 & Hr0 & Ha & Hk & Hf & Hs2 & (key2 & Hk2 & Hrep) & Ha2 & Hrest).
  rewrite J1 in Ha. injection Ha as <-.
  set (s1 := with_recs (insert p (mk_added (Z.of_nat i) o)) s) in *.
  destruct (J8 i p ltac:(by left) Hc) as [_ Hpl].
  (* the key of the new record *)
  assert (Hkey : key = (Z.of_nat i, e)).
  { unfold view in Hk. simpl in Hk. rewrite lookup_insert_eq in Hk. simpl in Hk.
    rewrite J2 in Hk. by injection Hk as <-. }
  subst key.
  (* records of the index are as before in [s1] *)
  assert (Hv1 : ∀ q, q ∈ l → view s1 q = view s q).
  { intros q Hq. unfold view. simpl. rewrite lookup_insert_ne; [done|]. by intros ->. }
  (* the superseded record *)
  assert (Hprev : ∀ q, prev = Some q →
            q ∈ l ∧ q ≠ p ∧ ∃ rq, recs s !! q = Some rq ∧ type rq = Z.of_nat i
              ∧ s2 = with_recs (insert q (mk_added (-1) (obj rq))) s1).
  { intros q ->. apply lh_find_Some_matches in Hf as [Hq Hm].
    split; [done|]. split; [by intros ->|].
    rewrite (matches_view s s1 _ q (Hv1 q Hq)) in Hm. unfold matches, view in Hm.
    rewrite set_type_eq in Hs2. simpl in Hs2. rewrite lookup_insert_ne in Hs2 by (by intros ->).
    destruct (recs s !! q) as [rq|] eqn:Hrq; simpl in *; [|done].
    destruct (objs s !! obj rq) as [x|]; simpl in Hm; [|done].
    injection Hm as Hm. apply Z.eqb_eq, added_obj_cmp_tag_eq in Hm. simpl in Hm.
    exists rq. split; [done|]. split; [done|]. by injection Hs2 as <-. }
  assert (Hs2' : prev = None → s2 = s1).
  { intros ->. by injection Hs2 as <-. }
  assert (Hobjs2 : objs s2 = objs s).
  { destruct prev as [q|].
    - destruct (Hprev q eq_refl) as (_ & _ & rq & _ & _ & ->). done.
    - by rewrite Hs2'. }
  assert (Hrecs2 : ∀ q, recs s2 !! q =
            if decide (q = p) then Some (mk_added (Z.of_nat i) o)
            else if decide (prev = Some q)
                 then (λ rq, mk_added (-1) (obj rq)) <$> recs s !! q
                 else recs s !! q).
  { intros q. destruct prev as [q0|].
    - destruct (Hprev q0 eq_refl) as (Hq0 & Hne & rq & Hrq & _ & ->). simpl.
      destruct (decide (q = p)) as [->|Hqp].
      + rewrite lookup_insert_ne by done. by rewrite lookup_insert_eq.
      + destruct (decide (Some q0 = Some q)) as [[= ->]|Hqq].
        * rewrite lookup_insert_eq, Hrq. done.
        * rewrite !lookup_insert_ne by congruence. done.
    - rewrite Hs2' by done. simpl.
      destruct (decide (q = p)) as [->|Hqp]; [by rewrite lookup_insert_eq|].
      by rewrite lookup_insert_ne. }
  assert (Htarget2 : ∀ q, q ≠ p → target (recs s2) q = target (recs s) q).
  { intros q Hq. unfold target. rewrite Hrecs2, decide_False by done.
    destruct (decide (prev = Some q)); [|done]. by destruct (recs s !! q). }
  assert (Hview2 : ∀ q, q ≠ p → prev ≠ Some q → view s2 q = view s q).
  { intros q Hq Hpq. unfold view. rewrite Hrecs2, Hobjs2, !decide_False by done. done. }
  assert (Hview2p : view s2 p = Some (Z.of_nat i, e)).
  { unfold view. rewrite Hrecs2, decide_True by done. simpl. by rewrite Hobjs2, J2. }
  assert (Hview2prev : ∀ q, prev = Some q → ∃ x, view s2 q = Some (-1, x)).
  { intros q Hq. destruct (Hprev q Hq) as (Hql & Hne & rq & Hrq & _ & _).
    unfold view. rewrite Hrecs2, decide_False, decide_True, Hrq by done. simpl.
    rewrite Hobjs2. destruct (J3 q Hql) as [v Hv]. unfold view in Hv.
    rewrite Hrq in Hv. simpl in Hv. destruct (objs s !! obj rq); [by eexists|done]. }
  rewrite Hview2p in Hk2. injection Hk2 as <-.
  set (s4 := with_added (Some l4) false (after_allocs 1 s2)) in *.
  assert (Hview4 : ∀ q, view s4 q = view s2 q) by done.
  (* the other keys *)
  assert (Hframe : ∀ key, 0 ≤ key.1 ≤ 3 → added_obj_cmp (Z.of_nat i, e) key ≠ 0 →
            same_answer key s l s4 l4).
  { intros key Hrange Hne.
    assert (Hno : ∀ q v, q ∈ l → view s q = Some v →
              added_obj_cmp v (Z.of_nat i, e) = 0 → matches s key q = Some false).
    { intros q v Hq Hv Hm. unfold matches. rewrite Hv. simpl. f_equal.
      apply Z.eqb_neq. by rewrite (added_obj_cmp_trans _ _ _ Hm). }
    assert (Hpno : ∀ q, prev = Some q → matches s key q = Some false).
    { intros q ->. pose proof Hf as Hf'. apply lh_find_Some_matches in Hf' as [Hq Hm].
      rewrite (matches_view s s1 _ q (Hv1 q Hq)) in Hm. unfold matches in Hm.
      destruct (view s q) as [v|] eqn:Hv; simpl in Hm; [|done].
      injection Hm as Hm. apply Z.eqb_eq in Hm. by apply (Hno q v). }
    split.
    - rewrite (lh_find_ext s2 s4 key key) by done.
      rewrite (lh_find_replace_other s2 (Z.of_nat i, e) key p l l4 Hrep).
      + apply lh_find_ext. intros q Hq.
        destruct (decide (prev = Some q)) as [Hp|Hp].
        * rewrite (Hpno q Hp). destruct (Hview2prev q Hp) as [x Hx].
          unfold matches. rewrite Hx. simpl. f_equal. apply Z.eqb_neq.
          destruct key as [w c]. apply added_obj_cmp_tags. simpl in Hrange. lia.
        * apply matches_view. apply Hview2; [by intros ->|done].
      + unfold matches. rewrite Hview2p. simpl. f_equal. by apply Z.eqb_neq.
      + intros q Hq Hm. unfold matches in *.
        destruct (view s2 q) as [v|]; simpl in *; [|done].
        injection Hm as Hm. apply Z.eqb_eq in Hm. f_equal.
        apply Z.eqb_neq. by rewrite (added_obj_cmp_trans _ _ _ Hm).
    - intros q Hfq. apply lh_find_Some_matches in Hfq as [Hq Hm].
      assert (Hqp : q ≠ p) by (by intros ->).
      assert (Hqprev : prev ≠ Some q).
      { intros Hp. rewrite (Hpno q Hp) in Hm. done. }
      split.
      + change (recs s4) with (recs s2). by rewrite Hrecs2, !decide_False.
      + rewrite Hview4. by apply Hview2. }
  exists (<[i := prev]> aop), s4, l4. split; [|split; [|done]].
  2:{ assert (new_nid s2 = new_nid s ∧ lock_ok s2 = lock_ok s
              ∧ err_queue s2 = err_queue s) as (? & ? & ?).
      { destruct prev as [q|].
        - by destruct (Hprev q eq_refl) as (_ & _ & rq & _ & _ & ->).
        - by rewrite Hs2'. }
      by repeat split. }
  (* elements of the new list *)
  assert (Hel : ∀ q, q ∈ l4 → q = p ∨ q ∈ l).
  { intros q. by apply (lh_replace_elem _ _ _ _ _ _ Hrep). }
  assert (Hviewable : ∀ q, q ∈ l → is_Some (view s2 q)).
  { intros q Hq. destruct (decide (prev = Some q)) as [Hp|Hp].
    - destruct (Hview2prev q Hp) as [x ->]. by eexists.
    - rewrite Hview2; [by apply J3|by intros ->|done]. }
  unfold insert_inv. split; [done|]. split; [simpl; by rewrite Hobjs2|].
  split.
  { intros q Hq. rewrite Hview4. destruct (Hel q Hq) as [->|Hql].
    - rewrite Hview2p. by eexists.
    - by apply Hviewable. }
  split; [by apply (lh_replace_NoDup _ _ _ _ _ Hrep)|].
  split.
  { intros q Hq. simpl. destruct (Hel q Hq) as [->|Hql].
    - left. unfold target. by rewrite Hrecs2, decide_True.
    - rewrite Htarget2 by (by intros ->). by apply J5. }
  assert (Hrefs : ∀ o', (refs (recs s2) l4 o'
            ≤ refs (recs s) l o' + (if decide (o' = o) then 1 else 0))%nat).
  { intros o'. pose proof (lh_replace_refs _ _ _ _ _ (recs s2) o' Hrep) as Hle.
    rewrite (refs_ext (recs s) (recs s2) l o') in Hle.
    2:{ intros q Hq. apply Htarget2. by intros ->. }
    assert (Htp : target (recs s2) p = Some o).
    { unfold target. by rewrite Hrecs2, decide_True. }
    rewrite Htp in Hle.
    destruct (decide (Some o = Some o')) as [[= ->]|Hne].
    - by rewrite decide_True.
    - rewrite decide_False by congruence. lia. }
  split.
  { simpl. specialize (Hrefs o). rewrite decide_True in Hrefs by done. simpl in J6. lia. }
  split.
  { intros o' Ho'. simpl. specialize (Hrefs o'). rewrite decide_False in Hrefs by done.
    specialize (J7 o' Ho'). lia. }
  split.
  { intros j pj Hj Hcj. destruct (J8 j pj ltac:(by right) Hcj) as [[rj Hrj] Hnl].
    assert (Hne : pj ≠ p).
    { intros ->. assert (j = i) by (by eapply ao_distinct). by subst. }
    split.
    - simpl. rewrite Hrecs2, decide_False by done.
      destruct (decide (prev = Some pj)); rewrite Hrj; by eexists.
    - intros Hin. destruct (Hel pj Hin); done. }
  (* the keys done so far *)
  intros i' p' Hi' Hlt Hc'. destruct (decide (i' = i)) as [->|Hne].
  { rewrite Hc in Hc'. injection Hc' as <-. split.
    - simpl. by rewrite Hrecs2, decide_True.
    - rewrite (lh_find_ext s2 s4 (Z.of_nat i, e) (Z.of_nat i, e)) by done.
      apply (lh_find_replace_same _ _ _ _ _ Hrep).
      unfold matches. rewrite Hview2p. simpl. by rewrite (ao_self i p Hc). }
  assert (Hi'' : i' ∉ i :: rest) by (by intros [?|?]%elem_of_cons).
  destruct (J9 i' p' Hi'' Hlt Hc') as [Hr' Hf'].
  assert (Hpp : p' ≠ p).
  { intros ->. by apply Hne, (ao_distinct i' i p). }
  assert (Hprev' : prev ≠ Some p').
  { intros Hp. destruct (Hprev p' Hp) as (_ & _ & rq & Hrq & Ht & _).
    rewrite Hr' in Hrq. injection Hrq as <-. simpl in Ht. lia. }
  split.
  { simpl. by rewrite Hrecs2, !decide_False. }
  rewrite (lh_find_ext s2 s4 (Z.of_nat i', e) (Z.of_nat i', e)) by done.
  rewrite (lh_find_replace_other s2 (Z.of_nat i, e) (Z.of_nat i', e) p l l4 Hrep).
  - rewrite <- Hf'. apply lh_find_ext. intros q Hq.
    destruct (decide (prev = Some q)) as [Hp|Hp].
    + destruct (Hview2prev q Hp) as [x Hx].
      destruct (Hprev q Hp) as (_ & _ & rq & Hrq & Ht & _).
      unfold matches. rewrite Hx. simpl. unfold view. rewrite Hrq. simpl.
      destruct (J3 q Hq) as [v Hv]. unfold view in Hv. rewrite Hrq in Hv. simpl in Hv.
      destruct (objs s !! obj rq) as [y|]; [|done]. simpl. f_equal.
      rewrite Ht.
      replace (added_obj_cmp (-1, x) (Z.of_nat i', e) =? 0) with false
        by (symmetry; apply Z.eqb_neq, added_obj_cmp_tags; lia).
      symmetry. apply Z.eqb_neq, added_obj_cmp_tags. lia.
    + apply matches_view. apply Hview2; [by intros ->|done].
  - unfold matches. rewrite Hview2p. simpl. f_equal.
    apply Z.eqb_neq, added_obj_cmp_tags. lia.
  - intros q Hq Hm. unfold matches in *.
    destruct (view s2 q) as [[t x]|]; simpl in *; [|done].
    injection Hm as Hm. apply Z.eqb_eq, added_obj_cmp_tag_eq in Hm. simpl in Hm. subst t.
    f_equal. apply Z.eqb_neq, added_obj_cmp_tags. lia.
Qed.

Lemma insert_all_inv (todo : list nat) : ∀ aop s l s',
  NoDup todo → (∀ i, i ∈ todo → (i < 4)%nat) →
  insert_inv o e ao R0 l0 todo s l →
  insert_all todo o ao aop s = Some (true, s') →
  ∃ l', insert_inv o e ao R0 l0 [] s' l' ∧ same_env s s'
    ∧ ∀ key, 0 ≤ key.1 ≤ 3 →
        (∀ i p, i ∈ todo → cell ao i = Some p →
           added_obj_cmp (Z.of_nat i, e) key ≠ 0) →
        same_answer key s l s' l'.
Proof.
  induction todo as [|i rest IH]; intros aop s l s' Hnd Hlt J H.
  - injection H as <-. exists l. split; [done|]. split; [apply same_env_refl|].
    intros. apply same_answer_refl.
  - apply NoDup_cons in Hnd as [Hi Hnd].
    destruct (cell ao i) as [p|] eqn:Hc.
    + destruct (insert_inv_step i rest aop s l s' p Hc (Hlt i ltac:(by left)) Hi J H)
        as (aop' & s4 & l4 & J4 & He & H4 & F4).
      destruct (IH aop' s4 l4 s' Hnd) as (l' & J' & He' & F'); try done.
      { intros j Hj. apply Hlt. by right. }
      exists l'. split; [done|]. split; [by eapply same_env_trans|].
      intros key Hrange Hne. apply (same_answer_trans key s l s4 l4 s' l').
      * apply F4; [done|]. apply (Hne i p); [by left|done].
      * apply F'; [done|]. intros j pj Hj. apply Hne. by right.
    + rewrite insert_all_skip in H by done.
      destruct (IH aop s l s' Hnd) as (l' & J' & He' & F'); try done.
      * intros j Hj. apply Hlt. by right.
      * by apply (insert_inv_skip i).
      * exists l'. split; [done|]. split; [done|].
        intros key Hrange Hne. apply F'; [done|]. intros j pj Hj. apply Hne. by right.
Qed.

End InsertAll.

(** * Successful registrations *)

Lemma add_object_err2_undef ao o s k s' :
  add_object_err2 ao o s = Some (k, s') → k = NID_undef.
Proof.
  unfold add_object_err2. intros H.
  do 5 (apply bind_inv in H as (? & ? & _ & H)). by injection H as <- _.
Qed.

Lemma add_object_err_undef lock ao o s k s' :
  add_object_err lock ao o s = Some (k, s') → k = NID_undef.
Proof.
  unfold add_object_err. intros H. apply bind_inv in H as (? & ? & _ & H).
  by eapply add_object_err2_undef.
Qed.

Lemma malloc_obj_eq a s :
  malloc_obj a s =
  Some (if hd true (alloc_plan s) then Some (fresh (dom (objs s))) else None,
        if hd true (alloc_plan s)
        then with_objs (insert (fresh (dom (objs s))) a) (after_allocs 1 s)
        else after_allocs 1 s).
Proof.
  unfold malloc_obj. rewrite bind_eq, alloc_ok_eq.
  destruct (hd true (alloc_plan s)); done.
Qed.

Lemma malloc_rec_eq s :
  OPENSSL_malloc_rec s =
  Some (if hd true (alloc_plan s) then Some (fresh (dom (recs s))) else None,
        if hd true (alloc_plan s)
        then with_recs (insert (fresh (dom (recs s))) (mk_added (-1) 1%positive))
               (after_allocs 1 s)
        else after_allocs 1 s).
Proof.
  unfold OPENSSL_malloc_rec. rewrite bind_eq, alloc_ok_eq.
  destruct (hd true (alloc_plan s)); done.
Qed.

Lemma cell_insert ao i j p :
  (i < length ao)%nat →
  cell (<[i := Some p]> ao) j = if decide (i = j) then Some p else cell ao j.
Proof.
  intros Hi. unfold cell. destruct (decide (i = j)) as [<-|Hne].
  - by rewrite list_lookup_insert_eq.
  - by rewrite list_lookup_insert_ne.
Qed.

Lemma alloc_cell_ok b want i ao s failed ao' s' :
  (i < 4)%nat → cell ao i = None → cells_ok b ao s →
  alloc_cell want i ao s = Some ((failed, ao'), s') → failed = false →
  cells_ok b ao' s' ∧ (is_Some (cell ao' i) ↔ want = true)
  ∧ (∀ j, j ≠ i → cell ao' j = cell ao j).
Proof.
  intros Hi Hci (Hlen & Hc & Hd & Hsub & Ho & Ha & He & Hn & Hl & Hq) H ->.
  unfold alloc_cell in H. destruct want.
  - rewrite bind_eq, malloc_rec_eq in H.
    destruct (hd true (alloc_plan s)); [|done]. injection H as <- <-.
    set (p := fresh (dom (recs s))).
    assert (Hp : recs s !! p = None) by apply not_elem_of_dom, is_fresh.
    assert (Hpb : recs b !! p = None).
    { destruct (recs b !! p) eqn:E; [|done]. by rewrite (lookup_weaken _ _ _ _ E Hsub) in Hp. }
    split; [|split].
    + split; [by rewrite length_insert|]. split; [|split; [|split]].
      * intros j q. rewrite cell_insert by lia. simpl.
        destruct (decide (i = j)) as [<-|Hne].
        -- intros [= <-]. by rewrite lookup_insert_eq.
        -- intros Hq'. destruct (Hc j q Hq') as [[r Hr] ?]. split; [|done].
           rewrite lookup_insert_ne; [by eexists|]. intros <-. congruence.
      * intros j k q. rewrite !cell_insert by lia.
        destruct (decide (i = j)) as [<-|Hj], (decide (i = k)) as [<-|Hk]; try done.
        -- intros [= <-] Hq'. destruct (Hc k p Hq') as [[? ?] _]. congruence.
        -- intros Hq' [= <-]. destruct (Hc j p Hq') as [[? ?] _]. congruence.
        -- apply Hd.
      * simpl. etrans; [exact Hsub|]. by apply insert_subseteq.
      * done.
    + rewrite cell_insert, decide_True by (done || lia). split; [done|by eexists].
    + intros j Hj. rewrite cell_insert, decide_False by (done || lia). done.
  - injection H as <- <-. split; [done|]. split; [|done].
    rewrite Hci. split; [by intros [? ?]|done].
Qed.

Lemma cells_ok_init s : cells_ok s no_cells s.
Proof.
  split; [done|]. split; [|split; [|split]]; try done.
  - intros i p H. unfold cell, no_cells in H.
    destruct i as [|[|[|[|i]]]]; simpl in H; done.
  - intros i j p H. unfold cell, no_cells in H.
    destruct i as [|[|[|[|i]]]]; simpl in H; done.
Qed.

Lemma cell_no_cells i : cell no_cells i = None.
Proof. unfold cell, no_cells. by destruct i as [|[|[|[|i]]]]. Qed.

(** lines 271-278: the four allocations, when none fails. *)
Lemma alloc_cells_inv (c0 c1 c2 : bool) (k : bool * list (option positive) → M Z) s n s' :
  (∀ ao s1, k (true, ao) s1 = Some (n, s') → False) →
  (r <- alloc_cell true 3 no_cells;;
   r <- (if r.1 then ret r else alloc_cell c0 0 r.2);;
   r <- (if r.1 then ret r else alloc_cell c1 1 r.2);;
   r <- (if r.1 then ret r else alloc_cell c2 2 r.2);;
   k r) s = Some (n, s') →
  ∃ ao s1, k (false, ao) s1 = Some (n, s') ∧ cells_ok s ao s1
    ∧ is_Some (cell ao 3)
    ∧ (is_Some (cell ao 0) ↔ c0 = true)
    ∧ (is_Some (cell ao 1) ↔ c1 = true)
    ∧ (is_Some (cell ao 2) ↔ c2 = true).
Proof.
  intros Hk H.
  apply bind_inv in H as ([f3 a3] & s3 & E3 & H).
  destruct f3.
  { exfalso. cbn [fst snd] in H. apply bind_inv in H as (? & ? & E & H). injection E as <- <-.
    cbn [fst snd] in H. apply bind_inv in H as (? & ? & E & H). injection E as <- <-.
    cbn [fst snd] in H. apply bind_inv in H as (? & ? & E & H). injection E as <- <-.
    by eapply Hk. }
  destruct (alloc_cell_ok s true 3 no_cells s false a3 s3 ltac:(lia) (cell_no_cells 3)
              (cells_ok_init s) E3 eq_refl) as (C3 & [_ H3] & F3).
  cbn [fst snd] in H. apply bind_inv in H as ([f0 a0] & s0 & E0 & H).
  destruct f0.
  { exfalso. cbn [fst snd] in H. apply bind_inv in H as (? & ? & E & H). injection E as <- <-.
    cbn [fst snd] in H. apply bind_inv in H as (? & ? & E & H). injection E as <- <-.
    by eapply Hk. }
  destruct (alloc_cell_ok s c0 0 a3 s3 false a0 s0 ltac:(lia)
              ltac:(rewrite F3 by lia; apply cell_no_cells) C3 E0 eq_refl) as (C0 & H0 & F0).
  cbn [fst snd] in H. apply bind_inv in H as ([f1 a1] & s1 & E1 & H).
  destruct f1.
  { exfalso. cbn [fst snd] in H. apply bind_inv in H as (? & ? & E & H). injection E as <- <-.
    by eapply Hk. }
  destruct (alloc_cell_ok s c1 1 a0 s0 false a1 s1 ltac:(lia)
              ltac:(rewrite F0, F3 by lia; apply cell_no_cells) C0 E1 eq_refl) as (C1 & H1 & F1).
  cbn [fst snd] in H. apply bind_inv in H as ([f2 a2] & s2 & E2 & H).
  destruct f2; [exfalso; by eapply Hk|].
  destruct (alloc_cell_ok s c2 2 a1 s1 false a2 s2 ltac:(lia)
              ltac:(rewrite F1, F0, F3 by lia; apply cell_no_cells) C1 E2 eq_refl) as (C2 & H2 & F2).
  exists a2, s2. split; [done|]. split; [done|].
  split; [rewrite F2, F1, F0 by lia; by apply H3|].
  split; [rewrite F2, F1 by lia; done|].
  split; [rewrite F2 by lia; done|done].
Qed.

Lemma registered_static obj :
  Z.land (flags (registered obj)) ASN1_OBJECT_FLAG_DYNAMIC = 0.
Proof.
  unfold registered. simpl. rewrite <- Z.land_assoc.
  change (Z.land (Z.lnot DYNAMIC_BITS) ASN1_OBJECT_FLAG_DYNAMIC) with 0.
  apply Z.land_0_r.
Qed.

Lemma added_obj_cmp_flags t f a key :
  added_obj_cmp (t, set_flags f a) key = added_obj_cmp (t, a) key.
Proof. done. Qed.

Lemma at_most_four_intro R (l : list positive) :
  (∀ o, (refs R l o ≤ 4)%nat) → at_most_four R l = true.
Proof.
  intros H. apply forallb_intro. intros p Hp.
  destruct (target R p) as [o|]; [|done]. apply Nat.leb_le, H.
Qed.

Lemma index_ok_spec s :
  index_ok s = true →
  wf_index s = true ∧ entries_static s = true ∧ NoDup (index_of s)
  ∧ at_most_four (recs s) (index_of s) = true.
Proof.
  unfold index_ok. intros H.
  apply andb_true_iff in H as [H H4]. apply andb_true_iff in H as [H H3].
  apply andb_true_iff in H as [H1 H2]. apply bool_decide_eq_true in H3. done.
Qed.

Lemma index_ok_intro s :
  wf_index s = true → entries_static s = true → NoDup (index_of s) →
  at_most_four (recs s) (index_of s) = true → index_ok s = true.
Proof.
  intros H1 H2 H3 H4. unfold index_ok. rewrite H1, H2, H4.
  by rewrite (bool_decide_eq_true_2 _ H3).
Qed.

Lemma lh_new_eq s :
  lh_ADDED_OBJ_new s =
  Some (hd true (alloc_plan s),
        if hd true (alloc_plan s) then with_added (Some []) false (after_allocs 1 s)
        else after_allocs 1 s).
Proof.
  unfold lh_ADDED_OBJ_new. rewrite bind_eq, alloc_ok_eq.
  by destruct (hd true (alloc_plan s)).
Qed.

Lemma view_mono s s' q v :
  recs s ⊆ recs s' → objs s ⊆ objs s' → view s q = Some v → view s' q = Some v.
Proof.
  intros Hr Ho. unfold view.
  destruct (recs s !! q) as [r|] eqn:Er; simpl; [|done].
  rewrite (lookup_weaken _ _ _ _ Er Hr). simpl.
  destruct (objs s !! obj r) as [x|] eqn:Ex; simpl; [|done].
  by rewrite (lookup_weaken _ _ _ _ Ex Ho).
Qed.

Lemma refs_zero R (l : list positive) o :
  (∀ q, q ∈ l → target R q ≠ Some o) → refs R l o = 0%nat.
Proof.
  induction l as [|p l IH]; intros H; [done|].
  rewrite refs_cons, decide_False by (apply H; by left).
  apply IH. intros q Hq. apply H. by right.
Qed.

Lemma view_target s q t x :
  view s q = Some (t, x) →
  ∃ r, recs s !! q = Some r ∧ type r = t ∧ objs s !! obj r = Some x
       ∧ target (recs s) q = Some (obj r).
Proof.
  unfold view, target. destruct (recs s !! q) as [r|]; simpl; [|done].
  destruct (objs s !! obj r) as [y|] eqn:E; simpl; [|done].
  intros [= <- <-]. by exists r.
Qed.

Lemma add_object_spec ob lock s n s' :
  index_ok s = true →
  ossl_obj_add_object ob lock s = Some (n, s') → n ≠ NID_undef →
  let o := fresh (dom (objs s)) in
  n = nid ob
  ∧ (lock = false ∨ lock_ok s = true)
  ∧ objs s' = <[o := registered ob]> (objs s)
  ∧ new_nid s' = new_nid s ∧ lock_ok s' = lock_ok s ∧ err_queue s' = err_queue s
  ∧ index_ok s' = true
  ∧ (∀ q, q ∈ index_of s' →
       target (recs s') q = Some o
       ∨ (q ∈ index_of s ∧ target (recs s') q = target (recs s) q))
  ∧ (∀ i, (i < 4)%nat → has_key ob i = true →
       ∃ p, p ∈ index_of s' ∧ recs s' !! p = Some (mk_added (Z.of_nat i) o)
            ∧ ∀ k, same_key (Z.of_nat i) ob k →
                lh_find s' (Z.of_nat i, k) (index_of s') = Some (Some p))
  ∧ (∀ key, 0 ≤ key.1 ≤ 3 →
       (∀ i, (i < 4)%nat → has_key ob i = true →
          added_obj_cmp (Z.of_nat i, ob) key ≠ 0) →
       same_answer key s (index_of s) s' (index_of s')).
Proof.
  intros Hok H Hn o.
  destruct (index_ok_spec s Hok) as (Hwf & Hst & Hnd & H4).
  unfold ossl_obj_add_object in H. rewrite bind_eq in H. unfold OBJ_dup in H.
  rewrite malloc_obj_eq in H. fold o in H.
  destruct (hd true (alloc_plan s)); [|by injection H as <-].
  set (e := set_flags (Z.lor (flags ob) DYNAMIC_BITS) ob) in *.
  set (sd := with_objs (insert o e) (after_allocs 1 s)) in *.
  assert (Hfresh : objs s !! o = None) by apply not_elem_of_dom, is_fresh.
  rewrite bind_eq in H.
  assert (Hload : load_obj o sd = Some (e, sd)).
  { cbv [load_obj bind get lift]. simpl. by rewrite lookup_insert_eq. }
  rewrite Hload in H.
  eapply alloc_cells_inv in H.
  2:{ intros ao s1 Hf. simpl in Hf. by apply add_object_err2_undef in Hf. }
  destruct H as (ao & s1 & H & Hcells & Hc3 & Hc0 & Hc1 & Hc2).
  cbn [fst snd] in H. cbv zeta in H.
  destruct Hcells as (Hlen & Hc & Hd & Hsub & Ho & Ha & He & Hnn & Hl & Hqq).
  rewrite bind_eq, write_lock_eq in H.
  destruct (negb lock || lock_ok s1) eqn:Elock; cbn [negb] in H.
  2:{ apply bind_inv in H as (? & ? & _ & H). by apply add_object_err2_undef in H. }
  rewrite bind_eq in H. unfold get in H. rewrite bind_eq in H.
  set (l0 := index_of s).
  assert (∃ s2, insert_all [0; 1; 2; 3]%nat o ao no_cells s2 ≫= (λ r,
                  (if negb r.1 then add_object_err lock ao o
                   else a <- load_obj o;;
                        store_obj o (set_flags (Z.land (flags a) (Z.lnot DYNAMIC_BITS)) a);;
                        ossl_obj_unlock lock;; ret (nid a)) r.2) = Some (n, s')
            ∧ added s2 = Some l0 ∧ recs s2 = recs s1 ∧ objs s2 = objs s1
            ∧ new_nid s2 = new_nid s1 ∧ lock_ok s2 = lock_ok s1
            ∧ err_queue s2 = err_queue s1) as (s2 & H2 & Ha2 & Hr2 & Ho2 & Hn2 & Hl2 & Hq2).
  { rewrite Ha in H. change (added sd) with (added s) in H.
    unfold l0, index_of.
    destruct (added s) as [l|] eqn:Eadd.
    - exists s1. cbv [ret] in H. cbn [negb] in H. rewrite bind_eq in H.
      split; [|by rewrite Ha].
      destruct (insert_all _ o ao no_cells s1) as [[r sr]|]; [|done]. done.
    - rewrite lh_new_eq in H. destruct (hd true (alloc_plan s1)); cbn [negb] in H.
      + exists (with_added (Some []) false (after_allocs 1 s1)).
        rewrite bind_eq in H. split; [|done].
        destruct (insert_all _ o ao no_cells _) as [[r sr]|]; [|done]. done.
      + apply bind_inv in H as (? & ? & _ & H). by apply add_object_err_undef in H. }
  clear H.
  destruct (insert_all [0; 1; 2; 3]%nat o ao no_cells s2) as [[ok s3]|] eqn:Eins; [|done].
  simpl in H2. destruct ok; cbn [negb] in H2; [|by apply add_object_err_undef in H2].
  (* facts on the records and entries of the old index *)
  assert (Hsubr : recs s ⊆ recs s2) by (by rewrite Hr2).
  assert (Hobj2 : objs s2 = <[o := e]> (objs s)) by (by rewrite Ho2, Ho).
  assert (Hsubo : objs s ⊆ objs s2) by (rewrite Hobj2; by apply insert_subseteq).
  assert (Hold : ∀ q, q ∈ l0 → ∃ t x r,
            view s q = Some (t, x) ∧ view s2 q = Some (t, x)
            ∧ recs s !! q = Some r ∧ recs s2 !! q = Some r ∧ obj r ≠ o
            ∧ Z.land (flags x) ASN1_OBJECT_FLAG_DYNAMIC = 0).
  { intros q Hq. unfold l0, index_of in Hq.
    destruct (added s) as [l|] eqn:Eadd; [|by apply elem_of_nil in Hq]. simpl in Hq.
    destruct (wf_index_view s l q Hwf Eadd Hq) as [[t x] Hv].
    destruct (view_target s q t x Hv) as (r & Hr & Ht & Hx & _).
    exists t, x, r. split; [done|]. split; [by apply (view_mono s)|].
    split; [done|]. split; [by apply (lookup_weaken _ _ _ _ Hr Hsubr)|].
    split; [intros Heq; congruence|].
    unfold entries_static in Hst. rewrite Eadd in Hst.
    pose proof (forallb_elem _ _ _ Hst Hq) as Hs. simpl in Hs. rewrite Hv in Hs.
    by apply Z.eqb_eq. }
  assert (Hself : ∀ i p, cell ao i = Some p →
            added_obj_cmp (Z.of_nat i, e) (Z.of_nat i, e) = 0).
  { intros i p Hi. apply added_obj_cmp_self.
    - intros Hi1. assert (i = 1%nat) as -> by (unfold ADDED_SNAME in Hi1; lia).
      destruct Hc1 as [Hc1 _]. apply (bool_decide_eq_true_1 _), Hc1. by exists p.
    - intros Hi2. assert (i = 2%nat) as -> by (unfold ADDED_LNAME in Hi2; lia).
      destruct Hc2 as [Hc2 _]. apply (bool_decide_eq_true_1 _), Hc2. by exists p. }
  assert (Hlt4 : ∀ i p, cell ao i = Some p → (i < 4)%nat).
  { intros i p Hi. unfold cell in Hi. destruct (ao !! i) eqn:E; [|done].
    apply lookup_lt_Some in E. lia. }
  assert (J0 : insert_inv o e ao (recs s2) l0 [0; 1; 2; 3]%nat s2 l0).
  { split; [done|]. split; [by rewrite Hobj2, lookup_insert_eq|].
    split.
    { intros q Hq. destruct (Hold q Hq) as (t & x & r & _ & -> & _). by eexists. }
    split; [done|]. split; [intros q Hq; right; done|].
    split.
    { rewrite refs_zero; [simpl; lia|]. intros q Hq.
      destruct (Hold q Hq) as (t & x & r & _ & _ & _ & Hr & Hne & _).
      unfold target. rewrite Hr. simpl. congruence. }
    split; [done|]. split.
    { intros j p _ Hj. destruct (Hc j p Hj) as [Hs1 Hsd]. split; [by rewrite Hr2|].
      intros Hin. destruct (Hold p Hin) as (_ & _ & r & _ & _ & Hr & _).
      change (recs sd) with (recs s) in Hsd. congruence. }
    intros i p Hi Hlt. exfalso. apply Hi.
    destruct i as [|[|[|[|i]]]]; [repeat constructor..|lia]. }
  destruct (insert_all_inv o e ao (recs s2) l0 Hd Hself [0; 1; 2; 3]%nat no_cells s2 l0 s3)
    as (l' & (J1 & J2 & J3 & J4 & J5 & J6 & J7 & J8 & J9) & (E1 & E2 & E3 & E4) & Hfr);
    try done.
  { by apply (bool_decide_unpack _). }
  { intros i Hi. repeat (apply elem_of_cons in Hi as [->|Hi]; [lia|]). by apply elem_of_nil in Hi. }
  (* the last lines *)
  assert (Hs' : n = nid ob ∧ s' = with_objs (insert o (registered ob)) s3).
  { cbv [bind load_obj store_obj get lift modify ossl_obj_unlock ret] in H2.
    rewrite J2 in H2. simpl in H2. rewrite J2 in H2. by injection H2 as <- <-. }
  destruct Hs' as [-> ->].
  assert (Hidx : index_of (with_objs (insert o (registered ob)) s3) = l').
  { unfold index_of. simpl. by rewrite J1. }
  rewrite Hidx.
  assert (Hview' : ∀ q t x, view s3 q = Some (t, x) →
            ∃ x', view (with_objs (insert o (registered ob)) s3) q = Some (t, x')
                  ∧ (target (recs s3) q = Some o → x = e ∧ x' = registered ob)
                  ∧ (target (recs s3) q ≠ Some o → x' = x)).
  { intros q t x Hv. destruct (view_target s3 q t x Hv) as (r & Hr & Ht & Hx & Htg).
    unfold view. simpl. rewrite Hr. simpl. destruct (decide (obj r = o)) as [Heq|Hne].
    - rewrite Heq, lookup_insert_eq. simpl. rewrite Heq, J2 in Hx. injection Hx as <-.
      exists (registered ob). rewrite Ht. split; [done|]. split; [done|].
      intros Hno. rewrite Htg, Heq in Hno. done.
    - rewrite lookup_insert_ne by done. rewrite Hx. simpl. exists x. rewrite Ht.
      split; [done|]. split; [|done]. rewrite Htg. congruence. }
  split; [done|]. split.
  { destruct lock; [right|by left]. simpl in Elock. by rewrite Hl in Elock. }
  split.
  { simpl. rewrite E1, Hobj2. apply insert_insert_eq. }
  change (new_nid sd) with (new_nid s) in Hnn.
  change (lock_ok sd) with (lock_ok s) in Hl.
  change (err_queue sd) with (err_queue s) in Hqq.
  split; [simpl; congruence|]. split; [simpl; congruence|]. split; [simpl; congruence|].
  split.
  { apply index_ok_intro.
    - unfold wf_index. simpl. rewrite J1. apply forallb_intro. intros q Hq.
      destruct (J3 q Hq) as [[t x] Hv]. destruct (Hview' q t x Hv) as (x' & -> & _). done.
    - unfold entries_static. simpl. rewrite J1. apply forallb_intro. intros q Hq.
      destruct (J3 q Hq) as [[t x] Hv]. destruct (Hview' q t x Hv) as (x' & Hv' & Hx' & Hno).
      rewrite Hv'. apply Z.eqb_eq. destruct (J5 q Hq) as [Hto|[Hq0 Hto]].
      + destruct (Hx' Hto) as [_ ->]. apply registered_static.
      + destruct (Hold q Hq0) as (t0 & x0 & r & _ & Hv2 & _ & Hr & Hne & Hflag).
        assert (Htq : target (recs s3) q = Some (obj r)).
        { rewrite Hto. unfold target. by rewrite Hr. }
        rewrite Hno by (rewrite Htq; congruence).
        destruct (view_target s3 q t x Hv) as (r3 & Hr3 & _ & Hx & Htg).
        rewrite Htg in Htq. injection Htq as Htq. rewrite Htq, E1 in Hx.
        destruct (view_target s2 q t0 x0 Hv2) as (r2 & Hr2' & _ & Hx2 & _).
        rewrite Hr in Hr2'. injection Hr2' as <-. congruence.
    - by rewrite Hidx.
    - rewrite Hidx. simpl. apply at_most_four_intro. intros o'.
      destruct (decide (o' = o)) as [->|Hne]; [simpl in J6; lia|].
      etrans; [apply (J7 o' Hne)|].
      rewrite (refs_ext (recs s) (recs s2) l0 o').
      + by apply at_most_four_spec.
      + intros q Hq. destruct (Hold q Hq) as (_ & _ & r & _ & _ & Hr & Hr' & _).
        unfold target. by rewrite Hr, Hr'. }
  split.
  { intros q Hq. simpl. destruct (J5 q Hq) as [?|[Hq0 Hto]]; [by left|right].
    split; [done|]. rewrite Hto.
    destruct (Hold q Hq0) as (_ & _ & r & _ & _ & Hr & Hr' & _).
    unfold target. by rewrite Hr, Hr'. }
  split; cycle 1.
  { intros key Hrange Hne.
    assert (Hs23 : same_answer key s2 l0 s3 l').
    { apply Hfr; [done|]. intros i p _ Hp. unfold e. rewrite added_obj_cmp_flags.
      apply Hne; [by apply (Hlt4 i p)|].
      destruct i as [|[|[|[|i]]]]; [| | |done|].
      - destruct Hc0 as [Hc0 _]. simpl.
        assert (Hs0 : is_Some (cell ao 0)) by (by exists p).
        apply Hc0, andb_true_iff in Hs0 as [Hk _]. done.
      - destruct Hc1 as [Hc1 _]. apply Hc1. by exists p.
      - destruct Hc2 as [Hc2 _]. apply Hc2. by exists p.
      - apply Hlt4 in Hp. lia. }
    destruct Hs23 as [Hf23 Hq23].
    assert (Hf02 : lh_find s2 key l0 = lh_find s key l0).
    { apply lh_find_ext. intros q Hq. apply matches_view.
      destruct (Hold q Hq) as (t & x & r & -> & -> & _). done. }
    split.
    - rewrite <- Hf02, <- Hf23. apply lh_find_ext. intros q Hq.
      unfold matches. destruct (J3 q Hq) as [[t x] Hv].
      destruct (Hview' q t x Hv) as (x' & -> & Hx' & Hno'). rewrite Hv. simpl.
      f_equal. f_equal.
      destruct (decide (target (recs s3) q = Some o)) as [Hto|Hto].
      + by destruct (Hx' Hto) as [-> ->].
      + by rewrite (Hno' Hto).
    - intros q Hfq. pose proof Hfq as Hfq'. apply lh_find_Some_matches in Hfq' as [Hq _].
      destruct (Hold q Hq) as (t & x & r & Hv & Hv2 & Hr & Hr2' & Hne' & _).
      rewrite <- Hf02 in Hfq. destruct (Hq23 q Hfq) as [Hr3 Hv3].
      split; [simpl; congruence|].
      rewrite Hv, <- Hv2, <- Hv3. unfold view. simpl. rewrite Hr3, Hr2'. simpl.
      by rewrite lookup_insert_ne. }
  intros i Hi Hkey.
  assert (is_Some (cell ao i)) as [p Hp].
  { destruct i as [|[|[|[|i]]]]; simpl in Hkey; try done; try lia.
    - apply Hc0. unfold e. change (obj_length (set_flags _ ob)) with (obj_length ob).
      rewrite Hkey. simpl. apply bool_decide_eq_true. intros Hd0.
      unfold obj_length in Hkey. by rewrite Hd0 in Hkey.
    - by apply Hc1.
    - by apply Hc2. }
  destruct (J9 i p ltac:(apply not_elem_of_nil) Hi Hp) as [Hrp Hfind].
  exists p. split; [by apply lh_find_Some_matches in Hfind as [? _]|].
  split; [done|]. intros k Hk. rewrite <- Hfind. apply lh_find_ext.
  intros q Hq. unfold matches. destruct (J3 q Hq) as [[t x] Hv].
  destruct (Hview' q t x Hv) as (x' & -> & Hx' & Hno). rewrite Hv. simpl. f_equal. f_equal.
  rewrite (added_obj_cmp_same_key _ _ k e).
  2:{ unfold same_key in *. unfold e.
      destruct (Z.of_nat i =? ADDED_DATA); [done|].
      destruct (Z.of_nat i =? ADDED_SNAME); [done|].
      destruct (Z.of_nat i =? ADDED_LNAME); [done|].
      destruct (Z.of_nat i =? ADDED_NID); done. }
  destruct (decide (target (recs s3) q = Some o)) as [Hto|Hto].
  - by destruct (Hx' Hto) as [-> ->].
  - by rewrite (Hno Hto).
Qed.

(** ** Lookups after a registration *)

Lemma found_nid_registered s i k p o x :
  added s = Some (index_of s) →
  lh_find s (Z.of_nat i, k) (index_of s) = Some (Some p) →
  recs s !! p = Some (mk_added (Z.of_nat i) o) → objs s !! o = Some x →
  found_nid (Z.of_nat i, k) s = Some (nid x).
Proof.
  intros Ha Hf Hr Ho. unfold found_nid. rewrite Ha, Hf. simpl.
  rewrite Hr. simpl. by rewrite Ho.
Qed.

Section AddObject.
Variable T : builtin.
Hypothesis Hwf : wf_builtin T = true.

(** What the lookups answer once the records of [ob] are the first matches
    of their keys. *)
Lemma keys_lookups ob o x st :
  lock_ok st = true → objs st !! o = Some x →
  (∀ i, (i < 4)%nat → has_key ob i = true →
     ∃ p, p ∈ index_of st ∧ recs st !! p = Some (mk_added (Z.of_nat i) o)
          ∧ ∀ k, same_key (Z.of_nat i) ob k →
              lh_find st (Z.of_nat i, k) (index_of st) = Some (Some p)) →
  (∀ s, sn ob = Some s → builtin_has T (sn_objs T) (has_sn s) = false →
     OBJ_sn2nid T s st = Some (nid x, st))
  ∧ (∀ l, ln ob = Some l → builtin_has T (ln_objs T) (has_ln l) = false →
       OBJ_ln2nid T l st = Some (nid x, st))
  ∧ (∀ d a, data ob = Some d → d ≠ [] →
       builtin_has T (obj_objs T) (has_der d) = false →
       nid a = NID_undef → data a = Some d →
       OBJ_obj2nid T (Some a) st = Some (nid x, st))
  ∧ (nid_static T (nid ob) = false →
       OBJ_nid2obj T (nid ob) st = Some (Some (Dyn o), st)).
Proof.
  intros Hlock Ho Hkeys.
  assert (Ha : added st = Some (index_of st)).
  { destruct (Hkeys 3%nat ltac:(lia) eq_refl) as (p & Hp & _).
    unfold index_of in *. destruct (added st); [done|]. by apply elem_of_nil in Hp. }
  assert (Hfound : ∀ i k, (i < 4)%nat → has_key ob i = true →
            same_key (Z.of_nat i) ob k →
            added_nid (Z.of_nat i, k) true st = Some (nid x, st)).
  { intros i k Hi Hk Hs. destruct (Hkeys i Hi Hk) as (p & _ & Hr & Hf).
    rewrite added_nid_eq. simpl. rewrite Hlock.
    by rewrite (found_nid_registered st i k p o x Ha (Hf k Hs) Hr Ho). }
  split; [|split; [|split]].
  - intros s Hs Hb. rewrite OBJ_sn2nid_eq, (bsearch_sn_absent T Hwf s Hb). simpl.
    apply (Hfound 1%nat); [lia| |].
    + simpl. apply bool_decide_eq_true. by rewrite Hs.
    + unfold same_key. simpl. done.
  - intros l Hs Hb. rewrite OBJ_ln2nid_eq, (bsearch_ln_absent T Hwf l Hb). simpl.
    apply (Hfound 2%nat); [lia| |].
    + simpl. apply bool_decide_eq_true. by rewrite Hs.
    + unfold same_key. simpl. done.
  - intros d a Hd Hne Hb Hna Hda.
    assert (Hlen : obj_length a ≠ 0).
    { unfold obj_length. rewrite Hda. destruct d; [done|simpl; lia]. }
    unfold OBJ_obj2nid. rewrite ossl_obj_obj2nid_eq, Hna. simpl.
    replace (obj_length a =? 0) with false by (symmetry; by apply Z.eqb_neq).
    rewrite (bsearch_obj_absent T Hwf a d Hda Hne Hb). simpl.
    apply (Hfound 0%nat); [lia| |].
    + simpl. apply negb_true_iff, Z.eqb_neq. unfold obj_length. rewrite Hd.
      destruct d; [done|simpl; lia].
    + unfold same_key. simpl. congruence.
  - intros Hs. rewrite OBJ_nid2obj_eq, Hs, Hlock, Ha.
    destruct (Hkeys 3%nat ltac:(lia) eq_refl) as (p & _ & Hr & Hf).
    change ADDED_NID with (Z.of_nat 3).
    rewrite (Hf (set_nid (nid ob) key_obj)) by done. simpl. by rewrite Hr.
Qed.

(** X11.  A successful [OBJ_add_object] returns the NID of the entry,
    keeps the added index well formed, and leaves the NID counter and the
    error queue alone.  Afterwards the short name, the long name and the
    content octets of the entry resolve to its NID, unless the built-in
    table answers for them first, and for a NID outside the built-in table
    [OBJ_nid2obj] returns an entry that has the names, the content octets
    and the NID of the one registered. *)
Theorem add_object_registers ob st n st' :
  index_ok st = true →
  OBJ_add_object ob st = Some (n, st') → n ≠ NID_undef →
  n = nid ob ∧ index_ok st' = true
  ∧ new_nid st' = new_nid st ∧ err_queue st' = err_queue st
  ∧ (∀ s, sn ob = Some s → builtin_has T (sn_objs T) (has_sn s) = false →
       OBJ_sn2nid T s st' = Some (n, st'))
  ∧ (∀ l, ln ob = Some l → builtin_has T (ln_objs T) (has_ln l) = false →
       OBJ_ln2nid T l st' = Some (n, st'))
  ∧ (∀ d a, data ob = Some d → d ≠ [] →
       builtin_has T (obj_objs T) (has_der d) = false →
       nid a = NID_undef → data a = Some d →
       OBJ_obj2nid T (Some a) st' = Some (n, st'))
  ∧ (nid_static T n = false →
       ∃ p e, OBJ_nid2obj T n st' = Some (Some p, st')
         ∧ deref T p st' = Some (e, st')
         ∧ sn e = sn ob ∧ ln e = ln ob ∧ data e = data ob ∧ nid e = nid ob).
Proof.
  intros Hok H Hn. unfold OBJ_add_object in H.
  destruct (add_object_spec ob true st n st' Hok H Hn)
    as (-> & Hlock & Hobjs & Hnn & Hl & Hq & Hok' & _ & Hkeys & _).
  destruct Hlock as [?|Hlock]; [done|].
  set (o := fresh (dom (objs st))) in *.
  assert (Ho : objs st' !! o = Some (registered ob)) by (by rewrite Hobjs, lookup_insert_eq).
  split; [done|]. split; [done|]. split; [done|]. split; [done|].
  destruct (keys_lookups ob o (registered ob) st') as (K1 & K2 & K3 & K4);
    [congruence|done|done|].
  split; [done|]. split; [done|]. split; [done|].
  intros Hs. exists (Dyn o), (registered ob). split; [by apply K4|].
  split; [|done]. cbv [deref bind get lift]. by rewrite Ho.
Qed.

End AddObject.

(** * Successful calls of [OBJ_create] *)

Lemma view_agree s s' q :
  recs s' = recs s →
  (∀ t, target (recs s) q = Some t → objs s' !! t = objs s !! t) →
  view s' q = view s q.
Proof.
  intros Hr Ho. unfold view, target in *. rewrite Hr.
  destruct (recs s !! q) as [r|]; simpl in *; [|done]. by rewrite Ho.
Qed.

Lemma index_ok_agree s s' :
  recs s' = recs s → added s' = added s →
  (∀ q, q ∈ index_of s → view s' q = view s q) →
  index_ok s = true → index_ok s' = true.
Proof.
  intros Hr Ha Hv Hok. destruct (index_ok_spec s Hok) as (H1 & H2 & H3 & H4).
  assert (Hi : index_of s' = index_of s) by (unfold index_of; by rewrite Ha).
  apply index_ok_intro.
  - unfold wf_index in *. rewrite Ha. unfold index_of in Hv.
    destruct (added s) as [l|]; [|done]. apply forallb_intro. intros q Hq.
    rewrite (Hv q Hq). by apply (forallb_elem _ _ _ H1).
  - unfold entries_static in *. rewrite Ha. unfold index_of in Hv.
    destruct (added s) as [l|]; [|done]. apply forallb_intro. intros q Hq.
    rewrite (Hv q Hq). by apply (forallb_elem _ _ _ H2).
  - by rewrite Hi.
  - by rewrite Hi, Hr.
Qed.

Lemma index_targets s q :
  wf_index s = true → q ∈ index_of s →
  ∃ t, target (recs s) q = Some t ∧ is_Some (objs s !! t).
Proof.
  intros Hwf Hq. unfold index_of in Hq.
  destruct (added s) as [l|] eqn:Ha; [|by apply elem_of_nil in Hq].
  destruct (wf_index_view s l q Hwf Ha Hq) as [[t x] Hv].
  destruct (view_target s q t x Hv) as (r & Hr & _ & Hx & Ht).
  exists (obj r). split; [done|by eexists].
Qed.

Section CreateSuccess.
Variable T : builtin.
Hypothesis Hwf : wf_builtin T = true.

Lemma obj2nid_nolock a s k s' :
  ossl_obj_obj2nid T (Some a) false s = Some (k, s') → s' = s.
Proof.
  rewrite ossl_obj_obj2nid_eq.
  destruct (negb (nid a =? NID_undef)); [by intros [= _ <-]|].
  destruct (obj_length a =? 0); [by intros [= _ <-]|].
  destruct (OBJ_bsearch_obj T a) as [[b|]|]; simpl; [| |done].
  - destruct (nid_objs T !! b); simpl; [by intros [= _ <-]|done].
  - rewrite added_nid_eq. simpl. destruct (found_nid _ s); simpl; [by intros [= _ <-]|done].
Qed.

(** lines 797-809 on success: the temporary entry. *)
Lemma create_tmpoid_inv oid s tmpoid s' :
  create_tmpoid T oid s = Some (Some tmpoid, s') →
  tmpoid = fresh (dom (objs s))
  ∧ ∃ d k, oid_octets oid d
      ∧ s' = with_objs (insert tmpoid (tmp_entry d)) (after_allocs k s).
Proof.
  unfold create_tmpoid. destruct oid as [t|].
  - rewrite bind_eq. unfold OBJ_txt2obj. cbn [negb]. rewrite txt2obj_dotted_eq.
    destruct (text_to_der t) as [der|] eqn:Et; [|done].
    destruct (granted 2 s); [|done]. cbv zeta. intros [= <- <-].
    split; [done|]. exists (Some der), 2%nat. split; [|done]. by exists der.
  - rewrite bind_eq. unfold ASN1_OBJECT_new. rewrite malloc_obj_eq.
    destruct (hd true (alloc_plan s)); [|by intros H; apply bind_inv in H as (? & ? & _ & H)].
    intros [= <- <-]. split; [done|]. exists None, 1%nat. done.
Qed.

Lemma create_oid_known_state oid tmpoid s k s' :
  create_oid_known T oid tmpoid s = Some (k, s') → s' = s.
Proof.
  unfold create_oid_known. destruct oid; [|by intros [= _ <-]].
  intros H. apply bind_inv in H as (a & s1 & E1 & H).
  cbv [load_obj bind get lift] in E1. destruct (objs s !! tmpoid); [|done].
  injection E1 as <- <-. apply bind_inv in H as (m & s2 & E2 & H).
  apply obj2nid_nolock in E2. injection H as _ <-. done.
Qed.

Lemma create_err_inv tmpoid k s r s' :
  create_err tmpoid k s = Some (r, s') →
  r = k ∧ ∃ x, objs s !! tmpoid = Some x
    ∧ s' = if negb (Z.land (flags x) ASN1_OBJECT_FLAG_DYNAMIC =? 0)
           then with_objs (delete tmpoid) s else s.
Proof.
  cbv [create_err ossl_obj_unlock ASN1_OBJECT_free load_obj bind get lift ret modify].
  destruct (objs s !! tmpoid) as [x|]; [|done].
  destruct (negb (Z.land (flags x) ASN1_OBJECT_FLAG_DYNAMIC =? 0)) eqn:E;
    intros [= <- <-]; (split; [done|]); exists x; rewrite E; done.
Qed.

Lemma new_nid_eq k s :
  obj_new_nid_unlocked k s
  = Some (new_nid s, with_new_nid (wrap_int (new_nid s + k)) s).
Proof. done. Qed.

Lemma load_obj_eq p s : load_obj p s = (objs s !! p ≫= λ x, Some (x, s)).
Proof. cbv [load_obj bind get lift]. by destruct (objs s !! p). Qed.

Lemma store_obj_eq p a s :
  store_obj p a s = (objs s !! p ≫= λ _, Some (tt, with_objs (insert p a) s)).
Proof. cbv [store_obj load_obj bind get lift modify]. by destruct (objs s !! p). Qed.

Lemma registered_created d sn ln n :
  registered (set_names sn ln (set_nid n (tmp_entry d))) = created d sn ln n.
Proof. by destruct d. Qed.

Lemma create_success oid sn ln st n st' :
  index_ok st = true →
  OBJ_create T oid sn ln st = Some (n, st') → n ≠ 0 →
  ∃ d o,
    oid_octets oid d ∧ n = new_nid st ∧ new_nid st' = wrap_int (n + 1)
    ∧ lock_ok st = true ∧ lock_ok st' = true
    ∧ objs st !! o = None ∧ objs st' = <[o := created d sn ln n]> (objs st)
    ∧ index_ok st' = true
    ∧ (∀ q, q ∈ index_of st' →
         target (recs st') q = Some o
         ∨ (q ∈ index_of st ∧ target (recs st') q = target (recs st) q))
    ∧ (∀ i, (i < 4)%nat → has_key (created d sn ln n) i = true →
         ∃ p, p ∈ index_of st' ∧ recs st' !! p = Some (mk_added (Z.of_nat i) o)
              ∧ ∀ k, same_key (Z.of_nat i) (created d sn ln n) k →
                  lh_find st' (Z.of_nat i, k) (index_of st') = Some (Some p))
    ∧ (∀ key, 0 ≤ key.1 ≤ 3 →
         (∀ i, (i < 4)%nat → has_key (created d sn ln n) i = true →
            added_obj_cmp (Z.of_nat i, created d sn ln n) key ≠ 0) →
         same_answer key st (index_of st) st' (index_of st')).
Proof.
  intros Hok H Hn. destruct (index_ok_spec st Hok) as (Hwi & Hst & Hnd & H4).
  unfold OBJ_create in H.
  destruct (bool_decide (oid = None) && bool_decide (sn = None) && bool_decide (ln = None)).
  { apply bind_inv in H as (? & ? & _ & H). by injection H as <-. }
  (* the names are free *)
  destruct (create_name_clash_total T Hwf sn ln st Hwi) as (b & sa & Ec & Hqa & _).
  rewrite bind_eq, Ec in H. destruct b.
  { apply bind_inv in H as (? & ? & _ & H). by injection H as <-. }
  (* the temporary entry *)
  rewrite bind_eq in H.
  destruct (create_tmpoid T oid sa) as [[[tmpoid|] sb]|] eqn:Et; [| by injection H as <- |done].
  destruct (create_tmpoid_inv oid sa tmpoid sb Et) as (Htmp & d & ka & Hd & Hsb).
  (* the lock *)
  rewrite bind_eq, write_lock_eq in H. cbn [negb orb] in H.
  destruct (lock_ok sb) eqn:Hlock; cbn [negb] in H.
  2:{ apply bind_inv in H as (? & ? & _ & H). apply bind_inv in H as (? & ? & _ & H).
      by injection H as <-. }
  (* the OID is not known yet *)
  apply bind_inv in H as (known & sc & Ek & H).
  pose proof (create_oid_known_state _ _ _ _ _ Ek) as ->.
  destruct known.
  { apply bind_inv in H as (? & ? & _ & H). by apply create_err_inv in H as [-> _]. }
  (* the NID *)
  rewrite bind_eq, new_nid_eq in H.
  set (n0 := new_nid sb) in *.
  set (s1 := with_new_nid (wrap_int (n0 + 1)) sb) in *.
  assert (Ho1 : objs s1 !! tmpoid = Some (tmp_entry d)).
  { unfold s1. rewrite Hsb. simpl. by rewrite lookup_insert_eq. }
  rewrite bind_eq, load_obj_eq, Ho1 in H. cbn [mbind option_bind] in H.
  rewrite bind_eq, store_obj_eq, Ho1 in H. cbn [mbind option_bind] in H.
  destruct (n0 =? NID_undef) eqn:En0.
  { by apply create_err_inv in H as [-> _]. }
  set (s2 := with_objs (insert tmpoid (set_nid n0 (tmp_entry d))) s1) in *.
  assert (Ho2 : objs s2 !! tmpoid = Some (set_nid n0 (tmp_entry d))).
  { simpl. by rewrite lookup_insert_eq. }
  rewrite bind_eq, load_obj_eq, Ho2 in H. cbn [mbind option_bind] in H.
  rewrite bind_eq, store_obj_eq, Ho2 in H. cbn [mbind option_bind] in H.
  set (a := set_names sn ln (set_nid n0 (tmp_entry d))) in *.
  set (s3 := with_objs (insert tmpoid a) s2) in *.
  assert (Ho3 : objs s3 !! tmpoid = Some a).
  { simpl. by rewrite lookup_insert_eq. }
  rewrite bind_eq, load_obj_eq, Ho3 in H. cbn [mbind option_bind] in H.
  apply bind_inv in H as (ok & s4 & Eadd & H).
  assert (Hokn : ok = n ∧ ∃ x4, objs s4 !! tmpoid = Some x4
            ∧ st' = (let s5 := with_objs (insert tmpoid (set_names None None x4)) s4 in
                     if negb (Z.land (flags x4) ASN1_OBJECT_FLAG_DYNAMIC =? 0)
                     then with_objs (delete tmpoid) s5 else s5)).
  { rewrite bind_eq, load_obj_eq in H.
    destruct (objs s4 !! tmpoid) as [x4|] eqn:E4; [|done]. cbn [mbind option_bind] in H.
    rewrite bind_eq, store_obj_eq, E4 in H. cbn [mbind option_bind] in H.
    apply create_err_inv in H as (-> & x5 & E5 & ->). split; [done|].
    exists x4. split; [done|]. simpl in E5. rewrite lookup_insert_eq in E5.
    injection E5 as <-. done. }
  destruct Hokn as (-> & x4 & E4 & Hst').
  (* the states before the registration *)
  destruct Hqa as (Qo & Qr & Qa & Qe & Qn & Ql & Qp).
  assert (Hfresh : objs st !! tmpoid = None).
  { rewrite <- Qo, Htmp. apply not_elem_of_dom, is_fresh. }
  assert (Hobjs3 : ∀ t, t ≠ tmpoid → objs s3 !! t = objs st !! t).
  { intros t Ht. unfold s3, s2, s1. rewrite Hsb. simpl.
    rewrite !lookup_insert_ne by done. by rewrite Qo. }
  assert (Hrecs3 : recs s3 = recs st) by (unfold s3, s2, s1; rewrite Hsb; done).
  assert (Hadd3 : added s3 = added st) by (unfold s3, s2, s1; rewrite Hsb; done).
  assert (Hidx3 : index_of s3 = index_of st) by (unfold index_of; by rewrite Hadd3).
  assert (Hold : ∀ q t, q ∈ index_of st → target (recs st) q = Some t → t ≠ tmpoid).
  { intros q t Hq Ht. destruct (index_targets st q Hwi Hq) as (t' & Ht' & [x Hx]).
    rewrite Ht in Ht'. injection Ht' as <-. intros ->. congruence. }
  assert (Hok3 : index_ok s3 = true).
  { apply (index_ok_agree st s3 Hrecs3 Hadd3); [|done].
    intros q Hq. apply view_agree; [done|]. intros t Ht. apply Hobjs3. by apply (Hold q). }
  destruct (add_object_spec a false s3 n s4 Hok3 Eadd Hn)
    as (Hna & _ & Hobjs4 & Hnn4 & Hl4 & _ & Hok4 & Htg4 & Hkeys4 & Hfr4).
  set (o := fresh (dom (objs s3))) in *.
  assert (Hotmp : o ≠ tmpoid).
  { intros Heq. assert (Hno : objs s3 !! o = None) by apply not_elem_of_dom, is_fresh.
    rewrite Heq in Hno. congruence. }
  assert (Hofresh : objs st !! o = None).
  { rewrite <- Hobjs3 by done. apply not_elem_of_dom, is_fresh. }
  assert (Hx4 : x4 = a).
  { rewrite Hobjs4, lookup_insert_ne, Ho3 in E4 by done. by injection E4. }
  subst x4.
  assert (Hdyn : negb (Z.land (flags (tmp_entry d)) ASN1_OBJECT_FLAG_DYNAMIC =? 0) = true)
    by (by destruct d).
  change (flags a) with (flags (tmp_entry d)) in Hst'. rewrite Hdyn in Hst'. cbv zeta in Hst'.
  assert (Hobjs' : ∀ t, t ≠ tmpoid → objs st' !! t = objs s4 !! t).
  { intros t Ht. rewrite Hst'. simpl. rewrite lookup_delete_ne, lookup_insert_ne by done. done. }
  assert (Hrecs' : recs st' = recs s4) by (by rewrite Hst').
  assert (Hadd' : added st' = added s4) by (by rewrite Hst').
  assert (Hidx' : index_of st' = index_of s4) by (unfold index_of; by rewrite Hadd').
  assert (Htg : ∀ q t, q ∈ index_of s4 → target (recs s4) q = Some t → t ≠ tmpoid).
  { intros q t Hq Ht. destruct (Htg4 q Hq) as [Hto|[Hq3 Hto]].
    - rewrite Ht in Hto. by injection Hto as ->.
    - rewrite Hidx3 in Hq3. rewrite Hrecs3 in Hto. rewrite Ht in Hto.
      by apply (Hold q). }
  assert (Hview' : ∀ q, q ∈ index_of s4 → view st' q = view s4 q).
  { intros q Hq. apply view_agree; [done|]. intros t Ht. apply Hobjs'. by apply (Htg q). }
  exists d, o. split; [done|].
  assert (Hn0 : n0 = new_nid st) by (unfold n0; rewrite Hsb; simpl; done).
  split; [by rewrite Hna|].
  split.
  { rewrite Hst'. simpl. rewrite Hnn4. unfold s3, s2, s1. simpl. by rewrite Hna. }
  assert (Hlk : lock_ok st = true).
  { rewrite Hsb in Hlock. simpl in Hlock. congruence. }
  split; [done|]. split.
  { rewrite Hst'. simpl. rewrite Hl4. unfold s3, s2, s1. simpl. done. }
  split; [done|]. split.
  { apply map_eq. intros t. destruct (decide (t = tmpoid)) as [->|Ht].
    - rewrite Hst'. simpl. rewrite lookup_delete_eq, lookup_insert_ne by done. done.
    - rewrite Hobjs' by done. rewrite Hobjs4.
      destruct (decide (t = o)) as [->|Hto].
      + rewrite !lookup_insert_eq. f_equal. unfold a. rewrite Hna. apply registered_created.
      + rewrite !lookup_insert_ne by done. by apply Hobjs3. }
  split; [by apply (index_ok_agree s4 st')|].
  split.
  { intros q Hq. rewrite Hidx' in Hq. rewrite Hrecs'.
    destruct (Htg4 q Hq) as [?|[Hq3 Hto]]; [by left|right].
    rewrite Hidx3 in Hq3. by rewrite Hrecs3 in Hto. }
  split; cycle 1.
  { intros key Hrange Hne.
    destruct (Hfr4 key Hrange) as [Hf34 Hq34].
    { intros i Hi Hkey.
      assert (Hcr : created d sn ln n = registered a).
      { rewrite Hna. symmetry. apply registered_created. }
      rewrite Hcr in Hne. unfold registered in Hne.
      specialize (Hne i Hi). rewrite added_obj_cmp_flags in Hne.
      apply Hne. rewrite <- Hkey. by destruct i as [|[|[|[|i]]]]. }
    assert (Hv03 : ∀ q, q ∈ index_of st → view s3 q = view st q).
    { intros q Hq. apply view_agree; [done|]. intros t Ht. apply Hobjs3. by apply (Hold q). }
    assert (Hf03 : lh_find s3 key (index_of s3) = lh_find st key (index_of st)).
    { rewrite Hidx3. apply lh_find_ext. intros q Hq. apply matches_view. by apply Hv03. }
    assert (Hf4' : lh_find st' key (index_of st') = lh_find s4 key (index_of s4)).
    { rewrite Hidx'. apply lh_find_ext. intros q Hq. apply matches_view. by apply Hview'. }
    split; [congruence|].
    intros q Hfq. pose proof Hfq as Hq0. apply lh_find_Some_matches in Hq0 as [Hq0 _].
    rewrite <- Hf03 in Hfq. destruct (Hq34 q Hfq) as [Hr34 Hv34].
    rewrite <- Hf34 in Hfq. apply lh_find_Some_matches in Hfq as [Hq4 _].
    split; [by rewrite Hrecs', Hr34, Hrecs3|].
    by rewrite (Hview' q Hq4), Hv34, Hv03. }
  intros i Hi Hkey.
  destruct (Hkeys4 i Hi) as (p & Hp & Hr & Hf).
  { rewrite <- Hkey. unfold a. by destruct i as [|[|[|[|i]]]]. }
  exists p. rewrite Hidx', Hrecs'. split; [done|]. split; [done|].
  intros k Hk. rewrite <- (Hf k).
  - apply lh_find_ext. intros q Hq. apply matches_view. by apply Hview'.
  - unfold same_key in *. unfold a. simpl.
    destruct (Z.of_nat i =? ADDED_DATA); [done|].
    destruct (Z.of_nat i =? ADDED_SNAME); [done|].
    destruct (Z.of_nat i =? ADDED_LNAME); [done|].
    destruct (Z.of_nat i =? ADDED_NID); [|done]. rewrite <- Hk. simpl. done.
Qed.

(** X12.  A successful [OBJ_create] returns the NID counter as it stood
    and advances it by one, and keeps the added index well formed.
    Afterwards the short name, the long name and the OID given resolve to
    the new NID, unless the built-in table answers for them first, and
    [OBJ_nid2obj] returns for the new NID an entry in a cell that was free
    before, carrying the two names and the NID. *)
Theorem create_then_lookup oid sname lname st n st' :
  index_ok st = true →
  OBJ_create T oid sname lname st = Some (n, st') → n ≠ 0 →
  n = new_nid st ∧ new_nid st' = wrap_int (n + 1) ∧ index_ok st' = true
  ∧ (∀ s, sname = Some s → builtin_has T (sn_objs T) (has_sn s) = false →
       OBJ_sn2nid T s st' = Some (n, st'))
  ∧ (∀ l, lname = Some l → builtin_has T (ln_objs T) (has_ln l) = false →
       OBJ_ln2nid T l st' = Some (n, st'))
  ∧ (∀ t der, oid = Some t → text_to_der t = Some der →
       builtin_has T (obj_objs T) (has_der der) = false →
       OBJ_obj2nid T (Some (der_entry der)) st' = Some (n, st'))
  ∧ (nid_static T n = false →
       ∃ o e, OBJ_nid2obj T n st' = Some (Some (Dyn o), st')
              ∧ objs st !! o = None ∧ objs st' !! o = Some e
              ∧ sn e = sname ∧ ln e = lname ∧ nid e = n).
Proof.
  intros Hok H Hn.
  destruct (create_success oid sname lname st n st' Hok H Hn)
    as (d & o & Hd & Hn0 & Hnn & Hl & Hl' & Hfresh & Hobjs & Hok' & _ & Hkeys & _).
  assert (Ho : objs st' !! o = Some (created d sname lname n)) by (by rewrite Hobjs, lookup_insert_eq).
  destruct (keys_lookups T Hwf (created d sname lname n) o (created d sname lname n) st' Hl' Ho Hkeys)
    as (K1 & K2 & K3 & K4).
  split; [done|]. split; [done|]. split; [done|].
  split; [intros s ->; apply K1; done|]. split; [intros l ->; apply K2; done|].
  split.
  - intros t der -> Ht Hb. destruct Hd as (der' & Ht' & ->).
    rewrite Ht in Ht'. injection Ht' as <-.
    apply (K3 der); try done. by apply (text_to_der_nonempty t).
  - intros Hs. exists o, (created d sname lname n). split; [by apply K4|]. done.
Qed.

(** X13.  [OBJ_new_nid] (in the build without TSAN_REQUIRES_LOCKING)
    returns the NID counter as it stood and reserves [num] NIDs: the next
    successful [OBJ_create] is given the NID [num] above the one returned
    (in 32-bit arithmetic), and leaves the counter one above that. *)
Theorem new_nid_reserves num oid sn ln st r st1 n st2 :
  OBJ_new_nid num st = Some (r, st1) →
  index_ok st = true →
  OBJ_create T oid sn ln st1 = Some (n, st2) → n ≠ 0 →
  r = new_nid st ∧ n = wrap_int (r + num) ∧ new_nid st2 = wrap_int (n + 1).
Proof.
  intros E Hok H Hn. unfold OBJ_new_nid in E. rewrite new_nid_eq in E.
  injection E as <- <-.
  assert (Hok1 : index_ok (with_new_nid (wrap_int (new_nid st + num)) st) = true).
  { by apply (index_ok_agree st). }
  destruct (create_success oid sn ln _ n st2 Hok1 H Hn)
    as (d & o & _ & Hn0 & Hnn & _).
  done.
Qed.

End CreateSuccess.

(** * Registration, then teardown *)

Lemma cleanup_int_none st : added st = None → ossl_obj_cleanup_int st = Some (tt, st).
Proof.
  intros H. unfold ossl_obj_cleanup_int. rewrite bind_eq. unfold get. by rewrite H.
Qed.

Lemma cleanup_int_runs st l :
  added st = Some l → NoDup l → wf_index st = true →
  at_most_four (recs st) l = true →
  ∃ st3,
    ossl_obj_cleanup_int st = Some (tt, st3)
    ∧ added st3 = None
    ∧ (∀ p, recs st3 !! p = if decide (p ∈ l) then None else recs st !! p)
    ∧ (∀ o, objs st3 !! o =
            if decide (refs (recs st) l o = 0%nat) then objs st !! o else None)
    ∧ new_nid st3 = new_nid st ∧ lock_ok st3 = lock_ok st
    ∧ err_queue st3 = err_queue st.
Proof.
  intros Hl Hnd Hwf H4b. pose proof (at_most_four_spec _ _ H4b) as H4.
  destruct (count_passes_spec st l Hl Hwf H4) as (O2 & E12 & HO2).
  pose proof (wf_index_live st l Hl Hwf) as Hlive.
  set (R := recs st) in *.
  assert (Hpos : ∀ p r, p ∈ l → R !! p = Some r → refs R l (obj r) ≠ 0%nat).
  { intros p r Hp Hr H0. by apply (refs_0 R l (obj r) p H0 Hp), target_Some. }
  destruct (pass3 st R l O2 R (λ _, 0%nat)) as (O3 & R3 & E3 & HR3 & HO3); try done.
  { intros p Hp. destruct (Hlive p Hp) as (r & Hr & [y Hy]).
    exists r. eexists. split; [done|]. rewrite HO2, Hy.
    rewrite decide_False by (by eapply Hpos). simpl.
    split; [done|]. split; [simpl; f_equal; lia|apply zeroed_dynamic]. }
  { intros o. specialize (H4 o). lia. }
  exists (with_added None false (put O3 R3 st)). split.
  - unfold ossl_obj_cleanup_int. rewrite bind_eq. unfold get. rewrite Hl.
    unfold count_passes in E12. rewrite bind_eq in E12.
    rewrite bind_eq.
    destruct (lh_ADDED_OBJ_doall cleanup1_doall st) as [[[] s1]|]; [|done].
    rewrite bind_eq, E12. rewrite bind_eq.
    rewrite (lh_doall_eq _ _ l) by done. rewrite E3. done.
  - split; [done|]. split; [done|]. split; [|done]. intros o. simpl. rewrite HO3.
    destruct (decide (refs R l o = 0%nat)) as [H0|H0]; [|done].
    by rewrite HO2, decide_True.
Qed.

Section CreateCleanup.
Variable T : builtin.
Hypothesis Hwf : wf_builtin T = true.

(** X14.  What [OBJ_create] registers, [ossl_obj_cleanup_int] releases:
    after a successful [OBJ_create] on a well-formed index the teardown runs
    without a fault, leaves no index and none of its records, and no entry
    in a cell that was free before the registration; every other entry is
    released or as it was. *)
Theorem create_then_cleanup oid sname lname st n st' :
  index_ok st = true →
  OBJ_create T oid sname lname st = Some (n, st') → n ≠ 0 →
  ∃ st3,
    ossl_obj_cleanup_int st' = Some (tt, st3)
    ∧ added st3 = None
    ∧ (∀ p, p ∈ index_of st' → recs st3 !! p = None)
    ∧ (∀ o, objs st !! o = None → objs st3 !! o = None)
    ∧ (∀ o, objs st3 !! o = None ∨ objs st3 !! o = objs st !! o).
Proof.
  intros Hok H Hn.
  destruct (create_success T Hwf oid sname lname st n st' Hok H Hn)
    as (d & o & _ & _ & _ & _ & _ & Hfresh & Hobjs & Hok' & _ & Hkeys & _).
  destruct (index_ok_spec st' Hok') as (Hwi & _ & Hnd & H4).
  destruct (Hkeys 3%nat ltac:(lia) eq_refl) as (p & Hp & Hr & _).
  assert (Ha : added st' = Some (index_of st')).
  { unfold index_of in *. destruct (added st'); [done|]. by apply elem_of_nil in Hp. }
  destruct (cleanup_int_runs st' (index_of st') Ha Hnd Hwi H4)
    as (st3 & E & Ha3 & HR3 & HO3 & _).
  exists st3. split; [done|]. split; [done|]. split.
  { intros q Hq. by rewrite HR3, decide_True. }
  assert (Hrefo : refs (recs st') (index_of st') o ≠ 0%nat).
  { intros H0. apply (refs_0 _ _ _ p H0 Hp). unfold target. by rewrite Hr. }
  assert (Hall : ∀ t, objs st3 !! t = None ∨ objs st3 !! t = objs st !! t).
  { intros t. rewrite HO3. case_decide; [|by left].
    destruct (decide (t = o)) as [->|Hne]; [done|].
    right. by rewrite Hobjs, lookup_insert_ne. }
  split; [|done].
  intros t Ht. destruct (Hall t) as [?|Heq]; [done|]. by rewrite Heq.
Qed.

End CreateCleanup.

(** * Registrations leave the other keys alone *)

Lemma found_nid_same key st st' :
  added st' = Some (index_of st') →
  same_answer key st (index_of st) st' (index_of st') →
  found_nid key st' = found_nid key st.
Proof.
  intros Ha' [Hf Hq]. unfold found_nid. rewrite Ha', Hf. unfold index_of in *.
  destruct (added st) as [l|] eqn:Ha; simpl in *.
  - destruct (lh_find st key l) as [[q|]|] eqn:E; simpl; try done.
    destruct (Hq q eq_refl) as [Hr Hv]. rewrite Hr. unfold view in Hv. rewrite Hr in Hv.
    destruct (recs st !! q) as [r|]; simpl in *; [|done].
    destruct (objs st' !! obj r) as [x|], (objs st !! obj r) as [y|]; simpl in *; congruence.
  - done.
Qed.

Section CreateFrame.
Variable T : builtin.
Hypothesis Hwf : wf_builtin T = true.

Lemma added_nid_same key st st' :
  lock_ok st = true → lock_ok st' = true →
  added st' = Some (index_of st') →
  same_answer key st (index_of st) st' (index_of st') →
  fst <$> added_nid key true st' = fst <$> added_nid key true st.
Proof.
  intros Hl Hl' Ha' Hs. rewrite !added_nid_eq, Hl, Hl'. simpl.
  rewrite (found_nid_same key st st' Ha' Hs). by destruct (found_nid key st).
Qed.

(** X15.  A successful [OBJ_create] does not disturb the other keys: every
    short name and long name other than the ones given, every entry whose
    content octets differ from the encoding of the OID given, and every NID
    other than the new one is answered by [OBJ_sn2nid], [OBJ_ln2nid],
    [OBJ_obj2nid] and [OBJ_nid2obj] as before the call, and no entry that
    existed is modified. *)
Theorem create_keeps_others oid sname lname st n st' :
  index_ok st = true →
  OBJ_create T oid sname lname st = Some (n, st') → n ≠ 0 →
  (∀ s, sname ≠ Some s → fst <$> OBJ_sn2nid T s st' = fst <$> OBJ_sn2nid T s st)
  ∧ (∀ l, lname ≠ Some l → fst <$> OBJ_ln2nid T l st' = fst <$> OBJ_ln2nid T l st)
  ∧ (∀ a, (∀ t der, oid = Some t → text_to_der t = Some der →
             default [] (data a) ≠ der) →
       fst <$> OBJ_obj2nid T (Some a) st' = fst <$> OBJ_obj2nid T (Some a) st)
  ∧ (∀ m, m ≠ n → fst <$> OBJ_nid2obj T m st' = fst <$> OBJ_nid2obj T m st)
  ∧ (∀ p, is_Some (objs st !! p) → objs st' !! p = objs st !! p).
Proof.
  intros Hok H Hn.
  destruct (create_success T Hwf oid sname lname st n st' Hok H Hn)
    as (d & o & Hd & Hn0 & Hnn & Hl & Hl' & Hfresh & Hobjs & Hok' & _ & Hkeys & Hfr).
  assert (Ha' : added st' = Some (index_of st')).
  { destruct (Hkeys 3%nat ltac:(lia) eq_refl) as (p & Hp & _).
    unfold index_of in *. destruct (added st'); [done|]. by apply elem_of_nil in Hp. }
  set (c := created d sname lname n) in *.
  assert (Hother : ∀ (t : nat) k, (t < 4)%nat →
            (has_key c t = true → added_obj_cmp (Z.of_nat t, c) (Z.of_nat t, k) ≠ 0) →
            same_answer (Z.of_nat t, k) st (index_of st) st' (index_of st')).
  { intros t k Ht Hne. apply Hfr; [simpl; lia|]. intros i Hi Hkey.
    destruct (decide (i = t)) as [->|Hit]; [by apply Hne|].
    apply added_obj_cmp_tags. lia. }
  split; [|split; [|split; [|split]]].
  - intros s Hs. rewrite !OBJ_sn2nid_eq.
    destruct (OBJ_bsearch_sn T _) as [[b|]|]; simpl; [by destruct (nid_objs T !! b)| |done].
    apply added_nid_same; try done. apply (Hother 1%nat); [lia|].
    intros Hkey. unfold added_obj_cmp, c. simpl.
    destruct sname as [x|]; [|done]. intros H0%strcmp_0. congruence.
  - intros l Hs. rewrite !OBJ_ln2nid_eq.
    destruct (OBJ_bsearch_ln T _) as [[b|]|]; simpl; [by destruct (nid_objs T !! b)| |done].
    apply added_nid_same; try done. apply (Hother 2%nat); [lia|].
    intros Hkey. unfold added_obj_cmp, c. simpl.
    destruct lname as [x|]; [|done]. intros H0%strcmp_0. congruence.
  - intros a Ha. unfold OBJ_obj2nid. rewrite !ossl_obj_obj2nid_eq.
    destruct (negb (nid a =? NID_undef)); [done|].
    destruct (obj_length a =? 0); [done|].
    destruct (OBJ_bsearch_obj T a) as [[b|]|]; simpl; [by destruct (nid_objs T !! b)| |done].
    apply added_nid_same; try done. apply (Hother 0%nat); [lia|].
    intros Hkey. unfold added_obj_cmp. simpl.
    destruct (obj_length c - obj_length a =? 0) eqn:El; simpl;
      [|apply Z.eqb_neq in El; lia].
    apply Z.eqb_eq in El. intros Hm.
    apply (memcmp_0_data c a) in Hm; [|lia]. change (data c) with d in Hm.
    unfold oid_octets in Hd. destruct oid as [t|].
    + destruct Hd as (der & Hder & ->). apply (Ha t der eq_refl Hder). by rewrite <- Hm.
    + subst d. done.
  - intros m Hm. rewrite !OBJ_nid2obj_eq, Hl, Hl', Ha'.
    destruct (nid_static T m); [done|].
    destruct (Hother 3%nat (set_nid m key_obj)) as [Hf Hq]; [lia| |].
    { intros _. unfold added_obj_cmp, c. simpl. lia. }
    change (Z.of_nat 3) with ADDED_NID in *. rewrite Hf. unfold index_of in *.
    destruct (added st) as [l|]; simpl in *; [|done].
    destruct (lh_find st (ADDED_NID, set_nid m key_obj) l) as [[q|]|]; simpl; try done.
    destruct (Hq q eq_refl) as [-> _]. by destruct (recs st !! q).
  - intros p [x Hx]. rewrite Hobjs, lookup_insert_ne; [done|]. intros <-. congruence.
Qed.

End CreateFrame.

(** * Failures before the insert loop *)

Lemma alloc_cell_any b want i ao s f ao' s' :
  (i < 4)%nat → cell ao i = None → cells_ok b ao s → cells_only b ao s →
  alloc_cell want i ao s = Some ((f, ao'), s') →
  cells_ok b ao' s' ∧ cells_only b ao' s'
  ∧ (∀ j, j ≠ i → cell ao' j = cell ao j)
  ∧ (f = false →
       (is_Some (cell ao' i) ↔ want = true)
       ∧ ∀ m, granted ((if want then 1 else 0) + m) s = granted m s').
Proof.
  intros Hi Hci Hok Hon H. destruct f.
  - (* refused *)
    unfold alloc_cell in H. destruct want; [|done].
    rewrite bind_eq, malloc_rec_eq in H.
    destruct (hd true (alloc_plan s)); [done|]. injection H as <- <-.
    split; [exact Hok|split; [exact Hon|split; done]].
  - destruct (alloc_cell_ok b want i ao s false ao' s' Hi Hci Hok H eq_refl)
      as (Hok' & Hw & Hj).
    split; [done|]. split; [|split; [done|]].
    + intros q Hq. unfold alloc_cell in H. destruct want.
      * rewrite bind_eq, malloc_rec_eq in H.
        destruct (hd true (alloc_plan s)); [|done]. injection H as <- <-. simpl.
        assert (Hne : q ≠ fresh (dom (recs s))).
        { intros ->. apply (Hq i). destruct Hok as (Hlen & _).
          rewrite cell_insert, decide_True by (done || lia). done. }
        rewrite lookup_insert_ne by done. apply Hon. intros j Hcj.
        apply (Hq j). destruct Hok as (Hlen & _). rewrite cell_insert by lia.
        destruct (decide (i = j)) as [<-|?]; [congruence|done].
      * injection H as <- <-. by apply Hon.
    + intros _. split; [done|]. intros m. unfold alloc_cell in H. destruct want.
      * rewrite bind_eq, malloc_rec_eq in H.
        destruct (hd true (alloc_plan s)) eqn:Eh; [|done]. injection H as <- <-.
        change (1 + m)%nat with (S m). rewrite granted_S, Eh. done.
      * by injection H as <- <-.
Qed.

Lemma alloc_cell_total want i ao s : is_Some (alloc_cell want i ao s).
Proof.
  unfold alloc_cell. destruct want; [|done]. rewrite bind_eq, malloc_rec_eq.
  by destruct (hd true (alloc_plan s)).
Qed.

(** One disjunct of lines 271-278, whatever came before. *)
Lemma alloc_step_any b want i (r : bool * list (option positive)) s :
  (i < 4)%nat → cell r.2 i = None → cells_ok b r.2 s → cells_only b r.2 s →
  ∃ f' ao' s',
    (if r.1 then ret r else alloc_cell want i r.2) s = Some ((f', ao'), s')
    ∧ cells_ok b ao' s' ∧ cells_only b ao' s'
    ∧ (∀ j, j ≠ i → cell ao' j = cell r.2 j)
    ∧ (f' = false →
         r.1 = false ∧ (is_Some (cell ao' i) ↔ want = true)
         ∧ ∀ m, granted ((if want then 1 else 0) + m) s = granted m s').
Proof.
  intros Hi Hci Hok Hon. destruct r as [[|] ao]; simpl in *.
  - exists true, ao, s. split; [done|]. split; [exact Hok|]. split; [exact Hon|].
    split; done.
  - destruct (alloc_cell_total want i ao s) as [[[f' ao'] s'] E].
    destruct (alloc_cell_any b want i ao s f' ao' s' Hi Hci Hok Hon E) as (? & ? & ? & Hg).
    exists f', ao', s'. split; [done|]. split; [done|]. split; [done|].
    split; [done|]. intros Hf. split; [done|]. by apply Hg.
Qed.

Lemma cells_only_init s : cells_only s no_cells s.
Proof. by intros q _. Qed.

(** lines 271-278: the four allocations, whatever their outcome. *)
Lemma alloc_cells_any {A} (c0 c1 c2 : bool) (k : bool * list (option positive) → M A) s :
  ∃ f ao s1,
    (r <- alloc_cell true 3 no_cells;;
     r <- (if r.1 then ret r else alloc_cell c0 0 r.2);;
     r <- (if r.1 then ret r else alloc_cell c1 1 r.2);;
     r <- (if r.1 then ret r else alloc_cell c2 2 r.2);;
     k r) s = k (f, ao) s1
    ∧ cells_ok s ao s1 ∧ cells_only s ao s1
    ∧ (f = false →
         is_Some (cell ao 3) ∧ (is_Some (cell ao 0) ↔ c0 = true)
         ∧ (is_Some (cell ao 1) ↔ c1 = true) ∧ (is_Some (cell ao 2) ↔ c2 = true)
         ∧ ∀ m,
             granted (1 + (if c0 then 1 else 0) + (if c1 then 1 else 0)
                      + (if c2 then 1 else 0) + m) s = granted m s1).
Proof.
  destruct (alloc_step_any s true 3 (false, no_cells) s ltac:(lia) (cell_no_cells 3)
              (cells_ok_init s) (cells_only_init s))
    as (f3 & a3 & s3 & E3 & C3 & O3 & F3 & G3).
  cbn [fst snd] in E3, F3. rewrite bind_eq, E3.
  destruct (alloc_step_any s c0 0 (f3, a3) s3 ltac:(lia)
              ltac:(simpl; rewrite F3 by lia; apply cell_no_cells) C3 O3)
    as (f0 & a0 & s0 & E0 & C0 & O0 & F0 & G0).
  cbn [fst snd] in E0, F0, G0 |- *. rewrite bind_eq, E0.
  destruct (alloc_step_any s c1 1 (f0, a0) s0 ltac:(lia)
              ltac:(simpl; rewrite F0, F3 by lia; apply cell_no_cells) C0 O0)
    as (f1 & a1 & s1 & E1 & C1 & O1 & F1 & G1).
  cbn [fst snd] in E1, F1, G1 |- *. rewrite bind_eq, E1.
  destruct (alloc_step_any s c2 2 (f1, a1) s1 ltac:(lia)
              ltac:(simpl; rewrite F1, F0, F3 by lia; apply cell_no_cells) C1 O1)
    as (f2 & a2 & s2 & E2 & C2 & O2 & F2 & G2).
  cbn [fst snd] in E2, F2, G2 |- *. rewrite bind_eq, E2.
  exists f2, a2, s2. split; [done|]. split; [done|]. split; [done|].
  intros Hf. destruct (G2 Hf) as (-> & P2 & G2'). destruct (G1 eq_refl) as (-> & P1 & G1').
  destruct (G0 eq_refl) as (-> & P0 & G0'). destruct (G3 eq_refl) as (_ & P3 & G3').
  split; [rewrite F2, F1, F0 by lia; by apply P3|].
  split; [rewrite F2, F1 by lia; done|].
  split; [rewrite F2 by lia; done|]. split; [done|].
  intros m. rewrite <- G2', <- G1', <- G0', <- G3'. f_equal. lia.
Qed.

Lemma free_rec_eq c s :
  OPENSSL_free_rec c s =
  match c with
  | None => Some (tt, s)
  | Some p => recs s !! p ≫= λ _, Some (tt, with_recs (delete p) s)
  end.
Proof.
  destruct c as [p|]; [|done]. cbv [OPENSSL_free_rec bind get lift modify].
  by destruct (recs s !! p).
Qed.

Lemma free_rec_del c s :
  (∀ p, c = Some p → is_Some (recs s !! p)) →
  OPENSSL_free_rec c s = Some (tt, with_recs (del c) s).
Proof.
  intros H. rewrite free_rec_eq. destruct c as [p|]; simpl.
  - by destruct (H p eq_refl) as [r ->].
  - by destruct s.
Qed.

Lemma lookup_del c (R : gmap positive ADDED_OBJ) q :
  del c R !! q = if decide (c = Some q) then None else R !! q.
Proof.
  destruct c as [p|]; simpl.
  - destruct (decide (Some p = Some q)) as [[= ->]|Hne].
    + apply lookup_delete_eq.
    + apply lookup_delete_ne. congruence.
  - done.
Qed.

(** label [err2] releases the cells and the copy, and nothing else. *)
Lemma add_object_err2_frees (b : gmap positive ADDED_OBJ) ao o e s :
  length ao = 4%nat →
  (∀ i p, cell ao i = Some p → is_Some (recs s !! p) ∧ b !! p = None) →
  (∀ i j p, cell ao i = Some p → cell ao j = Some p → i = j) →
  (∀ q, (∀ i, cell ao i ≠ Some q) → recs s !! q = b !! q) →
  objs s !! o = Some e → Z.land (flags e) ASN1_OBJECT_FLAG_DYNAMIC ≠ 0 →
  ∃ s', add_object_err2 ao o s = Some (NID_undef, s')
    ∧ recs s' = b ∧ objs s' = delete o (objs s)
    ∧ added s' = added s ∧ new_nid s' = new_nid s ∧ lock_ok s' = lock_ok s
    ∧ err_queue s' = err_queue s.
Proof.
  intros Hlen Hc Hd Hon Ho Hdyn.
  unfold add_object_err2.
  rewrite bind_eq, free_rec_del.
  2:{ intros p Hp. by apply (Hc 0%nat). }
  rewrite bind_eq, free_rec_del.
  2:{ intros p Hp. simpl. rewrite lookup_del.
      destruct (decide (cell ao 0 = Some p)) as [H0|_]; [|by apply (Hc 1%nat)].
      by pose proof (Hd 0%nat 1%nat p H0 Hp). }
  rewrite bind_eq, free_rec_del.
  2:{ intros p Hp. simpl. rewrite !lookup_del.
      destruct (decide (cell ao 1 = Some p)) as [H0|_].
      { by pose proof (Hd 1%nat 2%nat p H0 Hp). }
      destruct (decide (cell ao 0 = Some p)) as [H0|_]; [|by apply (Hc 2%nat)].
      by pose proof (Hd 0%nat 2%nat p H0 Hp). }
  rewrite bind_eq, free_rec_del.
  2:{ intros p Hp. simpl. rewrite !lookup_del.
      destruct (decide (cell ao 2 = Some p)) as [H0|_].
      { by pose proof (Hd 2%nat 3%nat p H0 Hp). }
      destruct (decide (cell ao 1 = Some p)) as [H0|_].
      { by pose proof (Hd 1%nat 3%nat p H0 Hp). }
      destruct (decide (cell ao 0 = Some p)) as [H0|_]; [|by apply (Hc 3%nat)].
      by pose proof (Hd 0%nat 3%nat p H0 Hp). }
  rewrite bind_eq. unfold ASN1_OBJECT_free. rewrite bind_eq.
  cbv [load_obj bind get lift]. simpl. rewrite Ho. simpl.
  replace (Z.land (flags e) ASN1_OBJECT_FLAG_DYNAMIC =? 0) with false
    by (symmetry; by apply Z.eqb_neq).
  simpl. eexists. split; [done|]. simpl. split; [|done].
  apply map_eq. intros q. rewrite !lookup_del.
  destruct (decide (cell ao 3 = Some q)) as [H3|H3]; [by destruct (Hc _ _ H3)|].
  destruct (decide (cell ao 2 = Some q)) as [H2|H2]; [by destruct (Hc _ _ H2)|].
  destruct (decide (cell ao 1 = Some q)) as [H1|H1]; [by destruct (Hc _ _ H1)|].
  destruct (decide (cell ao 0 = Some q)) as [H0|H0]; [by destruct (Hc _ _ H0)|].
  apply Hon. intros i. destruct i as [|[|[|[|i]]]]; try done.
  unfold cell. rewrite lookup_ge_None_2 by (rewrite Hlen; lia). done.
Qed.

Lemma add_object_err2_clean b ao o e s1 s :
  cells_ok b ao s1 → cells_only b ao s1 → recs s = recs s1 →
  objs s !! o = Some e → Z.land (flags e) ASN1_OBJECT_FLAG_DYNAMIC ≠ 0 →
  ∃ s', add_object_err2 ao o s = Some (NID_undef, s')
    ∧ recs s' = recs b ∧ objs s' = delete o (objs s)
    ∧ added s' = added s ∧ new_nid s' = new_nid s ∧ lock_ok s' = lock_ok s
    ∧ err_queue s' = err_queue s.
Proof.
  intros (Hlen & Hc & Hd & _) Hon Hrs Ho Hdyn.
  unfold cells_only in Hon. rewrite <- Hrs in Hc, Hon.
  by apply (add_object_err2_frees (recs b) ao o e s).
Qed.

(** X16.  [OBJ_add_object] fails cleanly before its insert loop: when the
    write lock cannot be taken, or one of the allocations requested before
    the loop is refused (the copy, a record, the index), it returns
    [NID_undef] with the entries, the records, the index and the NID counter
    as they were - the copy and the records allocated so far are released -
    and with at most one error queued,
    [ERR_R_UNABLE_TO_GET_WRITE_LOCK] or [ERR_R_CRYPTO_LIB]. *)
Theorem add_object_fails_clean ob st :
  lock_ok st = false ∨ granted (pre_allocs ob st) st = false →
  ∃ st', OBJ_add_object ob st = Some (NID_undef, st')
    ∧ unchanged st st' ∧ lock_ok st' = lock_ok st
    ∧ (err_queue st' = err_queue st
       ∨ err_queue st' = ERR_R_UNABLE_TO_GET_WRITE_LOCK :: err_queue st
       ∨ err_queue st' = ERR_R_CRYPTO_LIB :: err_queue st).
Proof.
  intros Hfail. unfold OBJ_add_object, ossl_obj_add_object.
  rewrite bind_eq. unfold OBJ_dup. rewrite malloc_obj_eq.
  destruct (hd true (alloc_plan st)) eqn:Eh.
  2:{ eexists. split; [done|]. split; [by repeat split|]. split; [done|by left]. }
  set (o := fresh (dom (objs st))).
  set (e := set_flags (Z.lor (flags ob) DYNAMIC_BITS) ob).
  set (sd := with_objs (insert o e) (after_allocs 1 st)).
  assert (Hfresh : objs st !! o = None) by apply not_elem_of_dom, is_fresh.
  assert (Hload : load_obj o sd = Some (e, sd)).
  { cbv [load_obj bind get lift]. simpl. by rewrite lookup_insert_eq. }
  rewrite bind_eq, Hload.
  assert (Hdyn : Z.land (flags e) ASN1_OBJECT_FLAG_DYNAMIC ≠ 0).
  { unfold e. simpl. intros H0.
    assert (Hb : Z.testbit (Z.land (Z.lor (flags ob) DYNAMIC_BITS) ASN1_OBJECT_FLAG_DYNAMIC) 0
                 = false) by (rewrite H0; apply Z.bits_0).
    rewrite Z.land_spec, Z.lor_spec in Hb. vm_compute (Z.testbit DYNAMIC_BITS 0) in Hb.
    vm_compute (Z.testbit ASN1_OBJECT_FLAG_DYNAMIC 0) in Hb.
    by rewrite orb_true_r in Hb. }
  match goal with |- context [alloc_cell ?c 0%nat] => set (c0 := c) end.
  assert (Hc0 : c0 = has_key ob 0).
  { unfold c0, has_key. change (obj_length e) with (obj_length ob).
    destruct (obj_length ob =? 0) eqn:El; simpl; [done|].
    apply bool_decide_eq_true. intros Hd. unfold obj_length in El. by rewrite Hd in El. }
  match goal with
  | |- context [bind (alloc_cell true 3%nat no_cells) ?k] =>
      change (bind (alloc_cell true 3%nat no_cells) k) with
        (r <- alloc_cell true 3 no_cells;;
         r <- (if r.1 then ret r else alloc_cell c0 0 r.2);;
         r <- (if r.1 then ret r else alloc_cell (has_key ob 1) 1 r.2);;
         r <- (if r.1 then ret r else alloc_cell (has_key ob 2) 2 r.2);;
         (λ r : bool * list (option positive),
            let ao := r.2 in
            if r.1 then add_object_err2 ao o
            else
              ok <- ossl_obj_write_lock true;;
              if negb ok then
                ERR_raise ERR_R_UNABLE_TO_GET_WRITE_LOCK;; add_object_err2 ao o
              else
                st <- get;;
                ok <- match added st with
                      | None => lh_ADDED_OBJ_new
                      | Some _ => ret true
                      end;;
                if negb ok then
                  ERR_raise ERR_R_CRYPTO_LIB;; add_object_err true ao o
                else
                  ok <- insert_all [0; 1; 2; 3]%nat o ao no_cells;;
                  if negb ok then add_object_err true ao o
                  else
                    a <- load_obj o;;
                    store_obj o (set_flags (Z.land (flags a) (Z.lnot DYNAMIC_BITS)) a);;
                    ossl_obj_unlock true;;
                    ret (nid a)) r)
  end.
  destruct (alloc_cells_any c0 (has_key ob 1) (has_key ob 2)
              (λ r : bool * list (option positive),
                 let ao := r.2 in
                 if r.1 then add_object_err2 ao o
                 else
                   ok <- ossl_obj_write_lock true;;
                   if negb ok then
                     ERR_raise ERR_R_UNABLE_TO_GET_WRITE_LOCK;; add_object_err2 ao o
                   else
                     st <- get;;
                     ok <- match added st with
                           | None => lh_ADDED_OBJ_new
                           | Some _ => ret true
                           end;;
                     if negb ok then
                       ERR_raise ERR_R_CRYPTO_LIB;; add_object_err true ao o
                     else
                       ok <- insert_all [0; 1; 2; 3]%nat o ao no_cells;;
                       if negb ok then add_object_err true ao o
                       else
                         a <- load_obj o;;
                         store_obj o (set_flags (Z.land (flags a) (Z.lnot DYNAMIC_BITS)) a);;
                         ossl_obj_unlock true;;
                         ret (nid a)) sd)
    as (f & ao & s1 & -> & Hok & Hon & Hg).
  cbn [fst snd]. cbv zeta.
  pose proof Hok as (_ & _ & _ & _ & Ho1 & Ha1 & _ & Hn1 & Hl1 & Hq1).
  assert (Ho : objs s1 !! o = Some e) by (rewrite Ho1; simpl; by rewrite lookup_insert_eq).
  (* what the error exit leaves *)
  assert (Hclean : ∀ s, recs s = recs s1 → objs s = objs s1 → added s = added s1 →
            new_nid s = new_nid s1 → lock_ok s = lock_ok s1 →
            ∃ s', add_object_err2 ao o s = Some (NID_undef, s')
              ∧ unchanged st s' ∧ lock_ok s' = lock_ok st
              ∧ err_queue s' = err_queue s).
  { intros s Hrs Hos Has Hns Hls.
    destruct (add_object_err2_clean sd ao o e s1 s Hok Hon Hrs)
      as (s' & E & Hr & Hob & Had & Hnn & Hlk & Hqq);
      [by rewrite Hos|done|].
    exists s'. split; [done|]. split; [|split; [by rewrite Hlk, Hls, Hl1|done]].
    split; [|split; [done|split; [by rewrite Had, Has, Ha1|by rewrite Hnn, Hns, Hn1]]].
    rewrite Hob, Hos, Ho1. simpl. rewrite delete_insert_id; done. }
  destruct f.
  { destruct (Hclean s1) as (s' & -> & Hu & Hl & Hq); try done.
    exists s'. split; [done|]. split; [done|]. split; [done|]. left. by rewrite Hq, Hq1. }
  rewrite bind_eq, write_lock_eq. cbn [negb orb].
  destruct (lock_ok s1) eqn:Elock; cbn [negb].
  2:{ rewrite bind_eq. cbv [ERR_raise modify].
      destruct (Hclean (with_err ERR_R_UNABLE_TO_GET_WRITE_LOCK s1))
        as (s' & -> & Hu & Hl & Hq); try done.
      exists s'. split; [done|]. split; [done|]. split; [done|]. right; left.
      rewrite Hq. simpl. by rewrite Hq1. }
  (* the lock is there: an allocation was refused *)
  destruct Hfail as [Hfail|Hfail].
  { change (lock_ok sd) with (lock_ok st) in Hl1. congruence. }
  rewrite bind_eq. unfold get. rewrite bind_eq.
  destruct (Hg eq_refl) as (_ & _ & _ & _ & Hg').
  clear Hg. rename Hg' into Hg.
  assert (Hall : ∀ m, granted (S (1 + (if c0 then 1 else 0) + (if has_key ob 1 then 1 else 0)
                                  + (if has_key ob 2 then 1 else 0) + m)) st
                      = granted m s1).
  { intros m. rewrite granted_S, Eh. cbn [andb]. exact (Hg m). }
  unfold pre_allocs in Hfail. rewrite <- Hc0 in Hfail.
  change (added sd) with (added st) in Ha1.
  rewrite Ha1. destruct (added st) as [l|] eqn:Eadd.
  { exfalso.
    replace (2 + (if c0 then 1 else 0) + (if has_key ob 1 then 1 else 0)
             + (if has_key ob 2 then 1 else 0) + 0)%nat
      with (S (1 + (if c0 then 1 else 0) + (if has_key ob 1 then 1 else 0)
             + (if has_key ob 2 then 1 else 0) + 0))%nat in Hfail by lia.
    rewrite Hall in Hfail. done. }
  rewrite lh_new_eq. destruct (hd true (alloc_plan s1)) eqn:Eh1; cbn [negb].
  { exfalso.
    replace (2 + (if c0 then 1 else 0) + (if has_key ob 1 then 1 else 0)
             + (if has_key ob 2 then 1 else 0) + 1)%nat
      with (S (1 + (if c0 then 1 else 0) + (if has_key ob 1 then 1 else 0)
             + (if has_key ob 2 then 1 else 0) + 1))%nat in Hfail by lia.
    rewrite Hall, granted_S, Eh1 in Hfail. done. }
  rewrite bind_eq. cbv [ERR_raise modify]. unfold add_object_err. rewrite bind_eq.
  cbv [ossl_obj_unlock ret].
  destruct (Hclean (with_err ERR_R_CRYPTO_LIB (after_allocs 1 s1)))
    as (s' & -> & Hu & Hl & Hq); try done.
  exists s'. split; [done|]. split; [done|]. split; [done|]. right; right.
  rewrite Hq. simpl. by rewrite Hq1.
Qed.

(** * [OBJ_create] without the lock *)

Section CreateNoLock.
Variable T : builtin.
Hypothesis Hwf : wf_builtin T = true.

(** lines 797-809, whatever the outcome: a temporary entry in a fresh
    cell, or nothing. *)
Lemma create_tmpoid_any oid s :
  ∃ r s', create_tmpoid T oid s = Some (r, s')
    ∧ recs s' = recs s ∧ added s' = added s ∧ new_nid s' = new_nid s
    ∧ lock_ok s' = lock_ok s
    ∧ match r with
      | None => objs s' = objs s
      | Some q => objs s !! q = None
                  ∧ ∃ d, objs s' = <[q := tmp_entry d]> (objs s)
      end.
Proof.
  unfold create_tmpoid. destruct oid as [t|].
  - rewrite bind_eq. unfold OBJ_txt2obj. cbn [negb]. rewrite txt2obj_dotted_eq.
    destruct (text_to_der t) as [der|] eqn:Et.
    + destruct (granted 2 s); cbv zeta.
      * eexists _, _. split; [done|]. repeat (split; [done|]).
        split; [apply not_elem_of_dom, is_fresh|]. by exists (Some der).
      * eexists _, _. split; [done|]. by repeat split.
    + eexists _, _. split; [done|]. by repeat split.
  - rewrite bind_eq. unfold ASN1_OBJECT_new. rewrite malloc_obj_eq.
    destruct (hd true (alloc_plan s)).
    + eexists _, _. split; [done|]. repeat (split; [done|]).
      split; [apply not_elem_of_dom, is_fresh|]. by exists None.
    + eexists _, _. split; [done|]. by repeat split.
Qed.

Lemma sn2nid_nolock s st :
  lock_ok st = false →
  ∃ n st', OBJ_sn2nid T s st = Some (n, st') ∧ lookup_post st st'.
Proof.
  intros Hl. rewrite OBJ_sn2nid_eq.
  destruct (builtin_lookup_total T (sn_cmp T (set_names (Some s) None key_obj)) (sn_objs T))
    as (op & E & Hb). { intros e He. by apply wf_sn_cmp. }
  unfold OBJ_bsearch_sn. rewrite E. simpl. destruct op as [b|].
  - destruct (Hb b eq_refl) as [e ->]. simpl. eexists _, _. split; [done|]. by left.
  - rewrite added_nid_eq, Hl. simpl. eexists _, _. split; [done|]. by right.
Qed.

Lemma ln2nid_nolock s st :
  lock_ok st = false →
  ∃ n st', OBJ_ln2nid T s st = Some (n, st') ∧ lookup_post st st'.
Proof.
  intros Hl. rewrite OBJ_ln2nid_eq.
  destruct (builtin_lookup_total T (ln_cmp T (set_names None (Some s) key_obj)) (ln_objs T))
    as (op & E & Hb). { intros e He. by apply wf_ln_cmp. }
  unfold OBJ_bsearch_ln. rewrite E. simpl. destruct op as [b|].
  - destruct (Hb b eq_refl) as [e ->]. simpl. eexists _, _. split; [done|]. by left.
  - rewrite added_nid_eq, Hl. simpl. eexists _, _. split; [done|]. by right.
Qed.

(** lines 791-792 without the lock: the names are looked up in the table
    only. *)
Lemma create_name_clash_nolock sn ln st :
  lock_ok st = false →
  ∃ b st2, create_name_clash T sn ln st = Some (b, st2) ∧ quiet st st2.
Proof.
  intros Hl. unfold create_name_clash. rewrite bind_eq.
  assert (H1 : ∃ b1 st1, match sn with
      | Some s => nid <- OBJ_sn2nid T s;; ret (negb (nid =? NID_undef))
      | None => ret false end st = Some (b1, st1) ∧ quiet st st1).
  { destruct sn as [s|].
    - destruct (sn2nid_nolock s st Hl) as (n & st1 & E & Hp).
      rewrite bind_eq, E. eexists _, _. split; [reflexivity|]. by apply lookup_post_quiet.
    - eexists _, _. split; [reflexivity|]. apply quiet_refl. }
  destruct H1 as (b1 & st1 & -> & Hq1).
  destruct b1; [by exists true, st1|].
  destruct ln as [l|]; [|by exists false, st1].
  assert (Hl1 : lock_ok st1 = false).
  { destruct Hq1 as (_ & _ & _ & _ & _ & -> & _). done. }
  destruct (ln2nid_nolock l st1 Hl1) as (n & st2 & E & Hp).
  rewrite bind_eq, E. eexists _, _. split; [reflexivity|].
  eapply quiet_trans; [done|]. by apply lookup_post_quiet.
Qed.

(** X17.  Without the write lock [OBJ_create] registers nothing and leaks
    nothing: whatever its arguments, it returns 0 and leaves the entries,
    the records, the index and the NID counter as they were; the temporary
    entry, if one was built, is released (lines 811-815). *)
Theorem create_without_lock oid sname lname st :
  lock_ok st = false →
  ∃ st', OBJ_create T oid sname lname st = Some (0, st') ∧ unchanged st st'
    ∧ lock_ok st' = false.
Proof.
  intros Hlock. unfold OBJ_create.
  destruct (bool_decide (oid = None) && bool_decide (sname = None)
            && bool_decide (lname = None)).
  { eexists. split; [done|]. by repeat split. }
  destruct (create_name_clash_nolock sname lname st Hlock) as (b & sa & Ec & Hqa).
  destruct Hqa as (Qo & Qr & Qa & Qe & Qn & Ql & Qp).
  rewrite bind_eq, Ec. destruct b.
  { eexists. split; [done|]. simpl. split; [by repeat split|congruence]. }
  rewrite bind_eq.
  destruct (create_tmpoid_any oid sa) as (r & sb & -> & Hr & Ha & Hn & Hl & Hobj).
  destruct r as [tmpoid|].
  2:{ eexists. split; [done|]. split; [|congruence]. repeat split; congruence. }
  destruct Hobj as (Hfresh & d & Hobj).
  rewrite bind_eq, write_lock_eq. cbn [negb orb].
  rewrite Hl, Ql, Hlock. cbn [negb].
  cbv [bind ERR_raise modify ASN1_OBJECT_free load_obj get lift ret]. simpl.
  rewrite Hobj, lookup_insert_eq. simpl.
  assert (Hdyn : negb (Z.land (flags (tmp_entry d)) ASN1_OBJECT_FLAG_DYNAMIC =? 0) = true)
    by (by destruct d).
  simpl in Hdyn. rewrite Hdyn. eexists. split; [done|]. simpl.
  split; [|simpl; by rewrite Hl, Ql].
  split; [|simpl; repeat split; congruence].
  simpl. rewrite Hobj, delete_insert_id by done. done.
Qed.

End CreateNoLock.

(** * The fields of a line of [OBJ_create_objects] *)

Lemma rd_insert (buf : list ascii) j c i :
  rd (<[j := c]> buf) i = if decide (i = j ∧ (j < length buf)%nat) then c else rd buf i.
Proof.
  unfold rd. destruct (decide (i = j ∧ (j < length buf)%nat)) as [[-> Hj]|Hn].
  - by rewrite list_lookup_insert_eq.
  - destruct (decide (i = j)) as [->|Hij].
    + rewrite list_insert_ge; [done|]. lia.
    + by rewrite list_lookup_insert_ne.
Qed.

Lemma span_all P (l : list ascii) i : (i < span P l)%nat → P (default NUL (l !! i)) = true.
Proof.
  revert i. induction l as [|c l IH]; intros i; simpl; [lia|].
  destruct (P c) eqn:E; [|lia]. destruct i as [|i]; simpl; [done|].
  intros H. apply IH. lia.
Qed.

Lemma span_stop P (l : list ascii) :
  P NUL = false → P (default NUL (l !! span P l)) = false.
Proof.
  intros HP. induction l as [|c l IH]; simpl; [done|].
  destruct (P c) eqn:E; simpl; done.
Qed.

Lemma skip_all P buf k i : (k ≤ i < skip P buf k)%nat → P (rd buf i) = true.
Proof.
  unfold skip, rd. intros H. replace i with (k + (i - k))%nat by lia.
  rewrite <- lookup_drop. apply span_all. lia.
Qed.

Lemma skip_stop P buf k : P NUL = false → P (rd buf (skip P buf k)) = false.
Proof. intros HP. unfold skip, rd. rewrite <- lookup_drop. by apply span_stop. Qed.

(** The C string in front of the first NUL. *)
Lemma upto_NUL_prefix (P : ascii → bool) (l : list ascii) : ∀ m : nat,
  P NUL = false →
  (∀ i, (i < m)%nat → P (default NUL (l !! i)) = true) →
  default NUL (l !! m) = NUL →
  Forall (λ c, P c = true) (upto_NUL l) ∧ length (upto_NUL l) = m.
Proof.
  induction l as [|c l IH]; intros m HP Hall Hend; simpl.
  - split; [constructor|]. destruct m as [|m]; [done|].
    specialize (Hall 0%nat ltac:(lia)). simpl in Hall. congruence.
  - destruct m as [|m].
    + simpl in Hend. subst c. done.
    + pose proof (Hall 0%nat ltac:(lia)) as H0. simpl in H0.
      destruct (Ascii.eqb c NUL) eqn:E.
      { apply Ascii.eqb_eq in E. congruence. }
      destruct (IH m HP) as [IH1 IH2].
      * intros i Hi. apply (Hall (S i)). lia.
      * done.
      * split; [by constructor|simpl; by rewrite IH2].
Qed.

Lemma c_string_field (P : ascii → bool) buf k n :
  P NUL = false → (k < n)%nat →
  (∀ i, (k ≤ i < n)%nat → P (rd buf i) = true) → rd buf n = NUL →
  Forall (λ c, P c = true) (list_ascii_of_string (c_string buf k))
  ∧ first_char (c_string buf k) = rd buf k
  ∧ c_string buf k ≠ EmptyString.
Proof.
  intros HP Hkn Hall Hend. unfold c_string.
  destruct (upto_NUL_prefix P (drop k buf) (n - k) HP) as [H1 H2].
  - intros i Hi. rewrite lookup_drop. apply (Hall (k + i)%nat). lia.
  - rewrite lookup_drop. replace (k + (n - k))%nat with n by lia. done.
  - rewrite list_ascii_of_string_of_list_ascii. split; [done|].
    assert (Hk : P (rd buf k) = true) by (apply Hall; lia).
    assert (Hd : rd buf k = default NUL (drop k buf !! 0%nat)).
    { unfold rd. by rewrite lookup_drop, Nat.add_0_r. }
    rewrite Hd in *. clear Hd.
    destruct (drop k buf) as [|c r]; simpl in *; [congruence|].
    destruct (Ascii.eqb c NUL) eqn:E.
    { apply Ascii.eqb_eq in E. congruence. }
    done.
Qed.

Lemma c_string_first buf k :
  rd buf k ≠ NUL →
  first_char (c_string buf k) = rd buf k ∧ c_string buf k ≠ EmptyString.
Proof.
  assert (Hd : rd buf k = default NUL (drop k buf !! 0%nat)).
  { unfold rd. by rewrite lookup_drop, Nat.add_0_r. }
  rewrite Hd. clear Hd. unfold c_string.
  destruct (drop k buf) as [|c r]; simpl; [done|]. intros Hc.
  destruct (Ascii.eqb c NUL) eqn:E; [by apply Ascii.eqb_eq in E|done].
Qed.

Lemma oid_char_NUL : oid_char NUL = false.
Proof. done. Qed.

Lemma isalnum_oid_digit c : ossl_isalnum c = true → oid_char c = true → ossl_isdigit c = true.
Proof.
  unfold oid_char. destruct (ossl_isdigit c); [done|]. simpl.
  intros Ha He. apply Ascii.eqb_eq in He. subst c. done.
Qed.

(** X18.  The fields [OBJ_create_objects] cuts out of a line (lines
    742-768): the OID handed to [OBJ_create] starts with a digit and holds
    digits and dots only; a short name, when there is one, is not empty and
    holds no white space, and a long name that comes with it is not empty
    and starts with a character that is not white space.  When the line has
    no short name the pointer [l] is not written: the long name handed over
    is whatever the buffer holds where an earlier line left [l].  The buffer
    keeps its size. *)
Theorem create_objects_line_fields buf l buf' l' o s ln :
  create_objects_line buf l = (buf', l', Some (o, s, ln)) →
  ossl_isdigit (first_char o) = true
  ∧ Forall (λ c, oid_char c = true) (list_ascii_of_string o)
  ∧ (∀ x, s = Some x →
       x ≠ EmptyString
       ∧ Forall (λ c, ossl_isspace c = false) (list_ascii_of_string x)
       ∧ ∀ y, ln = Some y → y ≠ EmptyString ∧ ossl_isspace (first_char y) = false)
  ∧ (s = None → l' = l)
  ∧ ln = c_string buf' <$> l'
  ∧ length buf' = length buf.
Proof.
  unfold create_objects_line. fold oid_char.
  change (λ c, ossl_isdigit c || (c =? ".")%char) with oid_char.
  destruct (ossl_isalnum (rd buf 0)) eqn:Ea; cbn [negb]; [|done].
  pose proof (isalnum_not_NUL _ Ea) as Hn0. apply Ascii.eqb_neq in Hn0.
  set (s0 := skip oid_char buf 0).
  pose proof (skip_all oid_char buf 0) as Hs0. fold s0 in Hs0.
  (* the first field, for every buffer that is as [buf] up to [s0] *)
  assert (Hoid : ∀ b, (∀ i, (i < s0)%nat → rd b i = rd buf i) → rd b s0 = NUL →
            rd b 0 ≠ NUL →
            ossl_isdigit (first_char (c_string b 0)) = true
            ∧ Forall (λ c, oid_char c = true) (list_ascii_of_string (c_string b 0))).
  { intros b Hsame Hend Hb0.
    assert (Hpos : (0 < s0)%nat).
    { destruct s0; [congruence|lia]. }
    destruct (c_string_field oid_char b 0 s0 oid_char_NUL Hpos) as (H1 & H2 & _); [|done|].
    { intros i Hi. rewrite Hsame by lia. apply Hs0. lia. }
    split; [|done]. rewrite H2, Hsame by done.
    apply isalnum_oid_digit; [done|]. apply Hs0. lia. }
  destruct (Ascii.eqb (rd buf s0) NUL) eqn:E1; cbn [negb].
  { (* the line holds the OID only *)
    apply Ascii.eqb_eq in E1.
    destruct (Ascii.eqb (rd buf 0) NUL) eqn:E0; [done|]. intros [= <- <- <- <- <-].
    apply Ascii.eqb_neq in E0. by destruct (Hoid buf) as [H1 H2]. }
  apply Ascii.eqb_neq in E1.
  assert (Hlt0 : (s0 < length buf)%nat).
  { unfold rd in E1. destruct (buf !! s0) eqn:E; [by eapply lookup_lt_Some|done]. }
  set (b1 := <[s0 := NUL]> buf).
  assert (Hb1 : ∀ i, rd b1 i = if decide (i = s0) then NUL else rd buf i).
  { intros i. unfold b1. rewrite rd_insert.
    destruct (decide (i = s0)) as [->|Hne].
    - by rewrite decide_True.
    - rewrite decide_False; [done|]. by intros [? _]. }
  set (s1 := skip ossl_isspace b1 (S s0)).
  pose proof (skip_ge ossl_isspace b1 (S s0)) as Hs1. fold s1 in Hs1.
  assert (Hlen1 : length b1 = length buf) by apply length_insert.
  destruct (Ascii.eqb (rd b1 s1) NUL) eqn:E2.
  { (* nothing after the OID *)
    destruct (Ascii.eqb (rd b1 0) NUL) eqn:E0; [done|]. intros [= <- <- <- <- <-].
    apply Ascii.eqb_neq in E0. destruct (Hoid b1) as [H1 H2]; try done.
    { intros i Hi. rewrite Hb1, decide_False by lia. done. }
    { by rewrite Hb1, decide_True. } }
  apply Ascii.eqb_neq in E2.
  set (P := λ c, negb (Ascii.eqb c NUL) && negb (ossl_isspace c)).
  set (l1 := skip P b1 s1).
  pose proof (skip_ge P b1 s1) as Hl1. fold l1 in Hl1.
  pose proof (skip_all P b1 s1) as Hall1. fold l1 in Hall1.
  assert (Hsp1 : ossl_isspace (rd b1 s1) = false) by (by apply skip_stop).
  assert (Hl1' : (s1 < l1)%nat).
  { destruct (decide (l1 = s1)) as [Heq|?]; [|lia]. exfalso.
    assert (HP : P (rd b1 l1) = false) by (by apply skip_stop).
    rewrite Heq in HP. unfold P in HP. rewrite Hsp1 in HP.
    apply Ascii.eqb_neq in E2. rewrite E2 in HP. done. }
  (* the second field, for every buffer that is as [b1] up to [l1] *)
  assert (Hsn : ∀ b, (∀ i, (i < l1)%nat → rd b i = rd b1 i) → rd b l1 = NUL →
            c_string b s1 ≠ EmptyString
            ∧ Forall (λ c, ossl_isspace c = false) (list_ascii_of_string (c_string b s1))).
  { intros b Hsame Hend.
    destruct (c_string_field P b s1 l1 eq_refl Hl1') as (H1 & _ & H3); [|done|].
    { intros i Hi. rewrite Hsame by lia. apply Hall1. lia. }
    split; [done|]. eapply Forall_impl; [exact H1|]. intros c Hc. simpl in Hc.
    unfold P in Hc. apply andb_true_iff in Hc as [_ Hc]. by apply negb_true_iff in Hc. }
  destruct (Ascii.eqb (rd b1 l1) NUL) eqn:E3; cbn [negb].
  { (* the short name ends the line *)
    apply Ascii.eqb_eq in E3.
    destruct (Ascii.eqb (rd b1 0) NUL) eqn:E0; [done|]. intros [= <- <- <- <- <-].
    apply Ascii.eqb_neq in E0. destruct (Hoid b1) as [H1 H2]; try done.
    { intros i Hi. rewrite Hb1, decide_False by lia. done. }
    { by rewrite Hb1, decide_True. }
    split; [done|]. split; [done|]. split; [|done].
    intros x [= <-]. destruct (Hsn b1) as [? ?]; try done. }
  apply Ascii.eqb_neq in E3.
  assert (Hlt1 : (l1 < length b1)%nat).
  { unfold rd in E3. destruct (b1 !! l1) eqn:E; [by eapply lookup_lt_Some|done]. }
  set (b2 := <[l1 := NUL]> b1).
  assert (Hb2 : ∀ i, rd b2 i = if decide (i = l1) then NUL else rd b1 i).
  { intros i. unfold b2. rewrite rd_insert.
    destruct (decide (i = l1)) as [->|Hne].
    - by rewrite decide_True.
    - rewrite decide_False; [done|]. by intros [? _]. }
  set (l2 := skip ossl_isspace b2 (S l1)).
  assert (Hfields : ∀ lp : option nat,
            (∀ k, lp = Some k → k = l2 ∧ rd b2 l2 ≠ NUL) →
            (if Ascii.eqb (rd b2 0) NUL then (b2, lp, None)
             else (b2, lp, Some (c_string b2 0, c_string b2 <$> Some s1, c_string b2 <$> lp)))
            = (buf', l', Some (o, s, ln)) →
            ossl_isdigit (first_char o) = true
            ∧ Forall (λ c, oid_char c = true) (list_ascii_of_string o)
            ∧ (∀ x, s = Some x →
                 x ≠ EmptyString
                 ∧ Forall (λ c, ossl_isspace c = false) (list_ascii_of_string x)
                 ∧ ∀ y, ln = Some y → y ≠ EmptyString ∧ ossl_isspace (first_char y) = false)
            ∧ (s = None → l' = l)
            ∧ ln = c_string buf' <$> l'
            ∧ length buf' = length buf).
  { intros lp Hlp.
    destruct (Ascii.eqb (rd b2 0) NUL) eqn:E0; [done|]. intros [= <- <- <- <- <-].
    apply Ascii.eqb_neq in E0. destruct (Hoid b2) as [H1 H2]; try done.
    { intros i Hi. rewrite Hb2, decide_False by lia. rewrite Hb1, decide_False by lia. done. }
    { rewrite Hb2, decide_False by lia. by rewrite Hb1, decide_True. }
    split; [done|]. split; [done|]. split; [|split; [done|split; [done|]]].
    2:{ unfold b2. by rewrite length_insert. }
    intros x [= <-]. destruct (Hsn b2) as [? ?].
    { intros i Hi. rewrite Hb2, decide_False by lia. done. }
    { by rewrite Hb2, decide_True. }
    split; [done|]. split; [done|].
    intros y Hy. destruct lp as [k|]; [|done]. injection Hy as <-.
    destruct (Hlp k eq_refl) as [-> Hk].
    destruct (c_string_first b2 l2 Hk) as [Hf Hne]. split; [done|].
    rewrite Hf. by apply skip_stop. }
  destruct (Ascii.eqb (rd b2 l2) NUL) eqn:E4.
  - apply Hfields. by intros k.
  - apply Hfields. intros k [= <-]. split; [done|]. by apply Ascii.eqb_neq.
Qed.

(** * Registration, then printing *)




Section CreatePrint.
Variable T : builtin.
Hypothesis Hwf : wf_builtin T = true.


End CreatePrint.

(** * The rollback of the insert loop *)

Lemma added_obj_cmp_sym0 a b : added_obj_cmp a b = 0 → added_obj_cmp b a = 0.
Proof.
  destruct a as [t a], b as [u b]. unfold added_obj_cmp. simpl.
  destruct (t - u =? 0) eqn:Et; simpl; [|intros; apply Z.eqb_neq in Et; lia].
  apply Z.eqb_eq in Et. assert (u = t) as -> by lia. clear Et.
  rewrite Z.sub_diag. simpl.
  destruct (t =? ADDED_DATA).
  { destruct (obj_length a - obj_length b =? 0) eqn:El; simpl;
      [|intros; apply Z.eqb_neq in El; lia].
    apply Z.eqb_eq in El. assert (Hl : obj_length a = obj_length b) by lia.
    intros Hm. rewrite (memcmp_0_data a b Hl Hm), Hl, Z.sub_diag. simpl.
    apply memcmp_refl. }
  destruct (t =? ADDED_SNAME).
  { destruct (sn a) as [x|], (sn b) as [y|]; try done. intros ->%strcmp_0. apply strcmp_refl. }
  destruct (t =? ADDED_LNAME).
  { destruct (ln a) as [x|], (ln b) as [y|]; try done. intros ->%strcmp_0. apply strcmp_refl. }
  destruct (t =? ADDED_NID); [lia|done].
Qed.

Lemma unique_keys_elim st (l : list positive) :
  unique_keys st l = true →
  ∀ p q, p ∈ l → q ∈ l → p ≠ q → clash st p q = false.
Proof.
  induction l as [|a l IH]; intros H p q Hp Hq Hne; [by apply elem_of_nil in Hp|].
  simpl in H. apply andb_true_iff in H as [Ha Hl].
  apply elem_of_cons in Hp as [->|Hp], Hq as [->|Hq]; try done.
  - pose proof (forallb_elem _ _ _ Ha Hq) as H. simpl in H.
    apply andb_true_iff in H as [H _]. by apply negb_true_iff in H.
  - pose proof (forallb_elem _ _ _ Ha Hp) as H. simpl in H.
    apply andb_true_iff in H as [_ H]. by apply negb_true_iff in H.
  - by apply IH.
Qed.

Lemma unique_keys_intro st (l : list positive) :
  NoDup l → (∀ p q, p ∈ l → q ∈ l → p ≠ q → clash st p q = false) →
  unique_keys st l = true.
Proof.
  induction l as [|a l IH]; intros Hnd H; [done|].
  apply NoDup_cons in Hnd as [Ha Hnd]. simpl. apply andb_true_iff. split.
  - apply forallb_intro. intros q Hq.
    assert (a ≠ q) by (by intros ->).
    rewrite !H; try done; by (left || right).
  - apply IH; [done|]. intros p q Hp Hq. apply H; by right.
Qed.

Lemma lh_find_nomatch s key (l : list positive) q :
  lh_find s key l = Some None → q ∈ l → matches s key q = Some false.
Proof.
  induction l as [|p l IH]; intros H Hq; [by apply elem_of_nil in Hq|].
  rewrite lh_find_matches in H.
  destruct (matches s key p) as [[|]|] eqn:E; simpl in H; try done.
  apply elem_of_cons in Hq as [->|Hq]; [done|by apply IH].
Qed.

Lemma lh_replace_nomatch s key new (l : list positive) :
  (∀ q, q ∈ l → matches s key q = Some false) →
  lh_replace s key new l = Some (l ++ [new]).
Proof.
  induction l as [|p l IH]; intros H; [done|].
  rewrite lh_replace_matches, (H p) by (by left). simpl.
  rewrite IH; [done|]. intros q Hq. apply H. by right.
Qed.

Lemma lh_remove_matches (s : registry) key (p : positive) (l' : list positive) :
  lh_remove s key (p :: l') =
  matches s key p ≫= λ m : bool,
    if m then Some l' else l'' ← lh_remove s key l'; Some (p :: l'').
Proof. simpl. unfold matches. by destruct (view s p). Qed.

Lemma lh_remove_last s key p (l : list positive) :
  (∀ q, q ∈ l → matches s key q = Some false) → matches s key p = Some true →
  lh_remove s key (l ++ [p]) = Some l.
Proof.
  induction l as [|a l IH]; intros H Hp.
  - simpl app. rewrite lh_remove_matches, Hp. done.
  - simpl app. rewrite lh_remove_matches, (H a) by (by left). simpl.
    rewrite IH; [done| |done]. intros q Hq. apply H. by right.
Qed.

Lemma lh_delete_eq p s :
  lh_ADDED_OBJ_delete (Some p) s =
  (view s p ≫= λ key, added s ≫= λ l,
     lh_remove s key l ≫= λ l', Some (tt, with_added (Some l') false s)).
Proof.
  unfold lh_ADDED_OBJ_delete. rewrite bind_eq, key_of_eq.
  destruct (view s p) as [key|]; simpl; [|done].
  destruct (added s) as [l|]; simpl; done.
Qed.

Lemma retype_eq c t s :
  (∀ q, c = Some q → is_Some (recs s !! q)) →
  match c with Some q => set_type q t | None => ret tt end s = Some (tt, retype c t s).
Proof.
  intros H. destruct c as [q|]; [|done]. rewrite set_type_eq. unfold retype.
  by destruct (H q eq_refl) as [rq ->].
Qed.

Lemma lookup_retype c t s x :
  recs (retype c t s) !! x =
  if decide (c = Some x) then (λ r, mk_added t (obj r)) <$> recs s !! x else recs s !! x.
Proof.
  unfold retype. destruct c as [q|]; [|by rewrite decide_False].
  destruct (decide (Some q = Some x)) as [[= ->]|Hne].
  - destruct (recs s !! x) as [rq|] eqn:E; simpl; [by rewrite lookup_insert_eq|by rewrite E].
  - destruct (recs s !! q) as [rq|]; simpl; [|done].
    rewrite lookup_insert_ne; [done|congruence].
Qed.

Lemma retype_fields c t s :
  added (retype c t s) = added s ∧ objs (retype c t s) = objs s
  ∧ new_nid (retype c t s) = new_nid s ∧ lock_ok (retype c t s) = lock_ok s
  ∧ err_queue (retype c t s) = err_queue s ∧ alloc_plan (retype c t s) = alloc_plan s
  ∧ lh_error (retype c t s) = lh_error s.
Proof. unfold retype. destruct c as [q|]; [|done]. by destruct (recs s !! q). Qed.

Lemma rollback_ext i ao aop aop' s :
  (∀ j, (j < i)%nat → cell aop j = cell aop' j) →
  rollback i ao aop s = rollback i ao aop' s.
Proof.
  revert s. induction i as [|i IH]; intros s H; [done|].
  cbn [rollback]. rewrite !bind_eq.
  destruct (lh_ADDED_OBJ_delete (cell ao i) s) as [[[] s1]|]; [|done].
  rewrite !bind_eq, <- (H i) by lia.
  destruct (match cell aop i with Some q => set_type q (Z.of_nat i) | None => ret tt end s1)
    as [[[] s2]|]; [|done].
  apply IH. intros j Hj. apply H. lia.
Qed.

Lemma cell_dec (ao : list (option positive)) q :
  (∃ k, cell ao k = Some q) ∨ (∀ k, cell ao k ≠ Some q).
Proof.
  destruct (decide (Some q ∈ ao)) as [H|H].
  - left. apply list_elem_of_lookup in H as [k Hk]. exists k. unfold cell. by rewrite Hk.
  - right. intros k Hk. apply H. unfold cell in Hk.
    destruct (ao !! k) as [c|] eqn:E; [|done]. simpl in Hk. subst c.
    by eapply list_elem_of_lookup_2.
Qed.

Section Rollback.
Variable o : positive.
Variable e : ASN1_OBJECT.
Variable ao : list (option positive).
Variable sb : registry.
Variable l0 : list positive.

(** The entry has all four keys: every cell is there; the cells are
    distinct, and each key matches itself. *)
Hypothesis ao_len : length ao = 4%nat.
Hypothesis ao_all : ∀ k, (k < 4)%nat → is_Some (cell ao k).
Hypothesis ao_distinct : ∀ i j p, cell ao i = Some p → cell ao j = Some p → i = j.
Hypothesis ao_self : ∀ k, (k < 4)%nat →
  added_obj_cmp (Z.of_nat k, e) (Z.of_nat k, e) = 0.
Hypothesis sb_o : objs sb !! o = Some e.

(** A successful pass through the loop body at index [i]. *)
Lemma loop_step i s l aop p prev :
  (i < 4)%nat → length aop = 4%nat → cell ao i = Some p →
  loop_inv o ao sb i s l → can_roll o ao sb l0 i s l aop →
  lh_find (with_recs (insert p (mk_added (Z.of_nat i) o)) s) (Z.of_nat i, e) l = Some prev →
  let s2 := retype prev (-1) (with_recs (insert p (mk_added (Z.of_nat i) o)) s) in
  (∀ q, prev = Some q → q ∈ l ∧ q ≠ p ∧ (∀ k, cell ao k ≠ Some q)
      ∧ ∃ rq, recs s !! q = Some rq ∧ type rq = Z.of_nat i)
  ∧ view s2 p = Some (Z.of_nat i, e)
  ∧ (∀ q, q ∈ l → matches s2 (Z.of_nat i, e) q = Some false)
  ∧ (∀ a pl, loop_inv o ao sb (S i) (with_added (Some (l ++ [p])) a (with_plan pl s2))
               (l ++ [p]))
  ∧ (∀ a pl, can_roll o ao sb l0 (S i) (with_added (Some (l ++ [p])) a (with_plan pl s2))
               (l ++ [p]) (<[i := prev]> aop))
  ∧ (∀ q, prev = Some q →
       is_Some (recs (with_recs (insert p (mk_added (Z.of_nat i) o)) s) !! q)
       ∧ is_Some (recs s2 !! q))
  ∧ (∀ a pl, ∃ s2r,
       rollback i ao (<[i := prev]> aop)
         (retype prev (Z.of_nat i) (with_added (Some l) a (with_plan pl s2)))
       = Some (tt, s2r)
       ∧ rolled o ao sb l0 (S i) s2r).
Proof.
  intros Hi Hlaop Hp (Ja & Jf & Jv & Jnd & Ju & Jc & Jd) R Hf.
  set (s1 := with_recs (insert p (mk_added (Z.of_nat i) o)) s) in *.
  destruct (Jc i p Hp (le_n _)) as [[r0 Hr0] Hpl].
  assert (Hobjs : objs s = objs sb) by (by destruct Jf).
  assert (Hv1 : ∀ q, q ∈ l → view s1 q = view s q).
  { intros q Hq. unfold view. simpl. rewrite lookup_insert_ne; [done|]. by intros ->. }
  (* the superseded record *)
  assert (Hprev : ∀ q, prev = Some q → q ∈ l ∧ q ≠ p ∧ (∀ k, cell ao k ≠ Some q)
            ∧ ∃ rq, recs s !! q = Some rq ∧ type rq = Z.of_nat i).
  { intros q ->. apply lh_find_Some_matches in Hf as [Hq Hm].
    rewrite (matches_view s s1 _ q (Hv1 q Hq)) in Hm. unfold matches, view in Hm.
    destruct (recs s !! q) as [rq|] eqn:Hrq; simpl in Hm; [|done].
    destruct (objs s !! obj rq) as [x|]; simpl in Hm; [|done].
    injection Hm as Hm. apply Z.eqb_eq, added_obj_cmp_tag_eq in Hm. simpl in Hm.
    split; [done|]. split; [by intros ->|]. split; [|by exists rq].
    intros k Hk. destruct (decide (i ≤ k)%nat) as [Hik|Hik].
    - by destruct (Jc k q Hk Hik).
    - rewrite (Jd k q Hk) in Hrq by lia. injection Hrq as <-. simpl in Hm. lia. }
  set (s2 := retype prev (-1) s1).
  destruct (retype_fields prev (-1) s1) as (Ra & Ro & Rn & Rl & Rq & Rp & Re).
  fold s2 in Ra, Ro, Rn, Rl, Rq, Rp, Re.
  assert (Hrecs2 : ∀ x, recs s2 !! x =
            if decide (x = p) then Some (mk_added (Z.of_nat i) o)
            else if decide (prev = Some x)
                 then (λ r, mk_added (-1) (obj r)) <$> recs s !! x
                 else recs s !! x).
  { intros x. unfold s2. rewrite lookup_retype. unfold s1. simpl.
    destruct (decide (x = p)) as [->|Hxp].
    - rewrite decide_False; [by rewrite lookup_insert_eq|].
      intros Hpp. by destruct (Hprev p Hpp) as (_ & ? & _).
    - by rewrite lookup_insert_ne. }
  assert (Hview2 : ∀ q, q ≠ p → prev ≠ Some q → view s2 q = view s q).
  { intros q Hq Hpq. unfold view. rewrite Hrecs2, Ro, !decide_False by done. done. }
  assert (Hview2p : view s2 p = Some (Z.of_nat i, e)).
  { unfold view. rewrite Hrecs2, decide_True by done. simpl.
    rewrite Ro. change (objs s1) with (objs s). by rewrite Hobjs, sb_o. }
  assert (Hview2prev : ∀ q, prev = Some q → ∃ x, view s2 q = Some (-1, x)).
  { intros q Hq. destruct (Hprev q Hq) as (Hql & Hne & _ & rq & Hrq & _).
    unfold view. rewrite Hrecs2, decide_False, decide_True, Hrq by done. simpl.
    rewrite Ro. change (objs s1) with (objs s). destruct (Jv q Hql) as [v Hv].
    unfold view in Hv. rewrite Hrq in Hv. simpl in Hv.
    destruct (objs s !! obj rq); [by eexists|done]. }
  (* no record of the index matches the key any more *)
  assert (Hno : ∀ q, q ∈ l → matches s2 (Z.of_nat i, e) q = Some false).
  { intros q Hq. destruct (decide (prev = Some q)) as [Hpq|Hpq].
    { destruct (Hview2prev q Hpq) as [x Hx]. unfold matches. rewrite Hx. simpl.
      f_equal. apply Z.eqb_neq, added_obj_cmp_tags. lia. }
    assert (Hqp : q ≠ p) by (by intros ->).
    rewrite (matches_view s s2 _ q (Hview2 q Hqp Hpq)).
    destruct prev as [q0|].
    - pose proof Hf as Hf'. apply lh_find_Some_matches in Hf' as [Hq0 Hm0].
      rewrite (matches_view s s1 _ q0 (Hv1 q0 Hq0)) in Hm0.
      assert (Hne : q ≠ q0) by congruence.
      pose proof (Ju q q0 Hq Hq0 Hne) as Hcl. unfold clash in Hcl.
      unfold matches in *. destruct (Jv q Hq) as [v Hv]. rewrite Hv in *. simpl.
      destruct (view s q0) as [v0|]; simpl in Hm0; [|done].
      injection Hm0 as Hm0. apply Z.eqb_eq in Hm0.
      destruct (added_obj_cmp v (Z.of_nat i, e) =? 0) eqn:Em; [|done].
      exfalso. apply Z.eqb_eq in Em.
      assert (Hvv : added_obj_cmp v v0 = 0).
      { rewrite (added_obj_cmp_trans _ _ _ Em). by apply added_obj_cmp_sym0. }
      assert (Hvis : visible v = true).
      { apply added_obj_cmp_tag_eq in Em. simpl in Em. unfold visible. rewrite Em.
        apply andb_true_iff. split; [apply Z.leb_le|apply Z.leb_le]; lia. }
      rewrite Hvis, Hvv in Hcl. done.
    - rewrite <- (matches_view s s1 _ q (Hv1 q Hq)). by apply (lh_find_nomatch _ _ l). }
  split; [done|]. split; [done|]. split; [done|].
  assert (Hinv : ∀ a pl, loop_inv o ao sb (S i)
            (with_added (Some (l ++ [p])) a (with_plan pl s2)) (l ++ [p])).
  { intros a pl. set (s3 := with_added (Some (l ++ [p])) a (with_plan pl s2)).
    assert (Hview3 : ∀ q, view s3 q = view s2 q) by done.
    split; [done|]. split.
    { destruct Jf as (? & ? & ? & ?). unfold fields_of. simpl.
      rewrite Ro, Rn, Rl, Rq. done. }
    split.
    { intros q Hq. rewrite Hview3. apply elem_of_app in Hq as [Hq|Hq].
      - destruct (decide (prev = Some q)) as [Hpq|Hpq].
        + destruct (Hview2prev q Hpq) as [x ->]. by eexists.
        + rewrite Hview2; [by apply Jv|by intros ->|done].
      - apply list_elem_of_singleton in Hq as ->. rewrite Hview2p. by eexists. }
    split.
    { apply NoDup_app. split; [done|]. split; [|apply NoDup_singleton].
      intros q Hq Hq'. apply list_elem_of_singleton in Hq' as ->. done. }
    split.
    { (* the keys stay unique *)
      assert (Hold : ∀ q, q ∈ l → matches s2 (Z.of_nat i, e) q = Some false) by done.
      intros a1 a2 H1 H2 Hne. unfold clash. rewrite !Hview3.
      apply elem_of_app in H1 as [H1|H1], H2 as [H2|H2].
      - (* two older records *)
        destruct (decide (prev = Some a1)) as [Hp1|Hp1].
        { destruct (Hview2prev a1 Hp1) as [x ->]. by destruct (view s2 a2). }
        assert (Ha1 : a1 ≠ p) by (by intros ->).
        rewrite (Hview2 a1 Ha1 Hp1).
        destruct (decide (prev = Some a2)) as [Hp2|Hp2].
        { destruct (Hview2prev a2 Hp2) as [x ->].
          destruct (view s a1) as [[t1 x1]|] eqn:E1; [|done]. unfold visible. simpl.
          destruct ((0 <=? t1) && (t1 <=? 3)) eqn:Ev; [|done]. simpl.
          apply andb_true_iff in Ev as [Ev _]. apply Z.leb_le in Ev.
          apply Z.eqb_neq, added_obj_cmp_tags. lia. }
        assert (Ha2 : a2 ≠ p) by (by intros ->).
        rewrite (Hview2 a2 Ha2 Hp2). apply (Ju a1 a2 H1 H2 Hne).
      - (* an older record against the new one *)
        apply list_elem_of_singleton in H2 as ->. rewrite Hview2p.
        specialize (Hold a1 H1). unfold matches in Hold.
        destruct (view s2 a1) as [v1|]; [|done]. simpl in Hold.
        injection Hold as ->. apply andb_false_r.
      - apply list_elem_of_singleton in H1 as ->. rewrite Hview2p.
        specialize (Hold a2 H2). unfold matches in Hold.
        destruct (view s2 a2) as [v2|]; [|done]. simpl in Hold.
        injection Hold as Hold. apply Z.eqb_neq in Hold.
        destruct (added_obj_cmp (Z.of_nat i, e) v2 =? 0) eqn:E; [|apply andb_false_r].
        exfalso. apply Hold, added_obj_cmp_sym0. by apply Z.eqb_eq.
      - apply list_elem_of_singleton in H1 as ->.
        apply list_elem_of_singleton in H2 as ->. done. }
    split.
    { intros k pk Hk Hik. destruct (Jc k pk Hk ltac:(lia)) as [[rk Hrk] Hnl].
      assert (Hne : pk ≠ p).
      { intros ->. assert (k = i) by (by eapply ao_distinct). lia. }
      split.
      - simpl. rewrite Hrecs2, decide_False by done.
        destruct (decide (prev = Some pk)); rewrite Hrk; by eexists.
      - intros [Hin|Hin]%elem_of_app; [done|].
        by apply list_elem_of_singleton in Hin. }
    intros k pk Hk Hki. simpl. rewrite Hrecs2.
    destruct (decide (k = i)) as [->|Hne].
    { rewrite Hp in Hk. injection Hk as <-. by rewrite decide_True. }
    assert (Hpk : pk ≠ p).
    { intros ->. by apply Hne, (ao_distinct k i p). }
    rewrite decide_False by done.
    rewrite decide_False; [apply Jd; [done|lia]|].
    intros Hpp. destruct (Hprev pk Hpp) as (_ & _ & Hnc & _). by apply (Hnc k). }
  split; [exact Hinv|].
  split; cycle 1.
  { split.
    { intros q Hq. destruct (Hprev q Hq) as (_ & Hne & _ & rq & Hrq & _). split.
      - unfold s1. simpl. rewrite lookup_insert_ne by done. by eexists.
      - rewrite Hrecs2, decide_False, decide_True, Hrq by done. by eexists. }
    (* the rollback when the insert at [i] is refused *)
    intros a pl. set (sf := with_added (Some l) a (with_plan pl s2)).
    destruct (retype_fields prev (Z.of_nat i) sf) as (Raf & Rof & Rnf & Rlf & Rqf & _).
    rewrite (rollback_ext i ao (<[i := prev]> aop) aop).
    2:{ intros j Hj. unfold cell. rewrite list_lookup_insert_ne by lia. done. }
    apply (R (retype prev (Z.of_nat i) sf) (S i)); [lia|by rewrite Raf| | |].
    - destruct Jf as (? & ? & ? & ?). unfold fields_of. rewrite Rof, Rnf, Rlf, Rqf.
      unfold sf. simpl. rewrite Ro, Rn, Rl, Rq. done.
    - intros q Hq. rewrite lookup_retype. change (recs sf) with (recs s2).
      rewrite Hrecs2.
      assert (Hqp : q ≠ p) by (intros ->; by apply (Hq i)).
      rewrite !(decide_False (P := q = p)) by done.
      destruct (decide (prev = Some q)) as [Hpq|Hpq]; [|done].
      destruct (Hprev q Hpq) as (_ & _ & _ & rq & Hrq & Ht). rewrite Hrq. simpl.
      f_equal. destruct rq as [t x]. simpl in *. by rewrite Ht.
    - intros k pk Hk.
      assert (Hnp : prev ≠ Some pk).
      { intros Hpp. destruct (Hprev pk Hpp) as (_ & _ & Hnc & _). by apply (Hnc k). }
      rewrite lookup_retype, decide_False by done. change (recs sf) with (recs s2).
      rewrite Hrecs2. destruct (decide (pk = p)) as [->|Hne].
      + assert (k = i) as -> by (by eapply ao_distinct). split; [by eexists|done].
      + rewrite decide_False by done.
        destruct (decide (i ≤ k)%nat) as [Hik|Hik].
        * destruct (Jc k pk Hk Hik) as [Hs _]. split; [done|].
          intros Hlt. assert (k = i) as -> by lia. rewrite Hp in Hk. by injection Hk.
        * rewrite (Jd k pk Hk) by lia. split; [by eexists|done]. }
  (* the rollback from the next index *)
  intros a pl s4 m Hm Ha4 Hf4 Hoff Hst.
  set (s3 := with_added (Some (l ++ [p])) a (with_plan pl s2)) in *.
  assert (Hobj4 : objs s4 = objs s) by (destruct Hf4 as (-> & _); done).
  assert (Hr4 : ∀ q, q ∈ l → recs s4 !! q = recs s2 !! q).
  { intros q Hq. destruct (cell_dec ao q) as [[k Hk]|Hnk].
    - destruct (decide (i ≤ k)%nat) as [Hik|Hik]; [by destruct (Jc k q Hk Hik)|].
      destruct (Hst k q Hk) as [_ Hs]. rewrite Hs by lia.
      destruct (Hinv a pl) as (_ & _ & _ & _ & _ & _ & Jd3).
      symmetry. apply (Jd3 k q Hk). lia.
    - by apply (Hoff q). }
  assert (Hv4 : ∀ q, q ∈ l → view s4 q = view s2 q).
  { intros q Hq. unfold view. rewrite (Hr4 q Hq), Hobj4, Ro. done. }
  assert (Hv4p : view s4 p = Some (Z.of_nat i, e)).
  { destruct (Hst i p Hp) as [_ Hs]. unfold view. rewrite Hs by lia. simpl.
    by rewrite Hobj4, Hobjs, sb_o. }
  cbn [rollback]. rewrite bind_eq, Hp, lh_delete_eq, Hv4p, Ha4. cbn [mbind option_bind].
  rewrite (lh_remove_last s4 (Z.of_nat i, e) p l).
  2:{ intros q Hq. rewrite (matches_view s2 s4 _ q (Hv4 q Hq)). by apply Hno. }
  2:{ unfold matches. rewrite Hv4p. simpl. by rewrite (ao_self i Hi). }
  cbn [mbind option_bind].
  set (s5 := with_added (Some l) false s4).
  assert (Hc : cell (<[i := prev]> aop) i = prev).
  { unfold cell. rewrite list_lookup_insert_eq by lia. done. }
  rewrite bind_eq, Hc, retype_eq.
  2:{ intros q Hq. destruct (Hprev q Hq) as (Hql & _ & _ & rq & Hrq & _).
      change (recs s5) with (recs s4). rewrite (Hr4 q Hql), Hrecs2.
      rewrite decide_False, decide_True, Hrq by (done || by intros ->). by eexists. }
  set (s6 := retype prev (Z.of_nat i) s5).
  destruct (retype_fields prev (Z.of_nat i) s5) as (Ra6 & Ro6 & Rn6 & Rl6 & Rq6 & _).
  fold s6 in Ra6, Ro6, Rn6, Rl6, Rq6.
  rewrite (rollback_ext i ao (<[i := prev]> aop) aop).
  2:{ intros j Hj. unfold cell. rewrite list_lookup_insert_ne by lia. done. }
  apply (R s6 m); [lia|done| | |].
  - destruct Hf4 as (? & ? & ? & ?). unfold fields_of. rewrite Ro6, Rn6, Rl6, Rq6. done.
  - (* the records outside the cells are those of [s] again *)
    intros q Hq. unfold s6. rewrite lookup_retype. change (recs s5) with (recs s4).
    assert (Hq3 : recs s4 !! q = recs s2 !! q) by (by apply (Hoff q)).
    rewrite Hq3, Hrecs2.
    assert (Hqp : q ≠ p) by (intros ->; by apply (Hq i)).
    rewrite !(decide_False (P := q = p)) by done.
    destruct (decide (prev = Some q)) as [Hpq|Hpq]; [|done].
    destruct (Hprev q Hpq) as (_ & _ & _ & rq & Hrq & Ht). rewrite Hrq. simpl.
    f_equal. destruct rq as [t x]. simpl in *. by rewrite Ht.
  - intros k pk Hk. destruct (Hst k pk Hk) as [[rk Hrk] Hs].
    assert (Hnp : prev ≠ Some pk).
    { intros Hpp. destruct (Hprev pk Hpp) as (_ & _ & Hnc & _). by apply (Hnc k). }
    unfold s6. rewrite lookup_retype, decide_False by done.
    change (recs s5) with (recs s4). split; [by eexists|done].
Qed.

(** lines 293-313 for an entry with all four keys: the loop returns, with
    the records inserted or with everything rolled back. *)
Lemma insert_all_runs n : ∀ i s l aop,
  (i + n = 4)%nat → length aop = 4%nat →
  loop_inv o ao sb i s l → can_roll o ao sb l0 i s l aop →
  ∃ b s', insert_all (seq i n) o ao aop s = Some (b, s')
    ∧ (b = false → ∃ s2 m, rolled o ao sb l0 m s2 ∧ s' = with_err ERR_R_CRYPTO_LIB s2)
    ∧ (b = true → ∃ l', loop_inv o ao sb 4 s' l').
Proof.
  induction n as [|n IH]; intros i s l aop Hi Hlaop J R.
  - assert (i = 4%nat) as -> by lia. exists true, s. split; [done|]. split; [done|].
    intros _. by exists l.
  - assert (Hi4 : (i < 4)%nat) by lia. destruct (ao_all i Hi4) as [p Hp].
    pose proof J as (Ja & Jf & Jv & Jnd & Ju & Jc & Jd).
    destruct (Jc i p Hp (le_n _)) as [[r0 Hr0] Hpl].
    set (s1 := with_recs (insert p (mk_added (Z.of_nat i) o)) s).
    assert (Hv1 : ∀ q, q ∈ l → view s1 q = view s q).
    { intros q Hq. unfold view. simpl. rewrite lookup_insert_ne; [done|]. by intros ->. }
    assert (Hv1p : view s1 p = Some (Z.of_nat i, e)).
    { unfold view. simpl. rewrite lookup_insert_eq. simpl.
      destruct Jf as (-> & _). by rewrite sb_o. }
    destruct (lh_find_total s1 (Z.of_nat i, e) l) as [prev Hf].
    { intros q Hq. rewrite Hv1 by done. by apply Jv. }
    destruct (loop_step i s l aop p prev Hi4 Hlaop Hp J R Hf)
      as (Hprev & Hv2p & Hno & Hinv & Hroll & Halloc & Hfail).
    fold s1 in Halloc, Hv2p, Hno, Hinv, Hroll, Hfail.
    set (s2 := retype prev (-1) s1) in *.
    destruct (retype_fields prev (-1) s1) as (Ra & _ & _ & _ & _ & Rp & _).
    fold s2 in Ra, Rp.
    cbn [seq insert_all]. rewrite Hp.
    rewrite bind_eq, store_rec_eq, Hr0. cbn [mbind option_bind]. fold s1.
    rewrite bind_eq, key_of_eq, Hv1p. cbn [mbind option_bind].
    rewrite bind_eq, retrieve_eq. change (added s1) with (added s). rewrite Ja.
    cbn [mbind option_bind]. rewrite Hf. cbn [mbind option_bind].
    rewrite bind_eq, (retype_eq prev (-1) s1) by (intros q Hq; by destruct (Halloc q Hq)).
    fold s2. rewrite bind_eq, lh_insert_eq, Hv2p. cbn [mbind option_bind].
    rewrite Ra. change (added s1) with (added s). rewrite Ja. cbn [mbind option_bind].
    destruct (hd true (alloc_plan s2)) eqn:Eh.
    + rewrite lh_replace_nomatch.
      2:{ intros q Hq. rewrite <- (Hno q Hq). by apply matches_view. }
      cbn [mbind option_bind]. rewrite bind_eq.
      cbv [lh_ADDED_OBJ_error bind get ret]. cbn [lh_error with_added].
      apply (IH (S i) _ (l ++ [p])); [lia|by rewrite length_insert| |].
      * apply (Hinv false (drop 1 (alloc_plan s2))).
      * apply (Hroll false (drop 1 (alloc_plan s2))).
    + rewrite bind_eq. cbv [lh_ADDED_OBJ_error bind get ret]. cbn [lh_error with_added].
      set (sf := with_added (Some l) true (after_allocs 1 s2)).
      assert (Er0 := retype_eq prev (Z.of_nat i) sf
                       (λ q Hq, proj2 (Halloc q Hq))).
      cbv [ret] in Er0. rewrite Er0.
      destruct (Hfail true (drop 1 (alloc_plan s2))) as (s2r & Er & Hrolled).
      change (with_added (Some l) true (with_plan _ s2)) with sf in Er.
      rewrite Er. cbv [ERR_raise modify].
      eexists false, _. split; [done|]. split; [|done].
      intros _. by exists s2r, (S i).
Qed.

End Rollback.

Lemma view_set_flags s o e f q :
  objs s !! o = Some e →
  view (with_objs (insert o (set_flags f e)) s) q
  = (λ v, if decide (target (recs s) q = Some o) then (v.1, set_flags f v.2) else v)
      <$> view s q.
Proof.
  intros Ho. unfold view, target. simpl.
  destruct (recs s !! q) as [r|]; simpl; [|done].
  destruct (decide (Some (obj r) = Some o)) as [[= ->]|Hne].
  - by rewrite lookup_insert_eq, Ho.
  - rewrite lookup_insert_ne by congruence. by destruct (objs s !! obj r).
Qed.

Lemma clash_set_flags s o e f p q :
  objs s !! o = Some e →
  clash (with_objs (insert o (set_flags f e)) s) p q = clash s p q.
Proof.
  intros Ho. unfold clash. rewrite !(view_set_flags s o e f) by done.
  destruct (view s p) as [[t1 x1]|]; simpl; [|done].
  destruct (view s q) as [[t2 x2]|]; simpl; [|done].
  by destruct (decide (target (recs s) p = Some o)), (decide (target (recs s) q = Some o)).
Qed.

(** [OBJ_add_object] on an entry with all four keys returns: with nothing
    changed, or with the entry registered. *)
Lemma add_object_runs ob lock st :
  index_ok st = true → index_unique st = true →
  has_key ob 0 = true → has_key ob 1 = true → has_key ob 2 = true →
  ∃ n st', ossl_obj_add_object ob lock st = Some (n, st')
    ∧ ((n = NID_undef ∧ objs st' = objs st ∧ recs st' = recs st
        ∧ index_of st' = index_of st ∧ new_nid st' = new_nid st)
       ∨ (n = nid ob ∧ index_unique st' = true)).
Proof.
  intros Hok Hun K0 K1 K2.
  destruct (index_ok_spec st Hok) as (Hwi & Hst & Hnd & H4).
  unfold ossl_obj_add_object.
  rewrite bind_eq. unfold OBJ_dup. rewrite malloc_obj_eq.
  destruct (hd true (alloc_plan st)) eqn:Eh.
  2:{ eexists _, _. split; [done|]. by left. }
  set (o := fresh (dom (objs st))).
  set (e := set_flags (Z.lor (flags ob) DYNAMIC_BITS) ob).
  set (sd := with_objs (insert o e) (after_allocs 1 st)).
  assert (Hfresh : objs st !! o = None) by apply not_elem_of_dom, is_fresh.
  assert (Hload : load_obj o sd = Some (e, sd)).
  { cbv [load_obj bind get lift]. simpl. by rewrite lookup_insert_eq. }
  rewrite bind_eq, Hload.
  assert (Hdyn : Z.land (flags e) ASN1_OBJECT_FLAG_DYNAMIC ≠ 0).
  { unfold e. simpl. intros H0.
    assert (Hb : Z.testbit (Z.land (Z.lor (flags ob) DYNAMIC_BITS) ASN1_OBJECT_FLAG_DYNAMIC) 0
                 = false) by (rewrite H0; apply Z.bits_0).
    rewrite Z.land_spec, Z.lor_spec in Hb. vm_compute (Z.testbit DYNAMIC_BITS 0) in Hb.
    vm_compute (Z.testbit ASN1_OBJECT_FLAG_DYNAMIC 0) in Hb.
    by rewrite orb_true_r in Hb. }
  match goal with |- context [alloc_cell ?c 0%nat] => set (c0 := c) end.
  assert (Hc0 : c0 = true).
  { unfold c0. change (obj_length e) with (obj_length ob). simpl in K0. rewrite K0. simpl.
    apply bool_decide_eq_true. intros Hd. apply negb_true_iff, Z.eqb_neq in K0.
    unfold obj_length in K0. by rewrite Hd in K0. }
  match goal with
  | |- context [bind (alloc_cell true 3%nat no_cells) ?k] =>
      change (bind (alloc_cell true 3%nat no_cells) k) with
        (r <- alloc_cell true 3 no_cells;;
         r <- (if r.1 then ret r else alloc_cell c0 0 r.2);;
         r <- (if r.1 then ret r else alloc_cell (has_key ob 1) 1 r.2);;
         r <- (if r.1 then ret r else alloc_cell (has_key ob 2) 2 r.2);;
         (λ r : bool * list (option positive),
            let ao := r.2 in
            if r.1 then add_object_err2 ao o
            else
              ok <- ossl_obj_write_lock lock;;
              if negb ok then
                ERR_raise ERR_R_UNABLE_TO_GET_WRITE_LOCK;; add_object_err2 ao o
              else
                st <- get;;
                ok <- match added st with
                      | None => lh_ADDED_OBJ_new
                      | Some _ => ret true
                      end;;
                if negb ok then
                  ERR_raise ERR_R_CRYPTO_LIB;; add_object_err lock ao o
                else
                  ok <- insert_all [0; 1; 2; 3]%nat o ao no_cells;;
                  if negb ok then add_object_err lock ao o
                  else
                    a <- load_obj o;;
                    store_obj o (set_flags (Z.land (flags a) (Z.lnot DYNAMIC_BITS)) a);;
                    ossl_obj_unlock lock;;
                    ret (nid a)) r)
  end.
  destruct (alloc_cells_any c0 (has_key ob 1) (has_key ob 2)
              (λ r : bool * list (option positive),
                 let ao := r.2 in
                 if r.1 then add_object_err2 ao o
                 else
                   ok <- ossl_obj_write_lock lock;;
                   if negb ok then
                     ERR_raise ERR_R_UNABLE_TO_GET_WRITE_LOCK;; add_object_err2 ao o
                   else
                     st <- get;;
                     ok <- match added st with
                           | None => lh_ADDED_OBJ_new
                           | Some _ => ret true
                           end;;
                     if negb ok then
                       ERR_raise ERR_R_CRYPTO_LIB;; add_object_err lock ao o
                     else
                       ok <- insert_all [0; 1; 2; 3]%nat o ao no_cells;;
                       if negb ok then add_object_err lock ao o
                       else
                         a <- load_obj o;;
                         store_obj o (set_flags (Z.land (flags a) (Z.lnot DYNAMIC_BITS)) a);;
                         ossl_obj_unlock lock;;
                         ret (nid a)) sd)
    as (f & ao & s1 & -> & Hcok & Hon & Hg).
  cbn [fst snd]. cbv zeta.
  pose proof Hcok as (Hlen & Hc & Hd & Hsub & Ho1 & Ha1 & _ & Hn1 & Hl1 & Hq1).
  change (added sd) with (added st) in Ha1.
  change (new_nid sd) with (new_nid st) in Hn1.
  change (recs sd) with (recs st) in Hc, Hsub.
  assert (Ho : objs s1 !! o = Some e) by (rewrite Ho1; simpl; by rewrite lookup_insert_eq).
  (* what the error exit leaves *)
  assert (Hclean : ∀ s,
            (∀ q, (∀ i, cell ao i ≠ Some q) → recs s !! q = recs st !! q) →
            (∀ k p, cell ao k = Some p → is_Some (recs s !! p)) →
            objs s = objs s1 → index_of s = index_of st → new_nid s = new_nid st →
            ∃ s', add_object_err2 ao o s = Some (NID_undef, s')
              ∧ objs s' = objs st ∧ recs s' = recs st
              ∧ index_of s' = index_of st ∧ new_nid s' = new_nid st).
  { intros s Hoff Hal Hos His Hns.
    destruct (add_object_err2_frees (recs st) ao o e s Hlen) as
      (s' & E & Hr & Hob & Had & Hnn & _); try done.
    { intros i p Hp. split; [by apply (Hal i)|]. by destruct (Hc i p Hp). }
    { by rewrite Hos. }
    exists s'. split; [done|]. split.
    { rewrite Hob, Hos, Ho1. simpl. by rewrite delete_insert_id. }
    split; [done|]. split; [|congruence].
    unfold index_of in *. by rewrite Had. }
  assert (Hoff1 : ∀ q, (∀ i, cell ao i ≠ Some q) → recs s1 !! q = recs st !! q).
  { intros q Hq. by apply (Hon q). }
  assert (Hal1 : ∀ k p, cell ao k = Some p → is_Some (recs s1 !! p)).
  { intros k p Hp. by destruct (Hc k p Hp). }
  assert (Hidx1 : index_of s1 = index_of st) by (unfold index_of; by rewrite Ha1).
  destruct f.
  { destruct (Hclean s1) as (s' & -> & Hu); try done.
    exists NID_undef, s'. split; [done|]. by left. }
  rewrite bind_eq, write_lock_eq.
  destruct (negb lock || lock_ok s1) eqn:Elock; cbn [negb].
  2:{ rewrite bind_eq. cbv [ERR_raise modify].
      destruct (Hclean (with_err ERR_R_UNABLE_TO_GET_WRITE_LOCK s1)) as (s' & -> & Hu);
        try done.
      exists NID_undef, s'. split; [done|]. by left. }
  destruct (Hg eq_refl) as (P3 & P0 & P1 & P2 & _).
  assert (Hall : ∀ k, (k < 4)%nat → is_Some (cell ao k)).
  { intros k Hk. destruct k as [|[|[|[|k]]]]; [by apply P0|by apply P1|by apply P2|done|lia]. }
  rewrite bind_eq. unfold get. cbv beta iota.
  (* the index exists, or is created *)
  set (l0 := index_of st).
  assert (∃ s2 : registry,
            (added s2 = Some l0 ∧ recs s2 = recs s1 ∧ objs s2 = objs s1
             ∧ new_nid s2 = new_nid s1)
            ∧ ((ok <- match added s1 with
                      | None => lh_ADDED_OBJ_new
                      | Some _ => ret true
                      end;;
                if negb ok then ERR_raise ERR_R_CRYPTO_LIB;; add_object_err lock ao o
                else
                  ok <- insert_all [0; 1; 2; 3]%nat o ao no_cells;;
                  if negb ok then add_object_err lock ao o
                  else
                    a <- load_obj o;;
                    store_obj o (set_flags (Z.land (flags a) (Z.lnot DYNAMIC_BITS)) a);;
                    ossl_obj_unlock lock;;
                    ret (nid a)) s1
               = (ok <- insert_all [0; 1; 2; 3]%nat o ao no_cells;;
                  if negb ok then add_object_err lock ao o
                  else
                    a <- load_obj o;;
                    store_obj o (set_flags (Z.land (flags a) (Z.lnot DYNAMIC_BITS)) a);;
                    ossl_obj_unlock lock;;
                    ret (nid a)) s2
               ∨ ∃ s', (ok <- match added s1 with
                              | None => lh_ADDED_OBJ_new
                              | Some _ => ret true
                              end;;
                        if negb ok then ERR_raise ERR_R_CRYPTO_LIB;; add_object_err lock ao o
                        else
                          ok <- insert_all [0; 1; 2; 3]%nat o ao no_cells;;
                          if negb ok then add_object_err lock ao o
                          else
                            a <- load_obj o;;
                            store_obj o (set_flags (Z.land (flags a) (Z.lnot DYNAMIC_BITS)) a);;
                            ossl_obj_unlock lock;;
                            ret (nid a)) s1 = Some (NID_undef, s')
                       ∧ objs s' = objs st ∧ recs s' = recs st
                       ∧ index_of s' = index_of st ∧ new_nid s' = new_nid st))
    as (s2 & (Ha2 & Hr2 & Ho2 & Hn2) & Hrun).
  { assert (Hl0 : l0 = default [] (added st)) by done. clearbody l0.
    rewrite bind_eq. rewrite Ha1.
    destruct (added st) as [l|] eqn:Eadd; simpl in Hl0; subst l0.
    - exists s1. split; [done|]. left. done.
    - rewrite lh_new_eq. destruct (hd true (alloc_plan s1)); cbn [negb].
      + exists (with_added (Some []) false (after_allocs 1 s1)). split; [done|]. by left.
      + exists (with_added (Some []) false s1). split; [done|]. right.
        rewrite bind_eq. cbv [ERR_raise modify]. unfold add_object_err. rewrite bind_eq.
        cbv [ossl_obj_unlock ret].
        destruct (Hclean (with_err ERR_R_CRYPTO_LIB (after_allocs 1 s1))) as (s' & -> & Hu);
          try done.
        by exists s'. }
  destruct Hrun as [->|(s' & -> & Hu)]; [|exists NID_undef, s'; split; [done|by left]].
  (* the insert loop *)
  assert (Hold : ∀ q, q ∈ l0 → view s2 q = view st q ∧ is_Some (view st q)
                               ∧ ∀ k, cell ao k ≠ Some q).
  { intros q Hq. unfold l0, index_of in Hq.
    destruct (added st) as [l|] eqn:Eadd; [|by apply elem_of_nil in Hq]. simpl in Hq.
    destruct (wf_index_view st l q Hwi Eadd Hq) as [[t x] Hv].
    destruct (view_target st q t x Hv) as (r & Hr & Ht & Hx & _).
    assert (Hv2 : view s2 q = Some (t, x)).
    { unfold view. rewrite Hr2, (lookup_weaken _ _ _ _ Hr Hsub). simpl.
      rewrite Ho2, Ho1. simpl. rewrite lookup_insert_ne by congruence. rewrite Hx.
      simpl. by rewrite Ht. }
    split; [by rewrite Hv2, Hv|]. split; [by rewrite Hv|].
    intros k Hk. destruct (Hc k q Hk) as [_ Hn]. congruence. }
  assert (Hoe : objs s2 !! o = Some e) by (by rewrite Ho2).
  assert (Hself : ∀ k, (k < 4)%nat → added_obj_cmp (Z.of_nat k, e) (Z.of_nat k, e) = 0).
  { intros k Hk. apply added_obj_cmp_self.
    - intros _. change (sn e) with (sn ob). simpl in K1. by apply bool_decide_eq_true in K1.
    - intros _. change (ln e) with (ln ob). simpl in K2. by apply bool_decide_eq_true in K2. }
  assert (J0 : loop_inv o ao s2 0 s2 l0).
  { split; [done|]. split; [done|]. split.
    { intros q Hq. destruct (Hold q Hq) as (-> & ? & _). done. }
    split; [done|]. split.
    { intros p q Hp Hq Hne. unfold clash.
      destruct (Hold p Hp) as (-> & _). destruct (Hold q Hq) as (-> & _).
      by apply (unique_keys_elim st l0 Hun). }
    split; [|intros; lia].
    intros k p Hp _. split; [rewrite Hr2; by apply (Hal1 k)|].
    intros Hin. destruct (Hold p Hin) as (_ & _ & Hnc). by apply (Hnc k). }
  assert (R0 : can_roll o ao s2 l0 0 s2 l0 no_cells).
  { intros s m _ Ha Hf Hoff Hstored. exists s. split; [done|]. done. }
  destruct (insert_all_runs o e ao s2 l0 Hlen Hall Hd Hself Hoe 4 0%nat s2 l0 no_cells
              eq_refl eq_refl J0 R0) as (b & s3 & E & Hfalse & Htrue).
  change (seq 0 4) with [0; 1; 2; 3]%nat in E.
  rewrite bind_eq, E. destruct b; cbn [negb].
  - (* registered *)
    destruct (Htrue eq_refl) as (l' & Ja & (Jo & Jn & _) & Jv & Jnd & Ju & _).
    assert (Ho3 : objs s3 !! o = Some e) by (by rewrite Jo).
    cbv [bind load_obj store_obj get lift modify ossl_obj_unlock ret].
    rewrite Ho3. simpl. rewrite Ho3. simpl.
    eexists _, _. split; [done|]. right. split; [done|].
    unfold index_unique, index_of. simpl. rewrite Ja. simpl.
    apply unique_keys_intro; [done|]. intros p q Hp Hq Hne.
    rewrite clash_set_flags by done. by apply Ju.
  - (* rolled back *)
    destruct (Hfalse eq_refl) as (s2r & m & (Har & (For & Fnr & _) & Hoffr & Hstr) & ->).
    unfold add_object_err. rewrite bind_eq. cbv [ossl_obj_unlock ret].
    destruct (Hclean (with_err ERR_R_CRYPTO_LIB s2r)) as (s' & -> & Hu).
    + intros q Hq. simpl. rewrite (Hoffr q Hq), Hr2. by apply Hoff1.
    + intros k p Hp. simpl. by destruct (Hstr k p Hp).
    + simpl. by rewrite For.
    + unfold index_of. simpl. by rewrite Har.
    + simpl. rewrite Fnr. congruence.
    + exists NID_undef, s'. split; [done|]. by left.
Qed.

(** X20.  [OBJ_add_object] is atomic for an entry that has all four keys
    (content octets, a short name, a long name, and a NID other than
    [NID_undef]): on a well-formed index whose visible keys are unique it
    never faults.  Either it returns [NID_undef] with the entries, the
    records, the index and the NID counter as they were - whichever
    allocation or insert is refused, the rollback of lines 301-308 and the
    error exits release and restore what was changed - or it returns the
    NID, with the index well formed and its keys unique again. *)
Theorem add_object_atomic ob st :
  index_ok st = true → index_unique st = true →
  has_key ob 0 = true → has_key ob 1 = true → has_key ob 2 = true →
  nid ob ≠ NID_undef →
  ∃ n st', OBJ_add_object ob st = Some (n, st')
    ∧ ((n = NID_undef ∧ objs st' = objs st ∧ recs st' = recs st
        ∧ index_of st' = index_of st ∧ new_nid st' = new_nid st)
       ∨ (n = nid ob ∧ index_ok st' = true ∧ index_unique st' = true)).
Proof.
  intros Hok Hun K0 K1 K2 Hnid.
  destruct (add_object_runs ob true st Hok Hun K0 K1 K2) as (n & st' & E & [Hfail|[Hn Hu]]).
  - exists n, st'. split; [done|]. by left.
  - exists n, st'. split; [done|]. right. split; [done|]. split; [|done].
    destruct (add_object_spec ob true st n st' Hok E) as (_ & _ & _ & _ & _ & _ & H & _);
      [congruence|done].
Qed.

(** * [OBJ_create] with all three arguments *)

Lemma unique_keys_agree s s' (l : list positive) :
  (∀ q, q ∈ l → view s' q = view s q) → unique_keys s' l = unique_keys s l.
Proof.
  induction l as [|a l IH]; intros H; [done|]. simpl.
  rewrite IH by (intros q Hq; apply H; by right). f_equal.
  assert (Hc : ∀ q, q ∈ l → clash s' a q = clash s a q ∧ clash s' q a = clash s q a).
  { intros q Hq. unfold clash. rewrite (H a), (H q) by (by left || by right). done. }
  clear IH H. induction l as [|b l IH]; [done|]. simpl.
  destruct (Hc b ltac:(by left)) as [-> ->].
  rewrite IH; [done|]. intros q Hq. apply Hc. by right.
Qed.

Lemma create_err_eq tmpoid k s :
  create_err tmpoid k s =
  (objs s !! tmpoid ≫= λ x,
     Some (k, if negb (Z.land (flags x) ASN1_OBJECT_FLAG_DYNAMIC =? 0)
              then with_objs (delete tmpoid) s else s)).
Proof.
  cbv [create_err ossl_obj_unlock ASN1_OBJECT_free load_obj bind get lift ret modify].
  destruct (objs s !! tmpoid) as [x|]; [|done]. simpl.
  by destruct (negb (Z.land (flags x) ASN1_OBJECT_FLAG_DYNAMIC =? 0)).
Qed.

Section CreateAtomic.
Variable T : builtin.
Hypothesis Hwf : wf_builtin T = true.

Lemma create_oid_known_total oid tmpoid s :
  wf_index s = true → is_Some (objs s !! tmpoid) →
  ∃ k, create_oid_known T oid tmpoid s = Some (k, s).
Proof.
  intros Hwi [a Ha]. unfold create_oid_known. destruct oid as [t|]; [|by exists false].
  rewrite bind_eq, load_obj_eq, Ha. cbn [mbind option_bind].
  destruct (obj2nid_total T Hwf (Some a) false s Hwi) as (n & s' & E & _).
  pose proof (obj2nid_nolock T a s n s' E) as ->.
  rewrite bind_eq, E. by eexists.
Qed.

(** [OBJ_create] with an OID and both names returns: with nothing but the
    NID counter and the error queue changed, or with the entry registered. *)
Lemma create_runs t sname lname st :
  index_ok st = true → index_unique st = true →
  ∃ n st',
    OBJ_create T (Some t) (Some sname) (Some lname) st = Some (n, st')
    ∧ ((n = 0 ∧ objs st' = objs st ∧ recs st' = recs st
        ∧ index_of st' = index_of st
        ∧ (new_nid st' = new_nid st ∨ new_nid st' = wrap_int (new_nid st + 1)))
       ∨ (n ≠ 0 ∧ index_unique st' = true)).
Proof.
  intros Hok Hun. destruct (index_ok_spec st Hok) as (Hwi & Hst & Hnd & H4).
  unfold OBJ_create. cbn [bool_decide decide_rel andb].
  replace (bool_decide (Some t = None)) with false by (symmetry; by apply bool_decide_eq_false).
  cbn [andb].
  (* the names *)
  destruct (create_name_clash_total T Hwf (Some sname) (Some lname) st Hwi)
    as (b & sa & Ec & Hqa & _).
  destruct Hqa as (Qo & Qr & Qa & Qe & Qn & Ql & Qp).
  assert (Qi : index_of sa = index_of st) by (unfold index_of; by rewrite Qa).
  rewrite bind_eq, Ec. destruct b.
  { eexists _, _. split; [done|]. left. split; [done|]. split; [done|]. split; [done|].
    split; [exact Qi|]. by left. }
  (* the temporary entry *)
  rewrite bind_eq.
  destruct (create_tmpoid T (Some t) sa) as [[[tmpoid|] sb]|] eqn:Et.
  3:{ by destruct (create_tmpoid_any T (Some t) sa) as (? & ? & E & _); rewrite E in Et. }
  2:{ destruct (create_tmpoid_any T (Some t) sa) as (r & sb' & E & Hr & Ha & Hn & _ & Hobj).
      rewrite E in Et. injection Et as -> ->.
      eexists _, _. split; [done|]. left. split; [done|]. split; [congruence|].
      split; [congruence|]. split; [unfold index_of in *; by rewrite Ha|].
      left. congruence. }
  destruct (create_tmpoid_inv T (Some t) sa tmpoid sb Et) as (Htmp & d & ka & Hd & Hsb).
  destruct Hd as (der & Hder & ->).
  assert (Hfresh : objs st !! tmpoid = None).
  { rewrite <- Qo, Htmp. apply not_elem_of_dom, is_fresh. }
  (* facts on the states that hold the temporary entry *)
  assert (Hagree : ∀ s x, recs s = recs st → added s = added st →
            objs s = <[tmpoid := x]> (objs st) →
            index_ok s = true ∧ index_unique s = true ∧ wf_index s = true).
  { intros s x Hr Ha Ho.
    assert (Hv : ∀ q, q ∈ index_of st → view s q = view st q).
    { intros q Hq. apply view_agree; [done|]. intros u Hu.
      rewrite Ho. apply lookup_insert_ne.
      destruct (index_targets st q Hwi Hq) as (u' & Hu' & [y Hy]).
      rewrite Hu in Hu'. injection Hu' as <-. congruence. }
    assert (Hok' : index_ok s = true) by (by apply (index_ok_agree st s)).
    split; [done|]. split; [|by destruct (index_ok_spec s Hok')].
    unfold index_unique, index_of. rewrite Ha. fold (index_of st).
    rewrite (unique_keys_agree st s); [done|]. done. }
  assert (Hsb_o : objs sb = <[tmpoid := tmp_entry (Some der)]> (objs st)).
  { rewrite Hsb. simpl. by rewrite Qo. }
  assert (Hsb_r : recs sb = recs st) by (by rewrite Hsb).
  assert (Hsb_a : added sb = added st) by (by rewrite Hsb).
  assert (Hsb_n : new_nid sb = new_nid st) by (by rewrite Hsb).
  assert (Hclosed : ∀ s x k, recs s = recs st → added s = added st →
            objs s = <[tmpoid := x]> (objs st) →
            Z.land (flags x) ASN1_OBJECT_FLAG_DYNAMIC ≠ 0 →
            (new_nid s = new_nid st ∨ new_nid s = wrap_int (new_nid st + 1)) →
            ∃ s', create_err tmpoid k s = Some (k, s')
              ∧ objs s' = objs st ∧ recs s' = recs st ∧ index_of s' = index_of st
              ∧ (new_nid s' = new_nid st ∨ new_nid s' = wrap_int (new_nid st + 1))).
  { intros s x k Hr Ha Ho Hx Hn. rewrite create_err_eq, Ho, lookup_insert_eq. simpl.
    replace (Z.land (flags x) ASN1_OBJECT_FLAG_DYNAMIC =? 0) with false
      by (symmetry; by apply Z.eqb_neq).
    simpl. eexists. split; [done|]. simpl. rewrite Ho, delete_insert_id by done.
    split; [done|]. split; [done|]. split; [unfold index_of; simpl; by rewrite Ha|done]. }
  assert (Hdyn : ∀ x, flags x = flags (tmp_entry (Some der)) →
            Z.land (flags x) ASN1_OBJECT_FLAG_DYNAMIC ≠ 0).
  { intros x ->. done. }
  (* the lock *)
  rewrite bind_eq, write_lock_eq. cbn [negb orb].
  destruct (lock_ok sb) eqn:Hlock; cbn [negb].
  2:{ rewrite bind_eq. cbv [ERR_raise modify]. rewrite bind_eq.
      destruct (Hclosed (with_err ERR_R_UNABLE_TO_GET_WRITE_LOCK sb) (tmp_entry (Some der)) 0)
        as (s' & E & Hu); try done; [by left|].
      rewrite create_err_eq in E.
      cbv [ASN1_OBJECT_free load_obj bind get lift modify ret]. simpl.
      simpl in E. destruct (objs sb !! tmpoid) as [x|]; [|done]. simpl in *.
      destruct (negb (Z.land (flags x) ASN1_OBJECT_FLAG_DYNAMIC =? 0));
        injection E as <-; eexists _, _; (split; [done|]); by left. }
  (* the OID is not known yet *)
  destruct (Hagree sb (tmp_entry (Some der)) Hsb_r Hsb_a Hsb_o) as (Hokb & Hunb & Hwib).
  destruct (create_oid_known_total (Some t) tmpoid sb Hwib) as [known Ek].
  { rewrite Hsb_o, lookup_insert_eq. by eexists. }
  rewrite bind_eq, Ek. destruct known.
  { rewrite bind_eq. cbv [ERR_raise modify].
    destruct (Hclosed (with_err OBJ_R_OID_EXISTS sb) (tmp_entry (Some der)) 0)
      as (s' & -> & Hu); try done; [by left|].
    eexists _, _. split; [done|]. by left. }
  (* the NID *)
  rewrite bind_eq, new_nid_eq.
  set (n0 := new_nid sb) in *.
  set (s1 := with_new_nid (wrap_int (n0 + 1)) sb) in *.
  assert (Ho1 : objs s1 !! tmpoid = Some (tmp_entry (Some der))).
  { unfold s1. simpl. by rewrite Hsb_o, lookup_insert_eq. }
  rewrite bind_eq, load_obj_eq, Ho1. cbn [mbind option_bind].
  rewrite bind_eq, store_obj_eq, Ho1. cbn [mbind option_bind].
  set (s2 := with_objs (insert tmpoid (set_nid n0 (tmp_entry (Some der)))) s1) in *.
  assert (Hn2 : new_nid s2 = wrap_int (new_nid st + 1)).
  { change (new_nid s2) with (wrap_int (n0 + 1)). by rewrite Hsb_n. }
  assert (Ho2' : objs s2 = <[tmpoid := set_nid n0 (tmp_entry (Some der))]> (objs st)).
  { simpl. rewrite Hsb_o. apply insert_insert_eq. }
  destruct (n0 =? NID_undef) eqn:En0.
  { destruct (Hclosed s2 (set_nid n0 (tmp_entry (Some der))) 0) as (s' & -> & Hu);
      try done; [by right|].
    eexists _, _. split; [done|]. by left. }
  apply Z.eqb_neq in En0.
  assert (Ho2 : objs s2 !! tmpoid = Some (set_nid n0 (tmp_entry (Some der)))).
  { simpl. by rewrite lookup_insert_eq. }
  rewrite bind_eq, load_obj_eq, Ho2. cbn [mbind option_bind].
  rewrite bind_eq, store_obj_eq, Ho2. cbn [mbind option_bind].
  set (a := set_names (Some sname) (Some lname) (set_nid n0 (tmp_entry (Some der)))) in *.
  set (s3 := with_objs (insert tmpoid a) s2) in *.
  assert (Ho3' : objs s3 = <[tmpoid := a]> (objs st)).
  { simpl. rewrite Hsb_o. rewrite !insert_insert_eq. done. }
  assert (Ho3 : objs s3 !! tmpoid = Some a) by (by rewrite Ho3', lookup_insert_eq).
  rewrite bind_eq, load_obj_eq, Ho3. cbn [mbind option_bind].
  (* the registration *)
  destruct (Hagree s3 a Hsb_r Hsb_a Ho3') as (Hok3 & Hun3 & Hwi3).
  destruct (add_object_runs a false s3 Hok3 Hun3) as (k & s4 & E4 & Hres).
  { simpl. apply negb_true_iff, Z.eqb_neq.
    pose proof (text_to_der_nonempty t der Hder). unfold a, obj_length. simpl.
    destruct der; [done|simpl; lia]. }
  { done. }
  { done. }
  rewrite bind_eq, E4.
  destruct Hres as [(-> & Hob4 & Hr4 & Hi4 & Hnn4)|[Hk Hu4]].
  - (* refused: everything is as before *)
    assert (Ho4 : objs s4 !! tmpoid = Some a) by (by rewrite Hob4).
    rewrite bind_eq, load_obj_eq, Ho4. cbn [mbind option_bind].
    rewrite bind_eq, store_obj_eq, Ho4. cbn [mbind option_bind].
    rewrite create_err_eq. simpl. rewrite lookup_insert_eq. simpl.
    eexists _, _. split; [done|]. left. split; [done|]. simpl.
    split.
    { rewrite Hob4, Ho3'. rewrite insert_insert_eq, delete_insert_id by done. done. }
    split; [by rewrite Hr4|]. split.
    { unfold index_of in *. simpl. rewrite Hi4. simpl. by rewrite Hsb_a. }
    right. rewrite Hnn4. done.
  - (* registered *)
    assert (Hkn : k ≠ NID_undef) by (rewrite Hk; done).
    destruct (add_object_spec a false s3 k s4 Hok3 E4 Hkn)
      as (_ & _ & Hobjs4 & _ & _ & _ & Hok4 & Htg4 & _).
    set (o := fresh (dom (objs s3))) in *.
    assert (Hotmp : o ≠ tmpoid).
    { intros Heq. assert (Hno : objs s3 !! o = None) by apply not_elem_of_dom, is_fresh.
      rewrite Heq in Hno. congruence. }
    assert (Ho4 : objs s4 !! tmpoid = Some a).
    { by rewrite Hobjs4, lookup_insert_ne. }
    rewrite bind_eq, load_obj_eq, Ho4. cbn [mbind option_bind].
    rewrite bind_eq, store_obj_eq, Ho4. cbn [mbind option_bind].
    rewrite create_err_eq. simpl. rewrite lookup_insert_eq. simpl.
    eexists _, _. split; [done|]. right. split; [by rewrite Hk|].
    set (st' := with_objs (delete tmpoid)
                  (with_objs (insert tmpoid (set_names None None a)) s4)).
    assert (Hi3 : index_of s3 = index_of st).
    { unfold index_of. change (added s3) with (added sb). by rewrite Hsb_a. }
    assert (Hnt : ∀ q, q ∈ index_of s4 → target (recs s4) q ≠ Some tmpoid).
    { intros q Hq Hu. destruct (Htg4 q Hq) as [Hto|[Hq3 Hto]].
      - rewrite Hu in Hto. by injection Hto.
      - rewrite Hu in Hto. rewrite Hi3 in Hq3.
        destruct (index_targets st q Hwi Hq3) as (u' & Hu' & [y Hy]).
        change (recs s3) with (recs sb) in Hto. rewrite Hsb_r, Hu' in Hto.
        injection Hto as <-. congruence. }
    assert (Hv : ∀ q, q ∈ index_of s4 → view st' q = view s4 q).
    { intros q Hq. apply view_agree; [done|]. intros u Hu. unfold st'. simpl.
      assert (Hne : u ≠ tmpoid) by (intros ->; by apply (Hnt q)).
      by rewrite lookup_delete_ne, lookup_insert_ne. }
    unfold index_unique. change (index_of st') with (index_of s4).
    rewrite (unique_keys_agree s4 st'); done.
Qed.

(** X21.  [OBJ_create] with an OID and both names is atomic: on a
    well-formed index whose visible keys are unique it never faults.  Either
    it returns 0 with the entries, the records and the index as they were,
    the NID counter as it was or one further, or it returns the NID counter
    as it stood, which is not 0, with the index well formed and its keys
    unique again. *)
Theorem create_atomic t sname lname st :
  index_ok st = true → index_unique st = true →
  ∃ n st',
    OBJ_create T (Some t) (Some sname) (Some lname) st = Some (n, st')
    ∧ ((n = 0 ∧ objs st' = objs st ∧ recs st' = recs st
        ∧ index_of st' = index_of st
        ∧ (new_nid st' = new_nid st ∨ new_nid st' = wrap_int (new_nid st + 1)))
       ∨ (n ≠ 0 ∧ n = new_nid st ∧ index_ok st' = true ∧ index_unique st' = true)).
Proof.
  intros Hok Hun.
  destruct (create_runs t sname lname st Hok Hun) as (n & st' & E & [Hfail|[Hn Hu]]).
  - exists n, st'. split; [done|]. by left.
  - exists n, st'. split; [done|]. right.
    destruct (create_success T Hwf (Some t) (Some sname) (Some lname) st n st' Hok E Hn)
      as (_ & _ & _ & Hn0 & _ & _ & _ & _ & _ & Hok' & _).
    done.
Qed.

End CreateAtomic.

(** * OBJ_txt2obj: names first, then the number *)


Section Txt2objNames.
Variable T : builtin.
Hypothesis Hwf : wf_builtin T = true.










End Txt2objNames.

(** * The further properties at the demo table *)

(** X1 at two entries that share the short name foo. *)
Lemma added_obj_hash_cmp_witness :
  added_obj_hash demo_strhash (ADDED_SNAME, demo_sn_only)
  = added_obj_hash demo_strhash (ADDED_SNAME, demo_sn_again).
Proof. apply added_obj_hash_cmp. reflexivity. Defined.

(** X2 at a long-name key. *)
Lemma added_obj_hash_tag_witness :
  Z.shiftr (added_obj_hash demo_strhash (ADDED_LNAME, demo_sn_again)) 30 = ADDED_LNAME.
Proof. apply added_obj_hash_tag. unfold ADDED_LNAME. lia. Defined.

(** X3 at the built-in NID 2. *)
Lemma nid2obj_builtin_witness :
  OBJ_nid2obj demo_table 2 demo_registered = Some (Some (Static 2), demo_registered)
  ∧ OBJ_nid2sn demo_table 2 demo_registered = Some (Some "CN"%string, demo_registered)
  ∧ OBJ_nid2ln demo_table 2 demo_registered
    = Some (Some "commonName"%string, demo_registered).
Proof.
  apply (nid2obj_builtin demo_table 2 demo_cn demo_registered).
  - lia.
  - reflexivity.
  - right. discriminate.
Defined.

(** X4 at the added NID 3. *)
Lemma nid2obj_obj2nid_witness :
  OBJ_nid2obj demo_table 3 demo_registered = Some (Some (Dyn 2), demo_registered)
  ∧ nid demo_entry = 3
  ∧ OBJ_obj2nid demo_table (Some demo_entry) demo_registered = Some (3, demo_registered).
Proof.
  assert (H : OBJ_nid2obj demo_table 3 demo_registered
              = Some (Some (Dyn 2), demo_registered)) by (vm_compute; reflexivity).
  split; [exact H|].
  apply (nid2obj_obj2nid demo_table 3 demo_registered (Dyn 2) demo_registered
           demo_entry demo_registered).
  - reflexivity.
  - discriminate.
  - exact H.
  - vm_compute. reflexivity.
Defined.

(** X5 at the registry with one added entry. *)
Lemma lookups_read_only_witness :
  (∀ s, ∃ n st', OBJ_sn2nid demo_table s demo_registered = Some (n, st')
                 ∧ quiet demo_registered st')
  ∧ (∀ l, ∃ n st', OBJ_ln2nid demo_table l demo_registered = Some (n, st')
                   ∧ quiet demo_registered st')
  ∧ (∀ a, ∃ n st', OBJ_obj2nid demo_table a demo_registered = Some (n, st')
                   ∧ quiet demo_registered st')
  ∧ (∀ n, ∃ r st', OBJ_nid2obj demo_table n demo_registered = Some (r, st')
                   ∧ quiet demo_registered st')
  ∧ (∀ n, ∃ r st', OBJ_nid2sn demo_table n demo_registered = Some (r, st')
                   ∧ quiet demo_registered st')
  ∧ (∀ n, ∃ r st', OBJ_nid2ln demo_table n demo_registered = Some (r, st')
                   ∧ quiet demo_registered st').
Proof.
  apply (lookups_read_only demo_table).
  - reflexivity.
  - vm_compute. reflexivity.
  - reflexivity.
Defined.

(** X6 at content octets that are cut short and a buffer of twelve
    characters. *)
Lemma obj2txt_safe_witness :
  ∃ ret buf' st1 k,
    OBJ_obj2txt demo_table (Some demo_buf) 12 (Some demo_cut_oid) false demo_registered
    = Some ((ret, buf'), after_allocs k st1)
    ∧ quiet demo_registered st1 ∧ -1 ≤ ret
    ∧ (Some demo_buf = None → buf' = None)
    ∧ ∀ m, Some demo_buf = Some m →
        ∃ m', buf' = Some m' ∧ length m' = length m
          ∧ drop (Z.to_nat 12) m' = drop (Z.to_nat 12) m
          ∧ (1 ≤ 12 → ∃ j : nat, Z.of_nat j < 12 ∧ m' !! j = Some NUL).
Proof.
  apply (obj2txt_safe demo_table).
  - reflexivity.
  - split; [lia|]. intros m [= <-]. simpl. lia.
  - vm_compute. reflexivity.
  - reflexivity.
Defined.

(** X7 at the built-in entry CN. *)
Lemma builtin_keys_found_witness :
  OBJ_sn2nid demo_table "CN" demo_registered = Some (2, demo_registered)
  ∧ OBJ_ln2nid demo_table "commonName" demo_registered = Some (2, demo_registered)
  ∧ OBJ_obj2nid demo_table (Some demo_cn_oid) demo_registered = Some (2, demo_registered).
Proof.
  destruct (builtin_keys_found demo_table 2 demo_cn demo_registered) as (H1 & H2 & H3).
  - reflexivity.
  - reflexivity.
  - reflexivity.
  - reflexivity.
  - split; [|split].
    + apply H1; [|reflexivity]. apply (bool_decide_unpack _). vm_compute. exact I.
    + apply H2; [|reflexivity]. apply (bool_decide_unpack _). vm_compute. exact I.
    + apply H3; [|reflexivity|discriminate|reflexivity].
      apply (bool_decide_unpack _). vm_compute. exact I.
Defined.

(** X8 at the content octets of 2.999.3. *)
Lemma obj2txt_decodes_witness :
  ∃ buf' k,
    OBJ_obj2txt demo_table (Some demo_buf) 12 (Some demo_oid) true demo_st
    = Some ((Z.of_nat (length (dotted 2 999 [3])), buf'), after_allocs k demo_st)
    ∧ holds (Some demo_buf) 12 (dotted 2 999 [3]) buf'
    ∧ (word_arcs (40 * 2 + 999 :: [3]) = true → k = 0%nat).
Proof.
  apply (obj2txt_decodes demo_table (Some demo_buf) 12 2 999 [3] demo_oid true
           demo_st demo_st).
  - right. lia.
  - repeat constructor. lia.
  - reflexivity.
  - vm_compute. discriminate.
  - reflexivity.
  - left. reflexivity.
  - split; [lia|]. intros m [= <-]. simpl. lia.
Defined.

(** X9 at the text 1.2.3.4.5. *)
Lemma txt2obj_obj2txt_roundtrip_witness :
  ∃ p st1 e,
    OBJ_txt2obj demo_table (string_of_list_ascii (dotted 1 2 [3; 4; 5])) true demo_st
    = Some (Some p, st1)
    ∧ deref demo_table p st1 = Some (e, st1)
    ∧ data e = Some (encode_subids (40 * 1 + 2 :: [3; 4; 5]))
    ∧ ∃ buf' k,
        OBJ_obj2txt demo_table (Some demo_buf) 12 (Some e) true st1
        = Some ((Z.of_nat (length (dotted 1 2 [3; 4; 5])), buf'), after_allocs k st1)
        ∧ holds (Some demo_buf) 12 (dotted 1 2 [3; 4; 5]) buf'.
Proof.
  apply (txt2obj_obj2txt_roundtrip demo_table 1 2 [3; 4; 5] demo_st (Some demo_buf) 12).
  - left. lia.
  - repeat constructor; lia.
  - vm_compute. discriminate.
  - reflexivity.
  - left. reflexivity.
  - split; [lia|]. intros m [= <-]. simpl. lia.
Defined.

(** X10 at the text of an added OID. *)
Lemma txt2nid_frees_witness :
  ∃ n st',
    OBJ_txt2nid demo_table "1.2.3.4.5" demo_registered = Some (n, st')
    ∧ unchanged demo_registered st'.
Proof.
  destruct (txt2nid_frees demo_table eq_refl "1.2.3.4.5" demo_registered)
    as (n & st' & H1 & H2 & _).
  - vm_compute. reflexivity.
  - vm_compute. reflexivity.
  - reflexivity.
  - exists n, st'. split; [exact H1|exact H2].
Defined.

(** X11 at an entry with a short name only. *)
Lemma add_object_registers_witness :
  index_ok demo_added = true
  ∧ OBJ_sn2nid demo_table "foo" demo_added = Some (3, demo_added)
  ∧ ∃ p e, OBJ_nid2obj demo_table 3 demo_added = Some (Some p, demo_added)
      ∧ deref demo_table p demo_added = Some (e, demo_added)
      ∧ sn e = sn demo_sn_only ∧ ln e = ln demo_sn_only
      ∧ data e = data demo_sn_only ∧ nid e = nid demo_sn_only.
Proof.
  destruct (add_object_registers demo_table eq_refl demo_sn_only demo_st 3 demo_added)
    as (_ & H1 & _ & _ & H2 & _ & _ & H3).
  - reflexivity.
  - vm_compute. reflexivity.
  - discriminate.
  - split; [exact H1|]. split.
    + apply H2; reflexivity.
    + apply H3. reflexivity.
Defined.

(** X12 at the first registration of the demo registry. *)
Lemma create_then_lookup_witness :
  OBJ_sn2nid demo_table "myShort" demo_registered = Some (3, demo_registered)
  ∧ OBJ_ln2nid demo_table "My Long Name" demo_registered = Some (3, demo_registered)
  ∧ OBJ_obj2nid demo_table (Some (der_entry [x2a; x03; x04; x05])) demo_registered
    = Some (3, demo_registered)
  ∧ new_nid demo_registered = wrap_int (3 + 1).
Proof.
  destruct (create_then_lookup demo_table eq_refl (Some "1.2.3.4.5"%string)
              (Some "myShort"%string) (Some "My Long Name"%string) demo_st 3
              demo_registered)
    as (_ & H0 & _ & H1 & H2 & H3 & _).
  - reflexivity.
  - vm_compute. reflexivity.
  - discriminate.
  - split; [by apply H1|]. split; [by apply H2|]. split; [|exact H0].
    apply (H3 "1.2.3.4.5"%string); reflexivity.
Defined.

(** X13 at five reserved NIDs. *)
Lemma new_nid_reserves_witness :
  3 = new_nid demo_st ∧ 8 = wrap_int (3 + 5)
  ∧ new_nid demo_reserved_created = wrap_int (8 + 1).
Proof.
  apply (new_nid_reserves demo_table eq_refl 5 None (Some "late"%string) None
           demo_st 3 demo_reserved 8 demo_reserved_created).
  - vm_compute. reflexivity.
  - reflexivity.
  - vm_compute. reflexivity.
  - discriminate.
Defined.

(** X14 at the first registration of the demo registry. *)
Lemma create_then_cleanup_witness :
  ∃ st3,
    ossl_obj_cleanup_int demo_registered = Some (tt, st3)
    ∧ added st3 = None
    ∧ (∀ p, p ∈ index_of demo_registered → recs st3 !! p = None)
    ∧ (∀ o, objs demo_st !! o = None → objs st3 !! o = None)
    ∧ (∀ o, objs st3 !! o = None ∨ objs st3 !! o = objs demo_st !! o).
Proof.
  apply (create_then_cleanup demo_table eq_refl (Some "1.2.3.4.5"%string)
           (Some "myShort"%string) (Some "My Long Name"%string) demo_st 3).
  - reflexivity.
  - vm_compute. reflexivity.
  - discriminate.
Defined.

(** X15 at a second registration: the first one still resolves. *)
Lemma create_keeps_others_witness :
  fst <$> OBJ_sn2nid demo_table "myShort" demo_second
  = fst <$> OBJ_sn2nid demo_table "myShort" demo_registered
  ∧ fst <$> OBJ_nid2obj demo_table 3 demo_second
    = fst <$> OBJ_nid2obj demo_table 3 demo_registered.
Proof.
  destruct (create_keeps_others demo_table eq_refl (Some "1.2.3.4.6"%string)
              (Some "a2"%string) None demo_registered 4 demo_second)
    as (H1 & _ & _ & H2 & _).
  - reflexivity.
  - vm_compute. reflexivity.
  - discriminate.
  - split; [apply H1|apply H2]; discriminate.
Defined.

(** X16 at a registry whose lock cannot be taken. *)
Lemma add_object_fails_clean_witness :
  ∃ st', OBJ_add_object demo_sn_only demo_nolock = Some (NID_undef, st')
    ∧ unchanged demo_nolock st' ∧ lock_ok st' = lock_ok demo_nolock
    ∧ (err_queue st' = err_queue demo_nolock
       ∨ err_queue st' = ERR_R_UNABLE_TO_GET_WRITE_LOCK :: err_queue demo_nolock
       ∨ err_queue st' = ERR_R_CRYPTO_LIB :: err_queue demo_nolock).
Proof. apply add_object_fails_clean. left. reflexivity. Defined.

(** X17 at a registry whose lock cannot be taken. *)
Lemma create_without_lock_witness :
  ∃ st', OBJ_create demo_table (Some "1.2.3.4.5"%string) (Some "myShort"%string) None
           demo_nolock = Some (0, st')
    ∧ unchanged demo_nolock st' ∧ lock_ok st' = false.
Proof. apply (create_without_lock demo_table eq_refl). reflexivity. Defined.

(** X18 at a line with three fields. *)
Lemma create_objects_line_fields_witness :
  ossl_isdigit (first_char "1.2.3.4.5") = true
  ∧ Forall (λ c, oid_char c = true) (list_ascii_of_string "1.2.3.4.5")
  ∧ (∀ x, Some "myShort"%string = Some x →
       x ≠ EmptyString
       ∧ Forall (λ c, ossl_isspace c = false) (list_ascii_of_string x)
       ∧ ∀ y, Some "MyLong"%string = Some y →
           y ≠ EmptyString ∧ ossl_isspace (first_char y) = false)
  ∧ (Some "myShort"%string = None → Some 18%nat = None)
  ∧ Some "MyLong"%string = c_string (create_objects_line demo_line None).1.1 <$> Some 18%nat
  ∧ length (create_objects_line demo_line None).1.1 = length demo_line.
Proof.
  apply (create_objects_line_fields demo_line None
           (create_objects_line demo_line None).1.1 (Some 18%nat)
           "1.2.3.4.5" (Some "myShort"%string) (Some "MyLong"%string)).
  vm_compute. reflexivity.
Defined.


(** X20 at an entry with all four keys, on the registry with one added
    entry. *)
Lemma add_object_atomic_witness :
  ∃ n st', OBJ_add_object demo_full demo_registered = Some (n, st')
    ∧ ((n = NID_undef ∧ objs st' = objs demo_registered
        ∧ recs st' = recs demo_registered
        ∧ index_of st' = index_of demo_registered
        ∧ new_nid st' = new_nid demo_registered)
       ∨ (n = nid demo_full ∧ index_ok st' = true ∧ index_unique st' = true)).
Proof.
  apply add_object_atomic.
  - reflexivity.
  - vm_compute. reflexivity.
  - reflexivity.
  - reflexivity.
  - reflexivity.
  - discriminate.
Defined.

(** X21 at a second registration. *)
Lemma create_atomic_witness :
  ∃ n st',
    OBJ_create demo_table (Some "1.2.3.4.6"%string) (Some "a2"%string)
      (Some "second"%string) demo_registered = Some (n, st')
    ∧ ((n = 0 ∧ objs st' = objs demo_registered ∧ recs st' = recs demo_registered
        ∧ index_of st' = index_of demo_registered
        ∧ (new_nid st' = new_nid demo_registered
           ∨ new_nid st' = wrap_int (new_nid demo_registered + 1)))
       ∨ (n ≠ 0 ∧ n = new_nid demo_registered ∧ index_ok st' = true
          ∧ index_unique st' = true)).
Proof.
  apply (create_atomic demo_table eq_refl).
  - reflexivity.
  - vm_compute. reflexivity.
Defined.


